(** * Clemens IIgs: a shallow embedding of the 65C816 core and its loaders

    The definitions follow [emulator.c] of the Clemens IIgs emulator: the
    initialisation entry points, the Intel HEX loader, the binary dump
    helper, the per-opcode executor [cpu_execute] and the step entry point
    [clemens_emulate_cpu].  Machine integers are modelled as [Z] with the
    wrap-around of their C type written out. *)

From Stdlib Require Import String Ascii ZArith List Bool Lia.
Import ListNotations.
Local Open Scope Z_scope.

Set Implicit Arguments.

(* ===================================================================== *)
(** ** Fixed-width integers *)
(* ===================================================================== *)

Definition u8 (x : Z) : Z := x mod 256.
Definition u16 (x : Z) : Z := x mod 65536.
Definition u32 (x : Z) : Z := x mod 4294967296.

(** [(int8_t)x] and [(int16_t)x] of an already truncated value. *)
Definition s8 (x : Z) : Z := if u8 x <? 128 then u8 x else u8 x - 256.
Definition s16 (x : Z) : Z := if u16 x <? 32768 then u16 x else u16 x - 65536.

Definition CLEM_IIGS_BANK_SIZE : Z := 65536.

(* ===================================================================== *)
(** ** Host buffers and pointers into them *)
(* ===================================================================== *)

(** The machine never owns RAM: every bank pointer refers to a buffer that
    the host handed to the initialisation call, or to the static
    [s_empty_ram] page of the emulator. *)
Inductive Region : Type :=
| RegionFpiRAM
| RegionROM
| RegionE0
| RegionE1
| RegionEmptyRam.

Definition Region_eqb (a b : Region) : bool :=
  match a, b with
  | RegionFpiRAM, RegionFpiRAM | RegionROM, RegionROM | RegionE0, RegionE0
  | RegionE1, RegionE1 | RegionEmptyRam, RegionEmptyRam => true
  | _, _ => false
  end.

(** A [uint8_t *]: a region and a byte offset into it. [None] of
    [option Ptr] is the NULL pointer. *)
Record Ptr : Type := mkPtr { ptr_region : Region; ptr_off : Z }.

Definition ptr_add (p : Ptr) (n : Z) : Ptr :=
  mkPtr (ptr_region p) (ptr_off p + n).

Record Heap : Type := mkHeap {
  heap_fpiRAM : list Z;
  heap_rom : list Z;
  heap_e0 : list Z;
  heap_e1 : list Z;
  s_empty_ram : list Z
}.

Definition heap_get (h : Heap) (r : Region) : list Z :=
  match r with
  | RegionFpiRAM => heap_fpiRAM h
  | RegionROM => heap_rom h
  | RegionE0 => heap_e0 h
  | RegionE1 => heap_e1 h
  | RegionEmptyRam => s_empty_ram h
  end.

Definition heap_set (h : Heap) (r : Region) (l : list Z) : Heap :=
  match r with
  | RegionFpiRAM => mkHeap l (heap_rom h) (heap_e0 h) (heap_e1 h) (s_empty_ram h)
  | RegionROM => mkHeap (heap_fpiRAM h) l (heap_e0 h) (heap_e1 h) (s_empty_ram h)
  | RegionE0 => mkHeap (heap_fpiRAM h) (heap_rom h) l (heap_e1 h) (s_empty_ram h)
  | RegionE1 => mkHeap (heap_fpiRAM h) (heap_rom h) (heap_e0 h) l (s_empty_ram h)
  | RegionEmptyRam => mkHeap (heap_fpiRAM h) (heap_rom h) (heap_e0 h) (heap_e1 h) l
  end.

(** [in_bounds l off n]: the [n] bytes from offset [off] lie inside [l]. *)
Definition in_bounds (l : list Z) (off n : Z) : bool :=
  (0 <=? off) && (0 <=? n) && (off + n <=? Z.of_nat (length l)).

(** The bytes [off .. off+n) of a buffer. *)
Definition slice (l : list Z) (off n : Z) : list Z :=
  firstn (Z.to_nat n) (skipn (Z.to_nat off) l).

(** Overwrite the bytes from [off] with [bytes]. *)
Definition splice (l : list Z) (off : Z) (bytes : list Z) : list Z :=
  firstn (Z.to_nat off) l ++ bytes ++ skipn (Z.to_nat off + length bytes) l.

(** [memset(p, v, n)]. An access through NULL or outside the buffer is
    undefined behaviour in C: the model faults with [None]. *)
Definition memset (h : Heap) (p : option Ptr) (v n : Z) : option Heap :=
  match p with
  | None => None
  | Some p =>
      let l := heap_get h (ptr_region p) in
      if in_bounds l (ptr_off p) n
      then Some (heap_set h (ptr_region p)
                   (splice l (ptr_off p) (repeat (u8 v) (Z.to_nat n))))
      else None
  end.

(** [p[i]] as an rvalue. *)
Definition load8 (h : Heap) (p : option Ptr) (i : Z) : option Z :=
  match p with
  | None => None
  | Some p =>
      let l := heap_get h (ptr_region p) in
      if in_bounds l (ptr_off p + i) 1
      then Some (nth (Z.to_nat (ptr_off p + i)) l 0)
      else None
  end.

(** [p[i] = v]. *)
Definition store8 (h : Heap) (p : option Ptr) (i v : Z) : option Heap :=
  match p with
  | None => None
  | Some p =>
      let l := heap_get h (ptr_region p) in
      if in_bounds l (ptr_off p + i) 1
      then Some (heap_set h (ptr_region p) (splice l (ptr_off p + i) [u8 v]))
      else None
  end.

(** [memcpy(out + out_off, src, n)] from a heap buffer into the caller's
    output array [out]; faults when either range leaves its buffer. *)
Definition memcpy_out (h : Heap) (out : list Z) (out_off : Z)
    (src : option Ptr) (n : Z) : option (list Z) :=
  match src with
  | None => None
  | Some p =>
      let l := heap_get h (ptr_region p) in
      if in_bounds l (ptr_off p) n && in_bounds out out_off n
      then Some (splice out out_off (slice l (ptr_off p) n))
      else None
  end.

(** Array update by index; the callers stay inside the array. *)
Fixpoint upd_nth {A : Type} (i : nat) (v : A) (l : list A) : list A :=
  match l, i with
  | [], _ => []
  | _ :: t, O => v :: t
  | x :: t, S i' => x :: upd_nth i' v t
  end.

(* ===================================================================== *)
(** ** The machine *)
(* ===================================================================== *)

(** Modelled from the spec: the coarse CPU state of [clem_types.h] (not
    among the sources), "state in {Reset, IRQ, NMI, Execute}". *)
Inductive ClemensCPUStateType : Type :=
| kClemensCPUStateType_Reset
| kClemensCPUStateType_Execute
| kClemensCPUStateType_IRQ
| kClemensCPUStateType_NMI.

Definition state_type_eqb (a b : ClemensCPUStateType) : bool :=
  match a, b with
  | kClemensCPUStateType_Reset, kClemensCPUStateType_Reset
  | kClemensCPUStateType_Execute, kClemensCPUStateType_Execute
  | kClemensCPUStateType_IRQ, kClemensCPUStateType_IRQ
  | kClemensCPUStateType_NMI, kClemensCPUStateType_NMI => true
  | _, _ => false
  end.

Record ClemensCPURegs : Type := mkRegs {
  A : Z; X : Z; Y : Z; D : Z; S : Z; PC : Z;   (* uint16_t *)
  IR : Z; P : Z; DBR : Z; PBR : Z             (* uint8_t *)
}.

Record ClemensCPUPins : Type := mkPins {
  emulation : bool;
  resbIn : bool;
  irqbIn : bool;
  readyOut : bool
}.

Record Clemens65C816 : Type := mkCpu {
  pins : ClemensCPUPins;
  regs : ClemensCPURegs;
  state_type : ClemensCPUStateType;
  cycles_spent : Z;
  enabled : bool
}.

Record ClemensTimeSpec : Type := mkTspec {
  clocks_step : Z;
  clocks_step_fast : Z;
  clocks_step_mega2 : Z;
  clocks_spent : Z
}.

(** The bank tables of [clem->mem]: 256 FPI bank pointers, the two Mega II
    bank pointers, the per-bank "used" marks and the page-map pointers. *)
Record ClemensMemory : Type := mkMemory {
  fpi_bank_map : list (option Ptr);
  fpi_bank_used : list bool;
  mega2_bank_map : list (option Ptr);
  bank_page_map : list (option Z)
}.

(** Modelled from the spec: the page kinds of the Bank Map (section 3),
    "kind in {FastRAM, SlowRAM, ROM, Empty, IOGate}". *)
Inductive PageKind : Type := FastRAM | SlowRAM | ROM | Empty | IOGate.

(** Modelled from the spec: the MMIO collaborator of section 6
    ([clem_mmio.c], not among the sources), as the core sees it: a state of
    its own (the soft switches), the byte that it answers to a read of an
    I/O page, what a write to an I/O page makes of its state, the bank map
    that [refresh_bank_map] makes of the soft switches "after any I/O write
    that may alter bank mapping", as page kinds and as the page-map table
    of [clem->mem], and the gate that forces the slow clock (section 4.1).
    The contract is total (section 7). *)
Record Mmio : Type := mkMmio {
  mmio_state : Type;
  mmio_now : mmio_state;
  mmio_read_byte : mmio_state -> Z -> Z -> Z;
  mmio_write_byte : mmio_state -> Z -> Z -> Z -> mmio_state;
  refresh_bank_map : mmio_state -> (Z -> Z -> PageKind) -> Z -> Z -> PageKind;
  refresh_page_maps : mmio_state -> list (option Z) -> list (option Z);
  mmio_slow : mmio_state -> bool
}.

(** Modelled from the spec: what the Bus Controller ([clem_mem.c], not among
    the sources) sees: a byte per 24-bit address, the kind of the page that
    each bank:page resolves to, and the collaborator behind the I/O gate. *)
Record Bus : Type := mkBus {
  bus_mem : Z -> Z -> Z;           (* bank -> offset -> byte *)
  bus_kind : Z -> Z -> PageKind;   (* bank -> page -> kind *)
  bus_mmio : Mmio
}.

(** A collaborator without registers, for the machines of the examples,
    which have no I/O page. *)
Definition no_mmio : Mmio :=
  @mkMmio unit tt (fun _ _ _ => 0) (fun st _ _ _ => st) (fun _ k => k)
          (fun _ l => l) (fun _ => false).

Record ClemensMachine : Type := mkMachine {
  cpu : Clemens65C816;
  tspec : ClemensTimeSpec;
  mem : ClemensMemory;
  bus : Bus;
  resb_counter : Z;
  debug_flags : Z
}.

(* ===================================================================== *)
(** ** Initialisation: [clemens_simple_init] and [clemens_init] *)
(* ===================================================================== *)

Definition set_resbIn (b : bool) (m : ClemensMachine) : ClemensMachine :=
  let c := cpu m in let p := pins c in
  mkMachine
    (mkCpu (mkPins (emulation p) b (irqbIn p) (readyOut p))
           (regs c) (state_type c) (cycles_spent c) (enabled c))
    (tspec m) (mem m) (bus m) (resb_counter m) (debug_flags m).

Definition set_irqbIn (b : bool) (m : ClemensMachine) : ClemensMachine :=
  let c := cpu m in let p := pins c in
  mkMachine
    (mkCpu (mkPins (emulation p) (resbIn p) b (readyOut p))
           (regs c) (state_type c) (cycles_spent c) (enabled c))
    (tspec m) (mem m) (bus m) (resb_counter m) (debug_flags m).

Definition set_tspec (t : ClemensTimeSpec) (m : ClemensMachine) : ClemensMachine :=
  mkMachine (cpu m) t (mem m) (bus m) (resb_counter m) (debug_flags m).

Definition set_mem (x : ClemensMemory) (m : ClemensMachine) : ClemensMachine :=
  mkMachine (cpu m) (tspec m) x (bus m) (resb_counter m) (debug_flags m).

Definition set_fpi_bank (i : Z) (used : bool) (p : option Ptr)
    (x : ClemensMemory) : ClemensMemory :=
  mkMemory (upd_nth (Z.to_nat i) p (fpi_bank_map x))
           (upd_nth (Z.to_nat i) used (fpi_bank_used x))
           (mega2_bank_map x) (bank_page_map x).

Definition set_fpi_bank_map (i : Z) (p : option Ptr)
    (x : ClemensMemory) : ClemensMemory :=
  mkMemory (upd_nth (Z.to_nat i) p (fpi_bank_map x))
           (fpi_bank_used x) (mega2_bank_map x) (bank_page_map x).

Definition set_mega2_bank_map (i : Z) (p : option Ptr)
    (x : ClemensMemory) : ClemensMemory :=
  mkMemory (fpi_bank_map x) (fpi_bank_used x)
           (upd_nth (Z.to_nat i) p (mega2_bank_map x)) (bank_page_map x).

Definition clear_bank_page_map (x : ClemensMemory) : ClemensMemory :=
  mkMemory (fpi_bank_map x) (fpi_bank_used x) (mega2_bank_map x)
           (repeat None (length (bank_page_map x))).

(** [for (i = lo; i < lo + n; ++i) body(i)] over a fallible state. *)
Fixpoint for_loop {St : Type} (n : nat) (i : Z) (body : Z -> St -> option St)
    (s : St) : option St :=
  match n with
  | O => Some s
  | Datatypes.S n' =>
      match body i s with
      | None => None
      | Some s' => for_loop n' (i + 1) body s'
      end
  end.

(** Pointer arithmetic on a possibly NULL [void *]. *)
Definition optr_add (p : option Ptr) (n : Z) : option Ptr :=
  match p with
  | None => None
  | Some q => Some (ptr_add q n)
  end.

Definition empty_ram_ptr : option Ptr := Some (mkPtr RegionEmptyRam 0).

(** [clemens_simple_init]. The static opcode description table it also
    fills serves the disassembly trace only and is no machine state. *)
Definition clemens_simple_init (machine : ClemensMachine) (h : Heap)
    (speed_factor clocks_step_arg : Z) (fpiRAM : option Ptr)
    (fpiRAMBankCount : Z) : option (ClemensMachine * Heap) :=
  let machine := set_resbIn true machine in
  let machine :=
    set_tspec (mkTspec clocks_step_arg clocks_step_arg speed_factor 0) machine in
  let machine := set_irqbIn true machine in
  let fpiRAMBankCount := if 256 <? fpiRAMBankCount then 256 else fpiRAMBankCount in
  match
    for_loop (Z.to_nat fpiRAMBankCount) 0
      (fun i '(x, h) =>
         let p := optr_add fpiRAM (i * CLEM_IIGS_BANK_SIZE) in
         let x := set_fpi_bank i true p x in
         match memset h p 0 CLEM_IIGS_BANK_SIZE with
         | None => None
         | Some h' => Some (x, h')
         end)
      (mem machine, h)
  with
  | None => None
  | Some (x, h) =>
      match memset h empty_ram_ptr 0 CLEM_IIGS_BANK_SIZE with
      | None => None
      | Some h =>
          match
            for_loop (Z.to_nat (255 - fpiRAMBankCount)) fpiRAMBankCount
              (fun i x => Some (set_fpi_bank i false empty_ram_ptr x)) x
          with
          | None => None
          | Some x => Some (set_mem (clear_bank_page_map x) machine, h)
          end
      end
  end.

Section Init.

(** The index of the bank that [clemens_init] points at the empty page:
    a constant of [clem_defs.h], which is not among the sources. *)
Variable CLEM_IIGS_EMPTY_RAM_BANK : Z.

(** [clemens_init]: the result is the returned [int], the machine and the
    host buffers after the call. *)
Definition clemens_init (machine : ClemensMachine) (h : Heap)
    (speed_factor clocks_step_arg : Z) (rom : option Ptr)
    (e0bank e1bank fpiRAM : option Ptr) (fpiRAMBankCount : Z)
    : option (Z * ClemensMachine * Heap) :=
  match clemens_simple_init machine h speed_factor clocks_step_arg fpiRAM
          fpiRAMBankCount with
  | None => None
  | Some (machine, h) =>
      match rom with
      | None => Some (-1, machine, h)
      | Some _ =>
          if (fpiRAMBankCount <? 4)
             || match fpiRAM with None => true | Some _ => false end
             || match e0bank with None => true | Some _ => false end
             || match e1bank with None => true | Some _ => false end
          then Some (-2, machine, h)
          else
            match
              for_loop 4 252
                (fun idx x =>
                   Some (set_fpi_bank idx true
                           (optr_add rom (CLEM_IIGS_BANK_SIZE * (idx - 252))) x))
                (mem machine)
            with
            | None => None
            | Some x =>
                let x := set_fpi_bank_map CLEM_IIGS_EMPTY_RAM_BANK empty_ram_ptr x in
                let x := set_mega2_bank_map 0 e0bank x in
                match memset h e0bank 0 CLEM_IIGS_BANK_SIZE with
                | None => None
                | Some h =>
                    let x := set_mega2_bank_map 1 e1bank x in
                    match memset h e1bank 0 CLEM_IIGS_BANK_SIZE with
                    | None => None
                    | Some h => Some (0, set_mem x machine, h)
                    end
                end
            end
      end
  end.

End Init.

(** [clemens_is_initialized_simple]. *)
Definition clemens_is_initialized_simple (machine : ClemensMachine) : bool :=
  match nth 0%nat (fpi_bank_map (mem machine)) None with
  | None => false
  | Some _ => true
  end.

(** [clemens_is_initialized]. *)
Definition clemens_is_initialized (machine : ClemensMachine) : bool :=
  if negb (clemens_is_initialized_simple machine) then false
  else
    match nth 1%nat (fpi_bank_map (mem machine)) None with
    | None => false
    | Some _ =>
        if (clocks_step (tspec machine) =? 0)
           || (clocks_step_mega2 (tspec machine) <? clocks_step (tspec machine))
        then false
        else true
    end.

(* ===================================================================== *)
(** ** Intel HEX loader: [clemens_load_hex] *)
(* ===================================================================== *)

(** The text is a C string: the characters of [hex] followed by a NUL.
    [deref hex i] is [hex[i]]. *)
Definition char_code (c : ascii) : Z := Z.of_N (N_of_ascii c).

Definition deref (hex : string) (i : Z) : Z :=
  if i <? 0 then 0
  else match String.get (Z.to_nat i) hex with
       | Some c => char_code c
       | None => 0
       end.

(** [isspace] in the C locale. *)
Definition isspace (c : Z) : bool :=
  (c =? 32) || ((9 <=? c) && (c <=? 13)).

Definition hex_digit (c : Z) : option Z :=
  if (48 <=? c) && (c <=? 57) then Some (c - 48)
  else if (65 <=? c) && (c <=? 70) then Some (c - 55)
  else if (97 <=? c) && (c <=? 102) then Some (c - 87)
  else None.

(** Modelled from the spec: the digit parser [_clem_util_hex_value] of
    [clem_util.c] (not among the sources), which the loader uses to read
    the fields of an Intel HEX record: the value of the hexadecimal digits
    in [start, end), or failure when one of them is no hexadecimal digit. *)
Fixpoint hex_value_from (hex : string) (n : nat) (i acc : Z) : option Z :=
  match n with
  | O => Some acc
  | Datatypes.S n' =>
      match hex_digit (deref hex i) with
      | None => None
      | Some d => hex_value_from hex n' (i + 1) (acc * 16 + d)
      end
  end.

Definition _clem_util_hex_value (hex : string) (start stop : Z) : option Z :=
  hex_value_from hex (Z.to_nat (stop - start)) start 0.

Inductive HexState : Type :=
| CLEM_LOAD_HEX_STATE_BEGIN
| CLEM_LOAD_HEX_STATE_ERROR
| CLEM_LOAD_HEX_STATE_CR
| CLEM_LOAD_HEX_STATE_LENGTH
| CLEM_LOAD_HEX_STATE_ADR16
| CLEM_LOAD_HEX_STATE_RECORD
| CLEM_LOAD_HEX_STATE_DATA
| CLEM_LOAD_HEX_STATE_CHKSUM
| CLEM_LOAD_HEX_STATE_EOL
| CLEM_LOAD_HEX_STATE_EOF.

Definition HexState_eqb (a b : HexState) : bool :=
  match a, b with
  | CLEM_LOAD_HEX_STATE_BEGIN, CLEM_LOAD_HEX_STATE_BEGIN
  | CLEM_LOAD_HEX_STATE_ERROR, CLEM_LOAD_HEX_STATE_ERROR
  | CLEM_LOAD_HEX_STATE_CR, CLEM_LOAD_HEX_STATE_CR
  | CLEM_LOAD_HEX_STATE_LENGTH, CLEM_LOAD_HEX_STATE_LENGTH
  | CLEM_LOAD_HEX_STATE_ADR16, CLEM_LOAD_HEX_STATE_ADR16
  | CLEM_LOAD_HEX_STATE_RECORD, CLEM_LOAD_HEX_STATE_RECORD
  | CLEM_LOAD_HEX_STATE_DATA, CLEM_LOAD_HEX_STATE_DATA
  | CLEM_LOAD_HEX_STATE_CHKSUM, CLEM_LOAD_HEX_STATE_CHKSUM
  | CLEM_LOAD_HEX_STATE_EOL, CLEM_LOAD_HEX_STATE_EOL
  | CLEM_LOAD_HEX_STATE_EOF, CLEM_LOAD_HEX_STATE_EOF => true
  | _, _ => false
  end.

Definition CLEM_LOAD_HEX_RECORD_DATA : Z := 0.
Definition CLEM_LOAD_HEX_RECORD_EOF : Z := 1.
Definition CLEM_LOAD_HEX_RECORD_NONE : Z := 255.

(** The local variables of [clemens_load_hex] that live across iterations,
    with the host buffers the loader writes to. [line] and [next] are
    indices into the text. *)
Record HexVars : Type := mkHexVars {
  hv_line : Z;
  hv_next : Z;
  hv_state : HexState;
  hv_clem_memory : option Ptr;
  hv_hex_byte_length : Z;
  hv_hex_address16 : Z;
  hv_hex_recordtype : Z;
  hv_chksum : Z;
  hv_heap : Heap
}.

Definition hv_set_state (st : HexState) (v : HexVars) : HexVars :=
  mkHexVars (hv_line v) (hv_next v) st (hv_clem_memory v) (hv_hex_byte_length v)
            (hv_hex_address16 v) (hv_hex_recordtype v) (hv_chksum v) (hv_heap v).

Definition hv_set_next (n : Z) (v : HexVars) : HexVars :=
  mkHexVars (hv_line v) n (hv_state v) (hv_clem_memory v) (hv_hex_byte_length v)
            (hv_hex_address16 v) (hv_hex_recordtype v) (hv_chksum v) (hv_heap v).

Definition hv_set_line (n : Z) (v : HexVars) : HexVars :=
  mkHexVars n (hv_next v) (hv_state v) (hv_clem_memory v) (hv_hex_byte_length v)
            (hv_hex_address16 v) (hv_hex_recordtype v) (hv_chksum v) (hv_heap v).

(** The outcome of one pass through the body of the [while] loop. *)
Inductive HexIter : Type :=
| HexReturn (b : bool) (h : Heap)   (* [return] inside the loop *)
| HexBreak (v : HexVars)            (* [break] *)
| HexNext (v : HexVars)             (* fall through to the loop test *)
| HexFault.                         (* access outside a buffer *)

(** The [switch (cur_state)] of the loop body. *)
Definition hex_switch (clem : ClemensMachine) (hex : string) (bank : Z)
    (v : HexVars) : HexIter :=
  let line := hv_line v in
  let next := hv_next v in
  let token_len := u32 (next - line) in
  match hv_state v with
  | CLEM_LOAD_HEX_STATE_ERROR => HexReturn false (hv_heap v)
  | CLEM_LOAD_HEX_STATE_CR =>
      if deref hex next =? 10
      then HexNext (hv_set_state CLEM_LOAD_HEX_STATE_BEGIN v)
      else HexNext (hv_set_state CLEM_LOAD_HEX_STATE_ERROR v)
  | CLEM_LOAD_HEX_STATE_BEGIN =>
      if deref hex next =? 58
      then HexNext (hv_set_state CLEM_LOAD_HEX_STATE_LENGTH v)
      else if isspace (deref hex next)
      then HexNext (hv_set_state CLEM_LOAD_HEX_STATE_BEGIN v)
      else HexNext (hv_set_state CLEM_LOAD_HEX_STATE_ERROR v)
  | CLEM_LOAD_HEX_STATE_LENGTH =>
      if token_len =? 2 then
        match _clem_util_hex_value hex line next with
        | None => HexNext (hv_set_state CLEM_LOAD_HEX_STATE_ERROR v)
        | Some hex_byte_length =>
            let chksum := u8 (Z.land hex_byte_length 255) in
            if (0 <=? bank) && (bank <? 256) then
              let clem_memory :=
                nth (Z.to_nat bank) (fpi_bank_map (mem clem)) None in
              match clem_memory with
              | Some _ =>
                  HexNext (mkHexVars line (next - 1) CLEM_LOAD_HEX_STATE_ADR16
                             clem_memory hex_byte_length (hv_hex_address16 v)
                             (hv_hex_recordtype v) chksum (hv_heap v))
              | None =>
                  HexNext (mkHexVars line next CLEM_LOAD_HEX_STATE_ERROR
                             clem_memory hex_byte_length (hv_hex_address16 v)
                             (hv_hex_recordtype v) chksum (hv_heap v))
              end
            else HexFault
        end
      else HexNext v
  | CLEM_LOAD_HEX_STATE_ADR16 =>
      if token_len =? 4 then
        match _clem_util_hex_value hex line next with
        | Some tmp =>
            let hex_address16 := Z.land tmp 65535 in
            let chksum := u8 (hv_chksum v + Z.land (Z.shiftr hex_address16 8) 255) in
            let chksum := u8 (chksum + Z.land hex_address16 255) in
            HexNext (mkHexVars line (next - 1) CLEM_LOAD_HEX_STATE_RECORD
                       (hv_clem_memory v) (hv_hex_byte_length v) hex_address16
                       (hv_hex_recordtype v) chksum (hv_heap v))
        | None => HexNext (hv_set_state CLEM_LOAD_HEX_STATE_ERROR v)
        end
      else HexNext v
  | CLEM_LOAD_HEX_STATE_RECORD =>
      if token_len =? 2 then
        match _clem_util_hex_value hex line next with
        | None => HexNext (hv_set_state CLEM_LOAD_HEX_STATE_ERROR v)
        | Some hex_recordtype =>
            let hex_recordtype := Z.land hex_recordtype 255 in
            let chksum := u8 (hv_chksum v + u8 hex_recordtype) in
            let v' st nx :=
              mkHexVars line nx st (hv_clem_memory v) (hv_hex_byte_length v)
                        (hv_hex_address16 v) hex_recordtype chksum (hv_heap v) in
            if hex_recordtype =? CLEM_LOAD_HEX_RECORD_DATA
            then HexNext (v' CLEM_LOAD_HEX_STATE_DATA (next - 1))
            else if hex_recordtype =? CLEM_LOAD_HEX_RECORD_EOF
            then HexNext (v' CLEM_LOAD_HEX_STATE_CHKSUM (next - 1))
            else HexNext (v' CLEM_LOAD_HEX_STATE_ERROR next)
        end
      else HexNext v
  | CLEM_LOAD_HEX_STATE_DATA =>
      let tmp := token_len / 2 in
      if (token_len mod 2 =? 0) && (0 <? tmp) then
        let tmp := tmp - 1 in
        let r :=
          match _clem_util_hex_value hex (line + tmp * 2) next with
          | Some data =>
              match store8 (hv_heap v) (hv_clem_memory v)
                      (Z.land (hv_hex_address16 v + tmp) 65535)
                      (Z.land data 255) with
              | Some h =>
                  Some (mkHexVars line next (hv_state v) (hv_clem_memory v)
                          (hv_hex_byte_length v) (hv_hex_address16 v)
                          (hv_hex_recordtype v)
                          (u8 (hv_chksum v + Z.land data 255)) h)
              | None => None
              end
          | None => Some (hv_set_state CLEM_LOAD_HEX_STATE_ERROR v)
          end in
        match r with
        | None => HexFault
        | Some v1 =>
            if hv_hex_byte_length v1 <=? tmp + 1
            then HexNext (hv_set_next (hv_next v1 - 1)
                            (hv_set_state CLEM_LOAD_HEX_STATE_CHKSUM v1))
            else HexNext v1
        end
      else HexNext v
  | CLEM_LOAD_HEX_STATE_CHKSUM =>
      if token_len =? 2 then
        let chksum := u8 (1 + Z.lnot (hv_chksum v)) in
        let v1 :=
          mkHexVars line next (hv_state v) (hv_clem_memory v)
                    (hv_hex_byte_length v) (hv_hex_address16 v)
                    (hv_hex_recordtype v) chksum (hv_heap v) in
        match _clem_util_hex_value hex line next with
        | Some tmp =>
            if chksum =? Z.land tmp 255 then
              if hv_hex_recordtype v =? CLEM_LOAD_HEX_RECORD_EOF
              then HexNext (hv_set_state CLEM_LOAD_HEX_STATE_EOF v1)
              else HexNext (hv_set_state CLEM_LOAD_HEX_STATE_EOL v1)
            else HexNext (hv_set_state CLEM_LOAD_HEX_STATE_ERROR v1)
        | None => HexNext (hv_set_state CLEM_LOAD_HEX_STATE_ERROR v1)
        end
      else HexNext v
  | CLEM_LOAD_HEX_STATE_EOL =>
      if deref hex next =? 13
      then HexNext (hv_set_state CLEM_LOAD_HEX_STATE_CR v)
      else if deref hex next =? 10
      then HexNext (hv_set_state CLEM_LOAD_HEX_STATE_BEGIN v)
      else HexNext v
  | CLEM_LOAD_HEX_STATE_EOF => HexNext v
  end.

(** One pass through the loop body: the [break] on end-of-file, the switch,
    then the advance of [next] and [line]. *)
Definition hex_body (clem : ClemensMachine) (hex : string) (bank : Z)
    (v : HexVars) : HexIter :=
  let cur_state := hv_state v in
  if HexState_eqb cur_state CLEM_LOAD_HEX_STATE_EOF then HexBreak v
  else
    match hex_switch clem hex bank v with
    | HexNext v1 =>
        if deref hex (hv_next v1) =? 0
        then HexNext (hv_set_line (hv_next v1) v1)
        else
          let v2 := hv_set_next (hv_next v1 + 1) v1 in
          if negb (HexState_eqb (hv_state v2) cur_state)
          then HexNext (hv_set_line (hv_next v2) v2)
          else HexNext v2
    | r => r
    end.

(** The loop test [(hex_end && line < hex_end) || *line]. *)
Definition hex_continue (hex : string) (hex_end : option Z) (v : HexVars) : bool :=
  match hex_end with
  | Some e => (hv_line v <? e) || negb (deref hex (hv_line v) =? 0)
  | None => negb (deref hex (hv_line v) =? 0)
  end.

(** The result of the loader: the returned [bool] with the host buffers, a
    fault, or no answer within the given number of iterations. *)
Inductive HexResult : Type :=
| HexDone (b : bool) (h : Heap)
| HexCrash
| HexOutOfFuel.

Fixpoint hex_loop (fuel : nat) (clem : ClemensMachine) (hex : string)
    (hex_end : option Z) (bank : Z) (v : HexVars) : HexResult :=
  match fuel with
  | O => HexOutOfFuel
  | Datatypes.S fuel' =>
      if hex_continue hex hex_end v then
        match hex_body clem hex bank v with
        | HexReturn b h => HexDone b h
        | HexBreak v' => HexDone true (hv_heap v')
        | HexNext v' => hex_loop fuel' clem hex hex_end bank v'
        | HexFault => HexCrash
        end
      else HexDone true (hv_heap v)
  end.

(** [clemens_load_hex]: [hex_end] is an index into the text or NULL. *)
Definition clemens_load_hex (fuel : nat) (clem : ClemensMachine) (h : Heap)
    (hex : string) (hex_end : option Z) (bank : Z) : HexResult :=
  hex_loop fuel clem hex hex_end bank
    (mkHexVars 0 0 CLEM_LOAD_HEX_STATE_BEGIN None 0 0
               CLEM_LOAD_HEX_RECORD_NONE 0 h).

(* ===================================================================== *)
(** ** Binary dump: [clemens_out_bin_data] *)
(* ===================================================================== *)

(** [clemens_out_bin_data]: [out] is the caller's array; the result is the
    array after the call, or a fault when a [memcpy] leaves a buffer.
    [left0], [right0], [right1] are C [unsigned]: differences wrap modulo
    2^32. *)
Definition clemens_out_bin_data (clem : ClemensMachine) (h : Heap)
    (out : list Z) (out_byte_cnt bank adr : Z) : option (list Z) :=
  let memory :=
    if (bank =? 224) || (bank =? 225)
    then nth (Z.to_nat (Z.land bank 1)) (mega2_bank_map (mem clem)) None
    else nth (Z.to_nat (Z.land bank 255)) (fpi_bank_map (mem clem)) None in
  let out_byte_cnt := if 65536 <? out_byte_cnt then 65536 else out_byte_cnt in
  let left0 := adr in
  let right0 := u32 (adr + out_byte_cnt) in
  if 65536 <? right0 then
    let left1 := 0 in
    let right1 := u32 (right0 - 65536) in
    let right0 := Z.land right0 65535 in
    match memcpy_out h out right1 (optr_add memory left1) (u32 (right1 - left1)) with
    | None => None
    | Some out => memcpy_out h out 0 (optr_add memory left0) (u32 (right0 - left0))
    end
  else memcpy_out h out 0 (optr_add memory left0) (u32 (right0 - left0)).

(* ===================================================================== *)
(** ** The CPU: state monad and register access *)
(* ===================================================================== *)

(** The executor threads the machine through every helper call. *)
Definition M (T : Type) : Type := ClemensMachine -> T * ClemensMachine.

Definition ret {T : Type} (x : T) : M T := fun m => (x, m).

Definition bind {T U : Type} (c : M T) (k : T -> M U) : M U :=
  fun m => let (x, m') := c m in k x m'.

Declare Scope cpu_scope.
Delimit Scope cpu_scope with cpu.

Notation "x <- c ;; k" := (bind c (fun x => k))
  (at level 61, c at next level, right associativity) : cpu_scope.
Notation "' pat <- c ;; k" := (bind c (fun x => match x with pat => k end))
  (at level 61, pat pattern, c at next level, right associativity) : cpu_scope.
Notation "c ;; k" := (bind c (fun _ => k))
  (at level 61, right associativity) : cpu_scope.

Local Open Scope cpu_scope.

Definition exec {T : Type} (c : M T) (m : ClemensMachine) : ClemensMachine :=
  snd (c m).

Definition set_cpu (c : Clemens65C816) (m : ClemensMachine) : ClemensMachine :=
  mkMachine c (tspec m) (mem m) (bus m) (resb_counter m) (debug_flags m).

Definition set_regs (r : ClemensCPURegs) (m : ClemensMachine) : ClemensMachine :=
  let c := cpu m in
  set_cpu (mkCpu (pins c) r (state_type c) (cycles_spent c) (enabled c)) m.

Definition set_pins (p : ClemensCPUPins) (m : ClemensMachine) : ClemensMachine :=
  let c := cpu m in
  set_cpu (mkCpu p (regs c) (state_type c) (cycles_spent c) (enabled c)) m.

Definition set_bus (b : Bus) (m : ClemensMachine) : ClemensMachine :=
  mkMachine (cpu m) (tspec m) (mem m) b (resb_counter m) (debug_flags m).

(** [cpu->regs.R] as an rvalue. *)
Definition rd (f : ClemensCPURegs -> Z) : M Z := fun m => (f (regs (cpu m)), m).

Definition rd_emulation : M bool := fun m => (emulation (pins (cpu m)), m).

(** Assignments to the registers; the value is cut to the C type. *)
Definition set_A (v : Z) : M unit := fun m =>
  let r := regs (cpu m) in
  (tt, set_regs (mkRegs (u16 v) (X r) (Y r) (D r) (S r) (PC r) (IR r) (P r) (DBR r) (PBR r)) m).

Definition set_X (v : Z) : M unit := fun m =>
  let r := regs (cpu m) in
  (tt, set_regs (mkRegs (A r) (u16 v) (Y r) (D r) (S r) (PC r) (IR r) (P r) (DBR r) (PBR r)) m).

Definition set_Y (v : Z) : M unit := fun m =>
  let r := regs (cpu m) in
  (tt, set_regs (mkRegs (A r) (X r) (u16 v) (D r) (S r) (PC r) (IR r) (P r) (DBR r) (PBR r)) m).

Definition set_D (v : Z) : M unit := fun m =>
  let r := regs (cpu m) in
  (tt, set_regs (mkRegs (A r) (X r) (Y r) (u16 v) (S r) (PC r) (IR r) (P r) (DBR r) (PBR r)) m).

Definition set_S (v : Z) : M unit := fun m =>
  let r := regs (cpu m) in
  (tt, set_regs (mkRegs (A r) (X r) (Y r) (D r) (u16 v) (PC r) (IR r) (P r) (DBR r) (PBR r)) m).

Definition set_PC (v : Z) : M unit := fun m =>
  let r := regs (cpu m) in
  (tt, set_regs (mkRegs (A r) (X r) (Y r) (D r) (S r) (u16 v) (IR r) (P r) (DBR r) (PBR r)) m).

Definition set_IR (v : Z) : M unit := fun m =>
  let r := regs (cpu m) in
  (tt, set_regs (mkRegs (A r) (X r) (Y r) (D r) (S r) (PC r) (u8 v) (P r) (DBR r) (PBR r)) m).

Definition set_P (v : Z) : M unit := fun m =>
  let r := regs (cpu m) in
  (tt, set_regs (mkRegs (A r) (X r) (Y r) (D r) (S r) (PC r) (IR r) (u8 v) (DBR r) (PBR r)) m).

Definition set_DBR (v : Z) : M unit := fun m =>
  let r := regs (cpu m) in
  (tt, set_regs (mkRegs (A r) (X r) (Y r) (D r) (S r) (PC r) (IR r) (P r) (u8 v) (PBR r)) m).

Definition set_PBR (v : Z) : M unit := fun m =>
  let r := regs (cpu m) in
  (tt, set_regs (mkRegs (A r) (X r) (Y r) (D r) (S r) (PC r) (IR r) (P r) (DBR r) (u8 v)) m).

Definition set_emulation (b : bool) : M unit := fun m =>
  let p := pins (cpu m) in
  (tt, set_pins (mkPins b (resbIn p) (irqbIn p) (readyOut p)) m).

Definition set_readyOut (b : bool) : M unit := fun m =>
  let p := pins (cpu m) in
  (tt, set_pins (mkPins (emulation p) (resbIn p) (irqbIn p) b) m).

Definition set_enabled (b : bool) : M unit := fun m =>
  let c := cpu m in
  (tt, set_cpu (mkCpu (pins c) (regs c) (state_type c) (cycles_spent c) b) m).

Definition set_state_type (st : ClemensCPUStateType) : M unit := fun m =>
  let c := cpu m in
  (tt, set_cpu (mkCpu (pins c) (regs c) st (cycles_spent c) (enabled c)) m).

(** Modelled from the spec: the status bits of [clem_types.h] (not among
    the sources), "P: 8b bitfield with named bits {C, Z, I, D, X, M, V, N}",
    from bit 0 upwards. *)
Definition kClemensCPUStatus_Carry : Z := 1.
Definition kClemensCPUStatus_Zero : Z := 2.
Definition kClemensCPUStatus_IRQDisable : Z := 4.
Definition kClemensCPUStatus_Decimal : Z := 8.
Definition kClemensCPUStatus_Index : Z := 16.
Definition kClemensCPUStatus_MemoryAccumulator : Z := 32.
Definition kClemensCPUStatus_Overflow : Z := 64.
Definition kClemensCPUStatus_Negative : Z := 128.

(** Modelled from the spec: "in emulation mode a ninth logical bit B (break)
    appears in the pushed status byte in place of the M bit". *)
Definition kClemensCPUStatus_EmulatedBrk : Z := 32.

(** [(p & mask) != 0]. *)
Definition flag (p mask : Z) : bool := negb (Z.land p mask =? 0).

(** [CLEM_UTIL_set16_lo(v16, v8)]: modelled from the spec, the macro of
    [clem_util.h] (not among the sources) that replaces the low byte of a
    16-bit value, "the high byte is preserved across 8-bit operations". *)
Definition CLEM_UTIL_set16_lo (v16 v8 : Z) : Z :=
  Z.lor (Z.land v16 65280) (Z.land v8 255).

(** [cpu->regs.R = CLEM_UTIL_set16_lo(cpu->regs.R, v)]: an assignment to the
    low byte of a register. *)
Definition set_X_lo (v : Z) : M unit :=
  rX <- rd X ;; set_X (CLEM_UTIL_set16_lo rX v).

Definition set_Y_lo (v : Z) : M unit :=
  rY <- rd Y ;; set_Y (CLEM_UTIL_set16_lo rY v).

Definition set_S_lo (v : Z) : M unit :=
  rS <- rd S ;; set_S (CLEM_UTIL_set16_lo rS v).

(** A helper called on a register by reference, [f(cpu, &cpu->regs.R, ..)]:
    it receives the value of the register and yields the new one. *)
Definition modify_A (f : Z -> M Z) : M unit :=
  rA <- rd A ;; rA <- f rA ;; set_A rA.

Definition modify_X (f : Z -> M Z) : M unit :=
  rX <- rd X ;; rX <- f rX ;; set_X rX.

Definition modify_Y (f : Z -> M Z) : M unit :=
  rY <- rd Y ;; rY <- f rY ;; set_Y rY.

(** Replace the bits of [p] selected by [mask] with those of [bits]. *)
Definition p_assign (mask bits p : Z) : Z :=
  Z.lor (Z.land p (Z.lnot mask)) (Z.land bits mask).

Definition set_flags (mask bits : Z) : M unit :=
  p <- rd P ;; set_P (p_assign mask bits p).

Definition bit_if (b : bool) (mask : Z) : Z := if b then mask else 0.

(* ===================================================================== *)
(** ** The CPU: clock and bus *)
(* ===================================================================== *)

(** Modelled from the spec: [_clem_cycle] of [clem_util.h] (not among the
    sources); section 4.1, an internal cycle advances the timestamp by the
    current step and the cycle counter by one. *)
Definition _clem_cycle (cycle_count : Z) : M unit := fun m =>
  let t := tspec m in let c := cpu m in
  (tt,
   mkMachine
     (mkCpu (pins c) (regs c) (state_type c) (u32 (cycles_spent c + cycle_count))
            (enabled c))
     (mkTspec (clocks_step t) (clocks_step_fast t) (clocks_step_mega2 t)
              (clocks_spent t + clocks_step t * cycle_count))
     (mem m) (bus m) (resb_counter m) (debug_flags m)).

(** Modelled from the spec: the clock charge of one bus access (section
    4.1): the slow step for slow RAM and I/O pages, the current step
    otherwise, and one cycle. *)
Definition _clem_mem_cycle (slow : bool) : M unit := fun m =>
  let t := tspec m in let c := cpu m in
  (tt,
   mkMachine
     (mkCpu (pins c) (regs c) (state_type c) (u32 (cycles_spent c + 1)) (enabled c))
     (mkTspec (clocks_step t) (clocks_step_fast t) (clocks_step_mega2 t)
              (clocks_spent t + (if slow then clocks_step_mega2 t else clocks_step t)))
     (mem m) (bus m) (resb_counter m) (debug_flags m)).

(** The access kinds of the bus primitives. *)
Inductive MemFlag : Type :=
| CLEM_MEM_FLAG_OPCODE_FETCH
| CLEM_MEM_FLAG_DATA
| CLEM_MEM_FLAG_PROGRAM
| CLEM_MEM_FLAG_NULL.

Definition page_of (adr : Z) : Z := Z.shiftr (u16 adr) 8.

(** "Slow for banks 0xE0, 0xE1, I/O pages" (section 4.1). *)
Definition is_slow (k : PageKind) : bool :=
  match k with SlowRAM | IOGate => true | _ => false end.

Definition is_io (k : PageKind) : bool :=
  match k with IOGate => true | _ => false end.

(** The collaborator's answer to a read, and the collaborator after a
    write. *)
Definition mmio_read (io : Mmio) (bank adr : Z) : Z :=
  mmio_read_byte io (mmio_now io) bank adr.

Definition mmio_write (io : Mmio) (bank adr data : Z) : Mmio :=
  @mkMmio (mmio_state io) (mmio_write_byte io (mmio_now io) bank adr data)
          (mmio_read_byte io) (mmio_write_byte io) (refresh_bank_map io)
          (refresh_page_maps io) (mmio_slow io).

(** Modelled from the spec: what a read resolves to (section 4.2 and 7):
    "if the page is the I/O gate, the call is forwarded to the MMIO
    collaborator, otherwise a byte is read from the resolved page", the
    all-zero sentinel for an unmapped page. The answer of the collaborator
    is taken as a function of its state and of the address, and a read
    leaves that state as it is. *)
Definition bus_read (b : Bus) (bank adr : Z) : Z :=
  match bus_kind b bank (page_of adr) with
  | Empty => 0
  | IOGate => u8 (mmio_read (bus_mmio b) bank adr)
  | _ => u8 (bus_mem b bank adr)
  end.

(** Modelled from the spec: [clem_read] of the Bus Controller ([clem_mem.c],
    not among the sources): the byte at bank:adr, and the charge of the
    clock. *)
Definition clem_read (adr bank : Z) (flags : MemFlag) : M Z := fun m =>
  let adr := u16 adr in let bank := u8 bank in
  let k := bus_kind (bus m) bank (page_of adr) in
  (bus_read (bus m) bank adr, snd (_clem_mem_cycle (is_slow k) m)).

Definition is_writable (k : PageKind) : bool :=
  match k with FastRAM | SlowRAM => true | ROM | Empty | IOGate => false end.

(** Modelled from the spec: what a write does to the memory. A write to an
    I/O page goes to the collaborator, and the bank map is refreshed from
    its new state; "writes to read-only or unmapped pages are silently
    dropped". *)
Definition bus_write (b : Bus) (bank adr data : Z) : Bus :=
  if is_io (bus_kind b bank (page_of adr))
  then
    let io := mmio_write (bus_mmio b) bank adr data in
    mkBus (bus_mem b) (refresh_bank_map io (mmio_now io) (bus_kind b)) io
  else
    mkBus (fun bk a =>
             if is_writable (bus_kind b bank (page_of adr)) && (bk =? bank) && (a =? adr)
             then data else bus_mem b bk a)
          (bus_kind b) (bus_mmio b).

(** What a write through the I/O gate leaves behind besides the bus [b]:
    the clock step that the speed gate selects, "gated to slow-speed by the
    disk or shadow registers" (section 4.1), and the refreshed page-map
    table. Any other write leaves both as they are. *)
Definition mmio_effect (io : bool) (b : Bus) (m : ClemensMachine) : ClemensMachine :=
  let t := tspec m in let x := mem m in
  let c := bus_mmio b in
  mkMachine (cpu m)
    (mkTspec (if io
              then if mmio_slow c (mmio_now c)
                   then clocks_step_mega2 t else clocks_step_fast t
              else clocks_step t)
             (clocks_step_fast t) (clocks_step_mega2 t) (clocks_spent t))
    (mkMemory (fpi_bank_map x) (fpi_bank_used x) (mega2_bank_map x)
              (if io then refresh_page_maps c (mmio_now c) (bank_page_map x)
               else bank_page_map x))
    b (resb_counter m) (debug_flags m).

(** Modelled from the spec: [clem_write], symmetric to [clem_read]; dropped
    writes "still charge cycles". The access is charged at the step of the
    page it falls on; behind a write to an I/O page the bank map and the
    clock step are what the collaborator has made of them. *)
Definition clem_write (data adr bank : Z) (flags : MemFlag) : M unit := fun m =>
  let adr := u16 adr in let bank := u8 bank in
  let k := bus_kind (bus m) bank (page_of adr) in
  (tt, mmio_effect (is_io k) (bus_write (bus m) bank adr (u8 data))
         (snd (_clem_mem_cycle (is_slow k) m))).

(** Modelled from the spec: [_clem_next_dbr], the bank byte "incremented
    across a 64 KiB boundary". *)
Definition _clem_next_dbr (bank : Z) : Z := u8 (bank + 1).

(** Modelled from the spec: [_clem_read_16], two bus reads, low byte first. *)
Definition _clem_read_16 (adr bank : Z) (flags : MemFlag) : M Z :=
  lo <- clem_read adr bank flags ;;
  hi <- clem_read (adr + 1) bank flags ;;
  ret (Z.lor (Z.shiftl hi 8) lo).

(** Modelled from the spec: [_clem_write_16], low byte first. *)
Definition _clem_write_16 (data adr bank : Z) : M unit :=
  clem_write (Z.land data 255) adr bank CLEM_MEM_FLAG_DATA ;;
  clem_write (Z.shiftr (u16 data) 8) (adr + 1) bank CLEM_MEM_FLAG_DATA.

(** Modelled from the spec: [_clem_read_pba], the fetch of one operand byte
    at PBR:pc; "PC wraps within the current program bank". The result is
    the byte and the advanced pc. *)
Definition _clem_read_pba (pc : Z) : M (Z * Z) :=
  pbr <- rd PBR ;;
  data <- clem_read pc pbr CLEM_MEM_FLAG_PROGRAM ;;
  ret (data, u16 (pc + 1)).

Definition _clem_read_pba_16 (pc : Z) : M (Z * Z) :=
  '(lo, pc) <- _clem_read_pba pc ;;
  '(hi, pc) <- _clem_read_pba pc ;;
  ret (Z.lor (Z.shiftl hi 8) lo, pc).

(** Modelled from the spec: [_clem_read_pba_816], an operand of one or two
    bytes, by the width flag. *)
Definition _clem_read_pba_816 (pc : Z) (is8 : bool) : M (Z * Z) :=
  if is8 then _clem_read_pba pc else _clem_read_pba_16 pc.

(** Modelled from the spec: immediate mode, "1 or 2 byte depending on M/X". *)
Definition _clem_read_pba_mode_imm_816 (pc : Z) (is8 : bool) : M (Z * Z) :=
  _clem_read_pba_816 pc is8.

(** Modelled from the spec: absolute mode, a 16-bit operand. *)
Definition _clem_read_pba_mode_abs (pc : Z) : M (Z * Z) :=
  _clem_read_pba_16 pc.

(** Modelled from the spec: absolute long mode: address, bank, pc. *)
Definition _clem_read_pba_mode_absl (pc : Z) : M (Z * Z * Z) :=
  '(addr, pc) <- _clem_read_pba_16 pc ;;
  '(bank, pc) <- _clem_read_pba pc ;;
  ret (addr, bank, pc).

(** Modelled from the spec: direct page mode (section 4.2): "if D's low byte
    is zero, the address computes modulo 256 in bank 0 [in emulation]; else
    modulo 65536", with the +1 penalty for a nonzero low byte of D. The
    result is the effective address, the pc and the offset byte. *)
Definition _clem_read_pba_mode_dp (pc index : Z) (is_index_8 : bool)
    : M (Z * Z * Z) :=
  d <- rd D ;;
  emu <- rd_emulation ;;
  '(offset, pc) <- _clem_read_pba pc ;;
  let offset_index := (if is_index_8 then Z.land index 255 else u16 index) + offset in
  let eff :=
    if emu && (Z.land d 255 =? 0)
    then CLEM_UTIL_set16_lo d offset_index
    else u16 (d + offset_index) in
  (if Z.land d 255 =? 0 then ret tt else _clem_cycle 1) ;;
  ret (eff, pc, offset).

(** Modelled from the spec: (dp) and (dp,X): the 16-bit pointer read from
    the direct page, "pointer low byte first, then high byte". *)
Definition _clem_read_pba_mode_dp_indirect (pc index : Z) (is_index_8 : bool)
    : M (Z * Z * Z) :=
  '(ptr, pc, offset) <- _clem_read_pba_mode_dp pc index is_index_8 ;;
  eff <- _clem_read_16 ptr 0 CLEM_MEM_FLAG_DATA ;;
  ret (eff, pc, offset).

(** Modelled from the spec: [dp]: pointer low, high, "then bank byte for
    long forms". The result is address, bank, pc, offset. *)
Definition _clem_read_pba_mode_dp_indirectl (pc index : Z) (is_index_8 : bool)
    : M (Z * Z * Z * Z) :=
  '(ptr, pc, offset) <- _clem_read_pba_mode_dp pc index is_index_8 ;;
  eff <- _clem_read_16 ptr 0 CLEM_MEM_FLAG_DATA ;;
  bank <- clem_read (ptr + 2) 0 CLEM_MEM_FLAG_DATA ;;
  ret (eff, bank, pc, offset).

(** Modelled from the spec: stack relative mode: S plus the offset byte, in
    bank 0, one internal cycle. *)
Definition _clem_read_pba_mode_stack_rel (pc : Z) : M (Z * Z * Z) :=
  '(offset, pc) <- _clem_read_pba pc ;;
  _clem_cycle 1 ;;
  s <- rd S ;;
  ret (u16 (s + offset), pc, offset).

(** Modelled from the spec: (sr,S),Y: the pointer read at the stack
    relative address, one more internal cycle. *)
Definition _clem_read_pba_mode_stack_rel_indirect (pc : Z) : M (Z * Z * Z) :=
  '(addr, pc, offset) <- _clem_read_pba_mode_stack_rel pc ;;
  eff <- _clem_read_16 addr 0 CLEM_MEM_FLAG_DATA ;;
  _clem_cycle 1 ;;
  ret (eff, pc, offset).

(** Modelled from the spec: a data read of one or two bytes by the width
    flag; the second byte of a 16-bit datum at offset 0xFFFF comes from the
    next bank. *)
Definition _clem_read_data_816 (addr bank : Z) (is8 : bool) : M Z :=
  if is8 then clem_read addr bank CLEM_MEM_FLAG_DATA
  else
    lo <- clem_read addr bank CLEM_MEM_FLAG_DATA ;;
    hi <- clem_read (addr + 1)
            (if u16 addr =? 65535 then _clem_next_dbr bank else bank)
            CLEM_MEM_FLAG_DATA ;;
    ret (Z.lor (Z.shiftl hi 8) lo).

Definition _clem_write_816 (value addr bank : Z) (is8 : bool) : M unit :=
  if is8 then clem_write (Z.land value 255) addr bank CLEM_MEM_FLAG_DATA
  else
    clem_write (Z.land value 255) addr bank CLEM_MEM_FLAG_DATA ;;
    clem_write (Z.shiftr (u16 value) 8) (addr + 1)
      (if u16 addr =? 65535 then _clem_next_dbr bank else bank)
      CLEM_MEM_FLAG_DATA.

(** [CLEM_UTIL_CROSSED_PAGE_BOUNDARY]. *)
Definition crossed_page (a b : Z) : bool := negb (page_of a =? page_of b).

(** The indexed effective address: the index at its width added to the
    address, the carry going into the bank. *)
Definition indexed_addr (addr index bank : Z) (is_index_8 : bool) : Z * Z :=
  let idx := if is_index_8 then Z.land index 255 else u16 index in
  let sum := u16 addr + idx in
  (u16 sum, if 65535 <? sum then _clem_next_dbr bank else bank).

(** Modelled from the spec: indexed data read; "page-crossing adds a
    documented extra internal cycle for read operations", as does a 16-bit
    index. *)
Definition _clem_read_data_indexed_816 (addr index bank : Z)
    (is_data_8 is_index_8 : bool) : M Z :=
  let '(eff, ebank) := indexed_addr addr index bank is_index_8 in
  (if negb is_index_8 || crossed_page addr eff then _clem_cycle 1 else ret tt) ;;
  _clem_read_data_816 eff ebank is_data_8.

(** Modelled from the spec: indexed data write; "write operations always
    charge the extra cycle", which the executor charges itself. *)
Definition _clem_write_indexed_816 (value addr index bank : Z)
    (is_data_8 is_index_8 : bool) : M unit :=
  let '(eff, ebank) := indexed_addr addr index bank is_index_8 in
  _clem_write_816 value eff ebank is_data_8.

(** Modelled from the spec: the dummy read cycle of (dp),Y stores. *)
Definition _clem_io_read_cycle (addr index bank : Z) : M unit :=
  _clem_cycle 1.

(* ===================================================================== *)
(** ** The CPU: stack pointer and status helpers *)
(* ===================================================================== *)

(** Modelled from the spec: the stack pointer steps of [clem_util.h]: "in
    emulation mode the high byte is latched to 0x01 and stack arithmetic
    wraps inside the 0x0100-0x01FF page", "in native mode S wraps the full
    16 bits". *)
Definition sp_step (n : Z) : M unit :=
  s <- rd S ;;
  emu <- rd_emulation ;;
  let tmp := u16 (s + n) in
  set_S (if emu then CLEM_UTIL_set16_lo s tmp else tmp).

Definition _cpu_sp_dec : M unit := sp_step (-1).
Definition _cpu_sp_dec2 : M unit := sp_step (-2).
Definition _cpu_sp_dec3 : M unit := sp_step (-3).
Definition _cpu_sp_inc : M unit := sp_step 1.
Definition _cpu_sp_inc2 : M unit := sp_step 2.
Definition _cpu_sp_inc3 : M unit := sp_step 3.

(** Modelled from the spec: "setting X=1 zeros the high bytes of X and Y". *)
Definition _cpu_p_flags_apply_m_x : M unit :=
  p <- rd P ;;
  if flag p kClemensCPUStatus_Index then
    x <- rd X ;; set_X (Z.land x 255) ;;
    y <- rd Y ;; set_Y (Z.land y 255)
  else ret tt.

Definition NZ : Z := Z.lor kClemensCPUStatus_Negative kClemensCPUStatus_Zero.

(** Modelled from the spec: the flag law "Z = (result_w == 0),
    N = bit(w-1)(result_w)" at width 8 and 16. *)
Definition _cpu_p_flags_n_z_data (data : Z) : M unit :=
  set_flags NZ
    (Z.lor (bit_if (flag data 128) kClemensCPUStatus_Negative)
           (bit_if (u8 data =? 0) kClemensCPUStatus_Zero)).

Definition _cpu_p_flags_n_z_data_16 (data : Z) : M unit :=
  set_flags NZ
    (Z.lor (bit_if (flag data 32768) kClemensCPUStatus_Negative)
           (bit_if (u16 data =? 0) kClemensCPUStatus_Zero)).

Definition _cpu_p_flags_n_z_data_816 (data : Z) (is8 : bool) : M unit :=
  if is8 then _cpu_p_flags_n_z_data data else _cpu_p_flags_n_z_data_16 data.

(** A push of one byte: the write at S in bank 0, then the step of S. *)
Definition push8 (data : Z) : M unit :=
  s <- rd S ;;
  clem_write data s 0 CLEM_MEM_FLAG_DATA ;;
  _cpu_sp_dec.

(** A pull of one byte: the step of S, then the read at S in bank 0. *)
Definition pull8 : M Z :=
  _cpu_sp_inc ;;
  s <- rd S ;;
  clem_read s 0 CLEM_MEM_FLAG_DATA.

(** Modelled from the spec: [_clem_opc_push_reg_816], the push of a register
    at its width, high byte first. *)
Definition _clem_opc_push_reg_816 (data : Z) (is8 : bool) : M unit :=
  _clem_cycle 1 ;;
  (if is8 then ret tt else push8 (Z.shiftr (u16 data) 8)) ;;
  push8 (Z.land data 255).

(** Modelled from the spec: [_clem_opc_pull_reg_816], the pull of a register
    at its width; an 8-bit pull keeps the high byte of the register. The
    result is the new value of the register. *)
Definition _clem_opc_pull_reg_816 (old : Z) (is8 : bool) : M Z :=
  _clem_cycle 2 ;;
  lo <- pull8 ;;
  if is8 then ret (CLEM_UTIL_set16_lo old lo)
  else hi <- pull8 ;; ret (Z.lor (Z.shiftl hi 8) lo).

Definition _clem_opc_pull_reg_8 : M Z :=
  _clem_cycle 2 ;; pull8.

(** Modelled from the spec: [_clem_opc_push_status]: the status byte, in
    emulation mode with the break bit in place of the M bit. *)
Definition _clem_opc_push_status (is_brk : bool) : M unit :=
  p <- rd P ;;
  emu <- rd_emulation ;;
  push8 (if emu
         then p_assign kClemensCPUStatus_EmulatedBrk
                (bit_if is_brk kClemensCPUStatus_EmulatedBrk) p
         else p).

Definition MX : Z := Z.lor kClemensCPUStatus_MemoryAccumulator kClemensCPUStatus_Index.

(** Modelled from the spec: [_clem_opc_pull_status]: the status byte pulled
    from the stack; "in emulation mode the restored status leaves the M/X
    bits forced", and a set X flag clears the high bytes of X and Y. *)
Definition _clem_opc_pull_status : M unit :=
  p <- pull8 ;;
  emu <- rd_emulation ;;
  set_P (if emu then Z.lor p MX else p) ;;
  _cpu_p_flags_apply_m_x.

(** Modelled from the spec: [_clem_opc_push_pc16], PCH then PCL. *)
Definition _clem_opc_push_pc16 (pc : Z) : M unit :=
  push8 (Z.shiftr (u16 pc) 8) ;;
  push8 (Z.land pc 255).

(** Modelled from the spec: [_clem_read_interrupt_vector], the vector pull:
    the low byte of the new PC from bank 0 at [vlo], the high byte from
    bank 0 at [vhi]. *)
Definition _clem_read_interrupt_vector (vlo vhi : Z) : M Z :=
  lo <- clem_read vlo 0 CLEM_MEM_FLAG_PROGRAM ;;
  hi <- clem_read vhi 0 CLEM_MEM_FLAG_PROGRAM ;;
  ret (Z.lor (Z.shiftl hi 8) lo).

(** Modelled from the spec: [_clem_irq_brk_setup] (section 4.4 and 4.5):
    "push PBR (native only), PC-high, PC-low, and status; load PC from the
    appropriate vector; set I=1, clear D". The vector lies in bank 0, so
    the program bank becomes 0. The results are the new PBR and the new
    pc, which the caller's pointers receive. *)
Definition _clem_irq_brk_setup (pbr pc vlo vhi : Z) (is_brk : bool) : M (Z * Z) :=
  emu <- rd_emulation ;;
  (if emu then ret tt else push8 pbr) ;;
  push8 (Z.shiftr (u16 pc) 8) ;;
  push8 (Z.land pc 255) ;;
  _clem_opc_push_status is_brk ;;
  set_flags (Z.lor kClemensCPUStatus_IRQDisable kClemensCPUStatus_Decimal)
            kClemensCPUStatus_IRQDisable ;;
  pc <- _clem_read_interrupt_vector vlo vhi ;;
  ret (0, pc).

(** Modelled from the spec: [_clem_irq_brk_return] (RTI): "pop status, PC,
    and in native mode PBR". The result is the restored pc. *)
Definition _clem_irq_brk_return : M Z :=
  _clem_opc_pull_status ;;
  lo <- pull8 ;;
  hi <- pull8 ;;
  emu <- rd_emulation ;;
  (if emu then ret tt else pbr <- pull8 ;; set_PBR pbr) ;;
  ret (Z.lor (Z.shiftl hi 8) lo).

(** Modelled from the spec: [_clem_branch]: "taking a branch adds 1 cycle,
    and crossing a page adds 1 more (emulation mode only)". The result is
    the pc after the branch. *)
Definition _clem_branch (pc offset : Z) (condition : bool) : M Z :=
  if condition then
    let target := u16 (pc + s8 offset) in
    _clem_cycle 1 ;;
    emu <- rd_emulation ;;
    (if emu && crossed_page pc target then _clem_cycle 1 else ret tt) ;;
    ret target
  else ret pc.

(* ===================================================================== *)
(** ** The CPU: arithmetic and logic helpers *)
(* ===================================================================== *)

(** The helpers of this section are modelled from the spec: the [_cpu_*]
    functions of [clem_util.h] are not among the sources. Section 4.4 and
    the flag law of section 8 fix what they do: the operation at the width
    chosen by the flag, N and Z from the result at that width, C and V by
    the binary or decimal rules, the high byte kept by 8-bit operations. *)

Definition NVZC : Z :=
  Z.lor (Z.lor kClemensCPUStatus_Negative kClemensCPUStatus_Overflow)
        (Z.lor kClemensCPUStatus_Zero kClemensCPUStatus_Carry).

Definition NZC : Z := Z.lor NZ kClemensCPUStatus_Carry.

Definition NVZ : Z := Z.lor NZ kClemensCPUStatus_Overflow.

Definition width_mask (is8 : bool) : Z := if is8 then 255 else 65535.

Definition sign_bit (is8 : bool) : Z := if is8 then 128 else 32768.

Definition nz_bits (r : Z) (is8 : bool) : Z :=
  Z.lor (bit_if (flag r (sign_bit is8)) kClemensCPUStatus_Negative)
        (bit_if (Z.land r (width_mask is8) =? 0) kClemensCPUStatus_Zero).

(** A result of the current width stored into a 16-bit holder. *)
Definition merge816 (old r : Z) (is8 : bool) : Z :=
  if is8 then CLEM_UTIL_set16_lo old r else u16 r.

(** Modelled from the spec: binary ADC, "two's-complement with carry-in and
    V detected from sign-bit disagreement". *)
Definition _cpu_adc (value : Z) (is8 : bool) : M unit :=
  a <- rd A ;;
  p <- rd P ;;
  let mask := width_mask is8 in
  let a0 := Z.land a mask in
  let v0 := Z.land value mask in
  let r := a0 + v0 + Z.land p 1 in
  let ovf := flag (Z.land (Z.lxor a0 r) (Z.lxor v0 r)) (sign_bit is8) in
  set_A (merge816 a r is8) ;;
  set_flags NVZC
    (Z.lor (nz_bits r is8)
       (Z.lor (bit_if ovf kClemensCPUStatus_Overflow)
              (bit_if (mask <? r) kClemensCPUStatus_Carry))).

(** Decimal addition, one nibble at a time: the adjusted digits and the
    carry out. *)
Fixpoint bcd_add (digits : nat) (a v c : Z) : Z * Z :=
  match digits with
  | O => (0, c)
  | Datatypes.S n =>
      let d := a mod 16 + v mod 16 + c in
      let d' := if 9 <? d then d + 6 else d in
      let '(rest, cout) := bcd_add n (a / 16) (v / 16) (if 15 <? d' then 1 else 0) in
      (d' mod 16 + 16 * rest, cout)
  end.

(** Decimal subtraction, one nibble at a time: the adjusted digits and the
    borrow out. *)
Fixpoint bcd_sub (digits : nat) (a v b : Z) : Z * Z :=
  match digits with
  | O => (0, b)
  | Datatypes.S n =>
      let d := a mod 16 - v mod 16 - b in
      let d' := if d <? 0 then d + 10 else d in
      let '(rest, bout) := bcd_sub n (a / 16) (v / 16) (if d <? 0 then 1 else 0) in
      (d' mod 16 + 16 * rest, bout)
  end.

Definition digits_of (is8 : bool) : nat := if is8 then 2%nat else 4%nat.

(** Modelled from the spec: decimal ADC, "BCD with per-nibble adjustment; N
    and V are computed from the final adjusted byte". *)
Definition _cpu_adc_bcd (value : Z) (is8 : bool) : M unit :=
  a <- rd A ;;
  p <- rd P ;;
  let mask := width_mask is8 in
  let a0 := Z.land a mask in
  let v0 := Z.land value mask in
  let '(r, cout) := bcd_add (digits_of is8) a0 v0 (Z.land p 1) in
  let ovf := flag (Z.land (Z.lxor a0 r) (Z.lxor v0 r)) (sign_bit is8) in
  set_A (merge816 a r is8) ;;
  set_flags NVZC
    (Z.lor (nz_bits r is8)
       (Z.lor (bit_if ovf kClemensCPUStatus_Overflow)
              (bit_if (cout =? 1) kClemensCPUStatus_Carry))).

(** Modelled from the spec: binary SBC, the addition of the complement. *)
Definition _cpu_sbc (value : Z) (is8 : bool) : M unit :=
  a <- rd A ;;
  p <- rd P ;;
  let mask := width_mask is8 in
  let a0 := Z.land a mask in
  let v0 := Z.lxor (Z.land value mask) mask in
  let r := a0 + v0 + Z.land p 1 in
  let ovf := flag (Z.land (Z.lxor a0 r) (Z.lxor v0 r)) (sign_bit is8) in
  set_A (merge816 a r is8) ;;
  set_flags NVZC
    (Z.lor (nz_bits r is8)
       (Z.lor (bit_if ovf kClemensCPUStatus_Overflow)
              (bit_if (mask <? r) kClemensCPUStatus_Carry))).

(** Modelled from the spec: decimal SBC. *)
Definition _cpu_sbc_bcd (value : Z) (is8 : bool) : M unit :=
  a <- rd A ;;
  p <- rd P ;;
  let mask := width_mask is8 in
  let a0 := Z.land a mask in
  let v0 := Z.land value mask in
  let '(r, bout) := bcd_sub (digits_of is8) a0 v0 (1 - Z.land p 1) in
  let ovf := flag (Z.land (Z.lxor a0 v0) (Z.lxor a0 r)) (sign_bit is8) in
  set_A (merge816 a r is8) ;;
  set_flags NVZC
    (Z.lor (nz_bits r is8)
       (Z.lor (bit_if ovf kClemensCPUStatus_Overflow)
              (bit_if (bout =? 0) kClemensCPUStatus_Carry))).

Definition _cpu_and (value : Z) (is8 : bool) : M unit :=
  a <- rd A ;;
  let r := Z.land (Z.land a value) (width_mask is8) in
  set_A (merge816 a r is8) ;;
  set_flags NZ (nz_bits r is8).

Definition _cpu_eor (value : Z) (is8 : bool) : M unit :=
  a <- rd A ;;
  let r := Z.land (Z.lxor a value) (width_mask is8) in
  set_A (merge816 a r is8) ;;
  set_flags NZ (nz_bits r is8).

Definition _cpu_ora (value : Z) (is8 : bool) : M unit :=
  a <- rd A ;;
  let r := Z.land (Z.lor a value) (width_mask is8) in
  set_A (merge816 a r is8) ;;
  set_flags NZ (nz_bits r is8).

Definition _cpu_lda (value : Z) (is8 : bool) : M unit :=
  a <- rd A ;;
  let r := Z.land value (width_mask is8) in
  set_A (merge816 a r is8) ;;
  set_flags NZ (nz_bits r is8).

(** Modelled from the spec: compare; C is set when no borrow occurs. *)
Definition _cpu_cmp (reg value : Z) (is8 : bool) : M unit :=
  let mask := width_mask is8 in
  let r0 := Z.land reg mask in
  let v0 := Z.land value mask in
  set_flags NZC
    (Z.lor (nz_bits (r0 - v0) is8) (bit_if (v0 <=? r0) kClemensCPUStatus_Carry)).

(** Modelled from the spec: bit test: Z from A and the operand, N and V
    from the two top bits of the operand. *)
Definition _cpu_bit (value : Z) (is8 : bool) : M unit :=
  a <- rd A ;;
  let mask := width_mask is8 in
  set_flags NVZ
    (Z.lor (bit_if (flag value (sign_bit is8)) kClemensCPUStatus_Negative)
       (Z.lor (bit_if (flag value (sign_bit is8 / 2)) kClemensCPUStatus_Overflow)
              (bit_if (Z.land (Z.land a value) mask =? 0) kClemensCPUStatus_Zero))).

Definition _cpu_bit_imm (value : Z) (is8 : bool) : M unit :=
  a <- rd A ;;
  set_flags kClemensCPUStatus_Zero
    (bit_if (Z.land (Z.land a value) (width_mask is8) =? 0) kClemensCPUStatus_Zero).

(** Modelled from the spec: shifts and rotates "operate at the current M
    width; C receives the bit shifted out; for ROL/ROR the input C supplies
    the bit shifted in". The result is the new value of the operand. *)
Definition _cpu_asl (value : Z) (is8 : bool) : M Z :=
  let mask := width_mask is8 in
  let r := Z.shiftl (Z.land value mask) 1 in
  set_flags NZC (Z.lor (nz_bits r is8) (bit_if (mask <? r) kClemensCPUStatus_Carry)) ;;
  ret (merge816 value r is8).

Definition _cpu_lsr (value : Z) (is8 : bool) : M Z :=
  let mask := width_mask is8 in
  let r := Z.shiftr (Z.land value mask) 1 in
  set_flags NZC (Z.lor (nz_bits r is8) (bit_if (flag value 1) kClemensCPUStatus_Carry)) ;;
  ret (merge816 value r is8).

Definition _cpu_rol (value : Z) (is8 : bool) : M Z :=
  p <- rd P ;;
  let mask := width_mask is8 in
  let r := Z.lor (Z.shiftl (Z.land value mask) 1) (Z.land p 1) in
  set_flags NZC (Z.lor (nz_bits r is8) (bit_if (mask <? r) kClemensCPUStatus_Carry)) ;;
  ret (merge816 value r is8).

Definition _cpu_ror (value : Z) (is8 : bool) : M Z :=
  p <- rd P ;;
  let mask := width_mask is8 in
  let r := Z.lor (Z.shiftr (Z.land value mask) 1)
                 (bit_if (flag p 1) (sign_bit is8)) in
  set_flags NZC (Z.lor (nz_bits r is8) (bit_if (flag value 1) kClemensCPUStatus_Carry)) ;;
  ret (merge816 value r is8).

Definition _cpu_inc (value : Z) (is8 : bool) : M Z :=
  let r := Z.land value (width_mask is8) + 1 in
  set_flags NZ (nz_bits r is8) ;;
  ret (merge816 value r is8).

Definition _cpu_dec (value : Z) (is8 : bool) : M Z :=
  let r := Z.land value (width_mask is8) - 1 in
  set_flags NZ (nz_bits r is8) ;;
  ret (merge816 value r is8).

(** Modelled from the spec: test and set / reset bits: Z from A and the
    operand, the operand with the bits of A set or cleared. *)
Definition _cpu_tsb (value : Z) (is8 : bool) : M Z :=
  a <- rd A ;;
  let mask := width_mask is8 in
  set_flags kClemensCPUStatus_Zero
    (bit_if (Z.land (Z.land a value) mask =? 0) kClemensCPUStatus_Zero) ;;
  ret (merge816 value (Z.land (Z.lor value a) mask) is8).

Definition _cpu_trb (value : Z) (is8 : bool) : M Z :=
  a <- rd A ;;
  let mask := width_mask is8 in
  set_flags kClemensCPUStatus_Zero
    (bit_if (Z.land (Z.land a value) mask =? 0) kClemensCPUStatus_Zero) ;;
  ret (merge816 value (Z.land (Z.land value (Z.lnot a)) mask) is8).

(** Modelled from the spec: the load of an index register at the width of
    the X flag. The result is the new value of the register. *)
Definition _cpu_ldxy (old value : Z) (is8 : bool) : M Z :=
  let r := Z.land value (width_mask is8) in
  set_flags NZ (nz_bits r is8) ;;
  ret (merge816 old r is8).

(** [cpu->regs.P &= ~mask] and [cpu->regs.P |= mask]. *)
Definition clear_P_bits (mask : Z) : M unit :=
  p <- rd P ;; set_P (Z.land p (Z.lnot mask)).

Definition set_P_bits (mask : Z) : M unit :=
  p <- rd P ;; set_P (Z.lor p mask).

(* ===================================================================== *)
(** ** The CPU: opcodes *)
(* ===================================================================== *)

(** The interrupt vector addresses ([clem_defs.h], not among the sources):
    "vector addresses live in bank 0 at fixed offsets distinct for emulation
    vs native and for each source". The executor takes the table as a
    parameter; [wdc_vectors] below is the table of the WDC 65C816. *)
Record VectorTable : Type := mkVectorTable {
  CLEM_6502_COP_VECTOR_LO_ADDR : Z;
  CLEM_6502_COP_VECTOR_HI_ADDR : Z;
  CLEM_6502_NMI_VECTOR_LO_ADDR : Z;
  CLEM_6502_NMI_VECTOR_HI_ADDR : Z;
  CLEM_6502_RESET_VECTOR_LO_ADDR : Z;
  CLEM_6502_RESET_VECTOR_HI_ADDR : Z;
  CLEM_6502_IRQBRK_VECTOR_LO_ADDR : Z;
  CLEM_6502_IRQBRK_VECTOR_HI_ADDR : Z;
  CLEM_65816_COP_VECTOR_LO_ADDR : Z;
  CLEM_65816_COP_VECTOR_HI_ADDR : Z;
  CLEM_65816_BRK_VECTOR_LO_ADDR : Z;
  CLEM_65816_BRK_VECTOR_HI_ADDR : Z;
  CLEM_65816_NMI_VECTOR_LO_ADDR : Z;
  CLEM_65816_NMI_VECTOR_HI_ADDR : Z;
  CLEM_65816_IRQB_VECTOR_LO_ADDR : Z;
  CLEM_65816_IRQB_VECTOR_HI_ADDR : Z
}.

(** Modelled from the spec: the vector table of the WDC 65C816, with the
    reset vector at FFFC/FFFD as section 8 has it. *)
Definition wdc_vectors : VectorTable :=
  mkVectorTable 65524 65525 65530 65531 65532 65533 65534 65535
                65508 65509 65510 65511 65514 65515 65518 65519.

(** The case labels of the executor's switch, in the order of the
    instruction map. *)
Inductive Opcode : Type :=
| CLEM_OPC_ADC_IMM
| CLEM_OPC_ADC_ABS
| CLEM_OPC_ADC_ABSL
| CLEM_OPC_ADC_DP
| CLEM_OPC_ADC_DP_INDIRECT
| CLEM_OPC_ADC_DP_INDIRECTL
| CLEM_OPC_ADC_ABS_IDX
| CLEM_OPC_ADC_ABSL_IDX
| CLEM_OPC_ADC_ABS_IDY
| CLEM_OPC_ADC_DP_IDX
| CLEM_OPC_ADC_DP_IDX_INDIRECT
| CLEM_OPC_ADC_DP_INDIRECT_IDY
| CLEM_OPC_ADC_DP_INDIRECTL_IDY
| CLEM_OPC_ADC_STACK_REL
| CLEM_OPC_ADC_STACK_REL_INDIRECT_IDY
| CLEM_OPC_AND_IMM
| CLEM_OPC_AND_ABS
| CLEM_OPC_AND_ABSL
| CLEM_OPC_AND_DP
| CLEM_OPC_AND_DP_INDIRECT
| CLEM_OPC_AND_DP_INDIRECTL
| CLEM_OPC_AND_ABS_IDX
| CLEM_OPC_AND_ABSL_IDX
| CLEM_OPC_AND_ABS_IDY
| CLEM_OPC_AND_DP_IDX
| CLEM_OPC_AND_DP_IDX_INDIRECT
| CLEM_OPC_AND_DP_INDIRECT_IDY
| CLEM_OPC_AND_DP_INDIRECTL_IDY
| CLEM_OPC_AND_STACK_REL
| CLEM_OPC_AND_STACK_REL_INDIRECT_IDY
| CLEM_OPC_ASL_A
| CLEM_OPC_ASL_ABS
| CLEM_OPC_ASL_DP
| CLEM_OPC_ASL_ABS_IDX
| CLEM_OPC_ASL_ABS_DP_IDX
| CLEM_OPC_BCC
| CLEM_OPC_BCS
| CLEM_OPC_BEQ
| CLEM_OPC_BIT_IMM
| CLEM_OPC_BIT_ABS
| CLEM_OPC_BIT_DP
| CLEM_OPC_BIT_ABS_IDX
| CLEM_OPC_BIT_DP_IDX
| CLEM_OPC_BMI
| CLEM_OPC_BNE
| CLEM_OPC_BPL
| CLEM_OPC_BRA
| CLEM_OPC_BRL
| CLEM_OPC_BVC
| CLEM_OPC_BVS
| CLEM_OPC_BRK
| CLEM_OPC_CLC
| CLEM_OPC_CLD
| CLEM_OPC_CLI
| CLEM_OPC_CLV
| CLEM_OPC_CMP_IMM
| CLEM_OPC_CMP_ABS
| CLEM_OPC_CMP_ABSL
| CLEM_OPC_CMP_DP
| CLEM_OPC_CMP_DP_INDIRECT
| CLEM_OPC_CMP_DP_INDIRECTL
| CLEM_OPC_CMP_ABS_IDX
| CLEM_OPC_CMP_ABSL_IDX
| CLEM_OPC_CMP_ABS_IDY
| CLEM_OPC_CMP_DP_IDX
| CLEM_OPC_CMP_DP_IDX_INDIRECT
| CLEM_OPC_CMP_DP_INDIRECT_IDY
| CLEM_OPC_CMP_DP_INDIRECTL_IDY
| CLEM_OPC_CMP_STACK_REL
| CLEM_OPC_CMP_STACK_REL_INDIRECT_IDY
| CLEM_OPC_COP
| CLEM_OPC_CPX_IMM
| CLEM_OPC_CPX_ABS
| CLEM_OPC_CPX_DP
| CLEM_OPC_CPY_IMM
| CLEM_OPC_CPY_ABS
| CLEM_OPC_CPY_DP
| CLEM_OPC_DEC_A
| CLEM_OPC_DEC_ABS
| CLEM_OPC_DEC_DP
| CLEM_OPC_DEC_ABS_IDX
| CLEM_OPC_DEC_ABS_DP_IDX
| CLEM_OPC_DEX
| CLEM_OPC_DEY
| CLEM_OPC_EOR_IMM
| CLEM_OPC_EOR_ABS
| CLEM_OPC_EOR_ABSL
| CLEM_OPC_EOR_DP
| CLEM_OPC_EOR_DP_INDIRECT
| CLEM_OPC_EOR_DP_INDIRECTL
| CLEM_OPC_EOR_ABS_IDX
| CLEM_OPC_EOR_ABSL_IDX
| CLEM_OPC_EOR_ABS_IDY
| CLEM_OPC_EOR_DP_IDX
| CLEM_OPC_EOR_DP_IDX_INDIRECT
| CLEM_OPC_EOR_DP_INDIRECT_IDY
| CLEM_OPC_EOR_DP_INDIRECTL_IDY
| CLEM_OPC_EOR_STACK_REL
| CLEM_OPC_EOR_STACK_REL_INDIRECT_IDY
| CLEM_OPC_INC_A
| CLEM_OPC_INC_ABS
| CLEM_OPC_INC_DP
| CLEM_OPC_INC_ABS_IDX
| CLEM_OPC_INC_ABS_DP_IDX
| CLEM_OPC_INX
| CLEM_OPC_INY
| CLEM_OPC_JMP_ABS
| CLEM_OPC_JMP_INDIRECT
| CLEM_OPC_JMP_INDIRECT_IDX
| CLEM_OPC_JMP_ABSL
| CLEM_OPC_JMP_ABSL_INDIRECT
| CLEM_OPC_JSL
| CLEM_OPC_JSR
| CLEM_OPC_JSR_INDIRECT_IDX
| CLEM_OPC_LDA_IMM
| CLEM_OPC_LDA_ABS
| CLEM_OPC_LDA_ABSL
| CLEM_OPC_LDA_DP
| CLEM_OPC_LDA_DP_INDIRECT
| CLEM_OPC_LDA_DP_INDIRECTL
| CLEM_OPC_LDA_ABS_IDX
| CLEM_OPC_LDA_ABSL_IDX
| CLEM_OPC_LDA_ABS_IDY
| CLEM_OPC_LDA_DP_IDX
| CLEM_OPC_LDA_DP_IDX_INDIRECT
| CLEM_OPC_LDA_DP_INDIRECT_IDY
| CLEM_OPC_LDA_DP_INDIRECTL_IDY
| CLEM_OPC_LDA_STACK_REL
| CLEM_OPC_LDA_STACK_REL_INDIRECT_IDY
| CLEM_OPC_LDX_IMM
| CLEM_OPC_LDX_ABS
| CLEM_OPC_LDX_DP
| CLEM_OPC_LDX_ABS_IDY
| CLEM_OPC_LDX_DP_IDY
| CLEM_OPC_LDY_IMM
| CLEM_OPC_LDY_ABS
| CLEM_OPC_LDY_DP
| CLEM_OPC_LDY_ABS_IDX
| CLEM_OPC_LDY_DP_IDX
| CLEM_OPC_LSR_A
| CLEM_OPC_LSR_ABS
| CLEM_OPC_LSR_DP
| CLEM_OPC_LSR_ABS_IDX
| CLEM_OPC_LSR_ABS_DP_IDX
| CLEM_OPC_MVN
| CLEM_OPC_MVP
| CLEM_OPC_NOP
| CLEM_OPC_ORA_IMM
| CLEM_OPC_ORA_ABS
| CLEM_OPC_ORA_ABSL
| CLEM_OPC_ORA_DP
| CLEM_OPC_ORA_DP_INDIRECT
| CLEM_OPC_ORA_DP_INDIRECTL
| CLEM_OPC_ORA_ABS_IDX
| CLEM_OPC_ORA_ABSL_IDX
| CLEM_OPC_ORA_ABS_IDY
| CLEM_OPC_ORA_DP_IDX
| CLEM_OPC_ORA_DP_IDX_INDIRECT
| CLEM_OPC_ORA_DP_INDIRECT_IDY
| CLEM_OPC_ORA_DP_INDIRECTL_IDY
| CLEM_OPC_ORA_STACK_REL
| CLEM_OPC_ORA_STACK_REL_INDIRECT_IDY
| CLEM_OPC_PEA_ABS
| CLEM_OPC_PEI_DP_INDIRECT
| CLEM_OPC_PER
| CLEM_OPC_PHA
| CLEM_OPC_PHB
| CLEM_OPC_PHD
| CLEM_OPC_PHK
| CLEM_OPC_PHP
| CLEM_OPC_PHX
| CLEM_OPC_PHY
| CLEM_OPC_PLA
| CLEM_OPC_PLB
| CLEM_OPC_PLD
| CLEM_OPC_PLP
| CLEM_OPC_PLX
| CLEM_OPC_PLY
| CLEM_OPC_REP
| CLEM_OPC_ROL_A
| CLEM_OPC_ROL_ABS
| CLEM_OPC_ROL_DP
| CLEM_OPC_ROL_ABS_IDX
| CLEM_OPC_ROL_ABS_DP_IDX
| CLEM_OPC_ROR_A
| CLEM_OPC_ROR_ABS
| CLEM_OPC_ROR_DP
| CLEM_OPC_ROR_ABS_IDX
| CLEM_OPC_ROR_ABS_DP_IDX
| CLEM_OPC_RTI
| CLEM_OPC_RTL
| CLEM_OPC_RTS
| CLEM_OPC_SBC_IMM
| CLEM_OPC_SBC_ABS
| CLEM_OPC_SBC_ABSL
| CLEM_OPC_SBC_DP
| CLEM_OPC_SBC_DP_INDIRECT
| CLEM_OPC_SBC_DP_INDIRECTL
| CLEM_OPC_SBC_ABS_IDX
| CLEM_OPC_SBC_ABSL_IDX
| CLEM_OPC_SBC_ABS_IDY
| CLEM_OPC_SBC_DP_IDX
| CLEM_OPC_SBC_DP_IDX_INDIRECT
| CLEM_OPC_SBC_DP_INDIRECT_IDY
| CLEM_OPC_SBC_DP_INDIRECTL_IDY
| CLEM_OPC_SBC_STACK_REL
| CLEM_OPC_SBC_STACK_REL_INDIRECT_IDY
| CLEM_OPC_SEC
| CLEM_OPC_SED
| CLEM_OPC_SEI
| CLEM_OPC_SEP
| CLEM_OPC_STA_ABS
| CLEM_OPC_STA_ABSL
| CLEM_OPC_STA_DP
| CLEM_OPC_STA_DP_INDIRECT
| CLEM_OPC_STA_DP_INDIRECTL
| CLEM_OPC_STA_ABS_IDX
| CLEM_OPC_STA_ABSL_IDX
| CLEM_OPC_STA_ABS_IDY
| CLEM_OPC_STA_DP_IDX
| CLEM_OPC_STA_DP_IDX_INDIRECT
| CLEM_OPC_STA_DP_INDIRECT_IDY
| CLEM_OPC_STA_DP_INDIRECTL_IDY
| CLEM_OPC_STA_STACK_REL
| CLEM_OPC_STA_STACK_REL_INDIRECT_IDY
| CLEM_OPC_STP
| CLEM_OPC_STX_ABS
| CLEM_OPC_STX_DP
| CLEM_OPC_STX_DP_IDY
| CLEM_OPC_STY_ABS
| CLEM_OPC_STY_DP
| CLEM_OPC_STY_DP_IDX
| CLEM_OPC_STZ_ABS
| CLEM_OPC_STZ_DP
| CLEM_OPC_STZ_ABS_IDX
| CLEM_OPC_STZ_DP_IDX
| CLEM_OPC_TRB_ABS
| CLEM_OPC_TRB_DP
| CLEM_OPC_TSB_ABS
| CLEM_OPC_TSB_DP
| CLEM_OPC_TAX
| CLEM_OPC_TAY
| CLEM_OPC_TCD
| CLEM_OPC_TDC
| CLEM_OPC_TCS
| CLEM_OPC_TSC
| CLEM_OPC_TSX
| CLEM_OPC_TXA
| CLEM_OPC_TXS
| CLEM_OPC_TXY
| CLEM_OPC_TYA
| CLEM_OPC_TYX
| CLEM_OPC_WAI
| CLEM_OPC_WDM
| CLEM_OPC_XBA
| CLEM_OPC_XCE.

(** Modelled from the spec: the opcode bytes of [clem_code.h] (not among the
    sources), "every WDC 65C816 instruction with its addressing-mode
    variants": the published opcode map, one label per byte. *)
Definition wdc_opcode_of_byte (b : Z) : option Opcode :=
  match b with
  | 0 => Some CLEM_OPC_BRK
  | 1 => Some CLEM_OPC_ORA_DP_IDX_INDIRECT
  | 2 => Some CLEM_OPC_COP
  | 3 => Some CLEM_OPC_ORA_STACK_REL
  | 4 => Some CLEM_OPC_TSB_DP
  | 5 => Some CLEM_OPC_ORA_DP
  | 6 => Some CLEM_OPC_ASL_DP
  | 7 => Some CLEM_OPC_ORA_DP_INDIRECTL
  | 8 => Some CLEM_OPC_PHP
  | 9 => Some CLEM_OPC_ORA_IMM
  | 10 => Some CLEM_OPC_ASL_A
  | 11 => Some CLEM_OPC_PHD
  | 12 => Some CLEM_OPC_TSB_ABS
  | 13 => Some CLEM_OPC_ORA_ABS
  | 14 => Some CLEM_OPC_ASL_ABS
  | 15 => Some CLEM_OPC_ORA_ABSL
  | 16 => Some CLEM_OPC_BPL
  | 17 => Some CLEM_OPC_ORA_DP_INDIRECT_IDY
  | 18 => Some CLEM_OPC_ORA_DP_INDIRECT
  | 19 => Some CLEM_OPC_ORA_STACK_REL_INDIRECT_IDY
  | 20 => Some CLEM_OPC_TRB_DP
  | 21 => Some CLEM_OPC_ORA_DP_IDX
  | 22 => Some CLEM_OPC_ASL_ABS_DP_IDX
  | 23 => Some CLEM_OPC_ORA_DP_INDIRECTL_IDY
  | 24 => Some CLEM_OPC_CLC
  | 25 => Some CLEM_OPC_ORA_ABS_IDY
  | 26 => Some CLEM_OPC_INC_A
  | 27 => Some CLEM_OPC_TCS
  | 28 => Some CLEM_OPC_TRB_ABS
  | 29 => Some CLEM_OPC_ORA_ABS_IDX
  | 30 => Some CLEM_OPC_ASL_ABS_IDX
  | 31 => Some CLEM_OPC_ORA_ABSL_IDX
  | 32 => Some CLEM_OPC_JSR
  | 33 => Some CLEM_OPC_AND_DP_IDX_INDIRECT
  | 34 => Some CLEM_OPC_JSL
  | 35 => Some CLEM_OPC_AND_STACK_REL
  | 36 => Some CLEM_OPC_BIT_DP
  | 37 => Some CLEM_OPC_AND_DP
  | 38 => Some CLEM_OPC_ROL_DP
  | 39 => Some CLEM_OPC_AND_DP_INDIRECTL
  | 40 => Some CLEM_OPC_PLP
  | 41 => Some CLEM_OPC_AND_IMM
  | 42 => Some CLEM_OPC_ROL_A
  | 43 => Some CLEM_OPC_PLD
  | 44 => Some CLEM_OPC_BIT_ABS
  | 45 => Some CLEM_OPC_AND_ABS
  | 46 => Some CLEM_OPC_ROL_ABS
  | 47 => Some CLEM_OPC_AND_ABSL
  | 48 => Some CLEM_OPC_BMI
  | 49 => Some CLEM_OPC_AND_DP_INDIRECT_IDY
  | 50 => Some CLEM_OPC_AND_DP_INDIRECT
  | 51 => Some CLEM_OPC_AND_STACK_REL_INDIRECT_IDY
  | 52 => Some CLEM_OPC_BIT_DP_IDX
  | 53 => Some CLEM_OPC_AND_DP_IDX
  | 54 => Some CLEM_OPC_ROL_ABS_DP_IDX
  | 55 => Some CLEM_OPC_AND_DP_INDIRECTL_IDY
  | 56 => Some CLEM_OPC_SEC
  | 57 => Some CLEM_OPC_AND_ABS_IDY
  | 58 => Some CLEM_OPC_DEC_A
  | 59 => Some CLEM_OPC_TSC
  | 60 => Some CLEM_OPC_BIT_ABS_IDX
  | 61 => Some CLEM_OPC_AND_ABS_IDX
  | 62 => Some CLEM_OPC_ROL_ABS_IDX
  | 63 => Some CLEM_OPC_AND_ABSL_IDX
  | 64 => Some CLEM_OPC_RTI
  | 65 => Some CLEM_OPC_EOR_DP_IDX_INDIRECT
  | 66 => Some CLEM_OPC_WDM
  | 67 => Some CLEM_OPC_EOR_STACK_REL
  | 68 => Some CLEM_OPC_MVP
  | 69 => Some CLEM_OPC_EOR_DP
  | 70 => Some CLEM_OPC_LSR_DP
  | 71 => Some CLEM_OPC_EOR_DP_INDIRECTL
  | 72 => Some CLEM_OPC_PHA
  | 73 => Some CLEM_OPC_EOR_IMM
  | 74 => Some CLEM_OPC_LSR_A
  | 75 => Some CLEM_OPC_PHK
  | 76 => Some CLEM_OPC_JMP_ABS
  | 77 => Some CLEM_OPC_EOR_ABS
  | 78 => Some CLEM_OPC_LSR_ABS
  | 79 => Some CLEM_OPC_EOR_ABSL
  | 80 => Some CLEM_OPC_BVC
  | 81 => Some CLEM_OPC_EOR_DP_INDIRECT_IDY
  | 82 => Some CLEM_OPC_EOR_DP_INDIRECT
  | 83 => Some CLEM_OPC_EOR_STACK_REL_INDIRECT_IDY
  | 84 => Some CLEM_OPC_MVN
  | 85 => Some CLEM_OPC_EOR_DP_IDX
  | 86 => Some CLEM_OPC_LSR_ABS_DP_IDX
  | 87 => Some CLEM_OPC_EOR_DP_INDIRECTL_IDY
  | 88 => Some CLEM_OPC_CLI
  | 89 => Some CLEM_OPC_EOR_ABS_IDY
  | 90 => Some CLEM_OPC_PHY
  | 91 => Some CLEM_OPC_TCD
  | 92 => Some CLEM_OPC_JMP_ABSL
  | 93 => Some CLEM_OPC_EOR_ABS_IDX
  | 94 => Some CLEM_OPC_LSR_ABS_IDX
  | 95 => Some CLEM_OPC_EOR_ABSL_IDX
  | 96 => Some CLEM_OPC_RTS
  | 97 => Some CLEM_OPC_ADC_DP_IDX_INDIRECT
  | 98 => Some CLEM_OPC_PER
  | 99 => Some CLEM_OPC_ADC_STACK_REL
  | 100 => Some CLEM_OPC_STZ_DP
  | 101 => Some CLEM_OPC_ADC_DP
  | 102 => Some CLEM_OPC_ROR_DP
  | 103 => Some CLEM_OPC_ADC_DP_INDIRECTL
  | 104 => Some CLEM_OPC_PLA
  | 105 => Some CLEM_OPC_ADC_IMM
  | 106 => Some CLEM_OPC_ROR_A
  | 107 => Some CLEM_OPC_RTL
  | 108 => Some CLEM_OPC_JMP_INDIRECT
  | 109 => Some CLEM_OPC_ADC_ABS
  | 110 => Some CLEM_OPC_ROR_ABS
  | 111 => Some CLEM_OPC_ADC_ABSL
  | 112 => Some CLEM_OPC_BVS
  | 113 => Some CLEM_OPC_ADC_DP_INDIRECT_IDY
  | 114 => Some CLEM_OPC_ADC_DP_INDIRECT
  | 115 => Some CLEM_OPC_ADC_STACK_REL_INDIRECT_IDY
  | 116 => Some CLEM_OPC_STZ_DP_IDX
  | 117 => Some CLEM_OPC_ADC_DP_IDX
  | 118 => Some CLEM_OPC_ROR_ABS_DP_IDX
  | 119 => Some CLEM_OPC_ADC_DP_INDIRECTL_IDY
  | 120 => Some CLEM_OPC_SEI
  | 121 => Some CLEM_OPC_ADC_ABS_IDY
  | 122 => Some CLEM_OPC_PLY
  | 123 => Some CLEM_OPC_TDC
  | 124 => Some CLEM_OPC_JMP_INDIRECT_IDX
  | 125 => Some CLEM_OPC_ADC_ABS_IDX
  | 126 => Some CLEM_OPC_ROR_ABS_IDX
  | 127 => Some CLEM_OPC_ADC_ABSL_IDX
  | 128 => Some CLEM_OPC_BRA
  | 129 => Some CLEM_OPC_STA_DP_IDX_INDIRECT
  | 130 => Some CLEM_OPC_BRL
  | 131 => Some CLEM_OPC_STA_STACK_REL
  | 132 => Some CLEM_OPC_STY_DP
  | 133 => Some CLEM_OPC_STA_DP
  | 134 => Some CLEM_OPC_STX_DP
  | 135 => Some CLEM_OPC_STA_DP_INDIRECTL
  | 136 => Some CLEM_OPC_DEY
  | 137 => Some CLEM_OPC_BIT_IMM
  | 138 => Some CLEM_OPC_TXA
  | 139 => Some CLEM_OPC_PHB
  | 140 => Some CLEM_OPC_STY_ABS
  | 141 => Some CLEM_OPC_STA_ABS
  | 142 => Some CLEM_OPC_STX_ABS
  | 143 => Some CLEM_OPC_STA_ABSL
  | 144 => Some CLEM_OPC_BCC
  | 145 => Some CLEM_OPC_STA_DP_INDIRECT_IDY
  | 146 => Some CLEM_OPC_STA_DP_INDIRECT
  | 147 => Some CLEM_OPC_STA_STACK_REL_INDIRECT_IDY
  | 148 => Some CLEM_OPC_STY_DP_IDX
  | 149 => Some CLEM_OPC_STA_DP_IDX
  | 150 => Some CLEM_OPC_STX_DP_IDY
  | 151 => Some CLEM_OPC_STA_DP_INDIRECTL_IDY
  | 152 => Some CLEM_OPC_TYA
  | 153 => Some CLEM_OPC_STA_ABS_IDY
  | 154 => Some CLEM_OPC_TXS
  | 155 => Some CLEM_OPC_TXY
  | 156 => Some CLEM_OPC_STZ_ABS
  | 157 => Some CLEM_OPC_STA_ABS_IDX
  | 158 => Some CLEM_OPC_STZ_ABS_IDX
  | 159 => Some CLEM_OPC_STA_ABSL_IDX
  | 160 => Some CLEM_OPC_LDY_IMM
  | 161 => Some CLEM_OPC_LDA_DP_IDX_INDIRECT
  | 162 => Some CLEM_OPC_LDX_IMM
  | 163 => Some CLEM_OPC_LDA_STACK_REL
  | 164 => Some CLEM_OPC_LDY_DP
  | 165 => Some CLEM_OPC_LDA_DP
  | 166 => Some CLEM_OPC_LDX_DP
  | 167 => Some CLEM_OPC_LDA_DP_INDIRECTL
  | 168 => Some CLEM_OPC_TAY
  | 169 => Some CLEM_OPC_LDA_IMM
  | 170 => Some CLEM_OPC_TAX
  | 171 => Some CLEM_OPC_PLB
  | 172 => Some CLEM_OPC_LDY_ABS
  | 173 => Some CLEM_OPC_LDA_ABS
  | 174 => Some CLEM_OPC_LDX_ABS
  | 175 => Some CLEM_OPC_LDA_ABSL
  | 176 => Some CLEM_OPC_BCS
  | 177 => Some CLEM_OPC_LDA_DP_INDIRECT_IDY
  | 178 => Some CLEM_OPC_LDA_DP_INDIRECT
  | 179 => Some CLEM_OPC_LDA_STACK_REL_INDIRECT_IDY
  | 180 => Some CLEM_OPC_LDY_DP_IDX
  | 181 => Some CLEM_OPC_LDA_DP_IDX
  | 182 => Some CLEM_OPC_LDX_DP_IDY
  | 183 => Some CLEM_OPC_LDA_DP_INDIRECTL_IDY
  | 184 => Some CLEM_OPC_CLV
  | 185 => Some CLEM_OPC_LDA_ABS_IDY
  | 186 => Some CLEM_OPC_TSX
  | 187 => Some CLEM_OPC_TYX
  | 188 => Some CLEM_OPC_LDY_ABS_IDX
  | 189 => Some CLEM_OPC_LDA_ABS_IDX
  | 190 => Some CLEM_OPC_LDX_ABS_IDY
  | 191 => Some CLEM_OPC_LDA_ABSL_IDX
  | 192 => Some CLEM_OPC_CPY_IMM
  | 193 => Some CLEM_OPC_CMP_DP_IDX_INDIRECT
  | 194 => Some CLEM_OPC_REP
  | 195 => Some CLEM_OPC_CMP_STACK_REL
  | 196 => Some CLEM_OPC_CPY_DP
  | 197 => Some CLEM_OPC_CMP_DP
  | 198 => Some CLEM_OPC_DEC_DP
  | 199 => Some CLEM_OPC_CMP_DP_INDIRECTL
  | 200 => Some CLEM_OPC_INY
  | 201 => Some CLEM_OPC_CMP_IMM
  | 202 => Some CLEM_OPC_DEX
  | 203 => Some CLEM_OPC_WAI
  | 204 => Some CLEM_OPC_CPY_ABS
  | 205 => Some CLEM_OPC_CMP_ABS
  | 206 => Some CLEM_OPC_DEC_ABS
  | 207 => Some CLEM_OPC_CMP_ABSL
  | 208 => Some CLEM_OPC_BNE
  | 209 => Some CLEM_OPC_CMP_DP_INDIRECT_IDY
  | 210 => Some CLEM_OPC_CMP_DP_INDIRECT
  | 211 => Some CLEM_OPC_CMP_STACK_REL_INDIRECT_IDY
  | 212 => Some CLEM_OPC_PEI_DP_INDIRECT
  | 213 => Some CLEM_OPC_CMP_DP_IDX
  | 214 => Some CLEM_OPC_DEC_ABS_DP_IDX
  | 215 => Some CLEM_OPC_CMP_DP_INDIRECTL_IDY
  | 216 => Some CLEM_OPC_CLD
  | 217 => Some CLEM_OPC_CMP_ABS_IDY
  | 218 => Some CLEM_OPC_PHX
  | 219 => Some CLEM_OPC_STP
  | 220 => Some CLEM_OPC_JMP_ABSL_INDIRECT
  | 221 => Some CLEM_OPC_CMP_ABS_IDX
  | 222 => Some CLEM_OPC_DEC_ABS_IDX
  | 223 => Some CLEM_OPC_CMP_ABSL_IDX
  | 224 => Some CLEM_OPC_CPX_IMM
  | 225 => Some CLEM_OPC_SBC_DP_IDX_INDIRECT
  | 226 => Some CLEM_OPC_SEP
  | 227 => Some CLEM_OPC_SBC_STACK_REL
  | 228 => Some CLEM_OPC_CPX_DP
  | 229 => Some CLEM_OPC_SBC_DP
  | 230 => Some CLEM_OPC_INC_DP
  | 231 => Some CLEM_OPC_SBC_DP_INDIRECTL
  | 232 => Some CLEM_OPC_INX
  | 233 => Some CLEM_OPC_SBC_IMM
  | 234 => Some CLEM_OPC_NOP
  | 235 => Some CLEM_OPC_XBA
  | 236 => Some CLEM_OPC_CPX_ABS
  | 237 => Some CLEM_OPC_SBC_ABS
  | 238 => Some CLEM_OPC_INC_ABS
  | 239 => Some CLEM_OPC_SBC_ABSL
  | 240 => Some CLEM_OPC_BEQ
  | 241 => Some CLEM_OPC_SBC_DP_INDIRECT_IDY
  | 242 => Some CLEM_OPC_SBC_DP_INDIRECT
  | 243 => Some CLEM_OPC_SBC_STACK_REL_INDIRECT_IDY
  | 244 => Some CLEM_OPC_PEA_ABS
  | 245 => Some CLEM_OPC_SBC_DP_IDX
  | 246 => Some CLEM_OPC_INC_ABS_DP_IDX
  | 247 => Some CLEM_OPC_SBC_DP_INDIRECTL_IDY
  | 248 => Some CLEM_OPC_SED
  | 249 => Some CLEM_OPC_SBC_ABS_IDY
  | 250 => Some CLEM_OPC_PLX
  | 251 => Some CLEM_OPC_XCE
  | 252 => Some CLEM_OPC_JSR_INDIRECT_IDX
  | 253 => Some CLEM_OPC_SBC_ABS_IDX
  | 254 => Some CLEM_OPC_INC_ABS_IDX
  | 255 => Some CLEM_OPC_SBC_ABSL_IDX
  | _ => None
  end.

(** [_clem_debug_memory_dump] writes pages of memory to a file of the host;
    the machine is not touched. *)
Definition _clem_debug_memory_dump (mem_page mem_bank page_count : Z) : M unit :=
  ret tt.

Section Executor.

Variable vt : VectorTable.

(** The values of the case labels ([clem_code.h], not among the sources):
    the label that the switch has for an opcode byte, [None] when no case
    matches and the default branch is taken. *)
Variable opcode_table : Z -> option Opcode.

(** In a release build ([NDEBUG] defined) the assertions are compiled out. *)
Variable NDEBUG : bool.

(** The cases of the switch in [cpu_execute]: each takes the locals computed
    before the switch and yields the final [tmp_pc]. The trace record
    [opc_inst] that the cases also fill is written to no machine state and
    is left out. *)
Definition cpu_execute_op (op : Opcode) (m_status x_status carry zero_flag : bool)
    (tmp_pc : Z) : M Z :=
  match op with
  | CLEM_OPC_ADC_IMM =>
      '(tmp_value, tmp_pc) <- _clem_read_pba_mode_imm_816 tmp_pc m_status ;;
      rP <- rd P ;;
      (if negb (flag rP kClemensCPUStatus_Decimal)
       then _cpu_adc tmp_value m_status
       else _cpu_adc_bcd tmp_value m_status) ;;
      ret tmp_pc
  | CLEM_OPC_ADC_ABS =>
      '(tmp_addr, tmp_pc) <- _clem_read_pba_mode_abs tmp_pc ;;
      rDBR <- rd DBR ;;
      tmp_value <- _clem_read_data_816 tmp_addr rDBR m_status ;;
      rP <- rd P ;;
      (if negb (flag rP kClemensCPUStatus_Decimal)
       then _cpu_adc tmp_value m_status
       else _cpu_adc_bcd tmp_value m_status) ;;
      ret tmp_pc
  | CLEM_OPC_ADC_ABSL =>
      '(tmp_addr, tmp_bnk0, tmp_pc) <- _clem_read_pba_mode_absl tmp_pc ;;
      tmp_value <- _clem_read_data_816 tmp_addr tmp_bnk0 m_status ;;
      rP <- rd P ;;
      (if negb (flag rP kClemensCPUStatus_Decimal)
       then _cpu_adc tmp_value m_status
       else _cpu_adc_bcd tmp_value m_status) ;;
      ret tmp_pc
  | CLEM_OPC_ADC_DP =>
      '(tmp_addr, tmp_pc, tmp_data) <- _clem_read_pba_mode_dp tmp_pc 0 false ;;
      tmp_value <- _clem_read_data_816 tmp_addr 0 m_status ;;
      rP <- rd P ;;
      (if negb (flag rP kClemensCPUStatus_Decimal)
       then _cpu_adc tmp_value m_status
       else _cpu_adc_bcd tmp_value m_status) ;;
      ret tmp_pc
  | CLEM_OPC_ADC_DP_INDIRECT =>
      '(tmp_addr, tmp_pc, tmp_data) <- _clem_read_pba_mode_dp_indirect tmp_pc 0 false ;;
      rDBR <- rd DBR ;;
      tmp_value <- _clem_read_data_816 tmp_addr rDBR m_status ;;
      rP <- rd P ;;
      (if negb (flag rP kClemensCPUStatus_Decimal)
       then _cpu_adc tmp_value m_status
       else _cpu_adc_bcd tmp_value m_status) ;;
      ret tmp_pc
  | CLEM_OPC_ADC_DP_INDIRECTL =>
      '(tmp_addr, tmp_bnk0, tmp_pc, tmp_data) <- _clem_read_pba_mode_dp_indirectl tmp_pc 0 false ;;
      tmp_value <- _clem_read_data_816 tmp_addr tmp_bnk0 m_status ;;
      rP <- rd P ;;
      (if negb (flag rP kClemensCPUStatus_Decimal)
       then _cpu_adc tmp_value m_status
       else _cpu_adc_bcd tmp_value m_status) ;;
      ret tmp_pc
  | CLEM_OPC_ADC_ABS_IDX =>
      '(tmp_addr, tmp_pc) <- _clem_read_pba_mode_abs tmp_pc ;;
      rX <- rd X ;;
      rDBR <- rd DBR ;;
      tmp_value <- _clem_read_data_indexed_816 tmp_addr rX rDBR m_status x_status ;;
      rP <- rd P ;;
      (if negb (flag rP kClemensCPUStatus_Decimal)
       then _cpu_adc tmp_value m_status
       else _cpu_adc_bcd tmp_value m_status) ;;
      ret tmp_pc
  | CLEM_OPC_ADC_ABSL_IDX =>
      '(tmp_addr, tmp_bnk0, tmp_pc) <- _clem_read_pba_mode_absl tmp_pc ;;
      rX <- rd X ;;
      tmp_value <- _clem_read_data_indexed_816 tmp_addr rX tmp_bnk0 m_status x_status ;;
      rP <- rd P ;;
      (if negb (flag rP kClemensCPUStatus_Decimal)
       then _cpu_adc tmp_value m_status
       else _cpu_adc_bcd tmp_value m_status) ;;
      ret tmp_pc
  | CLEM_OPC_ADC_ABS_IDY =>
      '(tmp_addr, tmp_pc) <- _clem_read_pba_mode_abs tmp_pc ;;
      rY <- rd Y ;;
      rDBR <- rd DBR ;;
      tmp_value <- _clem_read_data_indexed_816 tmp_addr rY rDBR m_status x_status ;;
      rP <- rd P ;;
      (if negb (flag rP kClemensCPUStatus_Decimal)
       then _cpu_adc tmp_value m_status
       else _cpu_adc_bcd tmp_value m_status) ;;
      ret tmp_pc
  | CLEM_OPC_ADC_DP_IDX =>
      rX <- rd X ;;
      '(tmp_addr, tmp_pc, tmp_data) <- _clem_read_pba_mode_dp tmp_pc rX x_status ;;
      _clem_cycle 1 ;;
      tmp_value <- _clem_read_data_816 tmp_addr 0 m_status ;;
      rP <- rd P ;;
      (if negb (flag rP kClemensCPUStatus_Decimal)
       then _cpu_adc tmp_value m_status
       else _cpu_adc_bcd tmp_value m_status) ;;
      ret tmp_pc
  | CLEM_OPC_ADC_DP_IDX_INDIRECT =>
      rX <- rd X ;;
      '(tmp_addr, tmp_pc, tmp_data) <- _clem_read_pba_mode_dp_indirect tmp_pc rX x_status ;;
      _clem_cycle 1 ;;
      rDBR <- rd DBR ;;
      tmp_value <- _clem_read_data_816 tmp_addr rDBR m_status ;;
      rP <- rd P ;;
      (if negb (flag rP kClemensCPUStatus_Decimal)
       then _cpu_adc tmp_value m_status
       else _cpu_adc_bcd tmp_value m_status) ;;
      ret tmp_pc
  | CLEM_OPC_ADC_DP_INDIRECT_IDY =>
      '(tmp_addr, tmp_pc, tmp_data) <- _clem_read_pba_mode_dp_indirect tmp_pc 0 false ;;
      rY <- rd Y ;;
      rDBR <- rd DBR ;;
      tmp_value <- _clem_read_data_indexed_816 tmp_addr rY rDBR m_status x_status ;;
      rP <- rd P ;;
      (if negb (flag rP kClemensCPUStatus_Decimal)
       then _cpu_adc tmp_value m_status
       else _cpu_adc_bcd tmp_value m_status) ;;
      ret tmp_pc
  | CLEM_OPC_ADC_DP_INDIRECTL_IDY =>
      '(tmp_addr, tmp_bnk0, tmp_pc, tmp_data) <- _clem_read_pba_mode_dp_indirectl tmp_pc 0 false ;;
      rY <- rd Y ;;
      tmp_value <- _clem_read_data_indexed_816 tmp_addr rY tmp_bnk0 m_status x_status ;;
      rP <- rd P ;;
      (if negb (flag rP kClemensCPUStatus_Decimal)
       then _cpu_adc tmp_value m_status
       else _cpu_adc_bcd tmp_value m_status) ;;
      ret tmp_pc
  | CLEM_OPC_ADC_STACK_REL =>
      '(tmp_addr, tmp_pc, tmp_data) <- _clem_read_pba_mode_stack_rel tmp_pc ;;
      tmp_value <- _clem_read_data_816 tmp_addr 0 m_status ;;
      rP <- rd P ;;
      (if negb (flag rP kClemensCPUStatus_Decimal)
       then _cpu_adc tmp_value m_status
       else _cpu_adc_bcd tmp_value m_status) ;;
      ret tmp_pc
  | CLEM_OPC_ADC_STACK_REL_INDIRECT_IDY =>
      '(tmp_addr, tmp_pc, tmp_data) <- _clem_read_pba_mode_stack_rel_indirect tmp_pc ;;
      rY <- rd Y ;;
      rDBR <- rd DBR ;;
      tmp_value <- _clem_read_data_indexed_816 tmp_addr rY rDBR m_status x_status ;;
      rP <- rd P ;;
      (if negb (flag rP kClemensCPUStatus_Decimal)
       then _cpu_adc tmp_value m_status
       else _cpu_adc_bcd tmp_value m_status) ;;
      ret tmp_pc
  | CLEM_OPC_AND_IMM =>
      '(tmp_value, tmp_pc) <- _clem_read_pba_mode_imm_816 tmp_pc m_status ;;
      _cpu_and tmp_value m_status ;;
      ret tmp_pc
  | CLEM_OPC_AND_ABS =>
      '(tmp_addr, tmp_pc) <- _clem_read_pba_mode_abs tmp_pc ;;
      rDBR <- rd DBR ;;
      tmp_value <- _clem_read_data_816 tmp_addr rDBR m_status ;;
      _cpu_and tmp_value m_status ;;
      ret tmp_pc
  | CLEM_OPC_AND_ABSL =>
      '(tmp_addr, tmp_bnk0, tmp_pc) <- _clem_read_pba_mode_absl tmp_pc ;;
      tmp_value <- _clem_read_data_816 tmp_addr tmp_bnk0 m_status ;;
      _cpu_and tmp_value m_status ;;
      ret tmp_pc
  | CLEM_OPC_AND_DP =>
      '(tmp_addr, tmp_pc, tmp_data) <- _clem_read_pba_mode_dp tmp_pc 0 false ;;
      tmp_value <- _clem_read_data_816 tmp_addr 0 m_status ;;
      _cpu_and tmp_value m_status ;;
      ret tmp_pc
  | CLEM_OPC_AND_DP_INDIRECT =>
      '(tmp_addr, tmp_pc, tmp_data) <- _clem_read_pba_mode_dp_indirect tmp_pc 0 false ;;
      rDBR <- rd DBR ;;
      tmp_value <- _clem_read_data_816 tmp_addr rDBR m_status ;;
      _cpu_and tmp_value m_status ;;
      ret tmp_pc
  | CLEM_OPC_AND_DP_INDIRECTL =>
      '(tmp_addr, tmp_bnk0, tmp_pc, tmp_data) <- _clem_read_pba_mode_dp_indirectl tmp_pc 0 false ;;
      tmp_value <- _clem_read_data_816 tmp_addr tmp_bnk0 m_status ;;
      _cpu_and tmp_value m_status ;;
      ret tmp_pc
  | CLEM_OPC_AND_ABS_IDX =>
      '(tmp_addr, tmp_pc) <- _clem_read_pba_mode_abs tmp_pc ;;
      rX <- rd X ;;
      rDBR <- rd DBR ;;
      tmp_value <- _clem_read_data_indexed_816 tmp_addr rX rDBR m_status x_status ;;
      _cpu_and tmp_value m_status ;;
      ret tmp_pc
  | CLEM_OPC_AND_ABSL_IDX =>
      '(tmp_addr, tmp_bnk0, tmp_pc) <- _clem_read_pba_mode_absl tmp_pc ;;
      rX <- rd X ;;
      tmp_value <- _clem_read_data_indexed_816 tmp_addr rX tmp_bnk0 m_status x_status ;;
      _cpu_and tmp_value m_status ;;
      ret tmp_pc
  | CLEM_OPC_AND_ABS_IDY =>
      '(tmp_addr, tmp_pc) <- _clem_read_pba_mode_abs tmp_pc ;;
      rY <- rd Y ;;
      rDBR <- rd DBR ;;
      tmp_value <- _clem_read_data_indexed_816 tmp_addr rY rDBR m_status x_status ;;
      _cpu_and tmp_value m_status ;;
      ret tmp_pc
  | CLEM_OPC_AND_DP_IDX =>
      rX <- rd X ;;
      '(tmp_addr, tmp_pc, tmp_data) <- _clem_read_pba_mode_dp tmp_pc rX x_status ;;
      _clem_cycle 1 ;;
      tmp_value <- _clem_read_data_816 tmp_addr 0 m_status ;;
      _cpu_and tmp_value m_status ;;
      ret tmp_pc
  | CLEM_OPC_AND_DP_IDX_INDIRECT =>
      rX <- rd X ;;
      '(tmp_addr, tmp_pc, tmp_data) <- _clem_read_pba_mode_dp_indirect tmp_pc rX x_status ;;
      _clem_cycle 1 ;;
      rDBR <- rd DBR ;;
      tmp_value <- _clem_read_data_816 tmp_addr rDBR m_status ;;
      _cpu_and tmp_value m_status ;;
      ret tmp_pc
  | CLEM_OPC_AND_DP_INDIRECT_IDY =>
      '(tmp_addr, tmp_pc, tmp_data) <- _clem_read_pba_mode_dp_indirect tmp_pc 0 false ;;
      rY <- rd Y ;;
      rDBR <- rd DBR ;;
      tmp_value <- _clem_read_data_indexed_816 tmp_addr rY rDBR m_status x_status ;;
      _cpu_and tmp_value m_status ;;
      ret tmp_pc
  | CLEM_OPC_AND_DP_INDIRECTL_IDY =>
      '(tmp_addr, tmp_bnk0, tmp_pc, tmp_data) <- _clem_read_pba_mode_dp_indirectl tmp_pc 0 false ;;
      rY <- rd Y ;;
      tmp_value <- _clem_read_data_indexed_816 tmp_addr rY tmp_bnk0 m_status x_status ;;
      _cpu_and tmp_value m_status ;;
      ret tmp_pc
  | CLEM_OPC_AND_STACK_REL =>
      '(tmp_addr, tmp_pc, tmp_data) <- _clem_read_pba_mode_stack_rel tmp_pc ;;
      tmp_value <- _clem_read_data_816 tmp_addr 0 m_status ;;
      _cpu_and tmp_value m_status ;;
      ret tmp_pc
  | CLEM_OPC_AND_STACK_REL_INDIRECT_IDY =>
      '(tmp_addr, tmp_pc, tmp_data) <- _clem_read_pba_mode_stack_rel_indirect tmp_pc ;;
      rY <- rd Y ;;
      rDBR <- rd DBR ;;
      tmp_value <- _clem_read_data_indexed_816 tmp_addr rY rDBR m_status x_status ;;
      _cpu_and tmp_value m_status ;;
      ret tmp_pc
  | CLEM_OPC_ASL_A =>
      modify_A (fun rA => _cpu_asl rA m_status) ;;
      _clem_cycle 1 ;;
      ret tmp_pc
  | CLEM_OPC_ASL_ABS =>
      '(tmp_addr, tmp_pc) <- _clem_read_pba_mode_abs tmp_pc ;;
      rDBR <- rd DBR ;;
      tmp_value <- _clem_read_data_816 tmp_addr rDBR m_status ;;
      tmp_value <- _cpu_asl tmp_value m_status ;;
      _clem_cycle 1 ;;
      rDBR <- rd DBR ;;
      _clem_write_816 tmp_value tmp_addr rDBR m_status ;;
      ret tmp_pc
  | CLEM_OPC_ASL_DP =>
      '(tmp_addr, tmp_pc, tmp_data) <- _clem_read_pba_mode_dp tmp_pc 0 false ;;
      tmp_value <- _clem_read_data_816 tmp_addr 0 m_status ;;
      tmp_value <- _cpu_asl tmp_value m_status ;;
      _clem_cycle 1 ;;
      _clem_write_816 tmp_value tmp_addr 0 m_status ;;
      ret tmp_pc
  | CLEM_OPC_ASL_ABS_IDX =>
      '(tmp_addr, tmp_pc) <- _clem_read_pba_mode_abs tmp_pc ;;
      _clem_cycle 1 ;;
      rX <- rd X ;;
      rDBR <- rd DBR ;;
      tmp_value <- _clem_read_data_indexed_816 tmp_addr rX rDBR m_status x_status ;;
      tmp_value <- _cpu_asl tmp_value m_status ;;
      _clem_cycle 1 ;;
      rX <- rd X ;;
      rDBR <- rd DBR ;;
      _clem_write_indexed_816 tmp_value tmp_addr rX rDBR m_status x_status ;;
      ret tmp_pc
  | CLEM_OPC_ASL_ABS_DP_IDX =>
      rX <- rd X ;;
      '(tmp_addr, tmp_pc, tmp_data) <- _clem_read_pba_mode_dp tmp_pc rX x_status ;;
      _clem_cycle 1 ;;
      tmp_value <- _clem_read_data_816 tmp_addr 0 m_status ;;
      tmp_value <- _cpu_asl tmp_value m_status ;;
      _clem_cycle 1 ;;
      _clem_write_816 tmp_value tmp_addr 0 m_status ;;
      ret tmp_pc
  | CLEM_OPC_BIT_IMM =>
      '(tmp_value, tmp_pc) <- _clem_read_pba_mode_imm_816 tmp_pc m_status ;;
      _cpu_bit_imm tmp_value m_status ;;
      ret tmp_pc
  | CLEM_OPC_BIT_ABS =>
      '(tmp_addr, tmp_pc) <- _clem_read_pba_mode_abs tmp_pc ;;
      rDBR <- rd DBR ;;
      tmp_value <- _clem_read_data_816 tmp_addr rDBR m_status ;;
      _cpu_bit tmp_value m_status ;;
      ret tmp_pc
  | CLEM_OPC_BIT_DP =>
      '(tmp_addr, tmp_pc, tmp_data) <- _clem_read_pba_mode_dp tmp_pc 0 false ;;
      tmp_value <- _clem_read_data_816 tmp_addr 0 m_status ;;
      _cpu_bit tmp_value m_status ;;
      ret tmp_pc
  | CLEM_OPC_BIT_ABS_IDX =>
      '(tmp_addr, tmp_pc) <- _clem_read_pba_mode_abs tmp_pc ;;
      rX <- rd X ;;
      rDBR <- rd DBR ;;
      tmp_value <- _clem_read_data_indexed_816 tmp_addr rX rDBR m_status x_status ;;
      _cpu_bit tmp_value m_status ;;
      ret tmp_pc
  | CLEM_OPC_BIT_DP_IDX =>
      rX <- rd X ;;
      '(tmp_addr, tmp_pc, tmp_data) <- _clem_read_pba_mode_dp tmp_pc rX x_status ;;
      tmp_value <- _clem_read_data_816 tmp_addr 0 m_status ;;
      _cpu_bit tmp_value m_status ;;
      ret tmp_pc
  | CLEM_OPC_BCC =>
      '(tmp_data, tmp_pc) <- _clem_read_pba tmp_pc ;;
      tmp_pc <- _clem_branch tmp_pc tmp_data (negb carry) ;;
      ret tmp_pc
  | CLEM_OPC_BCS =>
      '(tmp_data, tmp_pc) <- _clem_read_pba tmp_pc ;;
      tmp_pc <- _clem_branch tmp_pc tmp_data carry ;;
      ret tmp_pc
  | CLEM_OPC_BEQ =>
      '(tmp_data, tmp_pc) <- _clem_read_pba tmp_pc ;;
      tmp_pc <- _clem_branch tmp_pc tmp_data zero_flag ;;
      ret tmp_pc
  | CLEM_OPC_BMI =>
      '(tmp_data, tmp_pc) <- _clem_read_pba tmp_pc ;;
      rP <- rd P ;;
      tmp_pc <- _clem_branch tmp_pc tmp_data (flag rP kClemensCPUStatus_Negative) ;;
      ret tmp_pc
  | CLEM_OPC_BNE =>
      '(tmp_data, tmp_pc) <- _clem_read_pba tmp_pc ;;
      tmp_pc <- _clem_branch tmp_pc tmp_data (negb zero_flag) ;;
      ret tmp_pc
  | CLEM_OPC_BPL =>
      '(tmp_data, tmp_pc) <- _clem_read_pba tmp_pc ;;
      rP <- rd P ;;
      tmp_pc <- _clem_branch tmp_pc tmp_data (negb (flag rP kClemensCPUStatus_Negative)) ;;
      ret tmp_pc
  | CLEM_OPC_BRA =>
      '(tmp_data, tmp_pc) <- _clem_read_pba tmp_pc ;;
      tmp_pc <- _clem_branch tmp_pc tmp_data true ;;
      ret tmp_pc
  | CLEM_OPC_BRL =>
      '(tmp_value, tmp_pc) <- _clem_read_pba_16 tmp_pc ;;
      let tmp_addr := u16 (tmp_pc + s16 tmp_value) in
      _clem_cycle 1 ;;
      let tmp_pc := tmp_addr in
      ret tmp_pc
  | CLEM_OPC_BVC =>
      '(tmp_data, tmp_pc) <- _clem_read_pba tmp_pc ;;
      rP <- rd P ;;
      tmp_pc <- _clem_branch tmp_pc tmp_data (negb (flag rP kClemensCPUStatus_Overflow)) ;;
      ret tmp_pc
  | CLEM_OPC_BVS =>
      '(tmp_data, tmp_pc) <- _clem_read_pba tmp_pc ;;
      rP <- rd P ;;
      tmp_pc <- _clem_branch tmp_pc tmp_data (flag rP kClemensCPUStatus_Overflow) ;;
      ret tmp_pc
  | CLEM_OPC_CLC =>
      clear_P_bits kClemensCPUStatus_Carry ;;
      _clem_cycle 1 ;;
      ret tmp_pc
  | CLEM_OPC_CLD =>
      clear_P_bits kClemensCPUStatus_Decimal ;;
      _clem_cycle 1 ;;
      ret tmp_pc
  | CLEM_OPC_CLI =>
      clear_P_bits kClemensCPUStatus_IRQDisable ;;
      _clem_cycle 1 ;;
      ret tmp_pc
  | CLEM_OPC_CLV =>
      clear_P_bits kClemensCPUStatus_Overflow ;;
      _clem_cycle 1 ;;
      ret tmp_pc
  | CLEM_OPC_CMP_IMM =>
      '(tmp_value, tmp_pc) <- _clem_read_pba_mode_imm_816 tmp_pc m_status ;;
      rA <- rd A ;;
      _cpu_cmp rA tmp_value m_status ;;
      ret tmp_pc
  | CLEM_OPC_CMP_ABS =>
      '(tmp_addr, tmp_pc) <- _clem_read_pba_mode_abs tmp_pc ;;
      rDBR <- rd DBR ;;
      tmp_value <- _clem_read_data_816 tmp_addr rDBR m_status ;;
      rA <- rd A ;;
      _cpu_cmp rA tmp_value m_status ;;
      ret tmp_pc
  | CLEM_OPC_CMP_ABSL =>
      '(tmp_addr, tmp_bnk0, tmp_pc) <- _clem_read_pba_mode_absl tmp_pc ;;
      tmp_value <- _clem_read_data_816 tmp_addr tmp_bnk0 m_status ;;
      rA <- rd A ;;
      _cpu_cmp rA tmp_value m_status ;;
      ret tmp_pc
  | CLEM_OPC_CMP_DP =>
      '(tmp_addr, tmp_pc, tmp_data) <- _clem_read_pba_mode_dp tmp_pc 0 false ;;
      tmp_value <- _clem_read_data_816 tmp_addr 0 m_status ;;
      rA <- rd A ;;
      _cpu_cmp rA tmp_value m_status ;;
      ret tmp_pc
  | CLEM_OPC_CMP_DP_INDIRECT =>
      '(tmp_addr, tmp_pc, tmp_data) <- _clem_read_pba_mode_dp_indirect tmp_pc 0 false ;;
      rDBR <- rd DBR ;;
      tmp_value <- _clem_read_data_816 tmp_addr rDBR m_status ;;
      rA <- rd A ;;
      _cpu_cmp rA tmp_value m_status ;;
      ret tmp_pc
  | CLEM_OPC_CMP_DP_INDIRECTL =>
      '(tmp_addr, tmp_bnk0, tmp_pc, tmp_data) <- _clem_read_pba_mode_dp_indirectl tmp_pc 0 false ;;
      tmp_value <- _clem_read_data_816 tmp_addr tmp_bnk0 m_status ;;
      rA <- rd A ;;
      _cpu_cmp rA tmp_value m_status ;;
      ret tmp_pc
  | CLEM_OPC_CMP_ABS_IDX =>
      '(tmp_addr, tmp_pc) <- _clem_read_pba_mode_abs tmp_pc ;;
      rX <- rd X ;;
      rDBR <- rd DBR ;;
      tmp_value <- _clem_read_data_indexed_816 tmp_addr rX rDBR m_status x_status ;;
      rA <- rd A ;;
      _cpu_cmp rA tmp_value m_status ;;
      ret tmp_pc
  | CLEM_OPC_CMP_ABSL_IDX =>
      '(tmp_addr, tmp_bnk0, tmp_pc) <- _clem_read_pba_mode_absl tmp_pc ;;
      rX <- rd X ;;
      tmp_value <- _clem_read_data_indexed_816 tmp_addr rX tmp_bnk0 m_status x_status ;;
      rA <- rd A ;;
      _cpu_cmp rA tmp_value m_status ;;
      ret tmp_pc
  | CLEM_OPC_CMP_ABS_IDY =>
      '(tmp_addr, tmp_pc) <- _clem_read_pba_mode_abs tmp_pc ;;
      rY <- rd Y ;;
      rDBR <- rd DBR ;;
      tmp_value <- _clem_read_data_indexed_816 tmp_addr rY rDBR m_status x_status ;;
      rA <- rd A ;;
      _cpu_cmp rA tmp_value m_status ;;
      ret tmp_pc
  | CLEM_OPC_CMP_DP_IDX =>
      rX <- rd X ;;
      '(tmp_addr, tmp_pc, tmp_data) <- _clem_read_pba_mode_dp tmp_pc rX x_status ;;
      _clem_cycle 1 ;;
      tmp_value <- _clem_read_data_816 tmp_addr 0 m_status ;;
      rA <- rd A ;;
      _cpu_cmp rA tmp_value m_status ;;
      ret tmp_pc
  | CLEM_OPC_CMP_DP_IDX_INDIRECT =>
      rX <- rd X ;;
      '(tmp_addr, tmp_pc, tmp_data) <- _clem_read_pba_mode_dp_indirect tmp_pc rX x_status ;;
      _clem_cycle 1 ;;
      rDBR <- rd DBR ;;
      tmp_value <- _clem_read_data_816 tmp_addr rDBR m_status ;;
      rA <- rd A ;;
      _cpu_cmp rA tmp_value m_status ;;
      ret tmp_pc
  | CLEM_OPC_CMP_DP_INDIRECT_IDY =>
      '(tmp_addr, tmp_pc, tmp_data) <- _clem_read_pba_mode_dp_indirect tmp_pc 0 false ;;
      rY <- rd Y ;;
      rDBR <- rd DBR ;;
      tmp_value <- _clem_read_data_indexed_816 tmp_addr rY rDBR m_status x_status ;;
      rA <- rd A ;;
      _cpu_cmp rA tmp_value m_status ;;
      ret tmp_pc
  | CLEM_OPC_CMP_DP_INDIRECTL_IDY =>
      '(tmp_addr, tmp_bnk0, tmp_pc, tmp_data) <- _clem_read_pba_mode_dp_indirectl tmp_pc 0 false ;;
      rY <- rd Y ;;
      tmp_value <- _clem_read_data_indexed_816 tmp_addr rY tmp_bnk0 m_status x_status ;;
      rA <- rd A ;;
      _cpu_cmp rA tmp_value m_status ;;
      ret tmp_pc
  | CLEM_OPC_CMP_STACK_REL =>
      '(tmp_addr, tmp_pc, tmp_data) <- _clem_read_pba_mode_stack_rel tmp_pc ;;
      tmp_value <- _clem_read_data_816 tmp_addr 0 m_status ;;
      rA <- rd A ;;
      _cpu_cmp rA tmp_value m_status ;;
      ret tmp_pc
  | CLEM_OPC_CMP_STACK_REL_INDIRECT_IDY =>
      '(tmp_addr, tmp_pc, tmp_data) <- _clem_read_pba_mode_stack_rel_indirect tmp_pc ;;
      rY <- rd Y ;;
      rDBR <- rd DBR ;;
      tmp_value <- _clem_read_data_indexed_816 tmp_addr rY rDBR m_status x_status ;;
      rA <- rd A ;;
      _cpu_cmp rA tmp_value m_status ;;
      ret tmp_pc
  | CLEM_OPC_CPX_IMM =>
      '(tmp_value, tmp_pc) <- _clem_read_pba_mode_imm_816 tmp_pc x_status ;;
      rX <- rd X ;;
      _cpu_cmp rX tmp_value x_status ;;
      ret tmp_pc
  | CLEM_OPC_CPX_ABS =>
      '(tmp_addr, tmp_pc) <- _clem_read_pba_mode_abs tmp_pc ;;
      rDBR <- rd DBR ;;
      tmp_value <- _clem_read_data_816 tmp_addr rDBR x_status ;;
      rX <- rd X ;;
      _cpu_cmp rX tmp_value x_status ;;
      ret tmp_pc
  | CLEM_OPC_CPX_DP =>
      '(tmp_addr, tmp_pc, tmp_data) <- _clem_read_pba_mode_dp tmp_pc 0 x_status ;;
      tmp_value <- _clem_read_data_816 tmp_addr 0 x_status ;;
      rX <- rd X ;;
      _cpu_cmp rX tmp_value x_status ;;
      ret tmp_pc
  | CLEM_OPC_CPY_IMM =>
      '(tmp_value, tmp_pc) <- _clem_read_pba_mode_imm_816 tmp_pc x_status ;;
      rY <- rd Y ;;
      _cpu_cmp rY tmp_value x_status ;;
      ret tmp_pc
  | CLEM_OPC_CPY_ABS =>
      '(tmp_addr, tmp_pc) <- _clem_read_pba_mode_abs tmp_pc ;;
      rDBR <- rd DBR ;;
      tmp_value <- _clem_read_data_816 tmp_addr rDBR x_status ;;
      rY <- rd Y ;;
      _cpu_cmp rY tmp_value x_status ;;
      ret tmp_pc
  | CLEM_OPC_CPY_DP =>
      '(tmp_addr, tmp_pc, tmp_data) <- _clem_read_pba_mode_dp tmp_pc 0 x_status ;;
      tmp_value <- _clem_read_data_816 tmp_addr 0 x_status ;;
      rY <- rd Y ;;
      _cpu_cmp rY tmp_value x_status ;;
      ret tmp_pc
  | CLEM_OPC_DEC_A =>
      modify_A (fun rA => _cpu_dec rA m_status) ;;
      _clem_cycle 1 ;;
      ret tmp_pc
  | CLEM_OPC_DEC_ABS =>
      '(tmp_addr, tmp_pc) <- _clem_read_pba_mode_abs tmp_pc ;;
      rDBR <- rd DBR ;;
      tmp_value <- _clem_read_data_816 tmp_addr rDBR m_status ;;
      tmp_value <- _cpu_dec tmp_value m_status ;;
      _clem_cycle 1 ;;
      rDBR <- rd DBR ;;
      _clem_write_816 tmp_value tmp_addr rDBR m_status ;;
      ret tmp_pc
  | CLEM_OPC_DEC_DP =>
      '(tmp_addr, tmp_pc, tmp_data) <- _clem_read_pba_mode_dp tmp_pc 0 false ;;
      tmp_value <- _clem_read_data_816 tmp_addr 0 m_status ;;
      tmp_value <- _cpu_dec tmp_value m_status ;;
      _clem_cycle 1 ;;
      _clem_write_816 tmp_value tmp_addr 0 m_status ;;
      ret tmp_pc
  | CLEM_OPC_DEC_ABS_IDX =>
      '(tmp_addr, tmp_pc) <- _clem_read_pba_mode_abs tmp_pc ;;
      _clem_cycle 1 ;;
      rX <- rd X ;;
      rDBR <- rd DBR ;;
      tmp_value <- _clem_read_data_indexed_816 tmp_addr rX rDBR m_status x_status ;;
      tmp_value <- _cpu_dec tmp_value m_status ;;
      _clem_cycle 1 ;;
      rX <- rd X ;;
      rDBR <- rd DBR ;;
      _clem_write_indexed_816 tmp_value tmp_addr rX rDBR m_status x_status ;;
      ret tmp_pc
  | CLEM_OPC_DEC_ABS_DP_IDX =>
      rX <- rd X ;;
      '(tmp_addr, tmp_pc, tmp_data) <- _clem_read_pba_mode_dp tmp_pc rX x_status ;;
      _clem_cycle 1 ;;
      tmp_value <- _clem_read_data_816 tmp_addr 0 m_status ;;
      tmp_value <- _cpu_dec tmp_value m_status ;;
      _clem_cycle 1 ;;
      _clem_write_816 tmp_value tmp_addr 0 m_status ;;
      ret tmp_pc
  | CLEM_OPC_DEX =>
      rX <- rd X ;;
      let tmp_value := u16 (rX - 1) in
      (if x_status then
         set_X_lo tmp_value ;;
         _cpu_p_flags_n_z_data (u8 tmp_value)
       else
         set_X tmp_value ;;
         _cpu_p_flags_n_z_data_16 tmp_value) ;;
      _clem_cycle 1 ;;
      ret tmp_pc
  | CLEM_OPC_DEY =>
      rY <- rd Y ;;
      let tmp_value := u16 (rY - 1) in
      (if x_status then
         set_Y_lo tmp_value ;;
         _cpu_p_flags_n_z_data (u8 tmp_value)
       else
         set_Y tmp_value ;;
         _cpu_p_flags_n_z_data_16 tmp_value) ;;
      _clem_cycle 1 ;;
      ret tmp_pc
  | CLEM_OPC_EOR_IMM =>
      '(tmp_value, tmp_pc) <- _clem_read_pba_mode_imm_816 tmp_pc m_status ;;
      _cpu_eor tmp_value m_status ;;
      ret tmp_pc
  | CLEM_OPC_EOR_ABS =>
      '(tmp_addr, tmp_pc) <- _clem_read_pba_mode_abs tmp_pc ;;
      rDBR <- rd DBR ;;
      tmp_value <- _clem_read_data_816 tmp_addr rDBR m_status ;;
      _cpu_eor tmp_value m_status ;;
      ret tmp_pc
  | CLEM_OPC_EOR_ABSL =>
      '(tmp_addr, tmp_bnk0, tmp_pc) <- _clem_read_pba_mode_absl tmp_pc ;;
      tmp_value <- _clem_read_data_816 tmp_addr tmp_bnk0 m_status ;;
      _cpu_eor tmp_value m_status ;;
      ret tmp_pc
  | CLEM_OPC_EOR_DP =>
      '(tmp_addr, tmp_pc, tmp_data) <- _clem_read_pba_mode_dp tmp_pc 0 false ;;
      tmp_value <- _clem_read_data_816 tmp_addr 0 m_status ;;
      _cpu_eor tmp_value m_status ;;
      ret tmp_pc
  | CLEM_OPC_EOR_DP_INDIRECT =>
      '(tmp_addr, tmp_pc, tmp_data) <- _clem_read_pba_mode_dp_indirect tmp_pc 0 false ;;
      rDBR <- rd DBR ;;
      tmp_value <- _clem_read_data_816 tmp_addr rDBR m_status ;;
      _cpu_eor tmp_value m_status ;;
      ret tmp_pc
  | CLEM_OPC_EOR_DP_INDIRECTL =>
      '(tmp_addr, tmp_bnk0, tmp_pc, tmp_data) <- _clem_read_pba_mode_dp_indirectl tmp_pc 0 false ;;
      tmp_value <- _clem_read_data_816 tmp_addr tmp_bnk0 m_status ;;
      _cpu_eor tmp_value m_status ;;
      ret tmp_pc
  | CLEM_OPC_EOR_ABS_IDX =>
      '(tmp_addr, tmp_pc) <- _clem_read_pba_mode_abs tmp_pc ;;
      rX <- rd X ;;
      rDBR <- rd DBR ;;
      tmp_value <- _clem_read_data_indexed_816 tmp_addr rX rDBR m_status x_status ;;
      _cpu_eor tmp_value m_status ;;
      ret tmp_pc
  | CLEM_OPC_EOR_ABSL_IDX =>
      '(tmp_addr, tmp_bnk0, tmp_pc) <- _clem_read_pba_mode_absl tmp_pc ;;
      rX <- rd X ;;
      tmp_value <- _clem_read_data_indexed_816 tmp_addr rX tmp_bnk0 m_status x_status ;;
      _cpu_eor tmp_value m_status ;;
      ret tmp_pc
  | CLEM_OPC_EOR_ABS_IDY =>
      '(tmp_addr, tmp_pc) <- _clem_read_pba_mode_abs tmp_pc ;;
      rY <- rd Y ;;
      rDBR <- rd DBR ;;
      tmp_value <- _clem_read_data_indexed_816 tmp_addr rY rDBR m_status x_status ;;
      _cpu_eor tmp_value m_status ;;
      ret tmp_pc
  | CLEM_OPC_EOR_DP_IDX =>
      rX <- rd X ;;
      '(tmp_addr, tmp_pc, tmp_data) <- _clem_read_pba_mode_dp tmp_pc rX x_status ;;
      _clem_cycle 1 ;;
      tmp_value <- _clem_read_data_816 tmp_addr 0 m_status ;;
      _cpu_eor tmp_value m_status ;;
      ret tmp_pc
  | CLEM_OPC_EOR_DP_IDX_INDIRECT =>
      rX <- rd X ;;
      '(tmp_addr, tmp_pc, tmp_data) <- _clem_read_pba_mode_dp_indirect tmp_pc rX x_status ;;
      _clem_cycle 1 ;;
      rDBR <- rd DBR ;;
      tmp_value <- _clem_read_data_816 tmp_addr rDBR m_status ;;
      _cpu_eor tmp_value m_status ;;
      ret tmp_pc
  | CLEM_OPC_EOR_DP_INDIRECT_IDY =>
      '(tmp_addr, tmp_pc, tmp_data) <- _clem_read_pba_mode_dp_indirect tmp_pc 0 false ;;
      rY <- rd Y ;;
      rDBR <- rd DBR ;;
      tmp_value <- _clem_read_data_indexed_816 tmp_addr rY rDBR m_status x_status ;;
      _cpu_eor tmp_value m_status ;;
      ret tmp_pc
  | CLEM_OPC_EOR_DP_INDIRECTL_IDY =>
      '(tmp_addr, tmp_bnk0, tmp_pc, tmp_data) <- _clem_read_pba_mode_dp_indirectl tmp_pc 0 false ;;
      rY <- rd Y ;;
      tmp_value <- _clem_read_data_indexed_816 tmp_addr rY tmp_bnk0 m_status x_status ;;
      _cpu_eor tmp_value m_status ;;
      ret tmp_pc
  | CLEM_OPC_EOR_STACK_REL =>
      '(tmp_addr, tmp_pc, tmp_data) <- _clem_read_pba_mode_stack_rel tmp_pc ;;
      tmp_value <- _clem_read_data_816 tmp_addr 0 m_status ;;
      _cpu_eor tmp_value m_status ;;
      ret tmp_pc
  | CLEM_OPC_EOR_STACK_REL_INDIRECT_IDY =>
      '(tmp_addr, tmp_pc, tmp_data) <- _clem_read_pba_mode_stack_rel_indirect tmp_pc ;;
      rY <- rd Y ;;
      rDBR <- rd DBR ;;
      tmp_value <- _clem_read_data_indexed_816 tmp_addr rY rDBR m_status x_status ;;
      _cpu_eor tmp_value m_status ;;
      ret tmp_pc
  | CLEM_OPC_INC_A =>
      modify_A (fun rA => _cpu_inc rA m_status) ;;
      _clem_cycle 1 ;;
      ret tmp_pc
  | CLEM_OPC_INC_ABS =>
      '(tmp_addr, tmp_pc) <- _clem_read_pba_mode_abs tmp_pc ;;
      rDBR <- rd DBR ;;
      tmp_value <- _clem_read_data_816 tmp_addr rDBR m_status ;;
      tmp_value <- _cpu_inc tmp_value m_status ;;
      _clem_cycle 1 ;;
      rDBR <- rd DBR ;;
      _clem_write_816 tmp_value tmp_addr rDBR m_status ;;
      ret tmp_pc
  | CLEM_OPC_INC_DP =>
      '(tmp_addr, tmp_pc, tmp_data) <- _clem_read_pba_mode_dp tmp_pc 0 false ;;
      tmp_value <- _clem_read_data_816 tmp_addr 0 m_status ;;
      tmp_value <- _cpu_inc tmp_value m_status ;;
      _clem_cycle 1 ;;
      _clem_write_816 tmp_value tmp_addr 0 m_status ;;
      ret tmp_pc
  | CLEM_OPC_INC_ABS_IDX =>
      '(tmp_addr, tmp_pc) <- _clem_read_pba_mode_abs tmp_pc ;;
      _clem_cycle 1 ;;
      rX <- rd X ;;
      rDBR <- rd DBR ;;
      tmp_value <- _clem_read_data_indexed_816 tmp_addr rX rDBR m_status x_status ;;
      tmp_value <- _cpu_inc tmp_value m_status ;;
      _clem_cycle 1 ;;
      rX <- rd X ;;
      rDBR <- rd DBR ;;
      _clem_write_indexed_816 tmp_value tmp_addr rX rDBR m_status x_status ;;
      ret tmp_pc
  | CLEM_OPC_INC_ABS_DP_IDX =>
      rX <- rd X ;;
      '(tmp_addr, tmp_pc, tmp_data) <- _clem_read_pba_mode_dp tmp_pc rX x_status ;;
      _clem_cycle 1 ;;
      tmp_value <- _clem_read_data_816 tmp_addr 0 m_status ;;
      tmp_value <- _cpu_inc tmp_value m_status ;;
      _clem_cycle 1 ;;
      _clem_write_816 tmp_value tmp_addr 0 m_status ;;
      ret tmp_pc
  | CLEM_OPC_INX =>
      rX <- rd X ;;
      let tmp_value := u16 (rX + 1) in
      (if x_status then
         set_X_lo tmp_value ;;
         _cpu_p_flags_n_z_data (u8 tmp_value)
       else
         set_X tmp_value ;;
         _cpu_p_flags_n_z_data_16 tmp_value) ;;
      _clem_cycle 1 ;;
      ret tmp_pc
  | CLEM_OPC_INY =>
      rY <- rd Y ;;
      let tmp_value := u16 (rY + 1) in
      (if x_status then
         set_Y_lo tmp_value ;;
         _cpu_p_flags_n_z_data (u8 tmp_value)
       else
         set_Y tmp_value ;;
         _cpu_p_flags_n_z_data_16 tmp_value) ;;
      _clem_cycle 1 ;;
      ret tmp_pc
  | CLEM_OPC_JMP_ABS =>
      '(tmp_addr, tmp_pc) <- _clem_read_pba_16 tmp_pc ;;
      let tmp_pc := tmp_addr in
      ret tmp_pc
  | CLEM_OPC_JMP_INDIRECT =>
      '(tmp_addr, tmp_pc) <- _clem_read_pba_16 tmp_pc ;;
      tmp_eaddr <- _clem_read_16 tmp_addr 0 CLEM_MEM_FLAG_DATA ;;
      let tmp_pc := tmp_eaddr in
      ret tmp_pc
  | CLEM_OPC_JMP_INDIRECT_IDX =>
      '(tmp_addr, tmp_pc) <- _clem_read_pba_16 tmp_pc ;;
      rX <- rd X ;;
      let tmp_eaddr :=
        if x_status then u16 (tmp_addr + Z.land rX 255) else u16 (tmp_addr + rX) in
      _clem_cycle 1 ;;
      rPBR <- rd PBR ;;
      tmp_pc <- _clem_read_16 tmp_eaddr rPBR CLEM_MEM_FLAG_DATA ;;
      ret tmp_pc
  | CLEM_OPC_JMP_ABSL =>
      '(tmp_addr, tmp_pc) <- _clem_read_pba_16 tmp_pc ;;
      '(tmp_bnk0, tmp_pc) <- _clem_read_pba tmp_pc ;;
      let tmp_pc := tmp_addr in
      set_PBR tmp_bnk0 ;;
      ret tmp_pc
  | CLEM_OPC_JMP_ABSL_INDIRECT =>
      '(tmp_addr, tmp_pc) <- _clem_read_pba_16 tmp_pc ;;
      tmp_eaddr <- _clem_read_16 tmp_addr 0 CLEM_MEM_FLAG_DATA ;;
      tmp_bnk0 <- clem_read (tmp_addr + 2) 0 CLEM_MEM_FLAG_DATA ;;
      let tmp_pc := tmp_eaddr in
      set_PBR tmp_bnk0 ;;
      ret tmp_pc
  | CLEM_OPC_LDA_IMM =>
      '(tmp_value, tmp_pc) <- _clem_read_pba_mode_imm_816 tmp_pc m_status ;;
      _cpu_lda tmp_value m_status ;;
      ret tmp_pc
  | CLEM_OPC_LDA_ABS =>
      '(tmp_addr, tmp_pc) <- _clem_read_pba_mode_abs tmp_pc ;;
      rDBR <- rd DBR ;;
      tmp_value <- _clem_read_data_816 tmp_addr rDBR m_status ;;
      _cpu_lda tmp_value m_status ;;
      ret tmp_pc
  | CLEM_OPC_LDA_ABSL =>
      '(tmp_addr, tmp_bnk0, tmp_pc) <- _clem_read_pba_mode_absl tmp_pc ;;
      tmp_value <- _clem_read_data_816 tmp_addr tmp_bnk0 m_status ;;
      _cpu_lda tmp_value m_status ;;
      ret tmp_pc
  | CLEM_OPC_LDA_DP =>
      '(tmp_addr, tmp_pc, tmp_data) <- _clem_read_pba_mode_dp tmp_pc 0 false ;;
      tmp_value <- _clem_read_data_816 tmp_addr 0 m_status ;;
      _cpu_lda tmp_value m_status ;;
      ret tmp_pc
  | CLEM_OPC_LDA_DP_INDIRECT =>
      '(tmp_addr, tmp_pc, tmp_data) <- _clem_read_pba_mode_dp_indirect tmp_pc 0 false ;;
      rDBR <- rd DBR ;;
      tmp_value <- _clem_read_data_816 tmp_addr rDBR m_status ;;
      _cpu_lda tmp_value m_status ;;
      ret tmp_pc
  | CLEM_OPC_LDA_DP_INDIRECTL =>
      '(tmp_addr, tmp_bnk0, tmp_pc, tmp_data) <- _clem_read_pba_mode_dp_indirectl tmp_pc 0 false ;;
      tmp_value <- _clem_read_data_816 tmp_addr tmp_bnk0 m_status ;;
      _cpu_lda tmp_value m_status ;;
      ret tmp_pc
  | CLEM_OPC_LDA_ABS_IDX =>
      '(tmp_addr, tmp_pc) <- _clem_read_pba_mode_abs tmp_pc ;;
      rX <- rd X ;;
      rDBR <- rd DBR ;;
      tmp_value <- _clem_read_data_indexed_816 tmp_addr rX rDBR m_status x_status ;;
      _cpu_lda tmp_value m_status ;;
      ret tmp_pc
  | CLEM_OPC_LDA_ABSL_IDX =>
      '(tmp_addr, tmp_bnk0, tmp_pc) <- _clem_read_pba_mode_absl tmp_pc ;;
      rX <- rd X ;;
      tmp_value <- _clem_read_data_indexed_816 tmp_addr rX tmp_bnk0 m_status x_status ;;
      _cpu_lda tmp_value m_status ;;
      ret tmp_pc
  | CLEM_OPC_LDA_ABS_IDY =>
      '(tmp_addr, tmp_pc) <- _clem_read_pba_mode_abs tmp_pc ;;
      rY <- rd Y ;;
      rDBR <- rd DBR ;;
      tmp_value <- _clem_read_data_indexed_816 tmp_addr rY rDBR m_status x_status ;;
      _cpu_lda tmp_value m_status ;;
      ret tmp_pc
  | CLEM_OPC_LDA_DP_IDX =>
      rX <- rd X ;;
      '(tmp_addr, tmp_pc, tmp_data) <- _clem_read_pba_mode_dp tmp_pc rX x_status ;;
      _clem_cycle 1 ;;
      tmp_value <- _clem_read_data_816 tmp_addr 0 m_status ;;
      _cpu_lda tmp_value m_status ;;
      ret tmp_pc
  | CLEM_OPC_LDA_DP_IDX_INDIRECT =>
      rX <- rd X ;;
      '(tmp_addr, tmp_pc, tmp_data) <- _clem_read_pba_mode_dp_indirect tmp_pc rX x_status ;;
      _clem_cycle 1 ;;
      rDBR <- rd DBR ;;
      tmp_value <- _clem_read_data_816 tmp_addr rDBR m_status ;;
      _cpu_lda tmp_value m_status ;;
      ret tmp_pc
  | CLEM_OPC_LDA_DP_INDIRECT_IDY =>
      '(tmp_addr, tmp_pc, tmp_data) <- _clem_read_pba_mode_dp_indirect tmp_pc 0 false ;;
      rY <- rd Y ;;
      rDBR <- rd DBR ;;
      tmp_value <- _clem_read_data_indexed_816 tmp_addr rY rDBR m_status x_status ;;
      _cpu_lda tmp_value m_status ;;
      ret tmp_pc
  | CLEM_OPC_LDA_DP_INDIRECTL_IDY =>
      '(tmp_addr, tmp_bnk0, tmp_pc, tmp_data) <- _clem_read_pba_mode_dp_indirectl tmp_pc 0 false ;;
      rY <- rd Y ;;
      tmp_value <- _clem_read_data_indexed_816 tmp_addr rY tmp_bnk0 m_status x_status ;;
      _cpu_lda tmp_value m_status ;;
      ret tmp_pc
  | CLEM_OPC_LDA_STACK_REL =>
      '(tmp_addr, tmp_pc, tmp_data) <- _clem_read_pba_mode_stack_rel tmp_pc ;;
      tmp_value <- _clem_read_data_816 tmp_addr 0 m_status ;;
      _cpu_lda tmp_value m_status ;;
      ret tmp_pc
  | CLEM_OPC_LDA_STACK_REL_INDIRECT_IDY =>
      '(tmp_addr, tmp_pc, tmp_data) <- _clem_read_pba_mode_stack_rel_indirect tmp_pc ;;
      rY <- rd Y ;;
      rDBR <- rd DBR ;;
      tmp_value <- _clem_read_data_indexed_816 tmp_addr rY rDBR m_status x_status ;;
      _cpu_lda tmp_value m_status ;;
      ret tmp_pc
  | CLEM_OPC_LDX_IMM =>
      '(tmp_value, tmp_pc) <- _clem_read_pba_816 tmp_pc x_status ;;
      modify_X (fun rX => _cpu_ldxy rX tmp_value x_status) ;;
      ret tmp_pc
  | CLEM_OPC_LDX_ABS =>
      '(tmp_addr, tmp_pc) <- _clem_read_pba_mode_abs tmp_pc ;;
      rDBR <- rd DBR ;;
      tmp_value <- _clem_read_data_816 tmp_addr rDBR x_status ;;
      modify_X (fun rX => _cpu_ldxy rX tmp_value x_status) ;;
      ret tmp_pc
  | CLEM_OPC_LDX_DP =>
      '(tmp_addr, tmp_pc, tmp_data) <- _clem_read_pba_mode_dp tmp_pc 0 x_status ;;
      tmp_value <- _clem_read_data_816 tmp_addr 0 x_status ;;
      modify_X (fun rX => _cpu_ldxy rX tmp_value x_status) ;;
      ret tmp_pc
  | CLEM_OPC_LDX_ABS_IDY =>
      '(tmp_addr, tmp_pc) <- _clem_read_pba_mode_abs tmp_pc ;;
      rY <- rd Y ;;
      rDBR <- rd DBR ;;
      tmp_value <- _clem_read_data_indexed_816 tmp_addr rY rDBR x_status x_status ;;
      modify_X (fun rX => _cpu_ldxy rX tmp_value x_status) ;;
      ret tmp_pc
  | CLEM_OPC_LDX_DP_IDY =>
      rY <- rd Y ;;
      '(tmp_addr, tmp_pc, tmp_data) <- _clem_read_pba_mode_dp tmp_pc rY x_status ;;
      tmp_value <- _clem_read_data_816 tmp_addr 0 x_status ;;
      modify_X (fun rX => _cpu_ldxy rX tmp_value x_status) ;;
      ret tmp_pc
  | CLEM_OPC_LDY_IMM =>
      '(tmp_value, tmp_pc) <- _clem_read_pba_mode_imm_816 tmp_pc x_status ;;
      modify_Y (fun rY => _cpu_ldxy rY tmp_value x_status) ;;
      ret tmp_pc
  | CLEM_OPC_LDY_ABS =>
      '(tmp_addr, tmp_pc) <- _clem_read_pba_mode_abs tmp_pc ;;
      rDBR <- rd DBR ;;
      tmp_value <- _clem_read_data_816 tmp_addr rDBR x_status ;;
      modify_Y (fun rY => _cpu_ldxy rY tmp_value x_status) ;;
      ret tmp_pc
  | CLEM_OPC_LDY_DP =>
      '(tmp_addr, tmp_pc, tmp_data) <- _clem_read_pba_mode_dp tmp_pc 0 x_status ;;
      tmp_value <- _clem_read_data_816 tmp_addr 0 x_status ;;
      modify_Y (fun rY => _cpu_ldxy rY tmp_value x_status) ;;
      ret tmp_pc
  | CLEM_OPC_LDY_ABS_IDX =>
      '(tmp_addr, tmp_pc) <- _clem_read_pba_mode_abs tmp_pc ;;
      rX <- rd X ;;
      rDBR <- rd DBR ;;
      tmp_value <- _clem_read_data_indexed_816 tmp_addr rX rDBR x_status x_status ;;
      modify_Y (fun rY => _cpu_ldxy rY tmp_value x_status) ;;
      ret tmp_pc
  | CLEM_OPC_LDY_DP_IDX =>
      rX <- rd X ;;
      '(tmp_addr, tmp_pc, tmp_data) <- _clem_read_pba_mode_dp tmp_pc rX x_status ;;
      tmp_value <- _clem_read_data_816 tmp_addr 0 x_status ;;
      modify_Y (fun rY => _cpu_ldxy rY tmp_value x_status) ;;
      ret tmp_pc
  | CLEM_OPC_LSR_A =>
      modify_A (fun rA => _cpu_lsr rA m_status) ;;
      _clem_cycle 1 ;;
      ret tmp_pc
  | CLEM_OPC_LSR_ABS =>
      '(tmp_addr, tmp_pc) <- _clem_read_pba_mode_abs tmp_pc ;;
      rDBR <- rd DBR ;;
      tmp_value <- _clem_read_data_816 tmp_addr rDBR m_status ;;
      tmp_value <- _cpu_lsr tmp_value m_status ;;
      _clem_cycle 1 ;;
      rDBR <- rd DBR ;;
      _clem_write_816 tmp_value tmp_addr rDBR m_status ;;
      ret tmp_pc
  | CLEM_OPC_LSR_DP =>
      '(tmp_addr, tmp_pc, tmp_data) <- _clem_read_pba_mode_dp tmp_pc 0 false ;;
      tmp_value <- _clem_read_data_816 tmp_addr 0 m_status ;;
      tmp_value <- _cpu_lsr tmp_value m_status ;;
      _clem_cycle 1 ;;
      _clem_write_816 tmp_value tmp_addr 0 m_status ;;
      ret tmp_pc
  | CLEM_OPC_LSR_ABS_IDX =>
      '(tmp_addr, tmp_pc) <- _clem_read_pba_mode_abs tmp_pc ;;
      _clem_cycle 1 ;;
      rX <- rd X ;;
      rDBR <- rd DBR ;;
      tmp_value <- _clem_read_data_indexed_816 tmp_addr rX rDBR m_status x_status ;;
      tmp_value <- _cpu_lsr tmp_value m_status ;;
      _clem_cycle 1 ;;
      rX <- rd X ;;
      rDBR <- rd DBR ;;
      _clem_write_indexed_816 tmp_value tmp_addr rX rDBR m_status x_status ;;
      ret tmp_pc
  | CLEM_OPC_LSR_ABS_DP_IDX =>
      rX <- rd X ;;
      '(tmp_addr, tmp_pc, tmp_data) <- _clem_read_pba_mode_dp tmp_pc rX x_status ;;
      _clem_cycle 1 ;;
      tmp_value <- _clem_read_data_816 tmp_addr 0 m_status ;;
      tmp_value <- _cpu_lsr tmp_value m_status ;;
      _clem_cycle 1 ;;
      _clem_write_816 tmp_value tmp_addr 0 m_status ;;
      ret tmp_pc
  | CLEM_OPC_MVN =>
      '(tmp_bnk1, tmp_pc) <- _clem_read_pba tmp_pc ;;
      '(tmp_bnk0, tmp_pc) <- _clem_read_pba tmp_pc ;;
      rX <- rd X ;;
      tmp_data <- clem_read rX tmp_bnk0 CLEM_MEM_FLAG_DATA ;;
      rY <- rd Y ;;
      clem_write tmp_data rY tmp_bnk1 CLEM_MEM_FLAG_DATA ;;
      (if x_status then
         rX <- rd X ;;
         set_X_lo (rX + 1) ;;
         rY <- rd Y ;;
         set_Y_lo (rY + 1)
       else
         rX <- rd X ;;
         set_X (rX + 1) ;;
         rY <- rd Y ;;
         set_Y (rY + 1)) ;;
      _clem_cycle 2 ;;
      rA <- rd A ;;
      set_A (rA - 1) ;;
      rA <- rd A ;;
      rPC <- rd PC ;;
      let tmp_pc := if negb (rA =? 65535) then rPC else tmp_pc in
      set_DBR tmp_bnk1 ;;
      ret tmp_pc
  | CLEM_OPC_MVP =>
      '(tmp_bnk1, tmp_pc) <- _clem_read_pba tmp_pc ;;
      '(tmp_bnk0, tmp_pc) <- _clem_read_pba tmp_pc ;;
      rX <- rd X ;;
      tmp_data <- clem_read rX tmp_bnk0 CLEM_MEM_FLAG_DATA ;;
      rY <- rd Y ;;
      clem_write tmp_data rY tmp_bnk1 CLEM_MEM_FLAG_DATA ;;
      (if x_status then
         rX <- rd X ;;
         set_X_lo (rX - 1) ;;
         rY <- rd Y ;;
         set_Y_lo (rY - 1)
       else
         rX <- rd X ;;
         set_X (rX - 1) ;;
         rY <- rd Y ;;
         set_Y (rY - 1)) ;;
      _clem_cycle 2 ;;
      rA <- rd A ;;
      set_A (rA - 1) ;;
      rA <- rd A ;;
      rPC <- rd PC ;;
      let tmp_pc := if negb (rA =? 65535) then rPC else tmp_pc in
      set_DBR tmp_bnk1 ;;
      ret tmp_pc
  | CLEM_OPC_NOP =>
      _clem_cycle 1 ;;
      ret tmp_pc
  | CLEM_OPC_ORA_IMM =>
      '(tmp_value, tmp_pc) <- _clem_read_pba_mode_imm_816 tmp_pc m_status ;;
      _cpu_ora tmp_value m_status ;;
      ret tmp_pc
  | CLEM_OPC_ORA_ABS =>
      '(tmp_addr, tmp_pc) <- _clem_read_pba_mode_abs tmp_pc ;;
      rDBR <- rd DBR ;;
      tmp_value <- _clem_read_data_816 tmp_addr rDBR m_status ;;
      _cpu_ora tmp_value m_status ;;
      ret tmp_pc
  | CLEM_OPC_ORA_ABSL =>
      '(tmp_addr, tmp_bnk0, tmp_pc) <- _clem_read_pba_mode_absl tmp_pc ;;
      tmp_value <- _clem_read_data_816 tmp_addr tmp_bnk0 m_status ;;
      _cpu_ora tmp_value m_status ;;
      ret tmp_pc
  | CLEM_OPC_ORA_DP =>
      '(tmp_addr, tmp_pc, tmp_data) <- _clem_read_pba_mode_dp tmp_pc 0 false ;;
      tmp_value <- _clem_read_data_816 tmp_addr 0 m_status ;;
      _cpu_ora tmp_value m_status ;;
      ret tmp_pc
  | CLEM_OPC_ORA_DP_INDIRECT =>
      '(tmp_addr, tmp_pc, tmp_data) <- _clem_read_pba_mode_dp_indirect tmp_pc 0 false ;;
      rDBR <- rd DBR ;;
      tmp_value <- _clem_read_data_816 tmp_addr rDBR m_status ;;
      _cpu_ora tmp_value m_status ;;
      ret tmp_pc
  | CLEM_OPC_ORA_DP_INDIRECTL =>
      '(tmp_addr, tmp_bnk0, tmp_pc, tmp_data) <- _clem_read_pba_mode_dp_indirectl tmp_pc 0 false ;;
      tmp_value <- _clem_read_data_816 tmp_addr tmp_bnk0 m_status ;;
      _cpu_ora tmp_value m_status ;;
      ret tmp_pc
  | CLEM_OPC_ORA_ABS_IDX =>
      '(tmp_addr, tmp_pc) <- _clem_read_pba_mode_abs tmp_pc ;;
      rX <- rd X ;;
      rDBR <- rd DBR ;;
      tmp_value <- _clem_read_data_indexed_816 tmp_addr rX rDBR m_status x_status ;;
      _cpu_ora tmp_value m_status ;;
      ret tmp_pc
  | CLEM_OPC_ORA_ABSL_IDX =>
      '(tmp_addr, tmp_bnk0, tmp_pc) <- _clem_read_pba_mode_absl tmp_pc ;;
      rX <- rd X ;;
      tmp_value <- _clem_read_data_indexed_816 tmp_addr rX tmp_bnk0 m_status x_status ;;
      _cpu_ora tmp_value m_status ;;
      ret tmp_pc
  | CLEM_OPC_ORA_ABS_IDY =>
      '(tmp_addr, tmp_pc) <- _clem_read_pba_mode_abs tmp_pc ;;
      rY <- rd Y ;;
      rDBR <- rd DBR ;;
      tmp_value <- _clem_read_data_indexed_816 tmp_addr rY rDBR m_status x_status ;;
      _cpu_ora tmp_value m_status ;;
      ret tmp_pc
  | CLEM_OPC_ORA_DP_IDX =>
      rX <- rd X ;;
      '(tmp_addr, tmp_pc, tmp_data) <- _clem_read_pba_mode_dp tmp_pc rX x_status ;;
      _clem_cycle 1 ;;
      tmp_value <- _clem_read_data_816 tmp_addr 0 m_status ;;
      _cpu_ora tmp_value m_status ;;
      ret tmp_pc
  | CLEM_OPC_ORA_DP_IDX_INDIRECT =>
      rX <- rd X ;;
      '(tmp_addr, tmp_pc, tmp_data) <- _clem_read_pba_mode_dp_indirect tmp_pc rX x_status ;;
      _clem_cycle 1 ;;
      rDBR <- rd DBR ;;
      tmp_value <- _clem_read_data_816 tmp_addr rDBR m_status ;;
      _cpu_ora tmp_value m_status ;;
      ret tmp_pc
  | CLEM_OPC_ORA_DP_INDIRECT_IDY =>
      '(tmp_addr, tmp_pc, tmp_data) <- _clem_read_pba_mode_dp_indirect tmp_pc 0 false ;;
      rY <- rd Y ;;
      rDBR <- rd DBR ;;
      tmp_value <- _clem_read_data_indexed_816 tmp_addr rY rDBR m_status x_status ;;
      _cpu_ora tmp_value m_status ;;
      ret tmp_pc
  | CLEM_OPC_ORA_DP_INDIRECTL_IDY =>
      '(tmp_addr, tmp_bnk0, tmp_pc, tmp_data) <- _clem_read_pba_mode_dp_indirectl tmp_pc 0 false ;;
      rY <- rd Y ;;
      tmp_value <- _clem_read_data_indexed_816 tmp_addr rY tmp_bnk0 m_status x_status ;;
      _cpu_ora tmp_value m_status ;;
      ret tmp_pc
  | CLEM_OPC_ORA_STACK_REL =>
      '(tmp_addr, tmp_pc, tmp_data) <- _clem_read_pba_mode_stack_rel tmp_pc ;;
      tmp_value <- _clem_read_data_816 tmp_addr 0 m_status ;;
      _cpu_ora tmp_value m_status ;;
      ret tmp_pc
  | CLEM_OPC_ORA_STACK_REL_INDIRECT_IDY =>
      '(tmp_addr, tmp_pc, tmp_data) <- _clem_read_pba_mode_stack_rel_indirect tmp_pc ;;
      rY <- rd Y ;;
      rDBR <- rd DBR ;;
      tmp_value <- _clem_read_data_indexed_816 tmp_addr rY rDBR m_status x_status ;;
      _cpu_ora tmp_value m_status ;;
      ret tmp_pc
  | CLEM_OPC_PEA_ABS =>
      '(tmp_addr, tmp_pc) <- _clem_read_pba_mode_abs tmp_pc ;;
      _cpu_sp_dec2 ;;
      rS <- rd S ;;
      _clem_write_16 tmp_addr (rS + 1) 0 ;;
      ret tmp_pc
  | CLEM_OPC_PEI_DP_INDIRECT =>
      '(tmp_addr, tmp_pc, tmp_data) <- _clem_read_pba_mode_dp_indirect tmp_pc 0 false ;;
      _cpu_sp_dec2 ;;
      rS <- rd S ;;
      _clem_write_16 tmp_addr (rS + 1) 0 ;;
      ret tmp_pc
  | CLEM_OPC_PER =>
      '(tmp_value, tmp_pc) <- _clem_read_pba_16 tmp_pc ;;
      let tmp_addr := u16 (tmp_pc + s16 tmp_value) in
      _clem_cycle 1 ;;
      _cpu_sp_dec2 ;;
      rS <- rd S ;;
      _clem_write_16 tmp_addr (rS + 1) 0 ;;
      ret tmp_pc
  | CLEM_OPC_PHA =>
      rA <- rd A ;;
      _clem_opc_push_reg_816 rA m_status ;;
      ret tmp_pc
  | CLEM_OPC_PHB =>
      _clem_cycle 1 ;;
      rDBR <- rd DBR ;;
      rS <- rd S ;;
      clem_write (u8 rDBR) rS 0 CLEM_MEM_FLAG_DATA ;;
      _cpu_sp_dec ;;
      ret tmp_pc
  | CLEM_OPC_PHD =>
      _clem_cycle 1 ;;
      rD <- rd D ;;
      rS <- rd S ;;
      clem_write (u8 (Z.shiftr rD 8)) rS 0 CLEM_MEM_FLAG_DATA ;;
      clem_write (u8 rD) (rS - 1) 0 CLEM_MEM_FLAG_DATA ;;
      _cpu_sp_dec2 ;;
      ret tmp_pc
  | CLEM_OPC_PHK =>
      _clem_cycle 1 ;;
      rPBR <- rd PBR ;;
      rS <- rd S ;;
      clem_write (u8 rPBR) rS 0 CLEM_MEM_FLAG_DATA ;;
      _cpu_sp_dec ;;
      ret tmp_pc
  | CLEM_OPC_PHP =>
      _clem_cycle 1 ;;
      _clem_opc_push_status false ;;
      ret tmp_pc
  | CLEM_OPC_PHX =>
      rX <- rd X ;;
      _clem_opc_push_reg_816 rX x_status ;;
      ret tmp_pc
  | CLEM_OPC_PHY =>
      rY <- rd Y ;;
      _clem_opc_push_reg_816 rY x_status ;;
      ret tmp_pc
  | CLEM_OPC_PLA =>
      modify_A (fun rA => _clem_opc_pull_reg_816 rA m_status) ;;
      rA <- rd A ;;
      _cpu_p_flags_n_z_data_816 rA m_status ;;
      ret tmp_pc
  | CLEM_OPC_PLB =>
      rDBR <- _clem_opc_pull_reg_8 ;;
      set_DBR rDBR ;;
      rDBR <- rd DBR ;;
      _cpu_p_flags_n_z_data rDBR ;;
      ret tmp_pc
  | CLEM_OPC_PLD =>
      _clem_cycle 2 ;;
      rS <- rd S ;;
      rD <- _clem_read_16 (rS + 1) 0 CLEM_MEM_FLAG_DATA ;;
      set_D rD ;;
      _cpu_sp_inc2 ;;
      rD <- rd D ;;
      _cpu_p_flags_n_z_data_16 rD ;;
      ret tmp_pc
  | CLEM_OPC_PLP =>
      _clem_cycle 2 ;;
      _clem_opc_pull_status ;;
      ret tmp_pc
  | CLEM_OPC_PLX =>
      modify_X (fun rX => _clem_opc_pull_reg_816 rX x_status) ;;
      rX <- rd X ;;
      _cpu_p_flags_n_z_data_816 rX x_status ;;
      ret tmp_pc
  | CLEM_OPC_PLY =>
      modify_Y (fun rY => _clem_opc_pull_reg_816 rY x_status) ;;
      rY <- rd Y ;;
      _cpu_p_flags_n_z_data_816 rY x_status ;;
      ret tmp_pc
  | CLEM_OPC_REP =>
      '(tmp_data, tmp_pc) <- _clem_read_pba tmp_pc ;;
      clear_P_bits tmp_data ;;
      emu <- rd_emulation ;;
      (if emu then
         set_P_bits kClemensCPUStatus_MemoryAccumulator ;;
         set_P_bits kClemensCPUStatus_Index
       else ret tt) ;;
      _cpu_p_flags_apply_m_x ;;
      _clem_cycle 1 ;;
      ret tmp_pc
  | CLEM_OPC_ROL_A =>
      modify_A (fun rA => _cpu_rol rA m_status) ;;
      _clem_cycle 1 ;;
      ret tmp_pc
  | CLEM_OPC_ROL_ABS =>
      '(tmp_addr, tmp_pc) <- _clem_read_pba_mode_abs tmp_pc ;;
      rDBR <- rd DBR ;;
      tmp_value <- _clem_read_data_816 tmp_addr rDBR m_status ;;
      tmp_value <- _cpu_rol tmp_value m_status ;;
      _clem_cycle 1 ;;
      rDBR <- rd DBR ;;
      _clem_write_816 tmp_value tmp_addr rDBR m_status ;;
      ret tmp_pc
  | CLEM_OPC_ROL_DP =>
      '(tmp_addr, tmp_pc, tmp_data) <- _clem_read_pba_mode_dp tmp_pc 0 false ;;
      tmp_value <- _clem_read_data_816 tmp_addr 0 m_status ;;
      tmp_value <- _cpu_rol tmp_value m_status ;;
      _clem_cycle 1 ;;
      _clem_write_816 tmp_value tmp_addr 0 m_status ;;
      ret tmp_pc
  | CLEM_OPC_ROL_ABS_IDX =>
      '(tmp_addr, tmp_pc) <- _clem_read_pba_mode_abs tmp_pc ;;
      _clem_cycle 1 ;;
      rX <- rd X ;;
      rDBR <- rd DBR ;;
      tmp_value <- _clem_read_data_indexed_816 tmp_addr rX rDBR m_status x_status ;;
      tmp_value <- _cpu_rol tmp_value m_status ;;
      _clem_cycle 1 ;;
      rX <- rd X ;;
      rDBR <- rd DBR ;;
      _clem_write_indexed_816 tmp_value tmp_addr rX rDBR m_status x_status ;;
      ret tmp_pc
  | CLEM_OPC_ROL_ABS_DP_IDX =>
      rX <- rd X ;;
      '(tmp_addr, tmp_pc, tmp_data) <- _clem_read_pba_mode_dp tmp_pc rX x_status ;;
      _clem_cycle 1 ;;
      tmp_value <- _clem_read_data_816 tmp_addr 0 m_status ;;
      tmp_value <- _cpu_rol tmp_value m_status ;;
      _clem_cycle 1 ;;
      _clem_write_816 tmp_value tmp_addr 0 m_status ;;
      ret tmp_pc
  | CLEM_OPC_ROR_A =>
      modify_A (fun rA => _cpu_ror rA m_status) ;;
      _clem_cycle 1 ;;
      ret tmp_pc
  | CLEM_OPC_ROR_ABS =>
      '(tmp_addr, tmp_pc) <- _clem_read_pba_mode_abs tmp_pc ;;
      rDBR <- rd DBR ;;
      tmp_value <- _clem_read_data_816 tmp_addr rDBR m_status ;;
      tmp_value <- _cpu_ror tmp_value m_status ;;
      _clem_cycle 1 ;;
      rDBR <- rd DBR ;;
      _clem_write_816 tmp_value tmp_addr rDBR m_status ;;
      ret tmp_pc
  | CLEM_OPC_ROR_DP =>
      '(tmp_addr, tmp_pc, tmp_data) <- _clem_read_pba_mode_dp tmp_pc 0 false ;;
      tmp_value <- _clem_read_data_816 tmp_addr 0 m_status ;;
      tmp_value <- _cpu_ror tmp_value m_status ;;
      _clem_cycle 1 ;;
      _clem_write_816 tmp_value tmp_addr 0 m_status ;;
      ret tmp_pc
  | CLEM_OPC_ROR_ABS_IDX =>
      '(tmp_addr, tmp_pc) <- _clem_read_pba_mode_abs tmp_pc ;;
      _clem_cycle 1 ;;
      rX <- rd X ;;
      rDBR <- rd DBR ;;
      tmp_value <- _clem_read_data_indexed_816 tmp_addr rX rDBR m_status x_status ;;
      tmp_value <- _cpu_ror tmp_value m_status ;;
      _clem_cycle 1 ;;
      rX <- rd X ;;
      rDBR <- rd DBR ;;
      _clem_write_indexed_816 tmp_value tmp_addr rX rDBR m_status x_status ;;
      ret tmp_pc
  | CLEM_OPC_ROR_ABS_DP_IDX =>
      rX <- rd X ;;
      '(tmp_addr, tmp_pc, tmp_data) <- _clem_read_pba_mode_dp tmp_pc rX x_status ;;
      _clem_cycle 1 ;;
      tmp_value <- _clem_read_data_816 tmp_addr 0 m_status ;;
      tmp_value <- _cpu_ror tmp_value m_status ;;
      _clem_cycle 1 ;;
      _clem_write_816 tmp_value tmp_addr 0 m_status ;;
      ret tmp_pc
  | CLEM_OPC_SBC_IMM =>
      '(tmp_value, tmp_pc) <- _clem_read_pba_mode_imm_816 tmp_pc m_status ;;
      rP <- rd P ;;
      (if negb (flag rP kClemensCPUStatus_Decimal)
       then _cpu_sbc tmp_value m_status
       else _cpu_sbc_bcd tmp_value m_status) ;;
      ret tmp_pc
  | CLEM_OPC_SBC_ABS =>
      '(tmp_addr, tmp_pc) <- _clem_read_pba_mode_abs tmp_pc ;;
      rDBR <- rd DBR ;;
      tmp_value <- _clem_read_data_816 tmp_addr rDBR m_status ;;
      rP <- rd P ;;
      (if negb (flag rP kClemensCPUStatus_Decimal)
       then _cpu_sbc tmp_value m_status
       else _cpu_sbc_bcd tmp_value m_status) ;;
      ret tmp_pc
  | CLEM_OPC_SBC_ABSL =>
      '(tmp_addr, tmp_bnk0, tmp_pc) <- _clem_read_pba_mode_absl tmp_pc ;;
      tmp_value <- _clem_read_data_816 tmp_addr tmp_bnk0 m_status ;;
      rP <- rd P ;;
      (if negb (flag rP kClemensCPUStatus_Decimal)
       then _cpu_sbc tmp_value m_status
       else _cpu_sbc_bcd tmp_value m_status) ;;
      ret tmp_pc
  | CLEM_OPC_SBC_DP =>
      '(tmp_addr, tmp_pc, tmp_data) <- _clem_read_pba_mode_dp tmp_pc 0 false ;;
      tmp_value <- _clem_read_data_816 tmp_addr 0 m_status ;;
      rP <- rd P ;;
      (if negb (flag rP kClemensCPUStatus_Decimal)
       then _cpu_sbc tmp_value m_status
       else _cpu_sbc_bcd tmp_value m_status) ;;
      ret tmp_pc
  | CLEM_OPC_SBC_DP_INDIRECT =>
      '(tmp_addr, tmp_pc, tmp_data) <- _clem_read_pba_mode_dp_indirect tmp_pc 0 false ;;
      rDBR <- rd DBR ;;
      tmp_value <- _clem_read_data_816 tmp_addr rDBR m_status ;;
      rP <- rd P ;;
      (if negb (flag rP kClemensCPUStatus_Decimal)
       then _cpu_sbc tmp_value m_status
       else _cpu_sbc_bcd tmp_value m_status) ;;
      ret tmp_pc
  | CLEM_OPC_SBC_DP_INDIRECTL =>
      '(tmp_addr, tmp_bnk0, tmp_pc, tmp_data) <- _clem_read_pba_mode_dp_indirectl tmp_pc 0 false ;;
      tmp_value <- _clem_read_data_816 tmp_addr tmp_bnk0 m_status ;;
      rP <- rd P ;;
      (if negb (flag rP kClemensCPUStatus_Decimal)
       then _cpu_sbc tmp_value m_status
       else _cpu_sbc_bcd tmp_value m_status) ;;
      ret tmp_pc
  | CLEM_OPC_SBC_ABS_IDX =>
      '(tmp_addr, tmp_pc) <- _clem_read_pba_mode_abs tmp_pc ;;
      rX <- rd X ;;
      rDBR <- rd DBR ;;
      tmp_value <- _clem_read_data_indexed_816 tmp_addr rX rDBR m_status x_status ;;
      rP <- rd P ;;
      (if negb (flag rP kClemensCPUStatus_Decimal)
       then _cpu_sbc tmp_value m_status
       else _cpu_sbc_bcd tmp_value m_status) ;;
      ret tmp_pc
  | CLEM_OPC_SBC_ABSL_IDX =>
      '(tmp_addr, tmp_bnk0, tmp_pc) <- _clem_read_pba_mode_absl tmp_pc ;;
      rX <- rd X ;;
      tmp_value <- _clem_read_data_indexed_816 tmp_addr rX tmp_bnk0 m_status x_status ;;
      rP <- rd P ;;
      (if negb (flag rP kClemensCPUStatus_Decimal)
       then _cpu_sbc tmp_value m_status
       else _cpu_sbc_bcd tmp_value m_status) ;;
      ret tmp_pc
  | CLEM_OPC_SBC_ABS_IDY =>
      '(tmp_addr, tmp_pc) <- _clem_read_pba_mode_abs tmp_pc ;;
      rY <- rd Y ;;
      rDBR <- rd DBR ;;
      tmp_value <- _clem_read_data_indexed_816 tmp_addr rY rDBR m_status x_status ;;
      rP <- rd P ;;
      (if negb (flag rP kClemensCPUStatus_Decimal)
       then _cpu_sbc tmp_value m_status
       else _cpu_sbc_bcd tmp_value m_status) ;;
      ret tmp_pc
  | CLEM_OPC_SBC_DP_IDX =>
      rX <- rd X ;;
      '(tmp_addr, tmp_pc, tmp_data) <- _clem_read_pba_mode_dp tmp_pc rX x_status ;;
      _clem_cycle 1 ;;
      tmp_value <- _clem_read_data_816 tmp_addr 0 m_status ;;
      rP <- rd P ;;
      (if negb (flag rP kClemensCPUStatus_Decimal)
       then _cpu_sbc tmp_value m_status
       else _cpu_sbc_bcd tmp_value m_status) ;;
      ret tmp_pc
  | CLEM_OPC_SBC_DP_IDX_INDIRECT =>
      rX <- rd X ;;
      '(tmp_addr, tmp_pc, tmp_data) <- _clem_read_pba_mode_dp_indirect tmp_pc rX x_status ;;
      _clem_cycle 1 ;;
      rDBR <- rd DBR ;;
      tmp_value <- _clem_read_data_816 tmp_addr rDBR m_status ;;
      rP <- rd P ;;
      (if negb (flag rP kClemensCPUStatus_Decimal)
       then _cpu_sbc tmp_value m_status
       else _cpu_sbc_bcd tmp_value m_status) ;;
      ret tmp_pc
  | CLEM_OPC_SBC_DP_INDIRECT_IDY =>
      '(tmp_addr, tmp_pc, tmp_data) <- _clem_read_pba_mode_dp_indirect tmp_pc 0 false ;;
      rY <- rd Y ;;
      rDBR <- rd DBR ;;
      tmp_value <- _clem_read_data_indexed_816 tmp_addr rY rDBR m_status x_status ;;
      rP <- rd P ;;
      (if negb (flag rP kClemensCPUStatus_Decimal)
       then _cpu_sbc tmp_value m_status
       else _cpu_sbc_bcd tmp_value m_status) ;;
      ret tmp_pc
  | CLEM_OPC_SBC_DP_INDIRECTL_IDY =>
      '(tmp_addr, tmp_bnk0, tmp_pc, tmp_data) <- _clem_read_pba_mode_dp_indirectl tmp_pc 0 false ;;
      rY <- rd Y ;;
      tmp_value <- _clem_read_data_indexed_816 tmp_addr rY tmp_bnk0 m_status x_status ;;
      rP <- rd P ;;
      (if negb (flag rP kClemensCPUStatus_Decimal)
       then _cpu_sbc tmp_value m_status
       else _cpu_sbc_bcd tmp_value m_status) ;;
      ret tmp_pc
  | CLEM_OPC_SBC_STACK_REL =>
      '(tmp_addr, tmp_pc, tmp_data) <- _clem_read_pba_mode_stack_rel tmp_pc ;;
      tmp_value <- _clem_read_data_816 tmp_addr 0 m_status ;;
      rP <- rd P ;;
      (if negb (flag rP kClemensCPUStatus_Decimal)
       then _cpu_sbc tmp_value m_status
       else _cpu_sbc_bcd tmp_value m_status) ;;
      ret tmp_pc
  | CLEM_OPC_SBC_STACK_REL_INDIRECT_IDY =>
      '(tmp_addr, tmp_pc, tmp_data) <- _clem_read_pba_mode_stack_rel_indirect tmp_pc ;;
      rY <- rd Y ;;
      rDBR <- rd DBR ;;
      tmp_value <- _clem_read_data_indexed_816 tmp_addr rY rDBR m_status x_status ;;
      rP <- rd P ;;
      (if negb (flag rP kClemensCPUStatus_Decimal)
       then _cpu_sbc tmp_value m_status
       else _cpu_sbc_bcd tmp_value m_status) ;;
      ret tmp_pc
  | CLEM_OPC_SEC =>
      set_P_bits kClemensCPUStatus_Carry ;;
      _clem_cycle 1 ;;
      ret tmp_pc
  | CLEM_OPC_SED =>
      set_P_bits kClemensCPUStatus_Decimal ;;
      _clem_cycle 1 ;;
      ret tmp_pc
  | CLEM_OPC_SEI =>
      set_P_bits kClemensCPUStatus_IRQDisable ;;
      _clem_cycle 1 ;;
      ret tmp_pc
  | CLEM_OPC_SEP =>
      '(tmp_data, tmp_pc) <- _clem_read_pba tmp_pc ;;
      emu <- rd_emulation ;;
      let tmp_data :=
        if emu
        then Z.lor (Z.lor tmp_data kClemensCPUStatus_MemoryAccumulator) kClemensCPUStatus_Index
        else tmp_data in
      set_P_bits tmp_data ;;
      _cpu_p_flags_apply_m_x ;;
      _clem_cycle 1 ;;
      ret tmp_pc
  | CLEM_OPC_STA_ABS =>
      '(tmp_addr, tmp_pc) <- _clem_read_pba_mode_abs tmp_pc ;;
      rA <- rd A ;;
      rDBR <- rd DBR ;;
      _clem_write_816 rA tmp_addr rDBR m_status ;;
      ret tmp_pc
  | CLEM_OPC_STA_ABSL =>
      '(tmp_addr, tmp_bnk0, tmp_pc) <- _clem_read_pba_mode_absl tmp_pc ;;
      rA <- rd A ;;
      _clem_write_816 rA tmp_addr tmp_bnk0 m_status ;;
      ret tmp_pc
  | CLEM_OPC_STA_DP =>
      '(tmp_addr, tmp_pc, tmp_data) <- _clem_read_pba_mode_dp tmp_pc 0 false ;;
      rA <- rd A ;;
      _clem_write_816 rA tmp_addr 0 m_status ;;
      ret tmp_pc
  | CLEM_OPC_STA_DP_INDIRECT =>
      '(tmp_addr, tmp_pc, tmp_data) <- _clem_read_pba_mode_dp_indirect tmp_pc 0 false ;;
      rA <- rd A ;;
      rDBR <- rd DBR ;;
      _clem_write_816 rA tmp_addr rDBR m_status ;;
      ret tmp_pc
  | CLEM_OPC_STA_DP_INDIRECTL =>
      '(tmp_addr, tmp_bnk0, tmp_pc, tmp_data) <- _clem_read_pba_mode_dp_indirectl tmp_pc 0 false ;;
      rA <- rd A ;;
      _clem_write_816 rA tmp_addr tmp_bnk0 m_status ;;
      ret tmp_pc
  | CLEM_OPC_STA_ABS_IDX =>
      '(tmp_addr, tmp_pc) <- _clem_read_pba_mode_abs tmp_pc ;;
      _clem_cycle 1 ;;
      rA <- rd A ;;
      rX <- rd X ;;
      rDBR <- rd DBR ;;
      _clem_write_indexed_816 rA tmp_addr rX rDBR m_status x_status ;;
      ret tmp_pc
  | CLEM_OPC_STA_ABSL_IDX =>
      '(tmp_addr, tmp_bnk0, tmp_pc) <- _clem_read_pba_mode_absl tmp_pc ;;
      rA <- rd A ;;
      rX <- rd X ;;
      _clem_write_indexed_816 rA tmp_addr rX tmp_bnk0 m_status x_status ;;
      ret tmp_pc
  | CLEM_OPC_STA_ABS_IDY =>
      '(tmp_addr, tmp_pc) <- _clem_read_pba_mode_abs tmp_pc ;;
      _clem_cycle 1 ;;
      rA <- rd A ;;
      rY <- rd Y ;;
      rDBR <- rd DBR ;;
      _clem_write_indexed_816 rA tmp_addr rY rDBR m_status x_status ;;
      ret tmp_pc
  | CLEM_OPC_STA_DP_IDX =>
      rX <- rd X ;;
      '(tmp_addr, tmp_pc, tmp_data) <- _clem_read_pba_mode_dp tmp_pc rX x_status ;;
      _clem_cycle 1 ;;
      rA <- rd A ;;
      _clem_write_816 rA tmp_addr 0 m_status ;;
      ret tmp_pc
  | CLEM_OPC_STA_DP_IDX_INDIRECT =>
      rX <- rd X ;;
      '(tmp_addr, tmp_pc, tmp_data) <- _clem_read_pba_mode_dp_indirect tmp_pc rX x_status ;;
      _clem_cycle 1 ;;
      rA <- rd A ;;
      rDBR <- rd DBR ;;
      _clem_write_816 rA tmp_addr rDBR m_status ;;
      ret tmp_pc
  | CLEM_OPC_STA_DP_INDIRECT_IDY =>
      '(tmp_addr, tmp_pc, tmp_data) <- _clem_read_pba_mode_dp_indirect tmp_pc 0 false ;;
      rY <- rd Y ;;
      rDBR <- rd DBR ;;
      _clem_io_read_cycle tmp_addr rY rDBR ;;
      rA <- rd A ;;
      rY <- rd Y ;;
      rDBR <- rd DBR ;;
      _clem_write_indexed_816 rA tmp_addr rY rDBR m_status x_status ;;
      ret tmp_pc
  | CLEM_OPC_STA_DP_INDIRECTL_IDY =>
      '(tmp_addr, tmp_bnk0, tmp_pc, tmp_data) <- _clem_read_pba_mode_dp_indirectl tmp_pc 0 false ;;
      rA <- rd A ;;
      rY <- rd Y ;;
      _clem_write_indexed_816 rA tmp_addr rY tmp_bnk0 m_status x_status ;;
      ret tmp_pc
  | CLEM_OPC_STA_STACK_REL =>
      '(tmp_addr, tmp_pc, tmp_data) <- _clem_read_pba_mode_stack_rel tmp_pc ;;
      rA <- rd A ;;
      _clem_write_816 rA tmp_addr 0 m_status ;;
      ret tmp_pc
  | CLEM_OPC_STA_STACK_REL_INDIRECT_IDY =>
      '(tmp_addr, tmp_pc, tmp_data) <- _clem_read_pba_mode_stack_rel_indirect tmp_pc ;;
      rA <- rd A ;;
      rY <- rd Y ;;
      rDBR <- rd DBR ;;
      _clem_write_indexed_816 rA tmp_addr rY rDBR m_status x_status ;;
      ret tmp_pc
  | CLEM_OPC_STX_ABS =>
      '(tmp_addr, tmp_pc) <- _clem_read_pba_mode_abs tmp_pc ;;
      rX <- rd X ;;
      rDBR <- rd DBR ;;
      _clem_write_816 rX tmp_addr rDBR x_status ;;
      ret tmp_pc
  | CLEM_OPC_STX_DP =>
      '(tmp_addr, tmp_pc, tmp_data) <- _clem_read_pba_mode_dp tmp_pc 0 x_status ;;
      rX <- rd X ;;
      _clem_write_816 rX tmp_addr 0 x_status ;;
      ret tmp_pc
  | CLEM_OPC_STX_DP_IDY =>
      rY <- rd Y ;;
      '(tmp_addr, tmp_pc, tmp_data) <- _clem_read_pba_mode_dp tmp_pc rY x_status ;;
      _clem_cycle 1 ;;
      rX <- rd X ;;
      _clem_write_816 rX tmp_addr 0 x_status ;;
      ret tmp_pc
  | CLEM_OPC_STY_ABS =>
      '(tmp_addr, tmp_pc) <- _clem_read_pba_mode_abs tmp_pc ;;
      rY <- rd Y ;;
      rDBR <- rd DBR ;;
      _clem_write_816 rY tmp_addr rDBR x_status ;;
      ret tmp_pc
  | CLEM_OPC_STY_DP =>
      '(tmp_addr, tmp_pc, tmp_data) <- _clem_read_pba_mode_dp tmp_pc 0 x_status ;;
      rY <- rd Y ;;
      _clem_write_816 rY tmp_addr 0 x_status ;;
      ret tmp_pc
  | CLEM_OPC_STY_DP_IDX =>
      rX <- rd X ;;
      '(tmp_addr, tmp_pc, tmp_data) <- _clem_read_pba_mode_dp tmp_pc rX x_status ;;
      _clem_cycle 1 ;;
      rY <- rd Y ;;
      _clem_write_816 rY tmp_addr 0 x_status ;;
      ret tmp_pc
  | CLEM_OPC_STZ_ABS =>
      '(tmp_addr, tmp_pc) <- _clem_read_pba_mode_abs tmp_pc ;;
      rDBR <- rd DBR ;;
      _clem_write_816 0 tmp_addr rDBR m_status ;;
      ret tmp_pc
  | CLEM_OPC_STZ_DP =>
      '(tmp_addr, tmp_pc, tmp_data) <- _clem_read_pba_mode_dp tmp_pc 0 false ;;
      _clem_write_816 0 tmp_addr 0 m_status ;;
      ret tmp_pc
  | CLEM_OPC_STZ_ABS_IDX =>
      '(tmp_addr, tmp_pc) <- _clem_read_pba_mode_abs tmp_pc ;;
      _clem_cycle 1 ;;
      rX <- rd X ;;
      rDBR <- rd DBR ;;
      _clem_write_indexed_816 0 tmp_addr rX rDBR m_status x_status ;;
      ret tmp_pc
  | CLEM_OPC_STZ_DP_IDX =>
      rX <- rd X ;;
      '(tmp_addr, tmp_pc, tmp_data) <- _clem_read_pba_mode_dp tmp_pc rX x_status ;;
      _clem_cycle 1 ;;
      _clem_write_816 0 tmp_addr 0 m_status ;;
      ret tmp_pc
  | CLEM_OPC_TAX =>
      (if x_status then
         rA <- rd A ;;
         set_X_lo rA ;;
         rX <- rd X ;;
         _cpu_p_flags_n_z_data (u8 rX)
       else
         rA <- rd A ;;
         set_X rA ;;
         rX <- rd X ;;
         _cpu_p_flags_n_z_data_16 rX) ;;
      _clem_cycle 1 ;;
      ret tmp_pc
  | CLEM_OPC_TAY =>
      (if x_status then
         rA <- rd A ;;
         set_Y_lo rA ;;
         rY <- rd Y ;;
         _cpu_p_flags_n_z_data (u8 rY)
       else
         rA <- rd A ;;
         set_Y rA ;;
         rY <- rd Y ;;
         _cpu_p_flags_n_z_data_16 rY) ;;
      _clem_cycle 1 ;;
      ret tmp_pc
  | CLEM_OPC_TCD =>
      rA <- rd A ;;
      set_D rA ;;
      rD <- rd D ;;
      _cpu_p_flags_n_z_data_16 rD ;;
      _clem_cycle 1 ;;
      ret tmp_pc
  | CLEM_OPC_TDC =>
      rD <- rd D ;;
      set_A rD ;;
      rA <- rd A ;;
      _cpu_p_flags_n_z_data_16 rA ;;
      _clem_cycle 1 ;;
      ret tmp_pc
  | CLEM_OPC_TCS =>
      emu <- rd_emulation ;;
      rA <- rd A ;;
      (if emu then set_S_lo rA else set_S rA) ;;
      _clem_cycle 1 ;;
      ret tmp_pc
  | CLEM_OPC_TSC =>
      rS <- rd S ;;
      set_A rS ;;
      rA <- rd A ;;
      _cpu_p_flags_n_z_data_16 rA ;;
      _clem_cycle 1 ;;
      ret tmp_pc
  | CLEM_OPC_TSX =>
      emu <- rd_emulation ;;
      (if negb emu && negb x_status then
         rS <- rd S ;;
         set_X rS ;;
         rX <- rd X ;;
         _cpu_p_flags_n_z_data_16 rX
       else if x_status then
         rS <- rd S ;;
         set_X_lo rS ;;
         rX <- rd X ;;
         _cpu_p_flags_n_z_data (u8 rX)
       else ret tt) ;;
      _clem_cycle 1 ;;
      ret tmp_pc
  | CLEM_OPC_TXA =>
      (if m_status then
         rA <- rd A ;;
         rX <- rd X ;;
         set_A (CLEM_UTIL_set16_lo rA rX) ;;
         rA <- rd A ;;
         _cpu_p_flags_n_z_data (u8 rA)
       else
         rX <- rd X ;;
         set_A (if x_status then u8 rX else rX) ;;
         rA <- rd A ;;
         _cpu_p_flags_n_z_data_16 rA) ;;
      _clem_cycle 1 ;;
      ret tmp_pc
  | CLEM_OPC_TXS =>
      emu <- rd_emulation ;;
      rX <- rd X ;;
      (if emu then set_S_lo rX
       else if x_status then set_S (Z.land rX 255)
       else set_S rX) ;;
      _clem_cycle 1 ;;
      ret tmp_pc
  | CLEM_OPC_TXY =>
      (if x_status then
         rX <- rd X ;;
         set_Y_lo rX ;;
         rY <- rd Y ;;
         _cpu_p_flags_n_z_data (u8 rY)
       else
         rX <- rd X ;;
         set_Y rX ;;
         rY <- rd Y ;;
         _cpu_p_flags_n_z_data_16 rY) ;;
      _clem_cycle 1 ;;
      ret tmp_pc
  | CLEM_OPC_TYA =>
      (if m_status then
         rA <- rd A ;;
         rY <- rd Y ;;
         set_A (CLEM_UTIL_set16_lo rA rY) ;;
         rA <- rd A ;;
         _cpu_p_flags_n_z_data (u8 rA)
       else
         rY <- rd Y ;;
         set_A (if x_status then u8 rY else rY) ;;
         rA <- rd A ;;
         _cpu_p_flags_n_z_data_16 rA) ;;
      _clem_cycle 1 ;;
      ret tmp_pc
  | CLEM_OPC_TYX =>
      (if x_status then
         rY <- rd Y ;;
         set_X_lo rY ;;
         rX <- rd X ;;
         _cpu_p_flags_n_z_data (u8 rX)
       else
         rY <- rd Y ;;
         set_X rY ;;
         rX <- rd X ;;
         _cpu_p_flags_n_z_data_16 rX) ;;
      _clem_cycle 1 ;;
      ret tmp_pc
  | CLEM_OPC_TRB_ABS =>
      '(tmp_addr, tmp_pc) <- _clem_read_pba_mode_abs tmp_pc ;;
      rDBR <- rd DBR ;;
      tmp_value <- _clem_read_data_816 tmp_addr rDBR m_status ;;
      tmp_value <- _cpu_trb tmp_value m_status ;;
      _clem_cycle 1 ;;
      rDBR <- rd DBR ;;
      _clem_write_816 tmp_value tmp_addr rDBR m_status ;;
      ret tmp_pc
  | CLEM_OPC_TRB_DP =>
      '(tmp_addr, tmp_pc, tmp_data) <- _clem_read_pba_mode_dp tmp_pc 0 false ;;
      tmp_value <- _clem_read_data_816 tmp_addr 0 m_status ;;
      tmp_value <- _cpu_trb tmp_value m_status ;;
      _clem_cycle 1 ;;
      _clem_write_816 tmp_value tmp_addr 0 m_status ;;
      ret tmp_pc
  | CLEM_OPC_TSB_ABS =>
      '(tmp_addr, tmp_pc) <- _clem_read_pba_mode_abs tmp_pc ;;
      rDBR <- rd DBR ;;
      tmp_value <- _clem_read_data_816 tmp_addr rDBR m_status ;;
      tmp_value <- _cpu_tsb tmp_value m_status ;;
      _clem_cycle 1 ;;
      rDBR <- rd DBR ;;
      _clem_write_816 tmp_value tmp_addr rDBR m_status ;;
      ret tmp_pc
  | CLEM_OPC_TSB_DP =>
      '(tmp_addr, tmp_pc, tmp_data) <- _clem_read_pba_mode_dp tmp_pc 0 false ;;
      tmp_value <- _clem_read_data_816 tmp_addr 0 m_status ;;
      tmp_value <- _cpu_tsb tmp_value m_status ;;
      _clem_cycle 1 ;;
      _clem_write_816 tmp_value tmp_addr 0 m_status ;;
      ret tmp_pc
  | CLEM_OPC_XBA =>
      rA <- rd A ;;
      let tmp_value := rA in
      set_A (Z.shiftr (Z.land tmp_value 65280) 8) ;;
      rA <- rd A ;;
      set_A (Z.lor (Z.shiftl (Z.land tmp_value 255) 8) rA) ;;
      rA <- rd A ;;
      _cpu_p_flags_n_z_data (u8 (Z.land rA 255)) ;;
      _clem_cycle 2 ;;
      ret tmp_pc
  | CLEM_OPC_XCE =>
      emu <- rd_emulation ;;
      let tmp_value := emu in
      rP <- rd P ;;
      set_emulation (flag rP kClemensCPUStatus_Carry) ;;
      emu <- rd_emulation ;;
      (if negb (Bool.eqb tmp_value emu) then
         set_P_bits kClemensCPUStatus_Index ;;
         set_P_bits kClemensCPUStatus_MemoryAccumulator ;;
         (if tmp_value then ret tt
          else
            rS <- rd S ;;
            set_S (CLEM_UTIL_set16_lo 256 rS)) ;;
         _cpu_p_flags_apply_m_x
       else ret tt) ;;
      (if tmp_value
       then set_P_bits kClemensCPUStatus_Carry
       else clear_P_bits kClemensCPUStatus_Carry) ;;
      _clem_cycle 1 ;;
      ret tmp_pc
  | CLEM_OPC_WDM =>
      '(tmp_data, tmp_pc) <- _clem_read_pba tmp_pc ;;
      (if tmp_data =? 1 then
         '(tmp_data, tmp_pc) <- _clem_read_pba tmp_pc ;;
         '(tmp_bnk0, tmp_pc) <- _clem_read_pba tmp_pc ;;
         '(tmp_bnk1, tmp_pc) <- _clem_read_pba tmp_pc ;;
         _clem_debug_memory_dump tmp_bnk1 tmp_bnk0 tmp_data ;;
         ret tmp_pc
       else ret tmp_pc)
  | CLEM_OPC_JSR =>
      '(tmp_addr, tmp_pc) <- _clem_read_pba_16 tmp_pc ;;
      let tmp_pc := u16 (tmp_pc - 1) in
      _clem_cycle 1 ;;
      _clem_opc_push_pc16 tmp_pc ;;
      let tmp_pc := tmp_addr in
      ret tmp_pc
  | CLEM_OPC_JSR_INDIRECT_IDX =>
      '(tmp_addr, tmp_pc) <- _clem_read_pba_16 tmp_pc ;;
      let tmp_pc := u16 (tmp_pc - 1) in
      _clem_cycle 1 ;;
      _clem_opc_push_pc16 tmp_pc ;;
      rX <- rd X ;;
      let tmp_eaddr :=
        if x_status then u16 (tmp_addr + Z.land rX 255) else u16 (tmp_addr + rX) in
      rPBR <- rd PBR ;;
      tmp_pc <- _clem_read_16 tmp_eaddr rPBR CLEM_MEM_FLAG_DATA ;;
      ret tmp_pc
  | CLEM_OPC_RTS =>
      _clem_cycle 2 ;;
      emu <- rd_emulation ;;
      rS <- rd S ;;
      let tmp_value := u16 (rS + 1) in
      let tmp_value := if emu then CLEM_UTIL_set16_lo rS tmp_value else tmp_value in
      tmp_data <- clem_read tmp_value 0 CLEM_MEM_FLAG_DATA ;;
      let tmp_addr := tmp_data in
      let tmp_value := u16 (tmp_value + 1) in
      let tmp_value := if emu then CLEM_UTIL_set16_lo rS tmp_value else tmp_value in
      tmp_data <- clem_read tmp_value 0 CLEM_MEM_FLAG_DATA ;;
      let tmp_addr := Z.lor (Z.shiftl tmp_data 8) tmp_addr in
      _clem_cycle 1 ;;
      _cpu_sp_inc2 ;;
      let tmp_pc := u16 (tmp_addr + 1) in
      ret tmp_pc
  | CLEM_OPC_JSL =>
      '(tmp_addr, tmp_pc) <- _clem_read_pba_16 tmp_pc ;;
      rPBR <- rd PBR ;;
      rS <- rd S ;;
      clem_write rPBR rS 0 CLEM_MEM_FLAG_DATA ;;
      _clem_cycle 1 ;;
      '(tmp_data, tmp_pc) <- _clem_read_pba tmp_pc ;;
      let tmp_pc := u16 (tmp_pc - 1) in
      let tmp_bnk0 := tmp_data in
      clem_write (u8 (Z.shiftr tmp_pc 8)) (rS - 1) 0 CLEM_MEM_FLAG_DATA ;;
      clem_write (u8 tmp_pc) (rS - 2) 0 CLEM_MEM_FLAG_DATA ;;
      _cpu_sp_dec3 ;;
      let tmp_pc := tmp_addr in
      set_PBR tmp_bnk0 ;;
      ret tmp_pc
  | CLEM_OPC_RTL =>
      _clem_cycle 2 ;;
      rS <- rd S ;;
      tmp_data <- clem_read (rS + 1) 0 CLEM_MEM_FLAG_DATA ;;
      let tmp_addr := tmp_data in
      tmp_data <- clem_read (rS + 2) 0 CLEM_MEM_FLAG_DATA ;;
      let tmp_addr := Z.lor (Z.shiftl tmp_data 8) tmp_addr in
      tmp_data <- clem_read (rS + 3) 0 CLEM_MEM_FLAG_DATA ;;
      _cpu_sp_inc3 ;;
      let tmp_pc := u16 (tmp_addr + 1) in
      set_PBR tmp_data ;;
      ret tmp_pc
  | CLEM_OPC_BRK =>
      '(tmp_data, tmp_pc) <- _clem_read_pba tmp_pc ;;
      emu <- rd_emulation ;;
      rPBR <- rd PBR ;;
      '(pbr, tmp_pc) <-
        (if emu then
           _clem_irq_brk_setup rPBR tmp_pc (CLEM_6502_IRQBRK_VECTOR_LO_ADDR vt)
             (CLEM_6502_IRQBRK_VECTOR_HI_ADDR vt) true
         else
           _clem_irq_brk_setup rPBR tmp_pc (CLEM_65816_BRK_VECTOR_LO_ADDR vt)
             (CLEM_65816_BRK_VECTOR_HI_ADDR vt) true) ;;
      set_PBR pbr ;;
      ret tmp_pc
  | CLEM_OPC_COP =>
      '(tmp_data, tmp_pc) <- _clem_read_pba tmp_pc ;;
      emu <- rd_emulation ;;
      rPBR <- rd PBR ;;
      '(pbr, tmp_pc) <-
        (if emu then
           _clem_irq_brk_setup rPBR tmp_pc (CLEM_6502_COP_VECTOR_LO_ADDR vt)
             (CLEM_6502_COP_VECTOR_LO_ADDR vt) true
         else
           _clem_irq_brk_setup rPBR tmp_pc (CLEM_65816_COP_VECTOR_LO_ADDR vt)
             (CLEM_65816_COP_VECTOR_HI_ADDR vt) true) ;;
      set_PBR pbr ;;
      ret tmp_pc
  | CLEM_OPC_RTI =>
      _clem_cycle 2 ;;
      tmp_pc <- _clem_irq_brk_return ;;
      ret tmp_pc
  | CLEM_OPC_WAI =>
      _clem_cycle 2 ;;
      set_readyOut false ;;
      ret tmp_pc
  | CLEM_OPC_STP =>
      _clem_cycle 2 ;;
      set_enabled false ;;
      ret tmp_pc
  end.

(** [cpu_execute]: the fetch of the opcode at PBR:PC, the switch, and the
    write-back of the program counter. [None] is a failed assertion of a
    debug build. *)
Definition cpu_execute (clem : ClemensMachine) : option ClemensMachine :=
  if negb NDEBUG
     && negb (state_type_eqb (state_type (cpu clem)) kClemensCPUStateType_Execute)
  then None
  else
    let body : M bool :=
      rPC <- rd PC ;;
      let tmp_pc := rPC in
      rPBR <- rd PBR ;;
      ir <- clem_read tmp_pc rPBR CLEM_MEM_FLAG_OPCODE_FETCH ;;
      set_IR ir ;;
      let tmp_pc := u16 (tmp_pc + 1) in
      rIR <- rd IR ;;
      rP <- rd P ;;
      let m_status := flag rP kClemensCPUStatus_MemoryAccumulator in
      let x_status := flag rP kClemensCPUStatus_Index in
      let carry := flag rP kClemensCPUStatus_Carry in
      let zero_flag := flag rP kClemensCPUStatus_Zero in
      match opcode_table rIR with
      | Some op =>
          tmp_pc <- cpu_execute_op op m_status x_status carry zero_flag tmp_pc ;;
          set_PC tmp_pc ;;
          ret true
      | None =>
          (* default: CLEM_WARN("Unknown IR"); assert(false); *)
          if NDEBUG then set_PC tmp_pc ;; ret true else ret false
      end in
    let (ok, clem') := body clem in
    if ok then Some clem' else None.

Definition set_resb_counter (n : Z) (m : ClemensMachine) : ClemensMachine :=
  mkMachine (cpu m) (tspec m) (mem m) (bus m) n (debug_flags m).

(** The countdown of the reset line in [clemens_emulate_cpu]:
    [if (resb_counter > 0) { if (--resb_counter <= 0) resbIn = true; }]. *)
Definition resb_countdown : M unit := fun m =>
  let n := resb_counter m in
  let fires := (0 <? n) && (n - 1 <=? 0) in
  (tt,
   set_resb_counter (if 0 <? n then n - 1 else n)
     (set_resbIn (if fires then true else resbIn (pins (cpu m))) m)).

(** The register values that the reset line forces, on entry to the reset
    state. *)
Definition reset_entry : M unit :=
  set_state_type kClemensCPUStateType_Reset ;;
  set_D 0 ;;
  set_DBR 0 ;;
  set_PBR 0 ;;
  rS <- rd S ;;
  set_S (Z.land rS 255) ;;
  rS <- rd S ;;
  set_S (Z.lor rS 256) ;;
  rX <- rd X ;;
  set_X (Z.land rX 255) ;;
  rY <- rd Y ;;
  set_Y (Z.land rY 255) ;;
  clear_P_bits
    (Z.lor kClemensCPUStatus_MemoryAccumulator
       (Z.lor kClemensCPUStatus_Index
          (Z.lor kClemensCPUStatus_Decimal
             (Z.lor kClemensCPUStatus_IRQDisable kClemensCPUStatus_Carry)))) ;;
  set_P_bits
    (Z.lor kClemensCPUStatus_MemoryAccumulator
       (Z.lor kClemensCPUStatus_Index kClemensCPUStatus_IRQDisable)) ;;
  set_emulation true ;;
  set_readyOut true ;;
  set_enabled true ;;
  _clem_cycle 1.

(** The load of the program counter that ends the reset state. *)
Definition reset_exit : M unit :=
  rS <- rd S ;;
  tmp_data <- clem_read rS 0 CLEM_MEM_FLAG_DATA ;;
  emu <- rd_emulation ;;
  let tmp_addr := u16 (rS - 1) in
  let tmp_addr := if emu then CLEM_UTIL_set16_lo rS tmp_addr else tmp_addr in
  tmp_datahi <- clem_read tmp_addr 0 CLEM_MEM_FLAG_DATA ;;
  _cpu_sp_dec2 ;;
  rS <- rd S ;;
  tmp_data <- clem_read rS 0 CLEM_MEM_FLAG_DATA ;;
  _cpu_sp_dec ;;
  pc <- _clem_read_interrupt_vector (CLEM_6502_RESET_VECTOR_LO_ADDR vt)
          (CLEM_6502_RESET_VECTOR_HI_ADDR vt) ;;
  set_PC pc ;;
  set_state_type kClemensCPUStateType_Execute.

(** The IRQ and NMI transition. *)
Definition interrupt_entry : M unit :=
  emu <- rd_emulation ;;
  fun m =>
  let nmi := state_type_eqb (state_type (cpu m)) kClemensCPUStateType_NMI in
  let vlo :=
    if emu
    then (if nmi then CLEM_6502_NMI_VECTOR_LO_ADDR vt
          else CLEM_6502_IRQBRK_VECTOR_LO_ADDR vt)
    else (if nmi then CLEM_65816_NMI_VECTOR_LO_ADDR vt
          else CLEM_65816_IRQB_VECTOR_LO_ADDR vt) in
  let vhi :=
    if emu
    then (if nmi then CLEM_6502_NMI_VECTOR_HI_ADDR vt
          else CLEM_6502_IRQBRK_VECTOR_HI_ADDR vt)
    else (if nmi then CLEM_65816_NMI_VECTOR_LO_ADDR vt
          else CLEM_65816_IRQB_VECTOR_HI_ADDR vt) in
  (_clem_cycle 2 ;;
   rPBR <- rd PBR ;;
   rPC <- rd PC ;;
   '(pbr, pc) <- _clem_irq_brk_setup rPBR rPC vlo vhi false ;;
   set_PBR pbr ;;
   set_PC pc ;;
   set_state_type kClemensCPUStateType_Execute) m.

(** [clemens_emulate_cpu], the step entry point: a held reset line, a
    stopped processor, the end of the reset state, a pending IRQ or NMI, or
    one instruction. The debug device fields [dev_debug] that the function
    also writes are no part of the modelled machine. *)
Definition clemens_emulate_cpu (clem : ClemensMachine) : option ClemensMachine :=
  let c := cpu clem in
  if negb (resbIn (pins c)) then
    Some (exec
            ((if negb (state_type_eqb (state_type c) kClemensCPUStateType_Reset)
              then reset_entry else ret tt) ;;
             _clem_cycle 1 ;;
             resb_countdown) clem)
  else if negb (enabled c) then Some clem
  else if state_type_eqb (state_type c) kClemensCPUStateType_Reset
  then Some (exec reset_exit clem)
  else if state_type_eqb (state_type c) kClemensCPUStateType_IRQ
          || state_type_eqb (state_type c) kClemensCPUStateType_NMI
  then Some (exec interrupt_entry clem)
  else cpu_execute clem.

End Executor.

(* ===================================================================== *)
(** ** Hex dump: [clemens_out_hex_data_from_memory] *)
(* ===================================================================== *)

Definition UINT_MAX : Z := 4294967295.

(** [hex[i] = v] on the caller's character array; a store outside the
    array is undefined behaviour and faults. *)
Definition out_store (out : list Z) (i v : Z) : option (list Z) :=
  if in_bounds out i 1 then Some (splice out i [v]) else None.

Section HexDump.

(** The digit table of [clem_util.c], which is not among the sources: the
    character for each value of a nibble. *)
Variable g_decimal_to_hex : Z -> Z.

(** The [for] loop of [clemens_out_hex_data_from_memory], [n] passes from
    [byte_idx]: the index after the loop, the checksum and the text. *)
Fixpoint out_hex_loop (n : nat) (h : Heap) (memory : option Ptr) (adr : Z)
    (byte_idx chksum : Z) (hex : list Z) : option (Z * Z * list Z) :=
  match n with
  | O => Some (byte_idx, chksum, hex)
  | Datatypes.S n' =>
      match load8 h memory (Z.land (u32 (adr + byte_idx)) 65535) with
      | None => None
      | Some b =>
          let byte := u8 b in
          match out_store hex (byte_idx * 2)
                  (g_decimal_to_hex (Z.shiftr (Z.land byte 240) 4)) with
          | None => None
          | Some hex =>
              match out_store hex (byte_idx * 2 + 1)
                      (g_decimal_to_hex (Z.land byte 15)) with
              | None => None
              | Some hex =>
                  out_hex_loop n' h memory adr (byte_idx + 1)
                    (u32 (chksum + byte)) hex
              end
          end
      end
  end.

(** [clemens_out_hex_data_from_memory]: the returned [unsigned] and the
    text after the call. *)
Definition clemens_out_hex_data_from_memory (h : Heap) (hex : list Z)
    (memory : option Ptr) (out_hex_byte_limit adr : Z) : option (Z * list Z) :=
  let byte_amt := Z.shiftr out_hex_byte_limit 1 in
  if byte_amt =? 0 then Some (UINT_MAX, hex)
  else if 256 <? byte_amt then Some (UINT_MAX, hex)
  else
    match out_hex_loop (Z.to_nat byte_amt) h memory adr 0 0 hex with
    | None => None
    | Some (byte_idx, chksum, hex) =>
        match out_store hex (byte_idx * 2) 0 with
        | None => None
        | Some hex => Some (chksum, hex)
        end
    end.

(** [clemens_out_hex_data_body]: the bank is looked up as in
    [clemens_out_bin_data]. *)
Definition clemens_out_hex_data_body (clem : ClemensMachine) (h : Heap)
    (hex : list Z) (out_hex_byte_limit bank adr : Z) : option (Z * list Z) :=
  let memory :=
    if (bank =? 224) || (bank =? 225)
    then nth (Z.to_nat (Z.land bank 1)) (mega2_bank_map (mem clem)) None
    else nth (Z.to_nat (Z.land bank 255)) (fpi_bank_map (mem clem)) None in
  clemens_out_hex_data_from_memory h hex memory out_hex_byte_limit adr.

End HexDump.

(* ===================================================================== *)
(** * Properties *)
(* ===================================================================== *)

Unset Implicit Arguments.

(* --------------------------------------------------------------------- *)
(** ** Binary dump *)
(* --------------------------------------------------------------------- *)

Lemma land_65535 (x : Z) : Z.land x 65535 = x mod 65536.
Proof. change 65535 with (Z.ones 16). now rewrite Z.land_ones by lia. Qed.

Lemma land_255 (x : Z) : Z.land x 255 = x mod 256.
Proof. change 255 with (Z.ones 8). now rewrite Z.land_ones by lia. Qed.

(** A host buffer is far smaller than the 32-bit address range. *)
Definition heap_small (h : Heap) : Prop :=
  forall r, Z.of_nat (length (heap_get h r)) < 4294901760.

Lemma memcpy_out_huge (h : Heap) (out : list Z) (p : option Ptr) (n : Z) :
  heap_small h -> 4294901760 <= n -> memcpy_out h out 0 p n = None.
Proof.
  intros Hs Hn. destruct p as [p|]; [|reflexivity].
  unfold memcpy_out. specialize (Hs (ptr_region p)).
  assert (E : in_bounds (heap_get h (ptr_region p)) (ptr_off p) n = false).
  { unfold in_bounds. destruct (0 <=? ptr_off p) eqn:E0; [|reflexivity].
    destruct (0 <=? n); [|reflexivity]. simpl.
    apply Z.leb_gt. apply Z.leb_le in E0. lia. }
  now rewrite E.
Qed.

(** C10 (as the code has it): whenever the requested range really wraps
    past the end of the bank ([adr + n > 65536] with [n < 65536]), the
    second [memcpy] is asked for [right0 - left0] bytes, a difference of
    unsigned values that is negative and so wraps to almost 2^32: the copy
    leaves every buffer and the call faults instead of producing [out]. *)
Theorem clemens_out_bin_data_wrap_faults
    (clem : ClemensMachine) (h : Heap) (out : list Z) (n bank adr : Z) :
  heap_small h ->
  0 <= adr < 65536 -> 0 <= n < 65536 -> 65536 < adr + n ->
  clemens_out_bin_data clem h out n bank adr = None.
Proof.
  intros Hs Ha Hn Hw. unfold clemens_out_bin_data.
  set (memory := if (bank =? 224) || (bank =? 225) then _ else _).
  replace (65536 <? n) with false by (symmetry; apply Z.ltb_ge; lia).
  assert (E0 : u32 (adr + n) = adr + n)
    by (unfold u32; apply Z.mod_small; lia).
  rewrite E0.
  replace (65536 <? adr + n) with true by (symmetry; apply Z.ltb_lt; lia).
  rewrite land_65535.
  assert (E1 : (adr + n) mod 65536 = adr + n - 65536).
  { replace (adr + n) with ((adr + n - 65536) + 1 * 65536) at 1 by lia.
    rewrite Z.mod_add by lia. apply Z.mod_small; lia. }
  rewrite E1.
  assert (E2 : u32 (adr + n - 65536 - adr) = 4294967296 + (n - 65536)).
  { unfold u32.
    replace (adr + n - 65536 - adr) with ((4294967296 + (n - 65536)) + (-1) * 4294967296) by lia.
    rewrite Z.mod_add by lia. apply Z.mod_small; lia. }
  rewrite E2.
  destruct (memcpy_out h out _ _ _); [|reflexivity].
  apply memcpy_out_huge; [assumption | lia].
Qed.

(** The bank bytes used by the examples: byte [i] holds [i mod 251]. *)
Fixpoint zseq (n : nat) (i : Z) : list Z :=
  match n with
  | O => []
  | Datatypes.S n' => i :: zseq n' (i + 1)
  end.

Definition ramp_bank : list Z :=
  map (fun i => i mod 251) (zseq (Z.to_nat 65536) 0).

Definition dump_machine : ClemensMachine :=
  mkMachine
    (mkCpu (mkPins false true true true) (mkRegs 0 0 0 0 0 0 0 0 0 0)
           kClemensCPUStateType_Execute 0 true)
    (mkTspec 1 1 1 0)
    (mkMemory (repeat (Some (mkPtr RegionFpiRAM 0)) 256) (repeat true 256)
              [Some (mkPtr RegionE0 0); Some (mkPtr RegionE1 0)] (repeat None 256))
    (mkBus (fun _ _ => 0) (fun _ _ => FastRAM) no_mmio) 0 0.

Definition dump_heap : Heap := mkHeap ramp_bank [] ramp_bank ramp_bank [].

Lemma dump_heap_small : heap_small dump_heap.
Proof. intros [| | | |]; vm_compute; reflexivity. Qed.

(** Two bytes from offset 0xFFFF of bank 0: the claim wants
    [out = [bank[0xFFFF]; bank[0]]], the call faults. *)
Lemma clemens_out_bin_data_wrap_faults_witness :
  clemens_out_bin_data dump_machine dump_heap [0; 0] 2 0 65535 = None.
Proof.
  apply clemens_out_bin_data_wrap_faults; [apply dump_heap_small | lia | lia | lia].
Defined.

(** Without wrap-around the dump is the plain copy of the bank bytes. *)
Example clemens_out_bin_data_plain :
  clemens_out_bin_data dump_machine dump_heap [0; 0; 0] 3 0 300 = Some [49; 50; 51].
Proof. vm_compute. reflexivity. Qed.

(* --------------------------------------------------------------------- *)
(** ** Initialisation *)
(* --------------------------------------------------------------------- *)

(** What [clemens_simple_init] leaves outside the bank tables: both pins
    high, the clock steps stored and the clock at zero. *)
Lemma clemens_simple_init_pins (machine m1 : ClemensMachine) (h h1 : Heap)
    (sf cs : Z) (fpiRAM : option Ptr) (cnt : Z) :
  clemens_simple_init machine h sf cs fpiRAM cnt = Some (m1, h1) ->
  resbIn (pins (cpu m1)) = true /\ irqbIn (pins (cpu m1)) = true /\
  tspec m1 = mkTspec cs cs sf 0.
Proof.
  unfold clemens_simple_init. intros H.
  destruct (for_loop _ 0 _ _) as [[x h']|]; [|discriminate].
  destruct (memset h' _ _ _); [|discriminate].
  destruct (for_loop _ _ _ x); [|discriminate].
  inversion H; subst. simpl. auto.
Qed.

(** C7 (amended): the return value of [clemens_init] in terms of its
    arguments. Whenever the preliminary [clemens_simple_init] runs through,
    the call returns -1 if the ROM pointer is NULL; otherwise -2 if the bank
    count is below 4 or any of the fast-RAM, E0 or E1 pointers is NULL;
    otherwise, the two Mega II banks being clearable, 0. In both error
    cases the machine and the host buffers are returned as
    [clemens_simple_init] left them, with the reset and IRQ pins high. *)
Theorem clemens_init_result (EMPTY_BANK : Z)
    (machine m1 : ClemensMachine) (h h1 : Heap) (sf cs : Z)
    (rom e0bank e1bank fpiRAM : option Ptr) (cnt : Z) :
  clemens_simple_init machine h sf cs fpiRAM cnt = Some (m1, h1) ->
  (rom = None ->
     clemens_init EMPTY_BANK machine h sf cs rom e0bank e1bank fpiRAM cnt
       = Some (-1, m1, h1)) /\
  (rom <> None -> (cnt < 4 \/ fpiRAM = None \/ e0bank = None \/ e1bank = None) ->
     clemens_init EMPTY_BANK machine h sf cs rom e0bank e1bank fpiRAM cnt
       = Some (-2, m1, h1)) /\
  (rom <> None -> 4 <= cnt -> fpiRAM <> None ->
     forall h2 h3,
     memset h1 e0bank 0 CLEM_IIGS_BANK_SIZE = Some h2 ->
     memset h2 e1bank 0 CLEM_IIGS_BANK_SIZE = Some h3 ->
     exists m2,
       clemens_init EMPTY_BANK machine h sf cs rom e0bank e1bank fpiRAM cnt
         = Some (0, m2, h3)) /\
  resbIn (pins (cpu m1)) = true /\ irqbIn (pins (cpu m1)) = true.
Proof.
  intros Hs. unfold clemens_init. rewrite Hs.
  repeat split.
  - intros ->. reflexivity.
  - intros Hrom Hbad. destruct rom; [|congruence].
    assert (E : (cnt <? 4)
                || match fpiRAM with None => true | Some _ => false end
                || match e0bank with None => true | Some _ => false end
                || match e1bank with None => true | Some _ => false end = true).
    { destruct Hbad as [Hc|[Hf|[He|He]]]; subst.
      - apply Z.ltb_lt in Hc. now rewrite Hc.
      - now rewrite orb_true_r.
      - now rewrite !orb_true_r.
      - now rewrite !orb_true_r. }
    now rewrite E.
  - intros Hrom Hcnt Hfpi h2 h3 H2 H3.
    destruct rom; [|congruence].
    destruct fpiRAM; [|congruence].
    destruct e0bank as [e0|]; [|discriminate].
    destruct e1bank as [e1|]; [|simpl in H3; discriminate].
    replace (cnt <? 4) with false by (symmetry; apply Z.ltb_ge; lia).
    cbn [orb for_loop]. rewrite H2, H3. eexists. reflexivity.
  - apply (clemens_simple_init_pins _ _ _ _ _ _ _ _ Hs).
  - apply (clemens_simple_init_pins _ _ _ _ _ _ _ _ Hs).
Qed.

(** A machine as the host allocates it: every field zero, every pointer
    NULL. *)
Definition blank_machine : ClemensMachine :=
  mkMachine
    (mkCpu (mkPins false false false false) (mkRegs 0 0 0 0 0 0 0 0 0 0)
           kClemensCPUStateType_Execute 0 false)
    (mkTspec 0 0 0 0)
    (mkMemory (repeat None 256) (repeat false 256) [None; None] (repeat None 256))
    (mkBus (fun _ _ => 0) (fun _ _ => Empty) no_mmio) 0 0.

(** Host buffers: four fast-RAM banks, a four-bank ROM image, and the two
    Mega II banks. *)
Definition host_heap : Heap :=
  mkHeap (repeat 255 (Z.to_nat (4 * 65536))) (repeat 234 (Z.to_nat (4 * 65536)))
         (repeat 255 (Z.to_nat 65536)) (repeat 255 (Z.to_nat 65536))
         (repeat 0 (Z.to_nat 65536)).

Definition p_fpi : option Ptr := Some (mkPtr RegionFpiRAM 0).
Definition p_rom : option Ptr := Some (mkPtr RegionROM 0).
Definition p_e0 : option Ptr := Some (mkPtr RegionE0 0).
Definition p_e1 : option Ptr := Some (mkPtr RegionE1 0).

(** The observable outcome of a call: the returned code, whether the core
    now reports itself initialised, the reset pin, and the first byte of the
    host's fast RAM. *)
Definition init_outcome (r : option (Z * ClemensMachine * Heap))
    : option (Z * bool * bool * Z) :=
  option_map (fun '(code, m, h) =>
                (code, clemens_is_initialized_simple m, resbIn (pins (cpu m)),
                 nth 0 (heap_fpiRAM h) 0)) r.

(** C7 (counterexample): a call that fails for want of a ROM image returns
    -1 and yet has changed the machine: the reset pin went high, the first
    bank is mapped, so that [clemens_is_initialized_simple] now answers
    true, and the host's fast RAM has been cleared. *)
Lemma clemens_init_failure_not_clean :
  (init_outcome
     (clemens_init 129 blank_machine host_heap 2800 1023 None p_e0 p_e1 p_fpi 4)
   = Some (-1, true, true, 0)) /\
  (init_outcome (Some (-1, blank_machine, host_heap))
   = Some (-1, false, false, 255)).
Proof. split; vm_compute; reflexivity. Qed.

Definition is_some {T : Type} (o : option T) : bool :=
  match o with Some _ => true | None => false end.

Definition simple_init_example : option (ClemensMachine * Heap) :=
  clemens_simple_init blank_machine host_heap 2800 1023 p_fpi 4.

Definition from_option {T : Type} (d : T) (o : option T) : T :=
  match o with Some x => x | None => d end.

Definition init_m1 : ClemensMachine :=
  from_option blank_machine (option_map fst simple_init_example).

Definition init_h1 : Heap :=
  from_option host_heap (option_map snd simple_init_example).

Lemma simple_init_example_runs :
  clemens_simple_init blank_machine host_heap 2800 1023 p_fpi 4
    = Some (init_m1, init_h1).
Proof.
  unfold init_m1, init_h1, simple_init_example.
  set (r := clemens_simple_init blank_machine host_heap 2800 1023 p_fpi 4).
  assert (F : is_some r = true) by (vm_compute; reflexivity).
  clearbody r.
  destruct r as [[m h]|]; [reflexivity | discriminate F].
Defined.

(** The ROM-less call of the counterexample, through the theorem. *)
Lemma clemens_init_result_witness :
  clemens_init 129 blank_machine host_heap 2800 1023 None p_e0 p_e1 p_fpi 4
    = Some (-1, init_m1, init_h1).
Proof.
  pose proof (clemens_init_result 129 blank_machine init_m1 host_heap init_h1
                2800 1023 None p_e0 p_e1 p_fpi 4 simple_init_example_runs) as H.
  destruct H as [H _]. exact (H eq_refl).
Defined.

(* --------------------------------------------------------------------- *)
(** ** Bits of the status register *)
(* --------------------------------------------------------------------- *)

Lemma testbit_u8 (x n : Z) : 0 <= n < 8 -> Z.testbit (u8 x) n = Z.testbit x n.
Proof. intros H. unfold u8. change 256 with (2 ^ 8). apply Z.mod_pow2_bits_low. lia. Qed.

Lemma flag_pow2 (p k : Z) : 0 <= k -> flag p (2 ^ k) = Z.testbit p k.
Proof.
  intros Hk. unfold flag. destruct (Z.testbit p k) eqn:E.
  - destruct (Z.land p (2 ^ k) =? 0) eqn:F; [|reflexivity].
    apply Z.eqb_eq in F.
    assert (G : Z.testbit (Z.land p (2 ^ k)) k = true)
      by (rewrite Z.land_spec, E, Z.pow2_bits_true by lia; reflexivity).
    rewrite F, Z.bits_0 in G. discriminate.
  - assert (F : Z.land p (2 ^ k) = 0).
    { apply Z.bits_inj'. intros n Hn.
      rewrite Z.land_spec, Z.bits_0, Z.pow2_bits_eqb by lia.
      destruct (Z.eqb_spec k n) as [->|_]; [now rewrite E | apply andb_false_r]. }
    now rewrite F.
Qed.

Lemma testbit_p_assign (mask bits p n : Z) :
  0 <= n ->
  Z.testbit (p_assign mask bits p) n
  = if Z.testbit mask n then Z.testbit bits n else Z.testbit p n.
Proof.
  intros Hn. unfold p_assign.
  rewrite Z.lor_spec, !Z.land_spec, Z.lnot_spec by lia.
  destruct (Z.testbit mask n), (Z.testbit bits n), (Z.testbit p n); reflexivity.
Qed.

(** The status flags as bits of P. *)
Lemma flag_Carry p : flag p kClemensCPUStatus_Carry = Z.testbit p 0.
Proof. apply (flag_pow2 p 0). lia. Qed.

Lemma flag_IRQDisable p : flag p kClemensCPUStatus_IRQDisable = Z.testbit p 2.
Proof. apply (flag_pow2 p 2). lia. Qed.

Lemma flag_Decimal p : flag p kClemensCPUStatus_Decimal = Z.testbit p 3.
Proof. apply (flag_pow2 p 3). lia. Qed.

Lemma flag_Index p : flag p kClemensCPUStatus_Index = Z.testbit p 4.
Proof. apply (flag_pow2 p 4). lia. Qed.

Lemma flag_MemoryAccumulator p :
  flag p kClemensCPUStatus_MemoryAccumulator = Z.testbit p 5.
Proof. apply (flag_pow2 p 5). lia. Qed.

(* --------------------------------------------------------------------- *)
(** ** Symbolic execution of the step function *)
(* --------------------------------------------------------------------- *)

Ltac destruct_machine s :=
  destruct s as [[[? ? ? ?] [? ? ? ? ? ? ? ? ? ?] ? ? ?] [? ? ? ?] ? ? ? ?].

Ltac mcbn :=
  cbn -[Z.add Z.sub Z.mul Z.div Z.modulo Z.land Z.lor Z.lxor Z.lnot Z.shiftl
        Z.shiftr Z.eqb Z.ltb Z.leb Z.testbit u8 u16 u32 s8 s16 bus_read
        bus_write page_of p_assign CLEM_UTIL_set16_lo flag].

Ltac mcbn_in H :=
  cbn -[Z.add Z.sub Z.mul Z.div Z.modulo Z.land Z.lor Z.lxor Z.lnot Z.shiftl
        Z.shiftr Z.eqb Z.ltb Z.leb Z.testbit u8 u16 u32 s8 s16 bus_read
        bus_write page_of p_assign CLEM_UTIL_set16_lo flag] in H.

(* --------------------------------------------------------------------- *)
(** ** Interrupt vectors *)
(* --------------------------------------------------------------------- *)

(** C1 (as the code has it): in native mode a pending NMI loads both bytes
    of the new PC from the low vector address: the code passes
    [CLEM_65816_NMI_VECTOR_LO_ADDR] for [vhi] too, so the byte at the high
    vector address is never read. The claim wants the high byte from the
    high vector address. *)
Theorem clemens_emulate_cpu_nmi_native_vector
    (vt : VectorTable) (table : Z -> option Opcode) (ndebug : bool)
    (s : ClemensMachine) :
  resbIn (pins (cpu s)) = true ->
  enabled (cpu s) = true ->
  emulation (pins (cpu s)) = false ->
  state_type (cpu s) = kClemensCPUStateType_NMI ->
  exists s',
    clemens_emulate_cpu vt table ndebug s = Some s' /\
    (let v := bus_read (bus s') 0 (u16 (CLEM_65816_NMI_VECTOR_LO_ADDR vt)) in
     PC (regs (cpu s')) = u16 (Z.lor (Z.shiftl v 8) v)) /\
    state_type (cpu s') = kClemensCPUStateType_Execute.
Proof.
  intros Hr He Hm Hs. destruct_machine s. cbn in Hr, He, Hm, Hs. subst.
  eexists. split; [reflexivity|]. mcbn. change (u8 0) with 0.
  split; reflexivity.
Qed.

(** A program memory for the examples: the bytes listed for bank 0, zero
    elsewhere. *)
Fixpoint assoc_byte (l : list (Z * Z)) (a : Z) : Z :=
  match l with
  | [] => 0
  | (k, v) :: t => if a =? k then v else assoc_byte t a
  end.

Definition ram_of (l : list (Z * Z)) : Bus :=
  mkBus (fun bank a => if bank =? 0 then assoc_byte l a else 0)
        (fun _ _ => FastRAM) no_mmio.

Definition machine_of (l : list (Z * Z)) (r : ClemensCPURegs) (emu : bool)
    (st : ClemensCPUStateType) : ClemensMachine :=
  mkMachine (mkCpu (mkPins emu true true true) r st 0 true) (mkTspec 1 1 3 0)
            (mkMemory [] [] [] []) (ram_of l) 0 0.

(** Native mode, NMI pending, the native NMI vector FFEA/FFEB holding
    0x1234. *)
Definition nmi_machine : ClemensMachine :=
  machine_of [(65514, 52); (65515, 18)] (mkRegs 0 0 0 0 511 2048 0 0 0 5)
             false kClemensCPUStateType_NMI.

Lemma clemens_emulate_cpu_nmi_native_vector_witness :
  exists s',
    clemens_emulate_cpu wdc_vectors wdc_opcode_of_byte true nmi_machine = Some s' /\
    (let v := bus_read (bus s') 0 (u16 (CLEM_65816_NMI_VECTOR_LO_ADDR wdc_vectors)) in
     PC (regs (cpu s')) = u16 (Z.lor (Z.shiftl v 8) v)) /\
    state_type (cpu s') = kClemensCPUStateType_Execute.
Proof.
  apply (clemens_emulate_cpu_nmi_native_vector wdc_vectors wdc_opcode_of_byte true
           nmi_machine); reflexivity.
Defined.

(** The step at the failing input: the vector holds 0x1234, the new PC is
    0x3434. *)
Example nmi_native_loads_3434 :
  option_map (fun s' => PC (regs (cpu s')))
    (clemens_emulate_cpu wdc_vectors wdc_opcode_of_byte true nmi_machine)
  = Some 13364.
Proof. vm_compute. reflexivity. Qed.

(** C4 (as the code has it): in emulation mode COP loads both bytes of the
    new PC from the low vector address: the code passes
    [CLEM_6502_COP_VECTOR_LO_ADDR] for [vhi] too. It does set I and clear
    D. The claim wants the high byte from the high vector address. *)
Theorem cpu_execute_cop_emulation_vector
    (vt : VectorTable) (table : Z -> option Opcode) (ndebug : bool)
    (s : ClemensMachine) :
  resbIn (pins (cpu s)) = true ->
  enabled (cpu s) = true ->
  emulation (pins (cpu s)) = true ->
  state_type (cpu s) = kClemensCPUStateType_Execute ->
  table (u8 (bus_read (bus s) (u8 (PBR (regs (cpu s)))) (u16 (PC (regs (cpu s))))))
    = Some CLEM_OPC_COP ->
  exists s',
    clemens_emulate_cpu vt table ndebug s = Some s' /\
    (let v := bus_read (bus s') 0 (u16 (CLEM_6502_COP_VECTOR_LO_ADDR vt)) in
     PC (regs (cpu s')) = u16 (Z.lor (Z.shiftl v 8) v)) /\
    flag (P (regs (cpu s'))) kClemensCPUStatus_IRQDisable = true /\
    flag (P (regs (cpu s'))) kClemensCPUStatus_Decimal = false.
Proof.
  intros Hr He Hm Hs Hop. destruct_machine s. cbn in Hr, He, Hm, Hs. subst.
  mcbn_in Hop.
  unfold clemens_emulate_cpu, cpu_execute. mcbn. rewrite andb_false_r.
  rewrite Hop. mcbn. change (u8 0) with 0.
  eexists. split; [reflexivity|]. mcbn.
  split; [reflexivity|].
  rewrite flag_IRQDisable, flag_Decimal.
  rewrite !testbit_u8, !testbit_p_assign by lia.
  split; reflexivity.
Qed.

(** Emulation mode, COP at 00:0800, the emulation COP vector FFF4/FFF5
    holding 0x1234. *)
Definition cop_machine : ClemensMachine :=
  machine_of [(2048, 2); (2049, 0); (65524, 52); (65525, 18)]
             (mkRegs 0 0 0 0 511 2048 0 56 0 0) true kClemensCPUStateType_Execute.

Lemma cpu_execute_cop_emulation_vector_witness :
  exists s',
    clemens_emulate_cpu wdc_vectors wdc_opcode_of_byte true cop_machine = Some s' /\
    (let v := bus_read (bus s') 0 (u16 (CLEM_6502_COP_VECTOR_LO_ADDR wdc_vectors)) in
     PC (regs (cpu s')) = u16 (Z.lor (Z.shiftl v 8) v)) /\
    flag (P (regs (cpu s'))) kClemensCPUStatus_IRQDisable = true /\
    flag (P (regs (cpu s'))) kClemensCPUStatus_Decimal = false.
Proof.
  apply (cpu_execute_cop_emulation_vector wdc_vectors wdc_opcode_of_byte true
           cop_machine); reflexivity.
Defined.

(** The step at the failing input: the vector holds 0x1234, the new PC is
    0x3434. *)
Example cop_emulation_loads_3434 :
  option_map (fun s' => PC (regs (cpu s')))
    (clemens_emulate_cpu wdc_vectors wdc_opcode_of_byte true cop_machine)
  = Some 13364.
Proof. vm_compute. reflexivity. Qed.

(* --------------------------------------------------------------------- *)
(** ** The high byte of a 16-bit register *)
(* --------------------------------------------------------------------- *)

Definition hi8 (x : Z) : Z := (x / 256) mod 256.

Lemma hi8_bits (x : Z) : hi8 x = Z.land (Z.shiftr x 8) (Z.ones 8).
Proof.
  unfold hi8. rewrite Z.land_ones, Z.shiftr_div_pow2 by lia. reflexivity.
Qed.

Lemma testbit_hi8 (x n : Z) :
  0 <= n -> Z.testbit (hi8 x) n = Z.testbit x (n + 8) && (n <? 8).
Proof.
  intros Hn. rewrite hi8_bits, Z.land_spec, Z.shiftr_spec, Z.testbit_ones_nonneg by lia.
  reflexivity.
Qed.

Lemma testbit_u16 (x n : Z) : 0 <= n < 16 -> Z.testbit (u16 x) n = Z.testbit x n.
Proof.
  intros H. unfold u16. change 65536 with (2 ^ 16). apply Z.mod_pow2_bits_low. lia.
Qed.

Lemma testbit_255 (n : Z) : 0 <= n -> Z.testbit 255 n = (n <? 8).
Proof. intros H. change 255 with (Z.ones 8). apply Z.testbit_ones_nonneg; lia. Qed.

Lemma testbit_65280 (n : Z) : 0 <= n -> Z.testbit 65280 n = (8 <=? n) && (n <? 16).
Proof.
  intros H. change 65280 with (Z.shiftl (Z.ones 8) 8).
  rewrite Z.shiftl_spec by lia.
  destruct (Z.leb_spec 8 n).
  - rewrite Z.testbit_ones_nonneg by lia. cbn [andb].
    destruct (Z.ltb_spec (n - 8) 8), (Z.ltb_spec n 16); try reflexivity; lia.
  - rewrite Z.testbit_neg_r by lia. reflexivity.
Qed.

Lemma testbit_256 (n : Z) : Z.testbit 256 n = (n =? 8).
Proof. change 256 with (2 ^ 8). rewrite Z.pow2_bits_eqb by lia. apply Z.eqb_sym. Qed.

Ltac hi8_bits n :=
  apply Z.bits_inj'; intros n ?;
  rewrite ?testbit_hi8 by lia;
  destruct (Z.ltb_spec n 8); rewrite ?andb_false_r, ?Z.bits_0;
  [rewrite ?andb_true_r|reflexivity].

Lemma hi8_u16 (x : Z) : hi8 (u16 x) = hi8 x.
Proof. hi8_bits n. apply testbit_u16. lia. Qed.

Lemma hi8_set16_lo (a b : Z) : hi8 (CLEM_UTIL_set16_lo a b) = hi8 a.
Proof.
  hi8_bits n. unfold CLEM_UTIL_set16_lo.
  rewrite Z.lor_spec, !Z.land_spec, testbit_255, testbit_65280 by lia.
  replace (n + 8 <? 8) with false by (symmetry; apply Z.ltb_ge; lia).
  replace (8 <=? n + 8) with true by (symmetry; apply Z.leb_le; lia).
  replace (n + 8 <? 16) with true by (symmetry; apply Z.ltb_lt; lia).
  now rewrite andb_true_r, andb_false_r, orb_false_r.
Qed.

Lemma hi8_land_255 (x : Z) : hi8 (Z.land x 255) = 0.
Proof.
  hi8_bits n. rewrite Z.land_spec, testbit_255 by lia.
  replace (n + 8 <? 8) with false by (symmetry; apply Z.ltb_ge; lia).
  apply andb_false_r.
Qed.

Lemma hi8_lor_256 (x : Z) : hi8 x = 0 -> hi8 (Z.lor x 256) = 1.
Proof.
  intros H. apply Z.bits_inj'. intros n Hn.
  rewrite testbit_hi8, Z.lor_spec, testbit_256 by lia.
  assert (G : Z.testbit (hi8 x) n = false) by (rewrite H; apply Z.bits_0).
  rewrite testbit_hi8 in G by lia.
  change 1 with (2 ^ 0). rewrite Z.pow2_bits_eqb by lia.
  destruct (Z.ltb_spec n 8).
  - rewrite andb_true_r in *. rewrite G. cbn [orb].
    destruct (Z.eqb_spec (n + 8) 8), (Z.eqb_spec 0 n); try reflexivity; lia.
  - rewrite andb_false_r. destruct (Z.eqb_spec 0 n); [lia | reflexivity].
Qed.

(* --------------------------------------------------------------------- *)
(** ** Reset *)
(* --------------------------------------------------------------------- *)

(** The host drives the reset line between calls. *)
Definition hold_reset (m : ClemensMachine) : ClemensMachine := set_resbIn false m.
Definition release_reset (m : ClemensMachine) : ClemensMachine := set_resbIn true m.

(** The registers as the reset entry leaves them, for as long as the
    machine stays in the reset state. *)
Definition reset_latched (m : ClemensMachine) : Prop :=
  state_type (cpu m) = kClemensCPUStateType_Reset /\
  enabled (cpu m) = true /\
  emulation (pins (cpu m)) = true /\
  flag (P (regs (cpu m))) kClemensCPUStatus_MemoryAccumulator = true /\
  flag (P (regs (cpu m))) kClemensCPUStatus_Index = true /\
  flag (P (regs (cpu m))) kClemensCPUStatus_IRQDisable = true /\
  flag (P (regs (cpu m))) kClemensCPUStatus_Decimal = false /\
  PBR (regs (cpu m)) = 0 /\
  DBR (regs (cpu m)) = 0 /\
  D (regs (cpu m)) = 0 /\
  hi8 (S (regs (cpu m))) = 1.

Lemma reset_P_bits (p n : Z) :
  0 <= n < 8 ->
  Z.testbit (u8 (Z.lor (u8 (Z.land p (Z.lnot 61))) 52)) n
  = Z.testbit 52 n || (Z.testbit p n && negb (Z.testbit 61 n)).
Proof.
  intros Hn.
  rewrite testbit_u8, Z.lor_spec, testbit_u8, Z.land_spec, Z.lnot_spec by lia.
  apply orb_comm.
Qed.

(** A call with the reset line low, from outside the reset state, enters
    the reset state and forces the registers. *)
Lemma reset_entered (vt : VectorTable) (table : Z -> option Opcode)
    (ndebug : bool) (s : ClemensMachine) :
  state_type (cpu s) <> kClemensCPUStateType_Reset ->
  exists s1,
    clemens_emulate_cpu vt table ndebug (hold_reset s) = Some s1 /\
    reset_latched s1 /\ bus s1 = bus s /\ readyOut (pins (cpu s1)) = true.
Proof.
  intros Hs. destruct_machine s. cbn in Hs.
  destruct state_type0; try congruence;
    (eexists; split; [reflexivity|]); mcbn;
    (split; [|split; reflexivity]); unfold reset_latched; mcbn;
    rewrite flag_MemoryAccumulator, flag_Index, flag_IRQDisable, flag_Decimal;
    change (Z.lor kClemensCPUStatus_MemoryAccumulator
              (Z.lor kClemensCPUStatus_Index
                 (Z.lor kClemensCPUStatus_Decimal
                    (Z.lor kClemensCPUStatus_IRQDisable kClemensCPUStatus_Carry))))
      with 61;
    change (Z.lor kClemensCPUStatus_MemoryAccumulator
              (Z.lor kClemensCPUStatus_Index kClemensCPUStatus_IRQDisable))
      with 52;
    rewrite !reset_P_bits by lia; cbn [Z.testbit Pos.testbit negb orb andb];
    rewrite ?andb_false_r;
    (repeat (split; [reflexivity|]));
    rewrite hi8_u16; apply hi8_lor_256; rewrite hi8_u16; apply hi8_land_255.
Qed.

(** Further calls with the line low only spend a cycle. *)
Lemma reset_held (vt : VectorTable) (table : Z -> option Opcode)
    (ndebug : bool) (s : ClemensMachine) :
  reset_latched s ->
  exists s1,
    clemens_emulate_cpu vt table ndebug (hold_reset s) = Some s1 /\
    reset_latched s1 /\ bus s1 = bus s.
Proof.
  intros H. destruct_machine s. unfold reset_latched in *. cbn in H.
  destruct H as (Hst & H). subst.
  eexists. split; [reflexivity|]. mcbn. split; [|reflexivity].
  split; [reflexivity|exact H].
Qed.

(** The call after the release of the line loads PC from the reset vector
    and enters the execute state. *)
Lemma reset_released (vt : VectorTable) (table : Z -> option Opcode)
    (ndebug : bool) (s : ClemensMachine) :
  reset_latched s ->
  exists s4,
    clemens_emulate_cpu vt table ndebug (release_reset s) = Some s4 /\
    PC (regs (cpu s4))
      = u16 (Z.lor (Z.shiftl (bus_read (bus s) 0 (u16 (CLEM_6502_RESET_VECTOR_HI_ADDR vt))) 8)
                   (bus_read (bus s) 0 (u16 (CLEM_6502_RESET_VECTOR_LO_ADDR vt)))) /\
    emulation (pins (cpu s4)) = true /\
    flag (P (regs (cpu s4))) kClemensCPUStatus_MemoryAccumulator = true /\
    flag (P (regs (cpu s4))) kClemensCPUStatus_Index = true /\
    flag (P (regs (cpu s4))) kClemensCPUStatus_IRQDisable = true /\
    flag (P (regs (cpu s4))) kClemensCPUStatus_Decimal = false /\
    PBR (regs (cpu s4)) = 0 /\
    DBR (regs (cpu s4)) = 0 /\
    D (regs (cpu s4)) = 0 /\
    hi8 (S (regs (cpu s4))) = 1 /\
    state_type (cpu s4) = kClemensCPUStateType_Execute.
Proof.
  intros H. destruct_machine s. unfold reset_latched in *. cbn in H.
  destruct H as (Hst & Hen & Hemu & HM & HX & HI & HD & Hpbr & Hdbr & Hd & HS).
  subst. eexists. split; [reflexivity|]. mcbn. change (u8 0) with 0.
  repeat (split; [first [reflexivity | assumption]|]).
  split; [|reflexivity].
  now rewrite hi8_u16, hi8_set16_lo, hi8_u16, hi8_set16_lo.
Qed.

(** C5: the reset sequence. From a machine that is not already in the
    reset state, three calls with the reset line held low and a fourth with
    the line released end in the execute state with PC loaded from the
    reset vector FFFC/FFFD of bank 0, emulation on, M, X and I set, the D
    flag clear, PBR, DBR and D zero and the stack in page 1. *)
Theorem reset_sequence
    (vt : VectorTable) (table : Z -> option Opcode) (ndebug : bool)
    (s : ClemensMachine) :
  state_type (cpu s) <> kClemensCPUStateType_Reset ->
  CLEM_6502_RESET_VECTOR_LO_ADDR vt = 65532 ->
  CLEM_6502_RESET_VECTOR_HI_ADDR vt = 65533 ->
  exists s1 s2 s3 s4,
    clemens_emulate_cpu vt table ndebug (hold_reset s) = Some s1 /\
    clemens_emulate_cpu vt table ndebug (hold_reset s1) = Some s2 /\
    clemens_emulate_cpu vt table ndebug (hold_reset s2) = Some s3 /\
    clemens_emulate_cpu vt table ndebug (release_reset s3) = Some s4 /\
    PC (regs (cpu s4))
      = u16 (Z.lor (Z.shiftl (bus_read (bus s) 0 65533) 8) (bus_read (bus s) 0 65532)) /\
    emulation (pins (cpu s4)) = true /\
    flag (P (regs (cpu s4))) kClemensCPUStatus_MemoryAccumulator = true /\
    flag (P (regs (cpu s4))) kClemensCPUStatus_Index = true /\
    flag (P (regs (cpu s4))) kClemensCPUStatus_IRQDisable = true /\
    flag (P (regs (cpu s4))) kClemensCPUStatus_Decimal = false /\
    PBR (regs (cpu s4)) = 0 /\
    DBR (regs (cpu s4)) = 0 /\
    D (regs (cpu s4)) = 0 /\
    hi8 (S (regs (cpu s4))) = 1 /\
    state_type (cpu s4) = kClemensCPUStateType_Execute.
Proof.
  intros Hs Hlo Hhi.
  destruct (reset_entered vt table ndebug s Hs) as (s1 & E1 & L1 & B1 & _).
  destruct (reset_held vt table ndebug s1 L1) as (s2 & E2 & L2 & B2).
  destruct (reset_held vt table ndebug s2 L2) as (s3 & E3 & L3 & B3).
  destruct (reset_released vt table ndebug s3 L3) as (s4 & E4 & HPC & Hrest).
  exists s1, s2, s3, s4.
  repeat (split; [assumption|]).
  split; [|exact Hrest].
  rewrite HPC, Hlo, Hhi, B3, B2, B1. reflexivity.
Qed.

(** A running native-mode machine with the reset vector holding 0x1234. *)
Definition reset_machine : ClemensMachine :=
  machine_of [(65532, 52); (65533, 18)] (mkRegs 7 4660 22136 768 4095 2048 0 9 3 5)
             false kClemensCPUStateType_Execute.

Lemma reset_sequence_witness :
  exists s1 s2 s3 s4,
    clemens_emulate_cpu wdc_vectors wdc_opcode_of_byte true (hold_reset reset_machine) = Some s1 /\
    clemens_emulate_cpu wdc_vectors wdc_opcode_of_byte true (hold_reset s1) = Some s2 /\
    clemens_emulate_cpu wdc_vectors wdc_opcode_of_byte true (hold_reset s2) = Some s3 /\
    clemens_emulate_cpu wdc_vectors wdc_opcode_of_byte true (release_reset s3) = Some s4 /\
    PC (regs (cpu s4))
      = u16 (Z.lor (Z.shiftl (bus_read (bus reset_machine) 0 65533) 8)
                   (bus_read (bus reset_machine) 0 65532)) /\
    emulation (pins (cpu s4)) = true /\
    flag (P (regs (cpu s4))) kClemensCPUStatus_MemoryAccumulator = true /\
    flag (P (regs (cpu s4))) kClemensCPUStatus_Index = true /\
    flag (P (regs (cpu s4))) kClemensCPUStatus_IRQDisable = true /\
    flag (P (regs (cpu s4))) kClemensCPUStatus_Decimal = false /\
    PBR (regs (cpu s4)) = 0 /\
    DBR (regs (cpu s4)) = 0 /\
    D (regs (cpu s4)) = 0 /\
    hi8 (S (regs (cpu s4))) = 1 /\
    state_type (cpu s4) = kClemensCPUStateType_Execute.
Proof.
  apply (reset_sequence wdc_vectors wdc_opcode_of_byte true reset_machine);
    [discriminate | reflexivity | reflexivity].
Defined.

(** The same run, evaluated: PC = 0x1234 and S = 0x01FC. *)
Example reset_sequence_run :
  let step := clemens_emulate_cpu wdc_vectors wdc_opcode_of_byte true in
  let after o f := match o with Some m => step (f m) | None => None end in
  option_map (fun m => (PC (regs (cpu m)), S (regs (cpu m)), P (regs (cpu m))))
    (after (after (after (step (hold_reset reset_machine)) hold_reset) hold_reset)
           release_reset)
  = Some (4660, 508, 52).
Proof. vm_compute. reflexivity. Qed.

(* --------------------------------------------------------------------- *)
(** ** Block moves *)
(* --------------------------------------------------------------------- *)

Lemma u16_add_l (a b : Z) : u16 (u16 a + b) = u16 (a + b).
Proof. unfold u16. apply Zplus_mod_idemp_l. Qed.

Lemma u16_idem (a : Z) : u16 (u16 a) = u16 a.
Proof. unfold u16. apply Zmod_mod. Qed.

Lemma u8_idem (a : Z) : u8 (u8 a) = u8 a.
Proof. unfold u8. apply Zmod_mod. Qed.

Lemma u8_bus_read (b : Bus) (bank adr : Z) : u8 (bus_read b bank adr) = bus_read b bank adr.
Proof. unfold bus_read. destruct (bus_kind b bank (page_of adr)); try apply u8_idem; reflexivity. Qed.

(** The direction of a block move: MVN walks upwards, MVP downwards. *)
Definition block_move_step (op : Opcode) : Z :=
  match op with CLEM_OPC_MVN => 1 | _ => -1 end.

(** The index register after one step of a block move, at the width given
    by the X flag. *)
Definition index_step (x_status : bool) (r delta : Z) : Z :=
  if x_status then u16 (CLEM_UTIL_set16_lo r (r + delta)) else u16 (r + delta).

(** C8: one execution of MVN or MVP. With the destination bank and the
    source bank as the two operand bytes, the byte at source bank:X is
    written to destination bank:Y, X and Y step up (MVN) or down (MVP) at
    the index width, A is decremented, DBR becomes the destination bank,
    and PC stays on the opcode unless A has reached 0xFFFF, when it moves
    past the two operand bytes. *)
Theorem cpu_execute_block_move
    (vt : VectorTable) (table : Z -> option Opcode) (ndebug : bool)
    (op : Opcode) (s : ClemensMachine) :
  op = CLEM_OPC_MVN \/ op = CLEM_OPC_MVP ->
  resbIn (pins (cpu s)) = true ->
  enabled (cpu s) = true ->
  state_type (cpu s) = kClemensCPUStateType_Execute ->
  table (u8 (bus_read (bus s) (u8 (PBR (regs (cpu s)))) (u16 (PC (regs (cpu s))))))
    = Some op ->
  let r := regs (cpu s) in
  let pbr := u8 (PBR r) in
  let dest := bus_read (bus s) pbr (u16 (PC r + 1)) in
  let src := bus_read (bus s) pbr (u16 (PC r + 2)) in
  let x_status := flag (P r) kClemensCPUStatus_Index in
  let data := bus_read (bus s) src (u16 (X r)) in
  exists s',
    clemens_emulate_cpu vt table ndebug s = Some s' /\
    bus s' = bus_write (bus s) dest (u16 (Y r)) data /\
    X (regs (cpu s')) = index_step x_status (X r) (block_move_step op) /\
    Y (regs (cpu s')) = index_step x_status (Y r) (block_move_step op) /\
    A (regs (cpu s')) = u16 (A r - 1) /\
    DBR (regs (cpu s')) = dest /\
    PC (regs (cpu s'))
      = (if u16 (A r - 1) =? 65535 then u16 (PC r + 3) else u16 (PC r)).
Proof.
  intros Hop Hr He Hs Ht. destruct_machine s. cbn in Hr, He, Hs. subst.
  mcbn_in Ht. mcbn.
  unfold clemens_emulate_cpu, cpu_execute. mcbn. rewrite andb_false_r.
  rewrite Ht.
  unfold index_step, block_move_step.
  destruct Hop; subst op; destruct (flag P0 kClemensCPUStatus_Index); mcbn;
    (eexists; split; [reflexivity|]); mcbn;
    rewrite ?u16_idem, ?u8_idem, ?u8_bus_read, ?u16_add_l;
    replace (PC0 + 1 + 1) with (PC0 + 2) by lia;
    rewrite ?u16_add_l;
    replace (PC0 + 2 + 1) with (PC0 + 3) by lia;
    (repeat (split; [reflexivity|]));
    destruct (u16 (A0 - 1) =? 65535); cbn [negb]; rewrite ?u16_idem; reflexivity.
Qed.

(** Native mode with 16-bit index registers: MVN from bank 2 to bank 3 at
    00:0800, A = 1 (two bytes to go), X = 0x1000, Y = 0x2000. *)
Definition mvn_machine : ClemensMachine :=
  machine_of [(2048, 84); (2049, 3); (2050, 2)]
             (mkRegs 1 4096 8192 0 511 2048 0 0 0 0) false
             kClemensCPUStateType_Execute.

Lemma cpu_execute_block_move_witness :
  let s := mvn_machine in
  let r := regs (cpu s) in
  let pbr := u8 (PBR r) in
  let dest := bus_read (bus s) pbr (u16 (PC r + 1)) in
  let src := bus_read (bus s) pbr (u16 (PC r + 2)) in
  let x_status := flag (P r) kClemensCPUStatus_Index in
  let data := bus_read (bus s) src (u16 (X r)) in
  exists s',
    clemens_emulate_cpu wdc_vectors wdc_opcode_of_byte true s = Some s' /\
    bus s' = bus_write (bus s) dest (u16 (Y r)) data /\
    X (regs (cpu s')) = index_step x_status (X r) (block_move_step CLEM_OPC_MVN) /\
    Y (regs (cpu s')) = index_step x_status (Y r) (block_move_step CLEM_OPC_MVN) /\
    A (regs (cpu s')) = u16 (A r - 1) /\
    DBR (regs (cpu s')) = dest /\
    PC (regs (cpu s'))
      = (if u16 (A r - 1) =? 65535 then u16 (PC r + 3) else u16 (PC r)).
Proof.
  apply (cpu_execute_block_move wdc_vectors wdc_opcode_of_byte true CLEM_OPC_MVN
           mvn_machine); [left; reflexivity | reflexivity ..].
Defined.

(** Two executions of the same MVN: the first rewinds PC, the second, with
    A wrapping to 0xFFFF, leaves PC behind the operands. *)
Example block_move_run :
  let step := clemens_emulate_cpu wdc_vectors wdc_opcode_of_byte true in
  let view o :=
    option_map (fun m => (A (regs (cpu m)), X (regs (cpu m)), Y (regs (cpu m)),
                          DBR (regs (cpu m)), PC (regs (cpu m)))) o in
  view (step mvn_machine) = Some (0, 4097, 8193, 3, 2048) /\
  view (match step mvn_machine with Some m => step m | None => None end)
    = Some (65535, 4098, 8194, 3, 2051).
Proof. split; vm_compute; reflexivity. Qed.

(* --------------------------------------------------------------------- *)
(** ** The default branch of the executor *)
(* --------------------------------------------------------------------- *)

(** Every opcode byte has a case in the switch of [cpu_execute]: the
    default branch is reached for no byte. *)
Lemma wdc_opcode_of_byte_total (b : Z) :
  0 <= b < 256 -> wdc_opcode_of_byte b <> None.
Proof.
  intros H. destruct b as [|p|p]; [discriminate | | lia].
  do 8 (destruct p as [p|p|]; try lia; try discriminate).
Qed.

(** The machine after the fetch of an opcode without operands: the fetch
    has been charged and recorded in IR, PC has moved past the opcode
    byte. *)
Definition after_fetch (s : ClemensMachine) : ClemensMachine :=
  let c := cpu s in let r := regs c in let t := tspec s in
  let ir := u8 (bus_read (bus s) (u8 (PBR r)) (u16 (PC r))) in
  let slow := is_slow (bus_kind (bus s) (u8 (PBR r)) (page_of (u16 (PC r)))) in
  mkMachine
    (mkCpu (pins c)
           (mkRegs (A r) (X r) (Y r) (D r) (S r) (u16 (PC r + 1)) ir (P r)
                   (DBR r) (PBR r))
           (state_type c) (u32 (cycles_spent c + 1)) (enabled c))
    (mkTspec (clocks_step t) (clocks_step_fast t) (clocks_step_mega2 t)
             (clocks_spent t + (if slow then clocks_step_mega2 t else clocks_step t)))
    (mem s) (bus s) (resb_counter s) (debug_flags s).

(* --------------------------------------------------------------------- *)
(** ** WAI *)
(* --------------------------------------------------------------------- *)

(** WAI at 00:0800, NOP behind it; no interrupt and no reset asserted. *)
Definition wai_machine : ClemensMachine :=
  machine_of [(2048, 203); (2049, 234)] (mkRegs 0 0 0 0 511 2048 0 48 0 0) true
             kClemensCPUStateType_Execute.

(** C3 (counterexample): the call after WAI, with [readyOut] low and
    neither [irqbIn] nor [resbIn] asserted (both lines are active-low),
    fetches and executes the NOP behind the WAI: PC and the cycle count
    advance. *)
Lemma step_after_wai_advances :
  let step := clemens_emulate_cpu wdc_vectors wdc_opcode_of_byte true in
  let view o :=
    option_map (fun m => (readyOut (pins (cpu m)), irqbIn (pins (cpu m)),
                          resbIn (pins (cpu m)), PC (regs (cpu m)),
                          IR (regs (cpu m)), cycles_spent (cpu m),
                          clocks_spent (tspec m))) o in
  view (step wai_machine) = Some (false, true, true, 2049, 203, 3, 3) /\
  view (match step wai_machine with Some m => step m | None => None end)
    = Some (false, true, true, 2050, 234, 5, 5).
Proof. split; vm_compute; reflexivity. Qed.

(* --------------------------------------------------------------------- *)
(** ** Width safety: the invariant and the frame relation *)
(* --------------------------------------------------------------------- *)

(** The width invariant of section 3: X=1 forces the high bytes of X and Y
    to zero; emulation forces the stack into page 1 and M=X=1. *)
Definition width_safe (m : ClemensMachine) : Prop :=
  (flag (P (regs (cpu m))) kClemensCPUStatus_Index = true ->
     hi8 (X (regs (cpu m))) = 0 /\ hi8 (Y (regs (cpu m))) = 0) /\
  (emulation (pins (cpu m)) = true ->
     hi8 (S (regs (cpu m))) = 1 /\
     flag (P (regs (cpu m))) kClemensCPUStatus_MemoryAccumulator = true /\
     flag (P (regs (cpu m))) kClemensCPUStatus_Index = true).

Definition Pbit (n : Z) (m : ClemensMachine) : bool :=
  Z.testbit (P (regs (cpu m))) n.

(** What most of the executor leaves alone: the emulation pin, the M and X
    flags, the high bytes of X and Y while X=1, the page of the stack in
    emulation, and a lowered [readyOut]. *)
Definition wrel (m m' : ClemensMachine) : Prop :=
  emulation (pins (cpu m')) = emulation (pins (cpu m)) /\
  Pbit 4 m' = Pbit 4 m /\
  Pbit 5 m' = Pbit 5 m /\
  (Pbit 4 m = true ->
     hi8 (X (regs (cpu m'))) = hi8 (X (regs (cpu m))) /\
     hi8 (Y (regs (cpu m'))) = hi8 (Y (regs (cpu m)))) /\
  (emulation (pins (cpu m)) = true ->
     hi8 (S (regs (cpu m'))) = hi8 (S (regs (cpu m)))) /\
  (readyOut (pins (cpu m)) = false -> readyOut (pins (cpu m')) = false).

Lemma wrel_refl (m : ClemensMachine) : wrel m m.
Proof. unfold wrel. tauto. Qed.

Lemma wrel_trans (a b c : ClemensMachine) : wrel a b -> wrel b c -> wrel a c.
Proof.
  unfold wrel. intros (E1 & X1 & M1 & XY1 & S1 & R1) (E2 & X2 & M2 & XY2 & S2 & R2).
  repeat split.
  - congruence.
  - congruence.
  - congruence.
  - destruct (XY1 H), (XY2 ltac:(congruence)). congruence.
  - destruct (XY1 H), (XY2 ltac:(congruence)). congruence.
  - intros H. rewrite (S2 ltac:(congruence)). auto.
  - auto.
Qed.

Lemma wrel_width_safe (m m' : ClemensMachine) :
  wrel m m' -> width_safe m -> width_safe m'.
Proof.
  unfold wrel, width_safe, Pbit.
  intros (E & HX & HM & XY & HS & _) (W1 & W2).
  rewrite !flag_Index, !flag_MemoryAccumulator in *. rewrite E, HX, HM.
  split.
  - intros H. destruct (XY H) as (-> & ->). auto.
  - intros H. rewrite (HS H). auto.
Qed.

(** A computation is a frame when it relates every machine, of the given
    emulation pin and X flag, to the one it leaves. *)
Definition frame {T : Type} (e xs : bool) (c : M T) : Prop :=
  forall m, emulation (pins (cpu m)) = e -> Pbit 4 m = xs -> wrel m (snd (c m)).

Lemma frame_ret {T : Type} (e xs : bool) (x : T) : frame e xs (ret x).
Proof. intros m _ _. apply wrel_refl. Qed.

Lemma frame_bind {T U : Type} (e xs : bool) (c : M T) (k : T -> M U) :
  frame e xs c -> (forall a, frame e xs (k a)) -> frame e xs (bind c k).
Proof.
  intros Hc Hk m He Hx. unfold bind. specialize (Hc m He Hx).
  destruct (c m) as [a m1]. cbn [snd] in *.
  apply (wrel_trans _ _ _ Hc). apply Hk.
  - destruct Hc as (E & _). congruence.
  - destruct Hc as (_ & E & _). congruence.
Qed.

Lemma frame_bind_rd_emulation {U : Type} (e xs : bool) (k : bool -> M U) :
  frame e xs (k e) -> frame e xs (bind rd_emulation k).
Proof.
  intros Hk m He Hx. unfold bind, rd_emulation. rewrite He. apply Hk; assumption.
Qed.

Ltac wrel_prim :=
  let m := fresh "m" in
  intros m ? ?; destruct_machine m; unfold wrel, Pbit in *;
  cbn [emulation pins cpu regs P] in *; mcbn;
  repeat split; auto.

Lemma frame_rd (e xs : bool) (f : ClemensCPURegs -> Z) : frame e xs (rd f).
Proof. wrel_prim. Qed.

Lemma frame_rd_emulation (e xs : bool) : frame e xs rd_emulation.
Proof. wrel_prim. Qed.

Lemma frame_set_A (e xs : bool) (v : Z) : frame e xs (set_A v).
Proof. wrel_prim. Qed.

Lemma frame_set_D (e xs : bool) (v : Z) : frame e xs (set_D v).
Proof. wrel_prim. Qed.

Lemma frame_set_PC (e xs : bool) (v : Z) : frame e xs (set_PC v).
Proof. wrel_prim. Qed.

Lemma frame_set_IR (e xs : bool) (v : Z) : frame e xs (set_IR v).
Proof. wrel_prim. Qed.

Lemma frame_set_DBR (e xs : bool) (v : Z) : frame e xs (set_DBR v).
Proof. wrel_prim. Qed.

Lemma frame_set_PBR (e xs : bool) (v : Z) : frame e xs (set_PBR v).
Proof. wrel_prim. Qed.

Lemma frame_set_enabled (e xs : bool) (b : bool) : frame e xs (set_enabled b).
Proof. wrel_prim. Qed.

Lemma frame_set_state_type (e xs : bool) (st : ClemensCPUStateType) :
  frame e xs (set_state_type st).
Proof. wrel_prim. Qed.

(** WAI lowers [readyOut]. *)
Lemma frame_set_readyOut_false (e xs : bool) : frame e xs (set_readyOut false).
Proof. wrel_prim. Qed.

Lemma frame__clem_cycle (e xs : bool) (n : Z) : frame e xs (_clem_cycle n).
Proof. wrel_prim. Qed.

Lemma frame_clem_read (e xs : bool) (adr bank : Z) (f : MemFlag) :
  frame e xs (clem_read adr bank f).
Proof. wrel_prim. Qed.

Lemma frame_clem_write (e xs : bool) (data adr bank : Z) (f : MemFlag) :
  frame e xs (clem_write data adr bank f).
Proof. wrel_prim. Qed.

Lemma frame__clem_debug_memory_dump (e xs : bool) (a b c : Z) :
  frame e xs (_clem_debug_memory_dump a b c).
Proof. wrel_prim. Qed.

(** With the X flag clear the index registers are free. *)
Lemma frame_set_X (e : bool) (v : Z) : frame e false (set_X v).
Proof. wrel_prim; intros; congruence. Qed.

Lemma frame_set_Y (e : bool) (v : Z) : frame e false (set_Y v).
Proof. wrel_prim; intros; congruence. Qed.

(** Outside emulation the stack pointer is free. *)
Lemma frame_set_S (xs : bool) (v : Z) : frame false xs (set_S v).
Proof. wrel_prim; intros; congruence. Qed.

Lemma frame_set_X_lo (e xs : bool) (v : Z) : frame e xs (set_X_lo v).
Proof. wrel_prim; now rewrite hi8_u16, hi8_set16_lo. Qed.

Lemma frame_set_Y_lo (e xs : bool) (v : Z) : frame e xs (set_Y_lo v).
Proof. wrel_prim; now rewrite hi8_u16, hi8_set16_lo. Qed.

Lemma frame_set_S_lo (e xs : bool) (v : Z) : frame e xs (set_S_lo v).
Proof. wrel_prim; now rewrite hi8_u16, hi8_set16_lo. Qed.

Lemma frame_sp_step (e xs : bool) (n : Z) : frame e xs (sp_step n).
Proof.
  intros m _ _. destruct_machine m. unfold wrel, Pbit, sp_step.
  destruct emulation0; mcbn; repeat split; auto; try discriminate.
  now rewrite hi8_u16, hi8_set16_lo.
Qed.

(** Flag updates that stay clear of the M and X bits. *)
Lemma frame_set_flags (e xs : bool) (mask bits : Z) :
  Z.testbit mask 4 = false -> Z.testbit mask 5 = false ->
  frame e xs (set_flags mask bits).
Proof.
  intros H4 H5. wrel_prim;
    rewrite testbit_u8, testbit_p_assign by lia; rewrite ?H4, ?H5; reflexivity.
Qed.

Lemma frame_clear_P_bits (e xs : bool) (mask : Z) :
  Z.testbit mask 4 = false -> Z.testbit mask 5 = false ->
  frame e xs (clear_P_bits mask).
Proof.
  intros H4 H5. wrel_prim;
    rewrite testbit_u8, Z.land_spec, Z.lnot_spec by lia; rewrite ?H4, ?H5;
    apply andb_true_r.
Qed.

Lemma frame_set_P_bits (e xs : bool) (mask : Z) :
  Z.testbit mask 4 = false -> Z.testbit mask 5 = false ->
  frame e xs (set_P_bits mask).
Proof.
  intros H4 H5. wrel_prim;
    rewrite testbit_u8, Z.lor_spec by lia; rewrite ?H4, ?H5;
    apply orb_false_r.
Qed.

Create HintDb frames.

#[local] Hint Resolve frame_ret frame_rd frame_rd_emulation frame_set_A
  frame_set_D frame_set_PC frame_set_IR frame_set_DBR frame_set_PBR
  frame_set_enabled frame_set_state_type frame_set_readyOut_false
  frame__clem_cycle frame_clem_read frame_clem_write
  frame__clem_debug_memory_dump frame_set_X frame_set_Y frame_set_S
  frame_set_X_lo frame_set_Y_lo frame_set_S_lo frame_sp_step : frames.

#[local] Hint Extern 1 (frame _ _ (set_flags _ _)) =>
  apply frame_set_flags; reflexivity : frames.
#[local] Hint Extern 1 (frame _ _ (clear_P_bits _)) =>
  apply frame_clear_P_bits; reflexivity : frames.
#[local] Hint Extern 1 (frame _ _ (set_P_bits _)) =>
  apply frame_set_P_bits; reflexivity : frames.

(** The frame of a sequence of helper calls, call by call. *)
Ltac frame_tac :=
  cbv zeta;
  lazymatch goal with
  | |- frame _ _ (ret _) => apply frame_ret
  | |- frame _ _ (bind rd_emulation _) => apply frame_bind_rd_emulation; frame_tac
  | |- frame _ _ (bind _ _) => apply frame_bind; [frame_tac | intros; frame_tac]
  | |- frame _ _ (match negb ?a && negb ?b with _ => _ end) =>
      destruct a, b; cbn [negb andb]; frame_tac
  | |- frame _ _ (match ?x with _ => _ end) => destruct x; frame_tac
  | |- _ => solve [auto with frames]
  end.

(** The helpers of the executor, apart from those that load the status
    register, are frames. *)
Lemma frame__clem_read_16 (e xs : bool) (adr bank : Z) (flags : MemFlag) :
  frame e xs (_clem_read_16 adr bank flags).
Proof. unfold _clem_read_16. frame_tac. Qed.
#[local] Hint Resolve frame__clem_read_16 : frames.

Lemma frame__clem_write_16 (e xs : bool) (data adr bank : Z) :
  frame e xs (_clem_write_16 data adr bank).
Proof. unfold _clem_write_16. frame_tac. Qed.
#[local] Hint Resolve frame__clem_write_16 : frames.

Lemma frame__clem_read_pba (e xs : bool) (pc : Z) :
  frame e xs (_clem_read_pba pc).
Proof. unfold _clem_read_pba. frame_tac. Qed.
#[local] Hint Resolve frame__clem_read_pba : frames.

Lemma frame__clem_read_pba_16 (e xs : bool) (pc : Z) :
  frame e xs (_clem_read_pba_16 pc).
Proof. unfold _clem_read_pba_16. frame_tac. Qed.
#[local] Hint Resolve frame__clem_read_pba_16 : frames.

Lemma frame__clem_read_pba_816 (e xs : bool) (pc : Z) (is8 : bool) :
  frame e xs (_clem_read_pba_816 pc is8).
Proof. unfold _clem_read_pba_816. frame_tac. Qed.
#[local] Hint Resolve frame__clem_read_pba_816 : frames.

Lemma frame__clem_read_pba_mode_imm_816 (e xs : bool) (pc : Z) (is8 : bool) :
  frame e xs (_clem_read_pba_mode_imm_816 pc is8).
Proof. unfold _clem_read_pba_mode_imm_816. frame_tac. Qed.
#[local] Hint Resolve frame__clem_read_pba_mode_imm_816 : frames.

Lemma frame__clem_read_pba_mode_abs (e xs : bool) (pc : Z) :
  frame e xs (_clem_read_pba_mode_abs pc).
Proof. unfold _clem_read_pba_mode_abs. frame_tac. Qed.
#[local] Hint Resolve frame__clem_read_pba_mode_abs : frames.

Lemma frame__clem_read_pba_mode_absl (e xs : bool) (pc : Z) :
  frame e xs (_clem_read_pba_mode_absl pc).
Proof. unfold _clem_read_pba_mode_absl. frame_tac. Qed.
#[local] Hint Resolve frame__clem_read_pba_mode_absl : frames.

Lemma frame__clem_read_pba_mode_dp (e xs : bool) (pc index : Z) (is_index_8 : bool) :
  frame e xs (_clem_read_pba_mode_dp pc index is_index_8).
Proof. unfold _clem_read_pba_mode_dp. frame_tac. Qed.
#[local] Hint Resolve frame__clem_read_pba_mode_dp : frames.

Lemma frame__clem_read_pba_mode_dp_indirect (e xs : bool) (pc index : Z) (is_index_8 : bool) :
  frame e xs (_clem_read_pba_mode_dp_indirect pc index is_index_8).
Proof. unfold _clem_read_pba_mode_dp_indirect. frame_tac. Qed.
#[local] Hint Resolve frame__clem_read_pba_mode_dp_indirect : frames.

Lemma frame__clem_read_pba_mode_dp_indirectl (e xs : bool) (pc index : Z) (is_index_8 : bool) :
  frame e xs (_clem_read_pba_mode_dp_indirectl pc index is_index_8).
Proof. unfold _clem_read_pba_mode_dp_indirectl. frame_tac. Qed.
#[local] Hint Resolve frame__clem_read_pba_mode_dp_indirectl : frames.

Lemma frame__clem_read_pba_mode_stack_rel (e xs : bool) (pc : Z) :
  frame e xs (_clem_read_pba_mode_stack_rel pc).
Proof. unfold _clem_read_pba_mode_stack_rel. frame_tac. Qed.
#[local] Hint Resolve frame__clem_read_pba_mode_stack_rel : frames.

Lemma frame__clem_read_pba_mode_stack_rel_indirect (e xs : bool) (pc : Z) :
  frame e xs (_clem_read_pba_mode_stack_rel_indirect pc).
Proof. unfold _clem_read_pba_mode_stack_rel_indirect. frame_tac. Qed.
#[local] Hint Resolve frame__clem_read_pba_mode_stack_rel_indirect : frames.

Lemma frame__clem_read_data_816 (e xs : bool) (addr bank : Z) (is8 : bool) :
  frame e xs (_clem_read_data_816 addr bank is8).
Proof. unfold _clem_read_data_816. frame_tac. Qed.
#[local] Hint Resolve frame__clem_read_data_816 : frames.

Lemma frame__clem_write_816 (e xs : bool) (value addr bank : Z) (is8 : bool) :
  frame e xs (_clem_write_816 value addr bank is8).
Proof. unfold _clem_write_816. frame_tac. Qed.
#[local] Hint Resolve frame__clem_write_816 : frames.

Lemma frame__clem_read_data_indexed_816 (e xs : bool) (addr index bank : Z) (is_data_8 is_index_8 : bool) :
  frame e xs (_clem_read_data_indexed_816 addr index bank is_data_8 is_index_8).
Proof. unfold _clem_read_data_indexed_816. frame_tac. Qed.
#[local] Hint Resolve frame__clem_read_data_indexed_816 : frames.

Lemma frame__clem_write_indexed_816 (e xs : bool) (value addr index bank : Z) (is_data_8 is_index_8 : bool) :
  frame e xs (_clem_write_indexed_816 value addr index bank is_data_8 is_index_8).
Proof. unfold _clem_write_indexed_816. frame_tac. Qed.
#[local] Hint Resolve frame__clem_write_indexed_816 : frames.

Lemma frame__clem_io_read_cycle (e xs : bool) (addr index bank : Z) :
  frame e xs (_clem_io_read_cycle addr index bank).
Proof. unfold _clem_io_read_cycle. frame_tac. Qed.
#[local] Hint Resolve frame__clem_io_read_cycle : frames.

Lemma frame__cpu_sp_dec (e xs : bool)  :
  frame e xs (_cpu_sp_dec ).
Proof. unfold _cpu_sp_dec. frame_tac. Qed.
#[local] Hint Resolve frame__cpu_sp_dec : frames.

Lemma frame__cpu_sp_dec2 (e xs : bool)  :
  frame e xs (_cpu_sp_dec2 ).
Proof. unfold _cpu_sp_dec2. frame_tac. Qed.
#[local] Hint Resolve frame__cpu_sp_dec2 : frames.

Lemma frame__cpu_sp_dec3 (e xs : bool)  :
  frame e xs (_cpu_sp_dec3 ).
Proof. unfold _cpu_sp_dec3. frame_tac. Qed.
#[local] Hint Resolve frame__cpu_sp_dec3 : frames.

Lemma frame__cpu_sp_inc (e xs : bool)  :
  frame e xs (_cpu_sp_inc ).
Proof. unfold _cpu_sp_inc. frame_tac. Qed.
#[local] Hint Resolve frame__cpu_sp_inc : frames.

Lemma frame__cpu_sp_inc2 (e xs : bool)  :
  frame e xs (_cpu_sp_inc2 ).
Proof. unfold _cpu_sp_inc2. frame_tac. Qed.
#[local] Hint Resolve frame__cpu_sp_inc2 : frames.

Lemma frame__cpu_sp_inc3 (e xs : bool)  :
  frame e xs (_cpu_sp_inc3 ).
Proof. unfold _cpu_sp_inc3. frame_tac. Qed.
#[local] Hint Resolve frame__cpu_sp_inc3 : frames.

Lemma frame__cpu_p_flags_n_z_data (e xs : bool) (data : Z) :
  frame e xs (_cpu_p_flags_n_z_data data).
Proof. unfold _cpu_p_flags_n_z_data. frame_tac. Qed.
#[local] Hint Resolve frame__cpu_p_flags_n_z_data : frames.

Lemma frame__cpu_p_flags_n_z_data_16 (e xs : bool) (data : Z) :
  frame e xs (_cpu_p_flags_n_z_data_16 data).
Proof. unfold _cpu_p_flags_n_z_data_16. frame_tac. Qed.
#[local] Hint Resolve frame__cpu_p_flags_n_z_data_16 : frames.

Lemma frame__cpu_p_flags_n_z_data_816 (e xs : bool) (data : Z) (is8 : bool) :
  frame e xs (_cpu_p_flags_n_z_data_816 data is8).
Proof. unfold _cpu_p_flags_n_z_data_816. frame_tac. Qed.
#[local] Hint Resolve frame__cpu_p_flags_n_z_data_816 : frames.

Lemma frame_push8 (e xs : bool) (data : Z) :
  frame e xs (push8 data).
Proof. unfold push8. frame_tac. Qed.
#[local] Hint Resolve frame_push8 : frames.

Lemma frame_pull8 (e xs : bool)  :
  frame e xs (pull8 ).
Proof. unfold pull8. frame_tac. Qed.
#[local] Hint Resolve frame_pull8 : frames.

Lemma frame__clem_opc_push_reg_816 (e xs : bool) (data : Z) (is8 : bool) :
  frame e xs (_clem_opc_push_reg_816 data is8).
Proof. unfold _clem_opc_push_reg_816. frame_tac. Qed.
#[local] Hint Resolve frame__clem_opc_push_reg_816 : frames.

Lemma frame__clem_opc_pull_reg_816 (e xs : bool) (old : Z) (is8 : bool) :
  frame e xs (_clem_opc_pull_reg_816 old is8).
Proof. unfold _clem_opc_pull_reg_816. frame_tac. Qed.
#[local] Hint Resolve frame__clem_opc_pull_reg_816 : frames.

Lemma frame__clem_opc_pull_reg_8 (e xs : bool)  :
  frame e xs (_clem_opc_pull_reg_8 ).
Proof. unfold _clem_opc_pull_reg_8. frame_tac. Qed.
#[local] Hint Resolve frame__clem_opc_pull_reg_8 : frames.

Lemma frame__clem_opc_push_status (e xs : bool) (is_brk : bool) :
  frame e xs (_clem_opc_push_status is_brk).
Proof. unfold _clem_opc_push_status. frame_tac. Qed.
#[local] Hint Resolve frame__clem_opc_push_status : frames.

Lemma frame__clem_opc_push_pc16 (e xs : bool) (pc : Z) :
  frame e xs (_clem_opc_push_pc16 pc).
Proof. unfold _clem_opc_push_pc16. frame_tac. Qed.
#[local] Hint Resolve frame__clem_opc_push_pc16 : frames.

Lemma frame__clem_read_interrupt_vector (e xs : bool) (vlo vhi : Z) :
  frame e xs (_clem_read_interrupt_vector vlo vhi).
Proof. unfold _clem_read_interrupt_vector. frame_tac. Qed.
#[local] Hint Resolve frame__clem_read_interrupt_vector : frames.

Lemma frame__clem_irq_brk_setup (e xs : bool) (pbr pc vlo vhi : Z) (is_brk : bool) :
  frame e xs (_clem_irq_brk_setup pbr pc vlo vhi is_brk).
Proof. unfold _clem_irq_brk_setup. frame_tac. Qed.
#[local] Hint Resolve frame__clem_irq_brk_setup : frames.

Lemma frame__clem_branch (e xs : bool) (pc offset : Z) (condition : bool) :
  frame e xs (_clem_branch pc offset condition).
Proof. unfold _clem_branch. frame_tac. Qed.
#[local] Hint Resolve frame__clem_branch : frames.

Lemma frame__cpu_adc (e xs : bool) (value : Z) (is8 : bool) :
  frame e xs (_cpu_adc value is8).
Proof. unfold _cpu_adc. frame_tac. Qed.
#[local] Hint Resolve frame__cpu_adc : frames.

Lemma frame__cpu_adc_bcd (e xs : bool) (value : Z) (is8 : bool) :
  frame e xs (_cpu_adc_bcd value is8).
Proof. unfold _cpu_adc_bcd. frame_tac. Qed.
#[local] Hint Resolve frame__cpu_adc_bcd : frames.

Lemma frame__cpu_sbc (e xs : bool) (value : Z) (is8 : bool) :
  frame e xs (_cpu_sbc value is8).
Proof. unfold _cpu_sbc. frame_tac. Qed.
#[local] Hint Resolve frame__cpu_sbc : frames.

Lemma frame__cpu_sbc_bcd (e xs : bool) (value : Z) (is8 : bool) :
  frame e xs (_cpu_sbc_bcd value is8).
Proof. unfold _cpu_sbc_bcd. frame_tac. Qed.
#[local] Hint Resolve frame__cpu_sbc_bcd : frames.

Lemma frame__cpu_and (e xs : bool) (value : Z) (is8 : bool) :
  frame e xs (_cpu_and value is8).
Proof. unfold _cpu_and. frame_tac. Qed.
#[local] Hint Resolve frame__cpu_and : frames.

Lemma frame__cpu_eor (e xs : bool) (value : Z) (is8 : bool) :
  frame e xs (_cpu_eor value is8).
Proof. unfold _cpu_eor. frame_tac. Qed.
#[local] Hint Resolve frame__cpu_eor : frames.

Lemma frame__cpu_ora (e xs : bool) (value : Z) (is8 : bool) :
  frame e xs (_cpu_ora value is8).
Proof. unfold _cpu_ora. frame_tac. Qed.
#[local] Hint Resolve frame__cpu_ora : frames.

Lemma frame__cpu_lda (e xs : bool) (value : Z) (is8 : bool) :
  frame e xs (_cpu_lda value is8).
Proof. unfold _cpu_lda. frame_tac. Qed.
#[local] Hint Resolve frame__cpu_lda : frames.

Lemma frame__cpu_cmp (e xs : bool) (reg value : Z) (is8 : bool) :
  frame e xs (_cpu_cmp reg value is8).
Proof. unfold _cpu_cmp. frame_tac. Qed.
#[local] Hint Resolve frame__cpu_cmp : frames.

Lemma frame__cpu_bit (e xs : bool) (value : Z) (is8 : bool) :
  frame e xs (_cpu_bit value is8).
Proof. unfold _cpu_bit. frame_tac. Qed.
#[local] Hint Resolve frame__cpu_bit : frames.

Lemma frame__cpu_bit_imm (e xs : bool) (value : Z) (is8 : bool) :
  frame e xs (_cpu_bit_imm value is8).
Proof. unfold _cpu_bit_imm. frame_tac. Qed.
#[local] Hint Resolve frame__cpu_bit_imm : frames.

Lemma frame__cpu_asl (e xs : bool) (value : Z) (is8 : bool) :
  frame e xs (_cpu_asl value is8).
Proof. unfold _cpu_asl. frame_tac. Qed.
#[local] Hint Resolve frame__cpu_asl : frames.

Lemma frame__cpu_lsr (e xs : bool) (value : Z) (is8 : bool) :
  frame e xs (_cpu_lsr value is8).
Proof. unfold _cpu_lsr. frame_tac. Qed.
#[local] Hint Resolve frame__cpu_lsr : frames.

Lemma frame__cpu_rol (e xs : bool) (value : Z) (is8 : bool) :
  frame e xs (_cpu_rol value is8).
Proof. unfold _cpu_rol. frame_tac. Qed.
#[local] Hint Resolve frame__cpu_rol : frames.

Lemma frame__cpu_ror (e xs : bool) (value : Z) (is8 : bool) :
  frame e xs (_cpu_ror value is8).
Proof. unfold _cpu_ror. frame_tac. Qed.
#[local] Hint Resolve frame__cpu_ror : frames.

Lemma frame__cpu_inc (e xs : bool) (value : Z) (is8 : bool) :
  frame e xs (_cpu_inc value is8).
Proof. unfold _cpu_inc. frame_tac. Qed.
#[local] Hint Resolve frame__cpu_inc : frames.

Lemma frame__cpu_dec (e xs : bool) (value : Z) (is8 : bool) :
  frame e xs (_cpu_dec value is8).
Proof. unfold _cpu_dec. frame_tac. Qed.
#[local] Hint Resolve frame__cpu_dec : frames.

Lemma frame__cpu_tsb (e xs : bool) (value : Z) (is8 : bool) :
  frame e xs (_cpu_tsb value is8).
Proof. unfold _cpu_tsb. frame_tac. Qed.
#[local] Hint Resolve frame__cpu_tsb : frames.

Lemma frame__cpu_trb (e xs : bool) (value : Z) (is8 : bool) :
  frame e xs (_cpu_trb value is8).
Proof. unfold _cpu_trb. frame_tac. Qed.
#[local] Hint Resolve frame__cpu_trb : frames.

Lemma frame__cpu_ldxy (e xs : bool) (old value : Z) (is8 : bool) :
  frame e xs (_cpu_ldxy old value is8).
Proof. unfold _cpu_ldxy. frame_tac. Qed.
#[local] Hint Resolve frame__cpu_ldxy : frames.

(** Read-modify-write of a register through a helper. *)
Lemma frame_modify_A (e xs : bool) (f : Z -> M Z) :
  (forall a, frame e xs (f a)) -> frame e xs (modify_A f).
Proof. intros Hf. unfold modify_A. frame_tac. Qed.

Lemma wrel_set_X (m m1 : ClemensMachine) (v : Z) :
  wrel m m1 ->
  (Pbit 4 m = true -> hi8 v = hi8 (X (regs (cpu m)))) ->
  wrel m (snd (set_X v m1)).
Proof.
  destruct_machine m. destruct_machine m1. unfold wrel, Pbit. mcbn.
  intros (E & HX & HM & XY & HS & R) Hv. repeat split; auto.
  - rewrite hi8_u16. auto.
  - apply XY; assumption.
Qed.

Lemma wrel_set_Y (m m1 : ClemensMachine) (v : Z) :
  wrel m m1 ->
  (Pbit 4 m = true -> hi8 v = hi8 (Y (regs (cpu m)))) ->
  wrel m (snd (set_Y v m1)).
Proof.
  destruct_machine m. destruct_machine m1. unfold wrel, Pbit. mcbn.
  intros (E & HX & HM & XY & HS & R) Hv. repeat split; auto.
  - apply XY; assumption.
  - rewrite hi8_u16. auto.
Qed.

(** An index register may go through a helper that, at width 8, returns
    the old high byte. *)
Lemma frame_modify_X (e xs : bool) (f : Z -> M Z) :
  (forall a, frame e xs (f a)) ->
  (xs = true -> forall a m, hi8 (fst (f a m)) = hi8 a) ->
  frame e xs (modify_X f).
Proof.
  intros Hf Hv m He Hx. unfold modify_X, bind, rd. cbn [fst snd].
  pose proof (Hf (X (regs (cpu m))) m He Hx) as W.
  pose proof (fun H => Hv H (X (regs (cpu m))) m) as V.
  destruct (f (X (regs (cpu m))) m) as [v m1]. cbn [fst snd] in *.
  apply wrel_set_X; [assumption|]. intros H. apply V. congruence.
Qed.

Lemma frame_modify_Y (e xs : bool) (f : Z -> M Z) :
  (forall a, frame e xs (f a)) ->
  (xs = true -> forall a m, hi8 (fst (f a m)) = hi8 a) ->
  frame e xs (modify_Y f).
Proof.
  intros Hf Hv m He Hx. unfold modify_Y, bind, rd. cbn [fst snd].
  pose proof (Hf (Y (regs (cpu m))) m He Hx) as W.
  pose proof (fun H => Hv H (Y (regs (cpu m))) m) as V.
  destruct (f (Y (regs (cpu m))) m) as [v m1]. cbn [fst snd] in *.
  apply wrel_set_Y; [assumption|]. intros H. apply V. congruence.
Qed.

Lemma _cpu_ldxy_hi (a v : Z) (m : ClemensMachine) :
  hi8 (fst (_cpu_ldxy a v true m)) = hi8 a.
Proof.
  unfold _cpu_ldxy, bind, ret.
  destruct (set_flags NZ (nz_bits (Z.land v (width_mask true)) true) m).
  cbn [fst merge816]. apply hi8_set16_lo.
Qed.

Lemma _clem_opc_pull_reg_816_hi (a : Z) (m : ClemensMachine) :
  hi8 (fst (_clem_opc_pull_reg_816 a true m)) = hi8 a.
Proof.
  unfold _clem_opc_pull_reg_816, bind, ret.
  destruct (_clem_cycle 2 m) as [u m1]. destruct (pull8 m1) as [lo m2].
  cbn [fst]. apply hi8_set16_lo.
Qed.

Ltac value_hi :=
  let H := fresh in
  intros H; try discriminate H; try subst; intros;
  first [apply _cpu_ldxy_hi | apply _clem_opc_pull_reg_816_hi].

#[local] Hint Extern 1 (frame _ _ (modify_A _)) =>
  apply frame_modify_A; intros; cbv beta : frames.
#[local] Hint Extern 1 (frame _ _ (modify_X _)) =>
  apply frame_modify_X; [intros; cbv beta | value_hi] : frames.
#[local] Hint Extern 1 (frame _ _ (modify_Y _)) =>
  apply frame_modify_Y; [intros; cbv beta | value_hi] : frames.

(** The five opcodes that load the status register or the emulation pin. *)
Definition loads_status (op : Opcode) : bool :=
  match op with
  | CLEM_OPC_XCE | CLEM_OPC_REP | CLEM_OPC_SEP | CLEM_OPC_PLP | CLEM_OPC_RTI => true
  | _ => false
  end.

(** Every other opcode is a frame. *)
Lemma frame_cpu_execute_op (vt : VectorTable) (op : Opcode)
    (e xs m_status carry zero_flag : bool) (tmp_pc : Z) :
  loads_status op = false ->
  frame e xs (cpu_execute_op vt op m_status xs carry zero_flag tmp_pc).
Proof.
  intros H. destruct op; try discriminate H; clear H;
    cbv beta iota delta [cpu_execute_op]; frame_tac.
Qed.

(** The invariant (when [ws] asks for it) together with a lowered
    [readyOut] (when [rl] asks for it); and what is left of the invariant
    while the status register or the index registers are being loaded. *)
Definition ready_low (rl : bool) (m : ClemensMachine) : Prop :=
  rl = true -> readyOut (pins (cpu m)) = false.

Definition inv (ws rl : bool) (m : ClemensMachine) : Prop :=
  (if ws then width_safe m else True) /\ ready_low rl m.

Definition stack_ok (ws rl : bool) (m : ClemensMachine) : Prop :=
  (if ws
   then emulation (pins (cpu m)) = true -> hi8 (S (regs (cpu m))) = 1
   else True) /\
  ready_low rl m.

Definition flags_ok (ws rl : bool) (m : ClemensMachine) : Prop :=
  (if ws
   then emulation (pins (cpu m)) = true ->
        hi8 (S (regs (cpu m))) = 1 /\
        flag (P (regs (cpu m))) kClemensCPUStatus_MemoryAccumulator = true /\
        flag (P (regs (cpu m))) kClemensCPUStatus_Index = true
   else True) /\
  ready_low rl m.

Definition hoare {T : Type} (Pre : ClemensMachine -> Prop) (c : M T)
    (Post : ClemensMachine -> Prop) : Prop :=
  forall m, Pre m -> Post (snd (c m)).

Lemma hoare_bind {T U : Type} (Pre Mid Post : ClemensMachine -> Prop)
    (c : M T) (k : T -> M U) :
  hoare Pre c Mid -> (forall a, hoare Mid (k a) Post) -> hoare Pre (bind c k) Post.
Proof.
  intros Hc Hk m Hm. unfold bind. specialize (Hc m Hm).
  destruct (c m) as [a m1]. apply Hk. exact Hc.
Qed.

Lemma hoare_ret {T : Type} (Pre : ClemensMachine -> Prop) (x : T) :
  hoare Pre (ret x) Pre.
Proof. intros m H. exact H. Qed.

Lemma hoare_weaken {T : Type} (Pre Pre' Post : ClemensMachine -> Prop) (c : M T) :
  hoare Pre' c Post -> (forall m, Pre m -> Pre' m) -> hoare Pre c Post.
Proof. intros H W m Hm. apply H, W, Hm. Qed.

Lemma hoare_rd_emulation {U : Type} (Pre Post : ClemensMachine -> Prop)
    (k : bool -> M U) :
  (forall e, hoare (fun m => Pre m /\ emulation (pins (cpu m)) = e) (k e) Post) ->
  hoare Pre (bind rd_emulation k) Post.
Proof. intros H m Hm. unfold bind, rd_emulation. apply (H _ m). auto. Qed.

Lemma hoare_rd {U : Type} (Pre Post : ClemensMachine -> Prop)
    (f : ClemensCPURegs -> Z) (k : Z -> M U) :
  (forall v, hoare Pre (k v) Post) -> hoare Pre (bind (rd f) k) Post.
Proof. intros H m Hm. unfold bind, rd. apply (H _ m). auto. Qed.

Lemma inv_flags_ok (ws rl : bool) (m : ClemensMachine) : inv ws rl m -> flags_ok ws rl m.
Proof. unfold inv, flags_ok, width_safe. destruct ws; tauto. Qed.

Lemma flags_ok_stack_ok (ws rl : bool) (m : ClemensMachine) :
  flags_ok ws rl m -> stack_ok ws rl m.
Proof. unfold stack_ok, flags_ok. destruct ws; tauto. Qed.

Lemma wrel_inv (ws rl : bool) (m m' : ClemensMachine) :
  wrel m m' -> inv ws rl m -> inv ws rl m'.
Proof.
  intros W [H R]. split.
  - destruct ws; [exact (wrel_width_safe _ _ W H) | exact I].
  - intros E. apply W. auto.
Qed.

Lemma wrel_stack_ok (ws rl : bool) (m m' : ClemensMachine) :
  wrel m m' -> stack_ok ws rl m -> stack_ok ws rl m'.
Proof.
  unfold wrel, stack_ok, ready_low. intros (E & _ & _ & _ & HS & R) [H1 H2]. split.
  - destruct ws; [|exact I]. intros H. rewrite E in H. rewrite (HS H). auto.
  - auto.
Qed.

Lemma hoare_frame_inv {T : Type} (ws rl : bool) (c : M T) :
  (forall e xs, frame e xs c) -> hoare (inv ws rl) c (inv ws rl).
Proof. intros Hc m H. exact (wrel_inv _ _ _ _ (Hc _ _ m eq_refl eq_refl) H). Qed.

Lemma hoare_frame_stack_ok {T : Type} (ws rl : bool) (c : M T) :
  (forall e xs, frame e xs c) -> hoare (stack_ok ws rl) c (stack_ok ws rl).
Proof. intros Hc m H. exact (wrel_stack_ok _ _ _ _ (Hc _ _ m eq_refl eq_refl) H). Qed.

Ltac hoare_prim :=
  let m := fresh "m" in
  let H := fresh "H" in
  intros m H; destruct_machine m;
  unfold inv, stack_ok, flags_ok, width_safe, ready_low in *;
  cbn [emulation readyOut pins cpu regs P X Y S] in H; mcbn.

(** [_cpu_p_flags_apply_m_x] completes the invariant. *)
Lemma hoare__cpu_p_flags_apply_m_x (ws rl : bool) :
  hoare (flags_ok ws rl) _cpu_p_flags_apply_m_x (inv ws rl).
Proof.
  hoare_prim. unfold _cpu_p_flags_apply_m_x, bind, rd. cbn [P regs cpu fst snd].
  destruct (flag P0 kClemensCPUStatus_Index) eqn:E; mcbn; rewrite ?E;
    (destruct ws; [|tauto]).
  - split; [split|]; try tauto. intros _. now rewrite !hi8_u16, !hi8_land_255.
  - split; [split|]; try tauto. discriminate.
Qed.

Lemma hoare_rd_val {U : Type} (Pre Post : ClemensMachine -> Prop)
    (f : ClemensCPURegs -> Z) (k : Z -> M U) :
  (forall v, hoare (fun m => Pre m /\ f (regs (cpu m)) = v) (k v) Post) ->
  hoare Pre (bind (rd f) k) Post.
Proof. intros H m Hm. unfold bind, rd. apply (H _ m). auto. Qed.

Ltac hoare_frame := apply hoare_frame_inv; intros; frame_tac.

Lemma testbit_MX_4 : Z.testbit MX 4 = true.
Proof. reflexivity. Qed.

Lemma testbit_MX_5 : Z.testbit MX 5 = true.
Proof. reflexivity. Qed.

(** Loading the status register: in emulation the M and X bits are forced. *)
Lemma hoare_set_P_forced (ws rl e : bool) (p : Z) :
  hoare (fun m => stack_ok ws rl m /\ emulation (pins (cpu m)) = e)
        (set_P (if e then Z.lor p MX else p)) (flags_ok ws rl).
Proof.
  hoare_prim. destruct H as [[HS R] <-]. split; [|exact R].
  destruct ws; [|exact I].
  intros ->. split; [auto|].
  rewrite flag_MemoryAccumulator, flag_Index, !testbit_u8, !Z.lor_spec by lia.
  rewrite testbit_MX_4, testbit_MX_5, !orb_true_r. auto.
Qed.

Lemma hoare__clem_opc_pull_status (ws rl : bool) :
  hoare (inv ws rl) _clem_opc_pull_status (inv ws rl).
Proof.
  unfold _clem_opc_pull_status.
  apply hoare_bind with (Mid := stack_ok ws rl).
  - apply hoare_weaken with (Pre' := stack_ok ws rl).
    + apply hoare_frame_stack_ok. intros. frame_tac.
    + intros m H. apply flags_ok_stack_ok, inv_flags_ok, H.
  - intros p. apply hoare_rd_emulation. intros e.
    apply hoare_bind with (Mid := flags_ok ws rl).
    + apply hoare_set_P_forced.
    + intros _. apply hoare__cpu_p_flags_apply_m_x.
Qed.

Lemma hoare__clem_irq_brk_return (ws rl : bool) :
  hoare (inv ws rl) _clem_irq_brk_return (inv ws rl).
Proof.
  unfold _clem_irq_brk_return.
  apply hoare_bind with (Mid := inv ws rl).
  - apply hoare__clem_opc_pull_status.
  - intros _. hoare_frame.
Qed.

(** REP: the bits cleared, the M and X bits set again in emulation. *)
Lemma hoare_rep_bits (ws rl e : bool) :
  hoare (fun m => stack_ok ws rl m /\ emulation (pins (cpu m)) = e)
        (if e then
           set_P_bits kClemensCPUStatus_MemoryAccumulator ;;
           set_P_bits kClemensCPUStatus_Index
         else ret tt) (flags_ok ws rl).
Proof.
  destruct e; hoare_prim; destruct H as [[HS R] E]; (split; [|exact R]);
    (destruct ws; [|exact I]).
  - intros _. split; [auto|].
    rewrite flag_MemoryAccumulator, flag_Index, !testbit_u8, !Z.lor_spec,
      !testbit_u8, !Z.lor_spec by lia.
    split; reflexivity || (rewrite orb_true_r; reflexivity).
  - congruence.
Qed.

Lemma hoare_clear_P_bits (ws rl : bool) (d : Z) :
  hoare (inv ws rl) (clear_P_bits d) (stack_ok ws rl).
Proof.
  hoare_prim. destruct H as [W R]. split; [|exact R].
  destruct ws; [|exact I]. intros E. apply W, E.
Qed.

(** SEP: in emulation the M and X bits are among the bits set. *)
Lemma hoare_sep_bits (ws rl e : bool) (d : Z) :
  hoare (fun m => inv ws rl m /\ emulation (pins (cpu m)) = e)
        (set_P_bits
           (if e
            then Z.lor (Z.lor d kClemensCPUStatus_MemoryAccumulator)
                   kClemensCPUStatus_Index
            else d)) (flags_ok ws rl).
Proof.
  hoare_prim. destruct H as [[W R] <-]. split; [|exact R].
  destruct ws; [|exact I]. destruct W as [_ HE].
  intros ->. split; [apply HE; reflexivity|].
  rewrite flag_MemoryAccumulator, flag_Index, !testbit_u8, !Z.lor_spec by lia.
  split.
  - change (Z.testbit kClemensCPUStatus_MemoryAccumulator 5) with true.
    now rewrite !orb_true_r.
  - change (Z.testbit kClemensCPUStatus_Index 4) with true.
    now rewrite !orb_true_r.
Qed.

(** XCE: what holds while the pin and the flags are exchanged. *)
Definition switching (rl x mf c : bool) (m : ClemensMachine) : Prop :=
  emulation (pins (cpu m)) = c /\ ready_low rl m /\
  (x = true -> Pbit 4 m = true) /\ (mf = true -> Pbit 5 m = true).

Lemma hoare_rd_emulation_known {U : Type} (Pre Post : ClemensMachine -> Prop)
    (e : bool) (k : bool -> M U) :
  (forall m, Pre m -> emulation (pins (cpu m)) = e) ->
  hoare Pre (k e) Post -> hoare Pre (bind rd_emulation k) Post.
Proof.
  intros He H m Hm. unfold bind, rd_emulation. rewrite (He m Hm). apply H, Hm.
Qed.

Lemma hoare_set_emulation_same (ws rl e : bool) :
  hoare (fun m => inv ws rl m /\ emulation (pins (cpu m)) = e) (set_emulation e)
        (fun m => inv ws rl m /\ emulation (pins (cpu m)) = e).
Proof. hoare_prim. destruct H as [H <-]. auto. Qed.

Lemma hoare_set_emulation (ws rl e c : bool) :
  hoare (fun m => inv ws rl m /\ emulation (pins (cpu m)) = e) (set_emulation c)
        (switching rl false false c).
Proof.
  hoare_prim. destruct H as [[_ R] _]. unfold switching, ready_low, Pbit. mcbn.
  repeat split; auto; discriminate.
Qed.

Lemma hoare_switching_Index (rl x mf c : bool) :
  hoare (switching rl x mf c) (set_P_bits kClemensCPUStatus_Index)
        (switching rl true mf c).
Proof.
  intros m. destruct_machine m. unfold switching, ready_low, Pbit. mcbn.
  intros (E & R & _ & HM). repeat split; auto.
  - intros _. rewrite testbit_u8, Z.lor_spec by lia. apply orb_true_r.
  - intros H. rewrite testbit_u8, Z.lor_spec, (HM H) by lia. reflexivity.
Qed.

Lemma hoare_switching_MemoryAccumulator (rl x mf c : bool) :
  hoare (switching rl x mf c) (set_P_bits kClemensCPUStatus_MemoryAccumulator)
        (switching rl x true c).
Proof.
  intros m. destruct_machine m. unfold switching, ready_low, Pbit. mcbn.
  intros (E & R & HX & _). repeat split; auto.
  - intros H. rewrite testbit_u8, Z.lor_spec, (HX H) by lia. reflexivity.
  - intros _. rewrite testbit_u8, Z.lor_spec by lia. apply orb_true_r.
Qed.

Lemma hoare_switching_stack (ws rl : bool) :
  hoare (switching rl true true true)
        (rS <- rd S ;; set_S (CLEM_UTIL_set16_lo 256 rS)) (flags_ok ws rl).
Proof.
  intros m. destruct_machine m. unfold switching, flags_ok, ready_low, Pbit. mcbn.
  intros (E & R & HX & HM). split; [|exact R]. destruct ws; [|exact I]. intros _.
  rewrite flag_MemoryAccumulator, flag_Index, hi8_u16, hi8_set16_lo.
  repeat split; auto.
Qed.

Lemma switching_native (ws rl x mf : bool) (m : ClemensMachine) :
  switching rl x mf false m -> flags_ok ws rl m.
Proof.
  unfold switching, flags_ok. intros (E & R & _). split; [|exact R].
  destruct ws; [|exact I]. rewrite E. discriminate.
Qed.

(** The five opcodes that load the status register keep the invariant. *)
Lemma hoare_xce (ws rl : bool) (vt : VectorTable) (m_status x_status carry zero_flag : bool)
    (tmp_pc : Z) :
  hoare (inv ws rl)
        (cpu_execute_op vt CLEM_OPC_XCE m_status x_status carry zero_flag tmp_pc)
        (inv ws rl).
Proof.
  cbv beta iota zeta delta [cpu_execute_op].
  apply hoare_rd_emulation. intros e. apply hoare_rd. intros rP.
  set (c := flag rP kClemensCPUStatus_Carry). clearbody c.
  destruct (Bool.eqb e c) eqn:EC.
  - apply eqb_prop in EC. subst c.
    apply hoare_bind with (Mid := fun m => inv ws rl m /\ emulation (pins (cpu m)) = e).
    { apply hoare_set_emulation_same. }
    intros _. apply hoare_rd_emulation_known with (e := e); [tauto|].
    rewrite eqb_reflx. cbn [negb].
    apply hoare_weaken with (Pre' := inv ws rl); [|tauto]. hoare_frame.
  - apply hoare_bind with (Mid := switching rl false false c).
    { apply hoare_set_emulation. }
    intros _. apply hoare_rd_emulation_known with (e := c); [unfold switching; tauto|].
    rewrite EC. cbn [negb].
    apply hoare_bind with (Mid := inv ws rl); [|intros _; hoare_frame].
    apply hoare_bind with (Mid := switching rl true false c).
    { apply hoare_switching_Index. }
    intros _. apply hoare_bind with (Mid := switching rl true true c).
    { apply hoare_switching_MemoryAccumulator. }
    intros _. apply hoare_bind with (Mid := flags_ok ws rl).
    + destruct e, c; try discriminate EC.
      * intros m H. apply (switching_native _ _ _ _ _ H).
      * apply hoare_switching_stack.
    + intros _. apply hoare__cpu_p_flags_apply_m_x.
Qed.

Lemma hoare_rep (ws rl : bool) (vt : VectorTable) (m_status x_status carry zero_flag : bool)
    (tmp_pc : Z) :
  hoare (inv ws rl)
        (cpu_execute_op vt CLEM_OPC_REP m_status x_status carry zero_flag tmp_pc)
        (inv ws rl).
Proof.
  cbv beta iota zeta delta [cpu_execute_op].
  apply hoare_bind with (Mid := inv ws rl); [hoare_frame|]. intros [d pc].
  apply hoare_bind with (Mid := stack_ok ws rl); [apply hoare_clear_P_bits|].
  intros _. apply hoare_rd_emulation. intros e.
  apply hoare_bind with (Mid := flags_ok ws rl); [apply hoare_rep_bits|].
  intros _. apply hoare_bind with (Mid := inv ws rl);
    [apply hoare__cpu_p_flags_apply_m_x|]. intros _. hoare_frame.
Qed.

Lemma hoare_sep (ws rl : bool) (vt : VectorTable) (m_status x_status carry zero_flag : bool)
    (tmp_pc : Z) :
  hoare (inv ws rl)
        (cpu_execute_op vt CLEM_OPC_SEP m_status x_status carry zero_flag tmp_pc)
        (inv ws rl).
Proof.
  cbv beta iota zeta delta [cpu_execute_op].
  apply hoare_bind with (Mid := inv ws rl); [hoare_frame|]. intros [d pc].
  apply hoare_rd_emulation. intros e.
  apply hoare_bind with (Mid := flags_ok ws rl); [apply hoare_sep_bits|].
  intros _. apply hoare_bind with (Mid := inv ws rl);
    [apply hoare__cpu_p_flags_apply_m_x|]. intros _. hoare_frame.
Qed.

Lemma hoare_plp (ws rl : bool) (vt : VectorTable) (m_status x_status carry zero_flag : bool)
    (tmp_pc : Z) :
  hoare (inv ws rl)
        (cpu_execute_op vt CLEM_OPC_PLP m_status x_status carry zero_flag tmp_pc)
        (inv ws rl).
Proof.
  cbv beta iota zeta delta [cpu_execute_op].
  apply hoare_bind with (Mid := inv ws rl); [hoare_frame|]. intros _.
  apply hoare_bind with (Mid := inv ws rl); [apply hoare__clem_opc_pull_status|].
  intros _. hoare_frame.
Qed.

Lemma hoare_rti (ws rl : bool) (vt : VectorTable) (m_status x_status carry zero_flag : bool)
    (tmp_pc : Z) :
  hoare (inv ws rl)
        (cpu_execute_op vt CLEM_OPC_RTI m_status x_status carry zero_flag tmp_pc)
        (inv ws rl).
Proof.
  cbv beta iota zeta delta [cpu_execute_op].
  apply hoare_bind with (Mid := inv ws rl); [hoare_frame|]. intros _.
  apply hoare_bind with (Mid := inv ws rl); [apply hoare__clem_irq_brk_return|].
  intros pc. hoare_frame.
Qed.

(** Every opcode keeps the invariant, when [x_status] is the X flag of the
    machine. *)
Lemma hoare_cpu_execute_op (ws rl : bool) (vt : VectorTable) (op : Opcode)
    (m_status carry zero_flag : bool) (tmp_pc rP : Z) :
  hoare (fun m => inv ws rl m /\ P (regs (cpu m)) = rP)
        (cpu_execute_op vt op m_status (flag rP kClemensCPUStatus_Index)
           carry zero_flag tmp_pc)
        (inv ws rl).
Proof.
  destruct (loads_status op) eqn:L.
  - apply hoare_weaken with (Pre' := inv ws rl); [|tauto].
    destruct op; try discriminate L.
    + apply hoare_plp.
    + apply hoare_rep.
    + apply hoare_rti.
    + apply hoare_sep.
    + apply hoare_xce.
  - intros m [Hi HP]. apply (wrel_inv ws rl m); [|exact Hi].
    apply (frame_cpu_execute_op vt op (emulation (pins (cpu m)))); auto.
    unfold Pbit. rewrite HP, flag_Index. reflexivity.
Qed.

Lemma some_inj {T : Type} (x y : T) : Some x = Some y -> x = y.
Proof. congruence. Qed.

(** The transitions of the step entry point. *)
Lemma frame_reset_exit (vt : VectorTable) (e xs : bool) : frame e xs (reset_exit vt).
Proof. unfold reset_exit. frame_tac. Qed.

Lemma frame_interrupt_entry (vt : VectorTable) (e xs : bool) :
  frame e xs (interrupt_entry vt).
Proof.
  unfold interrupt_entry. apply frame_bind_rd_emulation.
  intros m He Hx. cbv zeta.
  match goal with |- wrel m (snd (?c m)) => assert (F : frame e xs c) by frame_tac end.
  apply F; assumption.
Qed.

Lemma frame_resb_countdown (e xs : bool) : frame e xs resb_countdown.
Proof. wrel_prim. Qed.

Lemma hoare_cpu_execute (ws rl : bool) (vt : VectorTable)
    (table : Z -> option Opcode) (ndebug : bool) (s s' : ClemensMachine) :
  inv ws rl s -> cpu_execute vt table ndebug s = Some s' -> inv ws rl s'.
Proof.
  unfold cpu_execute.
  destruct (negb ndebug && _); [discriminate|]. cbv zeta.
  match goal with
  | |- _ -> (let (ok, clem') := ?b s in _) = _ -> _ =>
      assert (Hb : hoare (inv ws rl) b (inv ws rl))
  end.
  { apply hoare_rd. intros rPC. apply hoare_rd. intros rPBR.
    apply hoare_bind with (Mid := inv ws rl); [hoare_frame|]. intros ir.
    apply hoare_bind with (Mid := inv ws rl); [hoare_frame|]. intros _.
    apply hoare_rd. intros rIR. apply hoare_rd_val. intros rP.
    destruct (table rIR) as [op|].
    - apply hoare_bind with (Mid := inv ws rl); [apply hoare_cpu_execute_op|].
      intros pc. hoare_frame.
    - apply hoare_weaken with (Pre' := inv ws rl); [|tauto].
      destruct ndebug; hoare_frame. }
  intros Hi E. specialize (Hb s Hi).
  match type of E with (let (ok, clem') := ?b s in _) = _ => destruct (b s) as [ok m'] end.
  destruct ok; [|discriminate]. injection E as <-. exact Hb.
Qed.

(** With the reset line low the step keeps the invariant, and establishes
    it when it enters the reset state. *)
Lemma reset_low_width_safe (vt : VectorTable) (table : Z -> option Opcode)
    (ndebug : bool) (s s' : ClemensMachine) :
  resbIn (pins (cpu s)) = false ->
  clemens_emulate_cpu vt table ndebug s = Some s' ->
  (state_type (cpu s) <> kClemensCPUStateType_Reset \/ width_safe s) ->
  width_safe s'.
Proof.
  intros R E H. destruct_machine s. cbn [resbIn pins cpu] in R. subst.
  unfold width_safe in *. cbn [state_type emulation pins cpu regs P X Y S] in H.
  rewrite !flag_Index, !flag_MemoryAccumulator in H.
  unfold clemens_emulate_cpu in E. cbn [resbIn pins cpu negb] in E.
  apply some_inj in E. subst s'.
  destruct state_type0; mcbn;
    rewrite ?flag_Index, ?flag_MemoryAccumulator;
    try (destruct H as [H|H]; [congruence|exact H]).
  all: rewrite !hi8_u16, !hi8_land_255.
  all: rewrite !reset_P_bits by lia.
  all: split; [auto|]; intros _; split; [|split; reflexivity].
  all: apply hi8_lor_256; rewrite hi8_u16; apply hi8_land_255.
Qed.

(** Every step keeps the invariant; with the reset line high it also keeps
    a lowered [readyOut]. *)
Lemma clemens_emulate_cpu_inv (ws rl : bool) (vt : VectorTable)
    (table : Z -> option Opcode) (ndebug : bool) (s s' : ClemensMachine) :
  (rl = true -> resbIn (pins (cpu s)) = true) ->
  inv ws rl s -> clemens_emulate_cpu vt table ndebug s = Some s' -> inv ws rl s'.
Proof.
  intros HR Hi E. destruct (resbIn (pins (cpu s))) eqn:R.
  - revert E. unfold clemens_emulate_cpu. rewrite R. cbn [negb].
    destruct (negb (enabled (cpu s))).
    { intros E. apply some_inj in E. subst s'. exact Hi. }
    destruct (state_type_eqb (state_type (cpu s)) kClemensCPUStateType_Reset).
    { intros E. apply some_inj in E. subst s'. apply (hoare_frame_inv ws rl (reset_exit vt)); [|exact Hi].
      intros. apply frame_reset_exit. }
    destruct (_ || _).
    { intros E. apply some_inj in E. subst s'. apply (hoare_frame_inv ws rl (interrupt_entry vt)); [|exact Hi].
      intros. apply frame_interrupt_entry. }
    exact (hoare_cpu_execute ws rl vt table ndebug s s' Hi).
  - destruct rl; [specialize (HR eq_refl); discriminate|].
    split; [|discriminate]. destruct ws; [|exact I].
    apply (reset_low_width_safe vt table ndebug s s' R E). right. apply Hi.
Qed.

(** C2: every call of the step entry point that returns keeps the width
    invariant: if X=1 implies X.high = Y.high = 0, and emulation implies
    S.high = 0x01 and M = X = 1, before the call, then so they do after it,
    whichever of the 256 opcodes (XCE, REP, SEP, PLP and RTI among them),
    the reset sequence or the interrupt transition the call runs. Entering
    the reset state establishes the invariant from any machine. *)
Theorem clemens_emulate_cpu_width_safe
    (vt : VectorTable) (table : Z -> option Opcode) (ndebug : bool)
    (s s' : ClemensMachine) :
  clemens_emulate_cpu vt table ndebug s = Some s' ->
  (width_safe s -> width_safe s') /\
  (resbIn (pins (cpu s)) = false ->
   state_type (cpu s) <> kClemensCPUStateType_Reset -> width_safe s').
Proof.
  intros E. split.
  - intros W.
    apply (clemens_emulate_cpu_inv true false vt table ndebug s s'); try assumption.
    + discriminate.
    + split; [exact W | discriminate].
  - intros R H. apply (reset_low_width_safe vt table ndebug s s' R E). left. exact H.
Qed.

(** Native mode with 16-bit index registers and the carry set; XCE at
    00:0800. *)
Definition xce_machine : ClemensMachine :=
  machine_of [(2048, 251)] (mkRegs 0 4660 22136 0 12272 2048 0 1 0 0) false
             kClemensCPUStateType_Execute.

Definition step_of (s : ClemensMachine) : ClemensMachine :=
  from_option s (clemens_emulate_cpu wdc_vectors wdc_opcode_of_byte true s).

Lemma clemens_emulate_cpu_width_safe_witness :
  (width_safe xce_machine -> width_safe (step_of xce_machine)) /\
  (resbIn (pins (cpu xce_machine)) = false ->
   state_type (cpu xce_machine) <> kClemensCPUStateType_Reset ->
   width_safe (step_of xce_machine)).
Proof.
  apply (clemens_emulate_cpu_width_safe wdc_vectors wdc_opcode_of_byte true
           xce_machine (step_of xce_machine)).
  vm_compute. reflexivity.
Defined.

(** The XCE of the example enters emulation: the stack moves into page 1
    and the high bytes of X and Y are dropped. *)
Example xce_enters_emulation :
  let r := regs (cpu (step_of xce_machine)) in
  (emulation (pins (cpu (step_of xce_machine))), X r, Y r, S r, P r)
  = (true, 52, 120, 496, 48).
Proof. vm_compute. reflexivity. Qed.

(** The step entry point returns: always in a release build, and in a debug
    build when every opcode byte has a case. *)
Lemma clemens_emulate_cpu_total (vt : VectorTable) (table : Z -> option Opcode)
    (ndebug : bool) (s : ClemensMachine) :
  ndebug = true \/ (forall b, table b <> None) ->
  exists s', clemens_emulate_cpu vt table ndebug s = Some s'.
Proof.
  intros H. unfold clemens_emulate_cpu.
  destruct (negb (resbIn (pins (cpu s)))); [eexists; reflexivity|].
  destruct (negb (enabled (cpu s))); [eexists; reflexivity|].
  destruct (state_type (cpu s)) eqn:St; cbn [state_type_eqb orb];
    try (eexists; reflexivity).
  unfold cpu_execute. rewrite St. cbn [state_type_eqb negb]. rewrite andb_false_r.
  cbv zeta. unfold bind at 1 2 3 4 5 6. cbn [rd fst snd].
  destruct (clem_read _ _ _ s) as [ir m1].
  destruct (set_IR ir m1) as [u m2]. cbn [fst snd].
  destruct (table (IR (regs (cpu m2)))) as [op|] eqn:T.
  - unfold bind, ret.
    destruct (cpu_execute_op _ _ _ _ _ _ _ m2) as [pc m3].
    destruct (set_PC pc m3) as [u' m4]. eexists; reflexivity.
  - destruct H as [->|H]; [|destruct (H _ T)].
    unfold bind, ret. destruct (set_PC _ m2) as [u' m4]. eexists; reflexivity.
Qed.

(** The machine after WAI: the fetch, two more cycles, [readyOut] low. *)
Definition after_wai (s : ClemensMachine) : ClemensMachine :=
  exec (_clem_cycle 2 ;; set_readyOut false) (after_fetch s).

(** *** The step does not look at [readyOut] *)

(** The machine with [readyOut] at [b]. *)
Definition with_readyOut (b : bool) (m : ClemensMachine) : ClemensMachine :=
  exec (set_readyOut b) m.

(** Two machines that differ in [readyOut] at most. *)
Definition ready_eq (m1 m2 : ClemensMachine) : Prop :=
  with_readyOut true m1 = with_readyOut true m2.

Lemma ready_eq_with (b : bool) (m : ClemensMachine) :
  ready_eq (with_readyOut b m) m.
Proof. reflexivity. Qed.

(** A computation is blind to [readyOut] when, run on two machines that
    differ in [readyOut] at most, it yields the same value and two machines
    that differ in [readyOut] at most. *)
Definition blind {T : Type} (c : M T) : Prop :=
  forall m1 m2,
    ready_eq m1 m2 ->
    fst (c m1) = fst (c m2) /\ ready_eq (snd (c m1)) (snd (c m2)).

Lemma blind_ret {T : Type} (x : T) : blind (ret x).
Proof. intros m1 m2 H. split; [reflexivity | exact H]. Qed.

Lemma blind_bind {T U : Type} (c : M T) (k : T -> M U) :
  blind c -> (forall a, blind (k a)) -> blind (bind c k).
Proof.
  intros Hc Hk m1 m2 H. unfold bind. destruct (Hc m1 m2 H) as [E1 E2].
  destruct (c m1) as [a1 n1], (c m2) as [a2 n2]. cbn [fst snd] in *.
  subst a2. apply Hk, E2.
Qed.

Ltac ready_split H :=
  unfold ready_eq, with_readyOut, exec in H; cbn in H;
  injection H; intros; subst.

Ltac blind_prim :=
  let m1 := fresh "m" in
  let m2 := fresh "m" in
  let H := fresh "H" in
  intros m1 m2 H; destruct_machine m1; destruct_machine m2;
  ready_split H; unfold ready_eq, with_readyOut, exec; mcbn;
  split; reflexivity.

Lemma blind_rd (f : ClemensCPURegs -> Z) : blind (rd f).
Proof. blind_prim. Qed.

Lemma blind_rd_emulation : blind rd_emulation.
Proof. blind_prim. Qed.

Lemma blind_set_A (v : Z) : blind (set_A v).
Proof. blind_prim. Qed.

Lemma blind_set_X (v : Z) : blind (set_X v).
Proof. blind_prim. Qed.

Lemma blind_set_Y (v : Z) : blind (set_Y v).
Proof. blind_prim. Qed.

Lemma blind_set_D (v : Z) : blind (set_D v).
Proof. blind_prim. Qed.

Lemma blind_set_S (v : Z) : blind (set_S v).
Proof. blind_prim. Qed.

Lemma blind_set_PC (v : Z) : blind (set_PC v).
Proof. blind_prim. Qed.

Lemma blind_set_IR (v : Z) : blind (set_IR v).
Proof. blind_prim. Qed.

Lemma blind_set_P (v : Z) : blind (set_P v).
Proof. blind_prim. Qed.

Lemma blind_set_DBR (v : Z) : blind (set_DBR v).
Proof. blind_prim. Qed.

Lemma blind_set_PBR (v : Z) : blind (set_PBR v).
Proof. blind_prim. Qed.

Lemma blind_set_emulation (b : bool) : blind (set_emulation b).
Proof. blind_prim. Qed.

(** The two assignments to [readyOut], of WAI and of the reset entry. *)
Lemma blind_set_readyOut (b : bool) : blind (set_readyOut b).
Proof. blind_prim. Qed.

Lemma blind_set_enabled (b : bool) : blind (set_enabled b).
Proof. blind_prim. Qed.

Lemma blind_set_state_type (st : ClemensCPUStateType) :
  blind (set_state_type st).
Proof. blind_prim. Qed.

Lemma blind__clem_cycle (n : Z) : blind (_clem_cycle n).
Proof. blind_prim. Qed.

Lemma blind_clem_read (adr bank : Z) (f : MemFlag) :
  blind (clem_read adr bank f).
Proof. blind_prim. Qed.

Lemma blind_clem_write (data adr bank : Z) (f : MemFlag) :
  blind (clem_write data adr bank f).
Proof. blind_prim. Qed.

Lemma blind__clem_debug_memory_dump (a b c : Z) :
  blind (_clem_debug_memory_dump a b c).
Proof. blind_prim. Qed.

Lemma blind_resb_countdown : blind resb_countdown.
Proof. blind_prim. Qed.

Create HintDb blinds.

#[local] Hint Resolve blind_ret blind_rd blind_rd_emulation blind_set_A
  blind_set_X blind_set_Y blind_set_D blind_set_S blind_set_PC blind_set_IR
  blind_set_P blind_set_DBR blind_set_PBR blind_set_emulation
  blind_set_readyOut blind_set_enabled blind_set_state_type
  blind__clem_cycle blind_clem_read blind_clem_write
  blind__clem_debug_memory_dump blind_resb_countdown : blinds.

Ltac head_of t :=
  lazymatch t with
  | ?f _ => head_of f
  | _ => t
  end.

(** Call by call, down to the register and bus primitives. *)
Ltac blind_tac :=
  cbv beta zeta;
  lazymatch goal with
  | |- blind (ret _) => apply blind_ret
  | |- blind (bind _ _) => apply blind_bind; [blind_tac | intros; blind_tac]
  | |- blind (match ?x with _ => _ end) => destruct x; blind_tac
  | |- blind ?c =>
      first [ solve [auto with blinds]
            | let h := head_of c in progress unfold h; blind_tac ]
  end.

Lemma blind_cpu_execute_op (vt : VectorTable) (op : Opcode)
    (m_status x_status carry zero_flag : bool) (tmp_pc : Z) :
  blind (cpu_execute_op vt op m_status x_status carry zero_flag tmp_pc).
Proof.
  destruct op; cbv beta iota delta [cpu_execute_op]; blind_tac.
Qed.
#[local] Hint Resolve blind_cpu_execute_op : blinds.

Lemma blind_reset_entry : blind reset_entry.
Proof. unfold reset_entry. blind_tac. Qed.

Lemma blind_reset_exit (vt : VectorTable) : blind (reset_exit vt).
Proof. unfold reset_exit. blind_tac. Qed.

Lemma ready_eq_cpu (m1 m2 : ClemensMachine) :
  ready_eq m1 m2 ->
  resbIn (pins (cpu m1)) = resbIn (pins (cpu m2)) /\
  emulation (pins (cpu m1)) = emulation (pins (cpu m2)) /\
  enabled (cpu m1) = enabled (cpu m2) /\
  state_type (cpu m1) = state_type (cpu m2).
Proof.
  intros H. destruct_machine m1. destruct_machine m2. ready_split H.
  repeat split; reflexivity.
Qed.

Lemma bind_rd_emulation_eq {U : Type} (k : bool -> M U) (m : ClemensMachine) :
  bind rd_emulation k m = k (emulation (pins (cpu m))) m.
Proof. reflexivity. Qed.

Lemma blind_interrupt_entry (vt : VectorTable) : blind (interrupt_entry vt).
Proof.
  assert (K : forall vlo vhi,
             blind (_clem_cycle 2 ;;
                    rPBR <- rd PBR ;;
                    rPC <- rd PC ;;
                    x <- _clem_irq_brk_setup rPBR rPC vlo vhi false ;;
                    (let (pbr, pc) := x in
                     set_PBR pbr ;; set_PC pc ;;
                     set_state_type kClemensCPUStateType_Execute)))
    by (intros; blind_tac).
  intros m1 m2 H. destruct (ready_eq_cpu m1 m2 H) as (_ & Ee & _ & Es).
  unfold interrupt_entry. rewrite !bind_rd_emulation_eq. cbv beta zeta.
  rewrite Ee, Es. apply (K _ _ m1 m2 H).
Qed.

(** The step on two machines that differ in [readyOut] at most: the same
    outcome, but for [readyOut]. *)
Lemma cpu_execute_blind (vt : VectorTable) (table : Z -> option Opcode)
    (ndebug : bool) (m1 m2 : ClemensMachine) :
  ready_eq m1 m2 ->
  option_map (with_readyOut true) (cpu_execute vt table ndebug m1)
  = option_map (with_readyOut true) (cpu_execute vt table ndebug m2).
Proof.
  intros H. destruct (ready_eq_cpu m1 m2 H) as (_ & _ & _ & Es).
  unfold cpu_execute. rewrite Es.
  destruct (negb ndebug && _); [reflexivity|]. cbv zeta.
  match goal with
  | |- option_map _ (let (ok, clem') := ?b m1 in _) = _ =>
      assert (K : blind b)
  end.
  { blind_tac. }
  destruct (K m1 m2 H) as [E1 E2].
  match goal with
  | |- option_map _ (let (ok, clem') := ?b m1 in _) = _ =>
      destruct (b m1) as [ok1 n1], (b m2) as [ok2 n2]
  end.
  cbn [fst snd] in E1, E2. subst ok2.
  destruct ok1; [|reflexivity]. cbn [option_map]. f_equal. exact E2.
Qed.

Lemma clemens_emulate_cpu_blind (vt : VectorTable) (table : Z -> option Opcode)
    (ndebug : bool) (m1 m2 : ClemensMachine) :
  ready_eq m1 m2 ->
  option_map (with_readyOut true) (clemens_emulate_cpu vt table ndebug m1)
  = option_map (with_readyOut true) (clemens_emulate_cpu vt table ndebug m2).
Proof.
  intros H. destruct (ready_eq_cpu m1 m2 H) as (Er & _ & Een & Es).
  unfold clemens_emulate_cpu. rewrite Er, Een, Es.
  destruct (negb (resbIn (pins (cpu m2)))).
  { cbn [option_map]. f_equal. unfold exec.
    match goal with
    | |- with_readyOut true (snd (?c m1)) = _ =>
        assert (K : blind c)
    end.
    { destruct (negb _); blind_tac; apply blind_reset_entry. }
    apply (K m1 m2 H). }
  destruct (negb (enabled (cpu m2))).
  { cbn [option_map]. f_equal. exact H. }
  destruct (state_type_eqb (state_type (cpu m2)) kClemensCPUStateType_Reset).
  { cbn [option_map]. f_equal. apply (blind_reset_exit vt m1 m2 H). }
  destruct (_ || _).
  { cbn [option_map]. f_equal. apply (blind_interrupt_entry vt m1 m2 H). }
  apply cpu_execute_blind, H.
Qed.

(** C3 (amended): WAI lowers [readyOut] and does nothing else beyond the
    fetch and its two cycles. The step entry point never looks at
    [readyOut]: a call on a machine with [readyOut] low does what the call
    on the same machine with [readyOut] high does, fetch, instruction or
    transition, and the two outcomes differ in [readyOut] at most. A low
    [readyOut] stays low through every call but the one that enters the
    reset state, which raises it. Holding the processor while [readyOut] is
    low is left to the host. *)
Theorem cpu_execute_wai :
  (forall (vt : VectorTable) (table : Z -> option Opcode) (ndebug : bool)
          (s : ClemensMachine),
     resbIn (pins (cpu s)) = true ->
     enabled (cpu s) = true ->
     state_type (cpu s) = kClemensCPUStateType_Execute ->
     table (u8 (bus_read (bus s) (u8 (PBR (regs (cpu s)))) (u16 (PC (regs (cpu s))))))
       = Some CLEM_OPC_WAI ->
     clemens_emulate_cpu vt table ndebug s = Some (after_wai s) /\
     readyOut (pins (cpu (after_wai s))) = false) /\
  (forall (vt : VectorTable) (table : Z -> option Opcode) (ndebug : bool)
          (s : ClemensMachine) (b : bool),
     option_map (with_readyOut true)
       (clemens_emulate_cpu vt table ndebug (with_readyOut b s))
     = option_map (with_readyOut true) (clemens_emulate_cpu vt table ndebug s)) /\
  (forall (vt : VectorTable) (table : Z -> option Opcode) (ndebug : bool)
          (s s' : ClemensMachine),
     readyOut (pins (cpu s)) = false ->
     clemens_emulate_cpu vt table ndebug s = Some s' ->
     readyOut (pins (cpu s'))
     = negb (resbIn (pins (cpu s)))
       && negb (state_type_eqb (state_type (cpu s)) kClemensCPUStateType_Reset)).
Proof.
  split; [|split].
  - intros vt table ndebug s Hr He Hs Ht. destruct_machine s. cbn in Hr, He, Hs. subst.
    mcbn_in Ht. unfold clemens_emulate_cpu, cpu_execute, after_wai, after_fetch. mcbn.
    rewrite andb_false_r. rewrite Ht. mcbn. rewrite u16_idem. split; reflexivity.
  - intros vt table ndebug s b.
    apply clemens_emulate_cpu_blind, ready_eq_with.
  - intros vt table ndebug s s' Hl E.
    destruct (resbIn (pins (cpu s))) eqn:Hr; cbn [negb andb].
    + apply (clemens_emulate_cpu_inv false true vt table ndebug s s'); try assumption.
      * intros _. exact Hr.
      * split; [exact I | intros _; exact Hl].
      * reflexivity.
    + destruct_machine s.
      cbn [resbIn readyOut pins cpu state_type] in Hr, Hl |- *. subst.
      unfold clemens_emulate_cpu in E. cbn [resbIn pins cpu negb] in E.
      apply some_inj in E. subst s'.
      destruct state_type0; reflexivity.
Qed.

Lemma cpu_execute_wai_witness :
  (clemens_emulate_cpu wdc_vectors wdc_opcode_of_byte true wai_machine
     = Some (after_wai wai_machine) /\
   readyOut (pins (cpu (after_wai wai_machine))) = false) /\
  readyOut (pins (cpu (step_of (after_wai wai_machine))))
  = negb (resbIn (pins (cpu (after_wai wai_machine))))
    && negb (state_type_eqb (state_type (cpu (after_wai wai_machine)))
               kClemensCPUStateType_Reset).
Proof.
  destruct cpu_execute_wai as (Hwai & _ & Hlow). split.
  - apply (Hwai wdc_vectors wdc_opcode_of_byte true wai_machine); reflexivity.
  - apply (Hlow wdc_vectors wdc_opcode_of_byte true (after_wai wai_machine)
             (step_of (after_wai wai_machine))).
    + reflexivity.
    + vm_compute. reflexivity.
Defined.

(** The call after WAI, once with [readyOut] low as WAI left it and once
    with [readyOut] raised by hand: the same NOP is run. *)
Example step_after_wai_blind :
  let step := clemens_emulate_cpu wdc_vectors wdc_opcode_of_byte true in
  let view o :=
    option_map (fun m => (PC (regs (cpu m)), IR (regs (cpu m)),
                          cycles_spent (cpu m), readyOut (pins (cpu m)))) o in
  view (step (after_wai wai_machine)) = Some (2050, 234, 5, false) /\
  view (step (with_readyOut true (after_wai wai_machine)))
    = Some (2050, 234, 5, true).
Proof. split; vm_compute; reflexivity. Qed.

(* --------------------------------------------------------------------- *)
(** ** Intel HEX loader *)
(* --------------------------------------------------------------------- *)

Definition hex_init (h : Heap) : HexVars :=
  mkHexVars 0 0 CLEM_LOAD_HEX_STATE_BEGIN None 0 0 CLEM_LOAD_HEX_RECORD_NONE 0 h.

(** The variables after [n] full passes through the loop, when each of them
    passes the loop test and falls through to the next. *)
Fixpoint hex_iter (n : nat) (clem : ClemensMachine) (hex : string)
    (hex_end : option Z) (bank : Z) (v : HexVars) : option HexVars :=
  match n with
  | O => Some v
  | Datatypes.S n' =>
      if hex_continue hex hex_end v then
        match hex_body clem hex bank v with
        | HexNext v' => hex_iter n' clem hex hex_end bank v'
        | _ => None
        end
      else None
  end.


Lemma hex_loop_iter (n k : nat) (clem : ClemensMachine) (hex : string)
    (hex_end : option Z) (bank : Z) (v v' : HexVars) :
  hex_iter n clem hex hex_end bank v = Some v' ->
  hex_loop (n + k) clem hex hex_end bank v = hex_loop k clem hex hex_end bank v'.
Proof.
  revert v. induction n as [|n IH]; intros v H; cbn [hex_iter] in H.
  - injection H as <-. reflexivity.
  - cbn [Nat.add hex_loop].
    destruct (hex_continue hex hex_end v); [|discriminate].
    destruct (hex_body clem hex bank v); try discriminate. apply IH, H.
Qed.






Lemma hv_state_set_line (n : Z) (v : HexVars) : hv_state (hv_set_line n v) = hv_state v.
Proof. reflexivity. Qed.

Lemma hv_state_set_next (n : Z) (v : HexVars) : hv_state (hv_set_next n v) = hv_state v.
Proof. reflexivity. Qed.




(** A machine with bank 0 mapped to the host's fast RAM, of which the
    examples use the first page. *)
Definition hex_machine : ClemensMachine :=
  mkMachine (cpu blank_machine) (tspec blank_machine)
    (mkMemory (p_fpi :: repeat None 255) (repeat false 256) [None; None]
              (repeat None 256))
    (bus blank_machine) 0 0.

Definition hex_heap : Heap := mkHeap (repeat 0 256) [] [] [] [].

Definition nl : string := String (ascii_of_nat 10) EmptyString.

(** The returned [bool] and the first bytes of the bank. *)
Definition hex_outcome (r : HexResult) : option (bool * list Z) :=
  match r with
  | HexDone b h => Some (b, firstn 2 (heap_fpiRAM h))
  | _ => None
  end.

(** An EOF record with a wrong checksum, and an empty line behind it. *)
Definition bad_eof_text : string := ":00000001FE" ++ nl ++ nl.


(** A data record and an EOF record: the byte is stored; with a wrong
    checksum or an unknown record type in the data record the load fails. *)
Example clemens_load_hex_records :
  let load (s : string) :=
    hex_outcome (clemens_load_hex 200 hex_machine hex_heap s None 0) in
  let eof : string := (":00000001FF" ++ nl)%string in
  load (":0100000041BE" ++ nl ++ eof)%string = Some (true, [65; 0]) /\
  load (":0100000041BD" ++ nl ++ eof)%string = Some (false, [65; 0]) /\
  load (":0100000241BC" ++ nl ++ eof)%string = Some (false, [0; 0]).
Proof. repeat split; vm_compute; reflexivity. Qed.

(** The error state is not looked at once the loop test has failed: a wrong
    checksum in the last record goes through when fewer than two characters
    follow it, with [hex_end] at the end of the text as well as without. *)
Example clemens_load_hex_last_record :
  let load (s : string) (e : option Z) :=
    hex_outcome (clemens_load_hex 200 hex_machine hex_heap s e 0) in
  load ":00000001FE"%string None = Some (true, [0; 0]) /\
  load ":00000001FE"%string (Some 11) = Some (true, [0; 0]) /\
  load (":00000001FE" ++ nl)%string None = Some (true, [0; 0]) /\
  load (":00000001FE" ++ nl)%string (Some 12) = Some (true, [0; 0]) /\
  load (":00000001FE" ++ nl ++ nl)%string None = Some (false, [0; 0]).
Proof. repeat split; vm_compute; reflexivity. Qed.

(** A data byte that is not hexadecimal: in the last place of its record
    it is passed over, before the last place it fails the load. *)
Example clemens_load_hex_bad_data_byte :
  let load (s : string) :=
    hex_outcome (clemens_load_hex 200 hex_machine hex_heap s None 0) in
  let eof : string := (":00000001FF" ++ nl)%string in
  load (":01000000ZZFF" ++ nl ++ eof)%string = Some (true, [0; 0]) /\
  load (":02000000ZZ41BD" ++ nl ++ eof)%string = Some (false, [0; 0]).
Proof. repeat split; vm_compute; reflexivity. Qed.

(** *** One record in full *)

Section HexRecord.

Variable clem : ClemensMachine.
Variable h : Heap.
Variable hex : string.
Variable bank : Z.
Variable p : Ptr.
Variables len adr typ chk : Z.

(** The text begins with ':' and a record header; the four fields read as
    [len], [adr], [typ] and, behind a record without data, [chk]; the
    record and the two characters behind it hold no NUL. *)
Hypothesis Hbank : 0 <= bank < 256.
Hypothesis Hmapped : nth (Z.to_nat bank) (fpi_bank_map (mem clem)) None = Some p.
Hypothesis Hcolon : deref hex 0 = 58.
Hypothesis Hlen : _clem_util_hex_value hex 1 3 = Some len.
Hypothesis Hadr : _clem_util_hex_value hex 3 7 = Some adr.
Hypothesis Htyp : _clem_util_hex_value hex 7 9 = Some typ.
Hypothesis Hchk : _clem_util_hex_value hex 9 11 = Some chk.
Hypothesis Hnul : forall i, 0 <= i < 13 -> deref hex i <> 0.

(** The sum of the length byte, the two address bytes and the record
    type. *)
Definition header_sum : Z :=
  u8 (u8 (u8 (u8 (Z.land len 255) + Z.land (Z.shiftr (Z.land adr 65535) 8) 255)
          + Z.land (Z.land adr 65535) 255)
      + u8 (Z.land typ 255)).

Lemma hex_bank_in_range : (0 <=? bank) && (bank <? 256) = true.
Proof. lia. Qed.

Lemma hex_no_nul (i : Z) : 0 <= i < 13 -> (deref hex i =? 0) = false.
Proof. intros H. apply Z.eqb_neq, Hnul, H. Qed.

Lemma hex_loop_step (fuel : nat) (v v' : HexVars) :
  hex_continue hex None v = true ->
  hex_body clem hex bank v = HexNext v' ->
  hex_loop (Datatypes.S fuel) clem hex None bank v
  = hex_loop fuel clem hex None bank v'.
Proof. intros C B. cbn [hex_loop]. rewrite C, B. reflexivity. Qed.

Ltac hex_cbn :=
  cbn -[deref u8 Z.land Z.lnot Z.shiftr _clem_util_hex_value nth hex_loop].

Ltac hex_rw :=
  rewrite ?Hcolon, ?Hlen, ?Hadr, ?Htyp, ?Hchk, ?Hmapped, ?hex_bank_in_range;
  rewrite ?hex_no_nul by lia;
  repeat match goal with
         | H : (_ =? _) = _ |- _ => rewrite H
         end.

Ltac hex_eval :=
  cbn [hv_line hv_next hv_state hv_clem_memory hv_hex_byte_length
       hv_hex_address16 hv_hex_recordtype hv_chksum hv_heap
       hv_set_state hv_set_next hv_set_line];
  try hex_rw; hex_cbn;
  repeat (progress hex_rw; hex_cbn).

Ltac hex_pass :=
  etransitivity;
  [ apply hex_loop_step;
    [ unfold hex_continue; hex_eval; reflexivity
    | unfold hex_body, hex_switch; hex_eval; reflexivity ]
  | ].

Ltac hex_finish :=
  cbn [hex_loop]; unfold hex_continue, hex_body, hex_switch; hex_eval;
  reflexivity.

(** A record without data that two more characters follow: the load
    succeeds exactly for an EOF record whose checksum byte is the two's
    complement of the sum of the length byte, the address bytes and the
    record type. *)
Lemma clemens_load_hex_record_no_data (fuel : nat) :
  (20 <= fuel)%nat ->
  Z.land typ 255 <> CLEM_LOAD_HEX_RECORD_DATA ->
  clemens_load_hex fuel clem h hex None bank
  = HexDone ((Z.land typ 255 =? CLEM_LOAD_HEX_RECORD_EOF)
             && (u8 (1 + Z.lnot header_sum) =? Z.land chk 255)) h.
Proof.
  intros Hf Hd.
  do 20 (destruct fuel as [|fuel]; [lia|]). clear Hf.
  unfold clemens_load_hex.
  do 11 hex_pass.
  destruct (Z.land typ 255 =? CLEM_LOAD_HEX_RECORD_DATA) eqn:E0.
  { apply Z.eqb_eq in E0. contradiction. }
  destruct (Z.land typ 255 =? CLEM_LOAD_HEX_RECORD_EOF) eqn:E1.
  - destruct (u8 (1 + Z.lnot header_sum) =? Z.land chk 255) eqn:Ec;
      unfold header_sum in Ec.
    + do 4 hex_pass. hex_finish.
    + do 4 hex_pass. hex_finish.
  - hex_pass. hex_finish.
Qed.

End HexRecord.

(** The lemma at the EOF record with the wrong checksum. *)
Example clemens_load_hex_bad_eof :
  clemens_load_hex 20 hex_machine hex_heap bad_eof_text None 0
  = HexDone false hex_heap.
Proof.
  apply (clemens_load_hex_record_no_data hex_machine hex_heap bad_eof_text 0
           (mkPtr RegionFpiRAM 0) 0 0 1 254); try reflexivity; try lia.
  - intros i Hi. destruct i as [|q|q]; try lia; try discriminate.
    do 4 (destruct q as [q|q|]; try lia; try discriminate).
  - discriminate.
Qed.


(* ===================================================================== *)
(** * Further properties *)
(* ===================================================================== *)

(* --------------------------------------------------------------------- *)
(** ** Hex dump *)
(* --------------------------------------------------------------------- *)

(** [l[i]], zero outside the list. *)
Definition zth (l : list Z) (i : Z) : Z := nth (Z.to_nat i) l 0.

(** The byte at offset [i] of the bank that [p] points to. *)
Definition byte_at (h : Heap) (p : Ptr) (i : Z) : Z :=
  u8 (zth (heap_get h (ptr_region p)) (ptr_off p + i)).

(** The 64 KiB behind [p] lie inside its buffer. *)
Definition bank_readable (h : Heap) (p : Ptr) : Prop :=
  in_bounds (heap_get h (ptr_region p)) (ptr_off p) 65536 = true.

(** The bytes [adr], [adr + 1], ... of the bank, the offset wrapping at
    64 KiB. *)
Definition dumped_byte (h : Heap) (p : Ptr) (adr k : Z) : Z :=
  byte_at h p ((adr + k) mod 65536).

Fixpoint sum_bytes (h : Heap) (p : Ptr) (adr : Z) (n : nat) (k : Z) : Z :=
  match n with
  | O => 0
  | Datatypes.S n' => dumped_byte h p adr k + sum_bytes h p adr n' (k + 1)
  end.

Lemma length_splice1 (l : list Z) (i v : Z) :
  in_bounds l i 1 = true -> length (splice l i [v]) = length l.
Proof.
  unfold in_bounds, splice. intros H.
  rewrite !length_app, firstn_length_le, length_skipn by lia.
  cbn [length]. lia.
Qed.

Lemma zth_splice1 (l : list Z) (i v j : Z) :
  in_bounds l i 1 = true -> 0 <= j ->
  zth (splice l i [v]) j = if j =? i then v else zth l j.
Proof.
  unfold in_bounds, splice, zth. intros H Hj.
  assert (Hi : (Z.to_nat i < length l)%nat) by lia.
  destruct (Z.eqb_spec j i) as [->|Hne].
  - rewrite app_nth2; rewrite firstn_length_le by lia; [|lia].
    rewrite Nat.sub_diag. reflexivity.
  - destruct (Z.ltb_spec j i).
    + rewrite app_nth1 by (rewrite firstn_length_le by lia; lia).
      rewrite nth_firstn.
      destruct (Nat.ltb_spec (Z.to_nat j) (Z.to_nat i)); [reflexivity | lia].
    + rewrite app_nth2; rewrite firstn_length_le by lia; [|lia].
      cbn [length app].
      replace (Z.to_nat j - Z.to_nat i)%nat
        with (Datatypes.S (Z.to_nat j - Z.to_nat i - 1)) by lia.
      cbn [nth]. rewrite nth_skipn. f_equal. lia.
Qed.

Lemma out_store_spec (l : list Z) (i v : Z) :
  0 <= i < Z.of_nat (length l) ->
  exists l', out_store l i v = Some l' /\ length l' = length l /\
             forall j, 0 <= j -> zth l' j = if j =? i then v else zth l j.
Proof.
  intros H. unfold out_store.
  assert (B : in_bounds l i 1 = true) by (unfold in_bounds; lia).
  rewrite B. eexists. split; [reflexivity|]. split.
  - apply length_splice1, B.
  - intros j Hj. apply zth_splice1; assumption.
Qed.

Lemma load8_readable (h : Heap) (p : Ptr) (i : Z) :
  bank_readable h p -> 0 <= i < 65536 ->
  load8 h (Some p) i = Some (zth (heap_get h (ptr_region p)) (ptr_off p + i)).
Proof.
  unfold bank_readable, load8, in_bounds, zth. intros H Hi.
  replace ((0 <=? ptr_off p + i) && (0 <=? 1)
           && (ptr_off p + i + 1 <=? Z.of_nat (length (heap_get h (ptr_region p)))))
    with true by (symmetry; lia).
  reflexivity.
Qed.

Lemma land_u32_65535 (x : Z) : Z.land (u32 x) 65535 = x mod 65536.
Proof.
  rewrite land_65535. unfold u32.
  apply Z.mod_mod_divide. exists 65536. reflexivity.
Qed.

Lemma u8_range (x : Z) : 0 <= u8 x < 256.
Proof. unfold u8. apply Z.mod_pos_bound. lia. Qed.

Lemma high_nibble (b : Z) : 0 <= b < 256 -> Z.shiftr (Z.land b 240) 4 = b / 16.
Proof.
  intros H. rewrite Z.shiftr_land. change (Z.shiftr 240 4) with (Z.ones 4).
  rewrite Z.land_ones, Z.shiftr_div_pow2 by lia. change (2 ^ 4) with 16.
  apply Z.mod_small. split.
  - apply Z.div_pos; lia.
  - apply Z.div_lt_upper_bound; lia.
Qed.

Lemma low_nibble (b : Z) : Z.land b 15 = b mod 16.
Proof. change 15 with (Z.ones 4). rewrite Z.land_ones by lia. reflexivity. Qed.

Lemma u32_add_l (a b : Z) : u32 (u32 a + b) = u32 (a + b).
Proof. unfold u32. apply Zplus_mod_idemp_l. Qed.

(** Case analysis on the comparisons of the goal. *)
Ltac zcases :=
  repeat match goal with
         | |- context [?x <=? ?y] => destruct (Z.leb_spec x y)
         | |- context [?x <? ?y] => destruct (Z.ltb_spec x y)
         | |- context [?x =? ?y] => destruct (Z.eqb_spec x y)
         end;
  cbn [andb orb negb]; try reflexivity; try lia.

Section HexDumpFacts.

Variable table : Z -> Z.

(** The character that the dump puts at index [j] of the text. *)
Definition dumped_digit (h : Heap) (p : Ptr) (adr j : Z) : Z :=
  let b := dumped_byte h p adr (j / 2) in
  if j mod 2 =? 0 then table (b / 16) else table (b mod 16).

Lemma out_hex_loop_spec (h : Heap) (p : Ptr) (adr : Z) (n : nat) :
  bank_readable h p ->
  forall (idx chk : Z) (hex : list Z),
    0 <= idx -> 0 <= chk < 4294967296 ->
    2 * (idx + Z.of_nat n) <= Z.of_nat (length hex) ->
    exists hex',
      out_hex_loop table n h (Some p) adr idx chk hex
        = Some (idx + Z.of_nat n, u32 (chk + sum_bytes h p adr n idx), hex') /\
      length hex' = length hex /\
      forall j, 0 <= j ->
        zth hex' j = if (2 * idx <=? j) && (j <? 2 * (idx + Z.of_nat n))
                     then dumped_digit h p adr j else zth hex j.
Proof.
  intros Hr. induction n as [|n IH]; intros idx chk hex Hidx Hchk Hlen.
  - exists hex. cbn [out_hex_loop sum_bytes Z.of_nat]. rewrite !Z.add_0_r.
    split; [|split; [reflexivity|]].
    + unfold u32. rewrite Z.mod_small by lia. reflexivity.
    + intros j Hj. replace ((2 * idx <=? j) && (j <? 2 * idx)) with false by lia.
      reflexivity.
  - cbn [out_hex_loop sum_bytes].
    rewrite land_u32_65535.
    rewrite load8_readable by (auto; apply Z.mod_pos_bound; lia).
    fold (byte_at h p ((adr + idx) mod 65536)). fold (dumped_byte h p adr idx).
    set (b := dumped_byte h p adr idx).
    assert (Hb : 0 <= b < 256) by apply u8_range.
    rewrite high_nibble, low_nibble by exact Hb.
    destruct (out_store_spec hex (idx * 2) (table (b / 16)))
      as (hex1 & E1 & L1 & N1); [lia|]. rewrite E1.
    destruct (out_store_spec hex1 (idx * 2 + 1) (table (b mod 16)))
      as (hex2 & E2 & L2 & N2); [lia|]. rewrite E2.
    destruct (IH (idx + 1) (u32 (chk + b)) hex2) as (hex' & E & L & N);
      [lia | apply Z.mod_pos_bound; lia | lia |].
    exists hex'. rewrite E. split; [|split].
    + rewrite u32_add_l, Z.add_assoc.
      replace (idx + Z.of_nat (Datatypes.S n)) with (idx + 1 + Z.of_nat n) by lia.
      reflexivity.
    + congruence.
    + intros j Hj. rewrite (N j Hj), (N2 j Hj), (N1 j Hj).
      assert (D1 : (idx * 2 + 1) / 2 = idx) by (Z.div_mod_to_equations; lia).
      assert (D2 : (idx * 2 + 1) mod 2 = 1) by (Z.div_mod_to_equations; lia).
      assert (D3 : (idx * 2) / 2 = idx) by (Z.div_mod_to_equations; lia).
      assert (D4 : (idx * 2) mod 2 = 0) by (Z.div_mod_to_equations; lia).
      unfold dumped_digit.
      destruct (Z.eqb_spec j (idx * 2 + 1)) as [->|H1];
        [rewrite D1, D2|
         destruct (Z.eqb_spec j (idx * 2)) as [->|H0]; [rewrite D3, D4|]];
        repeat match goal with
               | |- context [?x <=? ?y] => destruct (Z.leb_spec x y)
               | |- context [?x <? ?y] => destruct (Z.ltb_spec x y)
               end; cbn [andb Z.eqb]; try reflexivity; lia.
Qed.

End HexDumpFacts.

Lemma sum_bytes_bound (h : Heap) (p : Ptr) (adr : Z) (n : nat) (k : Z) :
  0 <= sum_bytes h p adr n k <= 255 * Z.of_nat n.
Proof.
  revert k. induction n as [|n IH]; intros k; cbn [sum_bytes].
  - lia.
  - specialize (IH (k + 1)).
    pose proof (u8_range (zth (heap_get h (ptr_region p))
                            (ptr_off p + (adr + k) mod 65536))) as B.
    unfold dumped_byte, byte_at. lia.
Qed.

(** X1: a text limit that leaves room for no byte, or for more than 256
    bytes, is refused with [UINT_MAX] before the memory or the text is
    touched. The last limit that is served is 513, that is 256 bytes, one
    more than the 255 of the comment in the source. *)
Theorem clemens_out_hex_data_from_memory_rejects
    (table : Z -> Z) (h : Heap) (hex : list Z) (memory : option Ptr)
    (limit adr : Z) :
  0 <= limit -> limit < 2 \/ 513 < limit ->
  clemens_out_hex_data_from_memory table h hex memory limit adr
  = Some (UINT_MAX, hex).
Proof.
  intros H0 H. unfold clemens_out_hex_data_from_memory.
  rewrite Z.shiftr_div_pow2 by lia. change (2 ^ 1) with 2.
  destruct H as [H|H].
  - replace (limit / 2) with 0 by (Z.div_mod_to_equations; lia). reflexivity.
  - destruct (Z.eqb_spec (limit / 2) 0) as [E|E]; [reflexivity|].
    replace (256 <? limit / 2) with true; [reflexivity|].
    symmetry. apply Z.ltb_lt. Z.div_mod_to_equations. lia.
Qed.

Lemma clemens_out_hex_data_from_memory_rejects_witness :
  clemens_out_hex_data_from_memory (fun d => d) dump_heap [7; 7; 7] None 1 0
    = Some (UINT_MAX, [7; 7; 7]) /\
  clemens_out_hex_data_from_memory (fun d => d) dump_heap [7; 7; 7] None 514 0
    = Some (UINT_MAX, [7; 7; 7]).
Proof.
  split; apply clemens_out_hex_data_from_memory_rejects; lia.
Defined.

(** The text and the checksum of a served dump. *)
Lemma out_hex_digits_aux
    (table : Z -> Z) (h : Heap) (hex : list Z) (p : Ptr) (limit adr : Z) :
  bank_readable h p ->
  2 <= limit <= 513 ->
  2 * (limit / 2) + 1 <= Z.of_nat (length hex) ->
  exists hex',
    clemens_out_hex_data_from_memory table h hex (Some p) limit adr
      = Some (sum_bytes h p adr (Z.to_nat (limit / 2)) 0, hex') /\
    length hex' = length hex /\
    forall j, 0 <= j ->
      zth hex' j = if j <? 2 * (limit / 2) then dumped_digit table h p adr j
                   else if j =? 2 * (limit / 2) then 0 else zth hex j.
Proof.
  intros Hr Hl Hlen. unfold clemens_out_hex_data_from_memory.
  rewrite Z.shiftr_div_pow2 by lia. change (2 ^ 1) with 2.
  set (n := limit / 2) in *.
  assert (Hn : 1 <= n <= 256) by (subst n; Z.div_mod_to_equations; lia).
  replace (n =? 0) with false by lia.
  replace (256 <? n) with false by lia.
  destruct (out_hex_loop_spec table h p adr (Z.to_nat n) Hr 0 0 hex)
    as (hex1 & E & L & N); [lia | lia | lia |].
  rewrite E. rewrite Z2Nat.id in * by lia. cbn [Z.add] in *.
  pose proof (sum_bytes_bound h p adr (Z.to_nat n) 0) as B.
  rewrite Z2Nat.id in B by lia.
  assert (U : u32 (sum_bytes h p adr (Z.to_nat n) 0)
              = sum_bytes h p adr (Z.to_nat n) 0)
    by (unfold u32; apply Z.mod_small; lia).
  destruct (out_store_spec hex1 (n * 2) 0) as (hex2 & E2 & L2 & N2); [lia|].
  rewrite E2. exists hex2. rewrite U.
  split; [reflexivity|]. split; [congruence|].
  intros j Hj. rewrite N2, N by lia. zcases.
Qed.

(** X2: for a limit of 2 to 513 characters the dump writes, for each of
    the [limit / 2] bytes from [adr] on (the offset wrapping at the end of
    the bank), its high and its low nibble through the digit table, then a
    NUL, and leaves the rest of the text alone; it returns the sum of the
    bytes, which is always below the error value [UINT_MAX]. *)
Theorem clemens_out_hex_data_from_memory_digits
    (table : Z -> Z) (h : Heap) (hex : list Z) (p : Ptr) (limit adr : Z) :
  bank_readable h p ->
  2 <= limit <= 513 ->
  2 * (limit / 2) + 1 <= Z.of_nat (length hex) ->
  exists hex',
    clemens_out_hex_data_from_memory table h hex (Some p) limit adr
      = Some (sum_bytes h p adr (Z.to_nat (limit / 2)) 0, hex') /\
    sum_bytes h p adr (Z.to_nat (limit / 2)) 0 < UINT_MAX /\
    length hex' = length hex /\
    (forall j, 0 <= j < 2 * (limit / 2) ->
       zth hex' j = dumped_digit table h p adr j) /\
    zth hex' (2 * (limit / 2)) = 0 /\
    (forall j, 2 * (limit / 2) < j -> zth hex' j = zth hex j).
Proof.
  intros Hr Hl Hlen.
  destruct (out_hex_digits_aux table h hex p limit adr
              Hr Hl Hlen) as (hex' & E & L & N).
  exists hex'. split; [exact E|].
  assert (Hn : 1 <= limit / 2 <= 256) by (Z.div_mod_to_equations; lia).
  pose proof (sum_bytes_bound h p adr (Z.to_nat (limit / 2)) 0) as B.
  rewrite Z2Nat.id in B by lia.
  split; [unfold UINT_MAX; lia|]. split; [exact L|]. split; [|split].
  - intros j Hj. rewrite N by lia.
    replace (j <? 2 * (limit / 2)) with true by lia. reflexivity.
  - rewrite N by lia. rewrite Z.ltb_irrefl, Z.eqb_refl. reflexivity.
  - intros j Hj. rewrite N by lia.
    replace (j <? 2 * (limit / 2)) with false by lia.
    replace (j =? 2 * (limit / 2)) with false by lia. reflexivity.
Qed.

(** The digit table of upper-case hexadecimal digits. *)
Definition hex_upper (d : Z) : Z := if d <? 10 then 48 + d else 55 + d.

Lemma dump_heap_readable : bank_readable dump_heap (mkPtr RegionFpiRAM 0).
Proof. vm_compute. reflexivity. Qed.

Lemma clemens_out_hex_data_from_memory_digits_witness :
  exists hex',
    clemens_out_hex_data_from_memory hex_upper dump_heap [1; 2; 3; 4; 5; 6]
      (Some (mkPtr RegionFpiRAM 0)) 5 65535
      = Some (sum_bytes dump_heap (mkPtr RegionFpiRAM 0) 65535 (Z.to_nat (5 / 2)) 0,
              hex') /\
    sum_bytes dump_heap (mkPtr RegionFpiRAM 0) 65535 (Z.to_nat (5 / 2)) 0
      < UINT_MAX /\
    length hex' = length [1; 2; 3; 4; 5; 6] /\
    (forall j, 0 <= j < 2 * (5 / 2) ->
       zth hex' j = dumped_digit hex_upper dump_heap (mkPtr RegionFpiRAM 0) 65535 j) /\
    zth hex' (2 * (5 / 2)) = 0 /\
    (forall j, 2 * (5 / 2) < j -> zth hex' j = zth [1; 2; 3; 4; 5; 6] j).
Proof.
  apply clemens_out_hex_data_from_memory_digits.
  - exact dump_heap_readable.
  - lia.
  - vm_compute. discriminate.
Defined.

(** The dump at the end of the bank: the last byte, 0x18, and the first,
    0x00; the text is 1800, the checksum 0x18. *)
Example clemens_out_hex_data_from_memory_wraps :
  clemens_out_hex_data_from_memory hex_upper dump_heap [1; 2; 3; 4; 5; 6]
    (Some (mkPtr RegionFpiRAM 0)) 5 65535
  = Some (24, [49; 56; 48; 48; 0; 6]).
Proof. vm_compute. reflexivity. Qed.

(** The text as a C string. *)
Fixpoint string_of_codes (l : list Z) : string :=
  match l with
  | [] => EmptyString
  | c :: t => String (ascii_of_N (Z.to_N c)) (string_of_codes t)
  end.

Lemma char_code_ascii (c : Z) :
  0 <= c < 256 -> char_code (ascii_of_N (Z.to_N c)) = c.
Proof.
  intros H. unfold char_code. rewrite N_ascii_embedding by lia. lia.
Qed.

Lemma get_string_of_codes (l : list Z) (i : nat) :
  (i < length l)%nat ->
  String.get i (string_of_codes l) = Some (ascii_of_N (Z.to_N (nth i l 0))).
Proof.
  revert i. induction l as [|c t IH]; intros i H; cbn [length] in H; [lia|].
  destruct i as [|i]; cbn [string_of_codes String.get nth]; [reflexivity|].
  apply IH. lia.
Qed.

Lemma deref_string_of_codes (l : list Z) (i : Z) :
  0 <= i < Z.of_nat (length l) -> 0 <= zth l i < 256 ->
  deref (string_of_codes l) i = zth l i.
Proof.
  intros Hi Hc. unfold deref, zth in *.
  replace (i <? 0) with false by lia.
  rewrite get_string_of_codes by lia. apply char_code_ascii, Hc.
Qed.

Lemma hex_digit_range (c d : Z) : hex_digit c = Some d -> 0 <= c < 256.
Proof.
  unfold hex_digit.
  destruct ((48 <=? c) && (c <=? 57)) eqn:E1; [lia|].
  destruct ((65 <=? c) && (c <=? 70)) eqn:E2; [lia|].
  destruct ((97 <=? c) && (c <=? 102)) eqn:E3; [lia|discriminate].
Qed.

(** X3: with a digit table that the digit parser reads back, the two
    characters that the dump writes for a byte parse to that byte. *)
Theorem clemens_out_hex_data_from_memory_decodes
    (table : Z -> Z) (h : Heap) (hex : list Z) (p : Ptr) (limit adr : Z) :
  (forall d, 0 <= d < 16 -> hex_digit (table d) = Some d) ->
  bank_readable h p ->
  2 <= limit <= 513 ->
  2 * (limit / 2) + 1 <= Z.of_nat (length hex) ->
  exists chk hex',
    clemens_out_hex_data_from_memory table h hex (Some p) limit adr
      = Some (chk, hex') /\
    forall k, 0 <= k < limit / 2 ->
      _clem_util_hex_value (string_of_codes hex') (2 * k) (2 * k + 2)
      = Some (dumped_byte h p adr k).
Proof.
  intros Ht Hr Hl Hlen.
  destruct (out_hex_digits_aux table h hex p limit adr
              Hr Hl Hlen) as (hex' & E & L & N).
  eexists. exists hex'. split; [exact E|].
  intros k Hk. unfold _clem_util_hex_value.
  replace (2 * k + 2 - 2 * k) with 2 by lia.
  change (Z.to_nat 2) with 2%nat. cbn [hex_value_from].
  set (b := dumped_byte h p adr k).
  assert (Hb : 0 <= b < 256) by apply u8_range.
  assert (Hhi : 0 <= b / 16 < 16) by (Z.div_mod_to_equations; lia).
  assert (Hlo : 0 <= b mod 16 < 16) by (Z.div_mod_to_equations; lia).
  assert (D0 : zth hex' (2 * k) = table (b / 16)).
  { rewrite N by lia. replace (2 * k <? 2 * (limit / 2)) with true by lia.
    unfold dumped_digit. fold b.
    replace (2 * k / 2) with k by (Z.div_mod_to_equations; lia).
    replace (2 * k mod 2) with 0 by (Z.div_mod_to_equations; lia).
    reflexivity. }
  assert (D1 : zth hex' (2 * k + 1) = table (b mod 16)).
  { rewrite N by lia. replace (2 * k + 1 <? 2 * (limit / 2)) with true by lia.
    unfold dumped_digit. fold b.
    replace ((2 * k + 1) / 2) with k by (Z.div_mod_to_equations; lia).
    replace ((2 * k + 1) mod 2) with 1 by (Z.div_mod_to_equations; lia).
    reflexivity. }
  rewrite !deref_string_of_codes; rewrite ?D0, ?D1;
    try (apply (hex_digit_range _ _ (Ht _ Hhi)));
    try (apply (hex_digit_range _ _ (Ht _ Hlo))); try lia.
  rewrite (Ht _ Hhi), (Ht _ Hlo). f_equal.
  Z.div_mod_to_equations. lia.
Qed.

Lemma hex_upper_digit (d : Z) : 0 <= d < 16 -> hex_digit (hex_upper d) = Some d.
Proof.
  intros H. unfold hex_upper, hex_digit.
  destruct (Z.ltb_spec d 10).
  - replace ((48 <=? 48 + d) && (48 + d <=? 57)) with true by lia.
    f_equal. lia.
  - replace ((48 <=? 55 + d) && (55 + d <=? 57)) with false by lia.
    replace ((65 <=? 55 + d) && (55 + d <=? 70)) with true by lia.
    f_equal. lia.
Qed.

Lemma clemens_out_hex_data_from_memory_decodes_witness :
  exists chk hex',
    clemens_out_hex_data_from_memory hex_upper dump_heap [1; 2; 3; 4; 5; 6]
      (Some (mkPtr RegionFpiRAM 0)) 5 65535 = Some (chk, hex') /\
    forall k, 0 <= k < 5 / 2 ->
      _clem_util_hex_value (string_of_codes hex') (2 * k) (2 * k + 2)
      = Some (dumped_byte dump_heap (mkPtr RegionFpiRAM 0) 65535 k).
Proof.
  apply clemens_out_hex_data_from_memory_decodes.
  - exact hex_upper_digit.
  - exact dump_heap_readable.
  - lia.
  - vm_compute. discriminate.
Defined.

(* --------------------------------------------------------------------- *)
(** ** Binary dump without wrap-around *)
(* --------------------------------------------------------------------- *)

(** The bank pointer that the two dumps look up: the Mega II banks for
    0xE0 and 0xE1, the FPI bank of the low byte otherwise. *)
Definition dump_bank (clem : ClemensMachine) (bank : Z) : option Ptr :=
  if (bank =? 224) || (bank =? 225)
  then nth (Z.to_nat (Z.land bank 1)) (mega2_bank_map (mem clem)) None
  else nth (Z.to_nat (Z.land bank 255)) (fpi_bank_map (mem clem)) None.

Lemma length_slice (l : list Z) (off n : Z) :
  in_bounds l off n = true -> length (slice l off n) = Z.to_nat n.
Proof.
  unfold in_bounds, slice. intros H.
  rewrite firstn_length_le; [reflexivity|]. rewrite length_skipn. lia.
Qed.

(** X4: a dump that stays inside the bank copies: with the count cut to
    one bank and [adr + count] not beyond the end of the bank, [out]
    receives the bytes of the bank from [adr] on, and keeps what lies
    behind them. A count above 0x10000 from offset 0 copies the whole
    bank. *)
Theorem clemens_out_bin_data_copies
    (clem : ClemensMachine) (h : Heap) (out : list Z) (cnt bank adr : Z)
    (p : Ptr) :
  dump_bank clem bank = Some p ->
  bank_readable h p ->
  0 <= adr < 65536 -> 0 <= cnt ->
  adr + Z.min cnt 65536 <= 65536 ->
  Z.min cnt 65536 <= Z.of_nat (length out) ->
  clemens_out_bin_data clem h out cnt bank adr
  = Some (slice (heap_get h (ptr_region p)) (ptr_off p + adr) (Z.min cnt 65536)
            ++ skipn (Z.to_nat (Z.min cnt 65536)) out).
Proof.
  unfold dump_bank, clemens_out_bin_data, bank_readable.
  intros Hp Hr Ha Hc Hfit Hout. rewrite Hp.
  set (n := Z.min cnt 65536) in *.
  replace (if 65536 <? cnt then 65536 else cnt) with n by (subst n; zcases).
  assert (Hn : 0 <= n <= 65536) by lia.
  assert (E0 : u32 (adr + n) = adr + n) by (unfold u32; apply Z.mod_small; lia).
  rewrite E0. replace (65536 <? adr + n) with false by lia.
  replace (adr + n - adr) with n by lia.
  assert (E1 : u32 n = n) by (unfold u32; apply Z.mod_small; lia).
  rewrite E1. cbn [optr_add memcpy_out ptr_add ptr_region ptr_off].
  assert (B1 : in_bounds (heap_get h (ptr_region p)) (ptr_off p + adr) n = true)
    by (unfold in_bounds in *; lia).
  assert (B2 : in_bounds out 0 n = true) by (unfold in_bounds; lia).
  rewrite B1, B2. cbn [andb]. f_equal. unfold splice.
  rewrite (length_slice _ _ _ B1). reflexivity.
Qed.

Lemma clemens_out_bin_data_copies_witness :
  clemens_out_bin_data dump_machine dump_heap [9; 9; 9; 9] 3 0 300
  = Some (slice (heap_get dump_heap RegionFpiRAM) (0 + 300) (Z.min 3 65536)
            ++ skipn (Z.to_nat (Z.min 3 65536)) [9; 9; 9; 9]).
Proof.
  apply (clemens_out_bin_data_copies dump_machine dump_heap [9; 9; 9; 9] 3 0 300
           (mkPtr RegionFpiRAM 0)).
  - reflexivity.
  - exact dump_heap_readable.
  - lia.
  - lia.
  - lia.
  - cbn. lia.
Defined.

(** X5: a request for a whole bank from an offset other than 0 neither
    faults nor wraps: the first [memcpy] puts the [adr] bytes from the
    start of the bank at [out + adr], and the second, asked for
    [right0 - left0 = 0] bytes, copies nothing, so that the bytes from
    [adr] to the end of the bank never reach [out]. *)
Theorem clemens_out_bin_data_full_bank
    (clem : ClemensMachine) (h : Heap) (out : list Z) (cnt bank adr : Z)
    (p : Ptr) :
  dump_bank clem bank = Some p ->
  bank_readable h p ->
  0 < adr < 65536 -> 65536 <= cnt ->
  2 * adr <= Z.of_nat (length out) ->
  clemens_out_bin_data clem h out cnt bank adr
  = Some (firstn (Z.to_nat adr) out
            ++ slice (heap_get h (ptr_region p)) (ptr_off p) adr
            ++ skipn (Z.to_nat (2 * adr)) out).
Proof.
  unfold dump_bank, clemens_out_bin_data, bank_readable.
  intros Hp Hr Ha Hc Hout. rewrite Hp.
  replace (if 65536 <? cnt then 65536 else cnt) with 65536 by zcases.
  assert (E0 : u32 (adr + 65536) = adr + 65536)
    by (unfold u32; apply Z.mod_small; lia).
  rewrite E0. replace (65536 <? adr + 65536) with true by lia.
  replace (adr + 65536 - 65536) with adr by lia.
  assert (E1 : u32 adr = adr) by (unfold u32; apply Z.mod_small; lia).
  rewrite E1, Z.sub_0_r, E1, land_65535.
  replace ((adr + 65536) mod 65536) with adr
    by (Z.div_mod_to_equations; lia).
  rewrite Z.sub_diag. change (u32 0) with 0.
  cbn [optr_add memcpy_out ptr_add ptr_region ptr_off].
  rewrite Z.add_0_r.
  assert (B1 : in_bounds (heap_get h (ptr_region p)) (ptr_off p) adr = true)
    by (unfold in_bounds in *; lia).
  assert (B2 : in_bounds out adr adr = true) by (unfold in_bounds; lia).
  rewrite B1, B2. cbn [andb].
  set (out1 := splice out adr _).
  assert (L1 : length out1 = length out).
  { subst out1. unfold splice.
    rewrite !length_app, firstn_length_le, length_skipn, (length_slice _ _ _ B1)
      by lia. lia. }
  assert (B3 : in_bounds (heap_get h (ptr_region p)) (ptr_off p + adr) 0 = true)
    by (unfold in_bounds in *; lia).
  assert (B4 : in_bounds out1 0 0 = true) by (unfold in_bounds; lia).
  rewrite B3, B4. cbn [andb]. f_equal.
  unfold splice at 1. rewrite (length_slice _ _ _ B3).
  unfold slice at 1. cbn [Z.to_nat firstn app Nat.add skipn].
  subst out1. unfold splice. rewrite (length_slice _ _ _ B1).
  do 3 f_equal. lia.
Qed.

Lemma clemens_out_bin_data_full_bank_witness :
  clemens_out_bin_data dump_machine dump_heap [9; 9; 9; 9; 9] 65536 0 2
  = Some (firstn (Z.to_nat 2) [9; 9; 9; 9; 9]
            ++ slice (heap_get dump_heap RegionFpiRAM) 0 2
            ++ skipn (Z.to_nat (2 * 2)) [9; 9; 9; 9; 9]).
Proof.
  apply (clemens_out_bin_data_full_bank dump_machine dump_heap [9; 9; 9; 9; 9]
           65536 0 2 (mkPtr RegionFpiRAM 0)).
  - reflexivity.
  - exact dump_heap_readable.
  - lia.
  - lia.
  - cbn. lia.
Defined.

(** The call of the witness: [out] keeps its first two bytes, then holds
    the first two bytes of the bank. *)
Example clemens_out_bin_data_full_bank_run :
  clemens_out_bin_data dump_machine dump_heap [9; 9; 9; 9; 9] 65536 0 2
  = Some [9; 9; 0; 1; 9].
Proof. vm_compute. reflexivity. Qed.

(* --------------------------------------------------------------------- *)
(** ** Initialisation: the bank tables and the host buffers *)
(* --------------------------------------------------------------------- *)

Lemma length_upd_nth {T : Type} (i : nat) (v : T) (l : list T) :
  length (upd_nth i v l) = length l.
Proof.
  revert i. induction l as [|x t IH]; intros [|i]; cbn [upd_nth length];
    try reflexivity. f_equal. apply IH.
Qed.

Lemma nth_upd_nth {T : Type} (i j : nat) (v d : T) (l : list T) :
  nth j (upd_nth i v l) d
  = if (j =? i)%nat && (i <? length l)%nat then v else nth j l d.
Proof.
  revert i j. induction l as [|x t IH]; intros i j.
  - cbn [upd_nth length]. destruct i, j; cbn; try reflexivity;
      rewrite ?andb_false_r; reflexivity.
  - destruct i as [|i], j as [|j]; cbn [upd_nth nth length]; try reflexivity.
    rewrite IH. reflexivity.
Qed.

(** Entry [j] of a bank table. *)
Definition zthp (l : list (option Ptr)) (j : Z) : option Ptr :=
  nth (Z.to_nat j) l None.

Definition zthb (l : list bool) (j : Z) : bool := nth (Z.to_nat j) l false.

(** The loop of [clemens_simple_init] that maps and clears the RAM banks. *)
Definition map_ram_bank (fpiRAM : option Ptr) (i : Z)
    (s : ClemensMemory * Heap) : option (ClemensMemory * Heap) :=
  let '(x, h) := s in
  let p := optr_add fpiRAM (i * CLEM_IIGS_BANK_SIZE) in
  let x := set_fpi_bank i true p x in
  match memset h p 0 CLEM_IIGS_BANK_SIZE with
  | None => None
  | Some h' => Some (x, h')
  end.

Lemma clemens_simple_init_unfold (machine : ClemensMachine) (h : Heap)
    (sf cs : Z) (fpiRAM : option Ptr) (cnt : Z) :
  clemens_simple_init machine h sf cs fpiRAM cnt
  = let n := if 256 <? cnt then 256 else cnt in
    match for_loop (Z.to_nat n) 0 (map_ram_bank fpiRAM) (mem machine, h) with
    | None => None
    | Some (x, h) =>
        match memset h empty_ram_ptr 0 CLEM_IIGS_BANK_SIZE with
        | None => None
        | Some h =>
            match
              for_loop (Z.to_nat (255 - n)) n
                (fun i x => Some (set_fpi_bank i false empty_ram_ptr x)) x
            with
            | None => None
            | Some x =>
                Some (set_mem (clear_bank_page_map x)
                        (set_irqbIn true
                           (set_tspec (mkTspec cs cs sf 0)
                              (set_resbIn true machine))), h)
            end
        end
    end.
Proof. reflexivity. Qed.

(** The bank tables after the first loop. *)
Lemma map_ram_banks_tables (fpiRAM : option Ptr) (n : nat) :
  forall (i0 : Z) (x x' : ClemensMemory) (h h' : Heap),
    0 <= i0 ->
    for_loop n i0 (map_ram_bank fpiRAM) (x, h) = Some (x', h') ->
    length (fpi_bank_map x') = length (fpi_bank_map x) /\
    length (fpi_bank_used x') = length (fpi_bank_used x) /\
    mega2_bank_map x' = mega2_bank_map x /\
    bank_page_map x' = bank_page_map x /\
    forall j, 0 <= j ->
      zthp (fpi_bank_map x') j
      = (if (i0 <=? j) && (j <? i0 + Z.of_nat n)
            && (j <? Z.of_nat (length (fpi_bank_map x)))
         then optr_add fpiRAM (j * CLEM_IIGS_BANK_SIZE)
         else zthp (fpi_bank_map x) j) /\
      zthb (fpi_bank_used x') j
      = (if (i0 <=? j) && (j <? i0 + Z.of_nat n)
            && (j <? Z.of_nat (length (fpi_bank_used x)))
         then true else zthb (fpi_bank_used x) j).
Proof.
  induction n as [|n IH]; intros i0 x x' h h' Hi H.
  - cbn [for_loop] in H. injection H as <- <-.
    repeat (split; [reflexivity|]). intros j Hj.
    replace (i0 + Z.of_nat 0) with i0 by lia. split; zcases.
  - cbn [for_loop] in H. unfold map_ram_bank at 1 in H.
    destruct (memset h _ 0 CLEM_IIGS_BANK_SIZE) as [h1|]; [|discriminate].
    destruct (IH (i0 + 1) _ _ _ _ ltac:(lia) H) as (L1 & L2 & M & B & N).
    cbn [set_fpi_bank fpi_bank_map fpi_bank_used mega2_bank_map bank_page_map] in *.
    rewrite !length_upd_nth in *.
    split; [congruence|]. split; [congruence|].
    split; [congruence|]. split; [congruence|].
    intros j Hj. destruct (N j Hj) as [N1 N2]. rewrite N1, N2. clear N N1 N2.
    unfold zthp, zthb. rewrite !nth_upd_nth.
    split.
    + destruct (Nat.eqb_spec (Z.to_nat j) (Z.to_nat i0));
        destruct (Nat.ltb_spec (Z.to_nat i0) (length (fpi_bank_map x)));
        cbn [andb]; zcases; try (do 2 f_equal; lia).
    + destruct (Nat.eqb_spec (Z.to_nat j) (Z.to_nat i0));
        destruct (Nat.ltb_spec (Z.to_nat i0) (length (fpi_bank_used x)));
        cbn [andb]; zcases.
Qed.

(** The loop of [clemens_simple_init] that points the other banks at the
    empty page. *)
Lemma map_empty_banks_tables (n : nat) :
  forall (i0 : Z) (x x' : ClemensMemory),
    0 <= i0 ->
    for_loop n i0 (fun i x => Some (set_fpi_bank i false empty_ram_ptr x)) x
      = Some x' ->
    length (fpi_bank_map x') = length (fpi_bank_map x) /\
    length (fpi_bank_used x') = length (fpi_bank_used x) /\
    mega2_bank_map x' = mega2_bank_map x /\
    bank_page_map x' = bank_page_map x /\
    forall j, 0 <= j ->
      zthp (fpi_bank_map x') j
      = (if (i0 <=? j) && (j <? i0 + Z.of_nat n)
            && (j <? Z.of_nat (length (fpi_bank_map x)))
         then empty_ram_ptr else zthp (fpi_bank_map x) j) /\
      zthb (fpi_bank_used x') j
      = (if (i0 <=? j) && (j <? i0 + Z.of_nat n)
            && (j <? Z.of_nat (length (fpi_bank_used x)))
         then false else zthb (fpi_bank_used x) j).
Proof.
  induction n as [|n IH]; intros i0 x x' Hi H.
  - cbn [for_loop] in H. injection H as <-.
    repeat (split; [reflexivity|]). intros j Hj.
    replace (i0 + Z.of_nat 0) with i0 by lia. split; zcases.
  - cbn [for_loop] in H.
    destruct (IH (i0 + 1) _ _ ltac:(lia) H) as (L1 & L2 & M & B & N).
    cbn [set_fpi_bank fpi_bank_map fpi_bank_used mega2_bank_map bank_page_map] in *.
    rewrite !length_upd_nth in *.
    split; [congruence|]. split; [congruence|].
    split; [congruence|]. split; [congruence|].
    intros j Hj. destruct (N j Hj) as [N1 N2]. rewrite N1, N2. clear N N1 N2.
    unfold zthp, zthb. rewrite !nth_upd_nth.
    split.
    + destruct (Nat.eqb_spec (Z.to_nat j) (Z.to_nat i0));
        destruct (Nat.ltb_spec (Z.to_nat i0) (length (fpi_bank_map x)));
        cbn [andb]; zcases.
    + destruct (Nat.eqb_spec (Z.to_nat j) (Z.to_nat i0));
        destruct (Nat.ltb_spec (Z.to_nat i0) (length (fpi_bank_used x)));
        cbn [andb]; zcases.
Qed.

Lemma map_empty_banks_total (n : nat) (i0 : Z) (x : ClemensMemory) :
  exists x',
    for_loop n i0 (fun i x => Some (set_fpi_bank i false empty_ram_ptr x)) x
    = Some x'.
Proof.
  revert i0 x. induction n as [|n IH]; intros i0 x; cbn [for_loop].
  - eexists. reflexivity.
  - apply IH.
Qed.

(* The two bank tables after [clemens_simple_init]. *)
Lemma simple_init_bank_table
    (machine m1 : ClemensMachine) (h h1 : Heap) (sf cs : Z)
    (fpiRAM : option Ptr) (cnt : Z) :
  clemens_simple_init machine h sf cs fpiRAM cnt = Some (m1, h1) ->
  0 <= cnt ->
  length (fpi_bank_map (mem machine)) = 256%nat ->
  length (fpi_bank_used (mem machine)) = 256%nat ->
  forall j, 0 <= j < 256 ->
    zthp (fpi_bank_map (mem m1)) j
    = (if j <? Z.min cnt 256 then optr_add fpiRAM (j * CLEM_IIGS_BANK_SIZE)
       else if j <? 255 then empty_ram_ptr
       else zthp (fpi_bank_map (mem machine)) j) /\
    zthb (fpi_bank_used (mem m1)) j
    = (if j <? Z.min cnt 256 then true
       else if j <? 255 then false
       else zthb (fpi_bank_used (mem machine)) j).
Proof.
  rewrite clemens_simple_init_unfold. cbv zeta.
  intros H Hc Lm Lu j Hj.
  replace (if 256 <? cnt then 256 else cnt) with (Z.min cnt 256) in H by zcases.
  set (n := Z.min cnt 256) in *.
  destruct (for_loop (Z.to_nat n) 0 _ _) as [[x1 ha]|] eqn:E1; [|discriminate].
  destruct (memset ha _ _ _) as [hb|]; [|discriminate].
  destruct (for_loop (Z.to_nat (255 - n)) n _ x1) as [x2|] eqn:E2; [|discriminate].
  injection H as <- <-.
  destruct (map_ram_banks_tables _ _ 0 _ _ _ _ ltac:(lia) E1)
    as (L1 & L2 & _ & _ & N1).
  destruct (map_empty_banks_tables _ n _ _ ltac:(lia) E2)
    as (_ & _ & _ & _ & N2).
  cbn [mem set_mem clear_bank_page_map fpi_bank_map fpi_bank_used].
  destruct (N2 j ltac:(lia)) as [-> ->].
  destruct (N1 j ltac:(lia)) as [-> ->].
  rewrite L1, L2, Lm, Lu. split; zcases.
Qed.

(** X6: the bank table that [clemens_simple_init] leaves: the first
    [min(count, 256)] banks point into the host's RAM, one bank apart, and
    are marked used; the banks up to 0xFE point at the empty page and are
    marked unused. The second loop stops before 0xFF: with fewer than 256
    RAM banks the last entry of the table and its mark are left as they
    were. *)
Theorem clemens_simple_init_bank_table
    (machine m1 : ClemensMachine) (h h1 : Heap) (sf cs : Z)
    (fpiRAM : option Ptr) (cnt : Z) :
  clemens_simple_init machine h sf cs fpiRAM cnt = Some (m1, h1) ->
  0 <= cnt ->
  length (fpi_bank_map (mem machine)) = 256%nat ->
  length (fpi_bank_used (mem machine)) = 256%nat ->
  forall j, 0 <= j < 256 ->
    zthp (fpi_bank_map (mem m1)) j
    = (if j <? Z.min cnt 256 then optr_add fpiRAM (j * CLEM_IIGS_BANK_SIZE)
       else if j <? 255 then empty_ram_ptr
       else zthp (fpi_bank_map (mem machine)) j) /\
    zthb (fpi_bank_used (mem m1)) j
    = (if j <? Z.min cnt 256 then true
       else if j <? 255 then false
       else zthb (fpi_bank_used (mem machine)) j).
Proof. apply simple_init_bank_table. Qed.


Lemma clemens_simple_init_bank_table_witness :
  zthp (fpi_bank_map (mem init_m1)) 255
  = (if 255 <? Z.min 4 256 then optr_add p_fpi (255 * CLEM_IIGS_BANK_SIZE)
     else if 255 <? 255 then empty_ram_ptr
     else zthp (fpi_bank_map (mem blank_machine)) 255) /\
  zthb (fpi_bank_used (mem init_m1)) 255
  = (if 255 <? Z.min 4 256 then true
     else if 255 <? 255 then false
     else zthb (fpi_bank_used (mem blank_machine)) 255).
Proof.
  apply (clemens_simple_init_bank_table blank_machine init_m1 host_heap init_h1
           2800 1023 p_fpi 4 simple_init_example_runs).
  - lia.
  - reflexivity.
  - reflexivity.
  - lia.
Defined.

(** After [clemens_simple_init] on a zeroed machine the last bank is still
    unmapped. *)
Example clemens_simple_init_last_bank :
  zthp (fpi_bank_map (mem init_m1)) 254 = empty_ram_ptr /\
  zthp (fpi_bank_map (mem init_m1)) 255 = None.
Proof. split; vm_compute; reflexivity. Qed.

(** *** The host buffers *)

Lemma heap_get_set (h : Heap) (r r' : Region) (l : list Z) :
  heap_get (heap_set h r l) r' = if Region_eqb r' r then l else heap_get h r'.
Proof. destruct r, r'; reflexivity. Qed.

Lemma Region_eqb_eq (a b : Region) : Region_eqb a b = true <-> a = b.
Proof. destruct a, b; cbn; split; congruence. Qed.

Lemma nth_repeat_lt (v d : Z) (n i : nat) :
  (i < n)%nat -> nth i (repeat v n) d = v.
Proof.
  revert i. induction n as [|n IH]; intros i H; [lia|].
  destruct i; cbn [repeat nth]; [reflexivity|]. apply IH. lia.
Qed.

Lemma zth_splice_repeat (l : list Z) (off v n j : Z) :
  in_bounds l off n = true -> 0 <= j ->
  zth (splice l off (repeat v (Z.to_nat n))) j
  = if (off <=? j) && (j <? off + n) then v else zth l j.
Proof.
  unfold in_bounds, splice, zth. intros H Hj. rewrite repeat_length.
  destruct (Z.ltb_spec j off).
  - replace (off <=? j) with false by lia. cbn [andb].
    rewrite app_nth1 by (rewrite firstn_length_le by lia; lia).
    rewrite nth_firstn.
    destruct (Nat.ltb_spec (Z.to_nat j) (Z.to_nat off)); [reflexivity | lia].
  - replace (off <=? j) with true by lia. cbn [andb].
    rewrite app_nth2; rewrite firstn_length_le by lia; [|lia].
    destruct (Z.ltb_spec j (off + n)).
    + rewrite app_nth1 by (rewrite repeat_length; lia).
      apply nth_repeat_lt. lia.
    + rewrite app_nth2; rewrite repeat_length; [|lia].
      rewrite nth_skipn. f_equal. lia.
Qed.

Lemma length_splice_repeat (l : list Z) (off v n : Z) :
  in_bounds l off n = true ->
  length (splice l off (repeat v (Z.to_nat n))) = length l.
Proof.
  unfold in_bounds, splice. intros H.
  rewrite !length_app, firstn_length_le, length_skipn, repeat_length by lia.
  lia.
Qed.

Lemma in_bounds_true (l : list Z) (off n : Z) :
  in_bounds l off n = true
  <-> 0 <= off /\ 0 <= n /\ off + n <= Z.of_nat (length l).
Proof.
  unfold in_bounds. rewrite !andb_true_iff, !Z.leb_le. tauto.
Qed.

Lemma in_bounds_false (l : list Z) (off n : Z) :
  in_bounds l off n = false
  <-> ~ (0 <= off /\ 0 <= n /\ off + n <= Z.of_nat (length l)).
Proof.
  rewrite <- in_bounds_true. destruct (in_bounds l off n); split;
    congruence || (intros H; exfalso; apply H; reflexivity) || auto.
Qed.

(** [memset], byte by byte. *)
Lemma memset_spec (h h' : Heap) (p : Ptr) (v n : Z) :
  memset h (Some p) v n = Some h' ->
  in_bounds (heap_get h (ptr_region p)) (ptr_off p) n = true /\
  forall r,
    length (heap_get h' r) = length (heap_get h r) /\
    forall j, 0 <= j ->
      zth (heap_get h' r) j
      = if Region_eqb r (ptr_region p) && (ptr_off p <=? j) && (j <? ptr_off p + n)
        then u8 v else zth (heap_get h r) j.
Proof.
  unfold memset. destruct (in_bounds _ _ _) eqn:B; [|discriminate].
  intros [= <-]. split; [reflexivity|]. intros r. rewrite heap_get_set.
  destruct (Region_eqb r (ptr_region p)) eqn:E.
  - apply Region_eqb_eq in E. subst r. split.
    + apply length_splice_repeat, B.
    + intros j Hj. rewrite zth_splice_repeat by assumption.
      cbn [andb]. reflexivity.
  - split; [reflexivity|]. intros j Hj. reflexivity.
Qed.

Lemma memset_total (h : Heap) (p : Ptr) (v n : Z) :
  in_bounds (heap_get h (ptr_region p)) (ptr_off p) n = true ->
  exists h', memset h (Some p) v n = Some h'.
Proof. intros B. unfold memset. rewrite B. eexists. reflexivity. Qed.

(** The host buffers after the first loop of [clemens_simple_init]: it
    runs through exactly when the banks lie inside the buffer, and then
    has cleared them and nothing else. *)
Lemma map_ram_banks_heap (p : Ptr) (n : nat) :
  forall (i0 : Z) (x : ClemensMemory) (h : Heap),
    0 <= i0 ->
    (in_bounds (heap_get h (ptr_region p))
       (ptr_off p + i0 * 65536) (Z.of_nat n * 65536) = true ->
     exists x' h',
       for_loop n i0 (map_ram_bank (Some p)) (x, h) = Some (x', h') /\
       forall r,
         length (heap_get h' r) = length (heap_get h r) /\
         forall j, 0 <= j ->
           zth (heap_get h' r) j
           = if Region_eqb r (ptr_region p)
                && (ptr_off p + i0 * 65536 <=? j)
                && (j <? ptr_off p + (i0 + Z.of_nat n) * 65536)
             then 0 else zth (heap_get h r) j) /\
    (in_bounds (heap_get h (ptr_region p))
       (ptr_off p + i0 * 65536) (Z.of_nat n * 65536) = false ->
     (0 < n)%nat ->
     for_loop n i0 (map_ram_bank (Some p)) (x, h) = None).
Proof.
  induction n as [|n IH]; intros i0 x h Hi; split.
  - intros _. exists x, h. cbn [for_loop]. split; [reflexivity|].
    intros r. split; [reflexivity|]. intros j Hj. zcases.
    all: rewrite andb_false_r; reflexivity.
  - intros _ H. lia.
  - intros B. apply in_bounds_true in B. cbn [for_loop]. unfold map_ram_bank at 1.
    cbn [optr_add]. unfold ptr_add, CLEM_IIGS_BANK_SIZE.
    destruct (memset_total h (mkPtr (ptr_region p) (ptr_off p + i0 * 65536)) 0 65536)
      as (h1 & E1); [cbn [ptr_region ptr_off]; apply in_bounds_true; lia|].
    rewrite E1. destruct (memset_spec _ _ _ _ _ E1) as (_ & S1).
    cbn [ptr_region ptr_off] in S1.
    destruct (IH (i0 + 1) (set_fpi_bank i0 true
                (Some (mkPtr (ptr_region p) (ptr_off p + i0 * 65536))) x) h1
                ltac:(lia)) as [IH1 _].
    destruct IH1 as (x' & h' & E & S2).
    { destruct (S1 (ptr_region p)) as [L _]. apply in_bounds_true.
      rewrite L. lia. }
    exists x', h'. split; [exact E|]. intros r.
    destruct (S1 r) as [L1 N1]. destruct (S2 r) as [L2 N2].
    split; [congruence|]. intros j Hj. rewrite N2, N1 by assumption.
    change (u8 0) with 0.
    destruct (Region_eqb r (ptr_region p)); cbn [andb]; [|reflexivity].
    zcases.
  - intros B _. apply in_bounds_false in B.
    cbn [for_loop]. unfold map_ram_bank at 1.
    cbn [optr_add]. unfold ptr_add, CLEM_IIGS_BANK_SIZE.
    destruct (memset h _ 0 65536) as [h1|] eqn:E1; [|reflexivity].
    destruct (memset_spec _ _ _ _ _ E1) as (B1 & S1).
    cbn [ptr_region ptr_off] in B1, S1. apply in_bounds_true in B1.
    destruct n as [|n].
    { exfalso. apply B. lia. }
    destruct (IH (i0 + 1) (set_fpi_bank i0 true
                (Some (mkPtr (ptr_region p) (ptr_off p + i0 * 65536))) x) h1
                ltac:(lia)) as [_ IH2].
    apply IH2; [|lia].
    destruct (S1 (ptr_region p)) as [L _]. apply in_bounds_false.
    rewrite L. intros C. apply B. lia.
Qed.

(** X7: [clemens_simple_init] dereferences the RAM pointer before any
    argument is checked: with a bank count other than zero the call faults
    exactly when [fpiRAM] is NULL or its buffer is shorter than
    [min(count, 256)] banks, and then [clemens_init], which begins with
    this call, faults as well instead of returning -1 or -2. *)
Theorem clemens_simple_init_faults
    (machine : ClemensMachine) (h : Heap) (sf cs : Z) (fpiRAM : option Ptr)
    (cnt : Z) :
  0 <= cnt ->
  65536 <= Z.of_nat (length (s_empty_ram h)) ->
  let too_small :=
    0 < cnt /\
    match fpiRAM with
    | None => True
    | Some p =>
        in_bounds (heap_get h (ptr_region p)) (ptr_off p)
          (Z.min cnt 256 * 65536) = false
    end in
  (clemens_simple_init machine h sf cs fpiRAM cnt = None <-> too_small) /\
  (too_small ->
   forall (EMPTY_BANK : Z) (rom e0bank e1bank : option Ptr),
     clemens_init EMPTY_BANK machine h sf cs rom e0bank e1bank fpiRAM cnt = None).
Proof.
  intros Hc He too_small.
  assert (Hiff : clemens_simple_init machine h sf cs fpiRAM cnt = None
                 <-> too_small).
  { subst too_small. rewrite clemens_simple_init_unfold. cbv zeta.
    replace (if 256 <? cnt then 256 else cnt) with (Z.min cnt 256) by zcases.
    set (n := Z.min cnt 256) in *.
    assert (Hn : 0 <= n <= 256) by lia.
    destruct fpiRAM as [p|].
    - pose proof (map_ram_banks_heap p (Z.to_nat n) 0 (mem machine) h
                    ltac:(lia)) as [Hok Hbad].
      rewrite Z2Nat.id, Z.mul_0_l, Z.add_0_r in Hok, Hbad by lia.
      destruct (in_bounds (heap_get h (ptr_region p)) (ptr_off p) (n * 65536))
        eqn:B.
      + destruct (Hok eq_refl) as (x' & h' & E & S1). rewrite E.
        destruct (memset_total h' (mkPtr RegionEmptyRam 0) 0 65536) as (h2 & E2).
        { apply in_bounds_true. destruct (S1 RegionEmptyRam) as [L _].
          cbn [ptr_region ptr_off heap_get] in *. rewrite L. lia. }
        change (memset ?hh empty_ram_ptr 0 CLEM_IIGS_BANK_SIZE)
          with (memset hh (Some (mkPtr RegionEmptyRam 0)) 0 65536).
        rewrite E2.
        destruct (map_empty_banks_total (Z.to_nat (255 - n)) n x') as (x2 & E3).
        rewrite E3. split; [discriminate|]. intros [_ F]. discriminate F.
      + destruct (Z.eq_dec cnt 0) as [->|Hnz].
        * subst n. cbn [Z.min Z.compare Z.to_nat for_loop].
          destruct (memset_total h (mkPtr RegionEmptyRam 0) 0 65536) as (h2 & E2).
          { apply in_bounds_true. cbn [ptr_region ptr_off heap_get]. lia. }
          change (memset ?hh empty_ram_ptr 0 CLEM_IIGS_BANK_SIZE)
          with (memset hh (Some (mkPtr RegionEmptyRam 0)) 0 65536).
        rewrite E2.
          destruct (map_empty_banks_total (Z.to_nat (255 - 0)) 0 (mem machine))
            as (x2 & E3).
          rewrite E3. split; [discriminate|]. intros [F _]. lia.
        * rewrite (Hbad eq_refl) by lia. split; [|reflexivity].
          intros _. split; [lia | reflexivity].
    - destruct (Z.eq_dec cnt 0) as [->|Hnz].
      + subst n. cbn [Z.min Z.compare Z.to_nat for_loop].
        destruct (memset_total h (mkPtr RegionEmptyRam 0) 0 65536) as (h2 & E2).
        { apply in_bounds_true. cbn [ptr_region ptr_off heap_get]. lia. }
        change (memset ?hh empty_ram_ptr 0 CLEM_IIGS_BANK_SIZE)
          with (memset hh (Some (mkPtr RegionEmptyRam 0)) 0 65536).
        rewrite E2.
        destruct (map_empty_banks_total (Z.to_nat (255 - 0)) 0 (mem machine))
          as (x2 & E3).
        rewrite E3. split; [discriminate|]. intros [F _]. lia.
      + destruct (Z.to_nat n) as [|k] eqn:K; [lia|].
        cbn [for_loop map_ram_bank optr_add memset].
        split; [|reflexivity]. intros _. split; [lia | exact I]. }
  split; [exact Hiff|].
  intros T EB rom e0 e1. unfold clemens_init.
  rewrite (proj2 Hiff T). reflexivity.
Qed.

Lemma clemens_simple_init_faults_witness :
  (clemens_simple_init blank_machine host_heap 2800 1023 None 4 = None
   <-> 0 < 4 /\ True) /\
  (0 < 4 /\ True ->
   forall (EMPTY_BANK : Z) (rom e0bank e1bank : option Ptr),
     clemens_init EMPTY_BANK blank_machine host_heap 2800 1023 rom e0bank e1bank
       None 4 = None).
Proof.
  apply (clemens_simple_init_faults blank_machine host_heap 2800 1023 None 4).
  - lia.
  - vm_compute. discriminate.
Defined.

(* The host buffers after [clemens_simple_init]. *)
Lemma simple_init_heap
    (machine m1 : ClemensMachine) (h h1 : Heap) (sf cs : Z) (p : Ptr)
    (cnt : Z) :
  clemens_simple_init machine h sf cs (Some p) cnt = Some (m1, h1) ->
  0 <= cnt ->
  forall r,
    length (heap_get h1 r) = length (heap_get h r) /\
    forall j, 0 <= j ->
      zth (heap_get h1 r) j
      = if (Region_eqb r (ptr_region p) && (ptr_off p <=? j)
            && (j <? ptr_off p + Z.min cnt 256 * 65536))
           || (Region_eqb r RegionEmptyRam && (j <? 65536))
        then 0 else zth (heap_get h r) j.
Proof.
  rewrite clemens_simple_init_unfold. cbv zeta. intros H Hc.
  replace (if 256 <? cnt then 256 else cnt) with (Z.min cnt 256) in H by zcases.
  set (n := Z.min cnt 256) in *.
  assert (Hn : 0 <= n <= 256) by lia.
  destruct (Z.eq_dec n 0) as [Hz|Hnz].
  { rewrite Hz in *. cbn [Z.to_nat for_loop] in H.
    change (memset h empty_ram_ptr 0 CLEM_IIGS_BANK_SIZE)
      with (memset h (Some (mkPtr RegionEmptyRam 0)) 0 65536) in H.
    destruct (memset h _ 0 65536) as [h2|] eqn:E2; [|discriminate].
    destruct (for_loop _ 0 _ (mem machine)) as [x2|]; [|discriminate].
    injection H as _ <-.
    destruct (memset_spec _ _ _ _ _ E2) as (_ & S2).
    cbn [ptr_region ptr_off] in S2.
    intros r. destruct (S2 r) as [L2 N2].
    split; [congruence|]. intros j Hj. rewrite N2 by assumption.
    change (u8 0) with 0.
    destruct (Region_eqb r RegionEmptyRam), (Region_eqb r (ptr_region p));
      cbn [andb orb]; zcases.
    all: rewrite ?orb_true_r, ?orb_false_r; reflexivity. }
  pose proof (map_ram_banks_heap p (Z.to_nat n) 0 (mem machine) h ltac:(lia))
    as [Hok Hbad].
  rewrite Z2Nat.id, Z.mul_0_l, Z.add_0_r in Hok, Hbad by lia.
  rewrite Z.add_0_l in Hok.
  destruct (in_bounds (heap_get h (ptr_region p)) (ptr_off p) (n * 65536)) eqn:B.
  - destruct (Hok eq_refl) as (x' & h' & E & S1). rewrite E in H.
    change (memset h' empty_ram_ptr 0 CLEM_IIGS_BANK_SIZE)
      with (memset h' (Some (mkPtr RegionEmptyRam 0)) 0 65536) in H.
    destruct (memset h' _ 0 65536) as [h2|] eqn:E2; [|discriminate].
    destruct (for_loop _ n _ x') as [x2|]; [|discriminate].
    injection H as _ <-.
    destruct (memset_spec _ _ _ _ _ E2) as (_ & S2).
    cbn [ptr_region ptr_off] in S2.
    intros r. destruct (S1 r) as [L1 N1]. destruct (S2 r) as [L2 N2].
    split; [congruence|]. intros j Hj. rewrite N2, N1 by assumption.
    change (u8 0) with 0.
    destruct (Region_eqb r RegionEmptyRam), (Region_eqb r (ptr_region p));
      cbn [andb orb]; zcases.
    all: rewrite ?orb_true_r, ?orb_false_r; reflexivity.
  - rewrite (Hbad eq_refl) in H by lia. discriminate.
Qed.

(** X8: what [clemens_simple_init] does to the host's buffers: it clears
    the [min(count, 256)] banks behind [fpiRAM] and the empty page, and
    changes no other byte and no length. *)
Theorem clemens_simple_init_clears
    (machine m1 : ClemensMachine) (h h1 : Heap) (sf cs : Z) (p : Ptr)
    (cnt : Z) :
  clemens_simple_init machine h sf cs (Some p) cnt = Some (m1, h1) ->
  0 <= cnt ->
  forall r,
    length (heap_get h1 r) = length (heap_get h r) /\
    forall j, 0 <= j ->
      zth (heap_get h1 r) j
      = if (Region_eqb r (ptr_region p) && (ptr_off p <=? j)
            && (j <? ptr_off p + Z.min cnt 256 * 65536))
           || (Region_eqb r RegionEmptyRam && (j <? 65536))
        then 0 else zth (heap_get h r) j.
Proof. apply simple_init_heap. Qed.


Lemma clemens_simple_init_clears_witness :
  length (heap_get init_h1 RegionFpiRAM) = length (heap_get host_heap RegionFpiRAM) /\
  forall j, 0 <= j ->
    zth (heap_get init_h1 RegionFpiRAM) j
    = if (Region_eqb RegionFpiRAM RegionFpiRAM && (0 <=? j)
          && (j <? 0 + Z.min 4 256 * 65536))
         || (Region_eqb RegionFpiRAM RegionEmptyRam && (j <? 65536))
      then 0 else zth (heap_get host_heap RegionFpiRAM) j.
Proof.
  apply (clemens_simple_init_clears blank_machine init_m1 host_heap init_h1
           2800 1023 (mkPtr RegionFpiRAM 0) 4 simple_init_example_runs).
  lia.
Defined.

Lemma upd_nth_keeps_mapped (i j : nat) (v : Ptr) (l : list (option Ptr)) :
  nth j l None <> None -> nth j (upd_nth i (Some v) l) None <> None.
Proof.
  intros H. rewrite nth_upd_nth.
  destruct ((j =? i)%nat && (i <? length l)%nat); [discriminate | exact H].
Qed.

Lemma clemens_is_initialized_mapped (m : ClemensMachine) :
  nth 0 (fpi_bank_map (mem m)) None <> None ->
  nth 1 (fpi_bank_map (mem m)) None <> None ->
  clemens_is_initialized m
  = negb ((clocks_step (tspec m) =? 0)
          || (clocks_step_mega2 (tspec m) <? clocks_step (tspec m))).
Proof.
  intros H0 H1. unfold clemens_is_initialized, clemens_is_initialized_simple.
  destruct (nth 0 (fpi_bank_map (mem m)) None); [|congruence].
  destruct (nth 1 (fpi_bank_map (mem m)) None); [|congruence].
  cbn [negb]. destruct (_ || _); reflexivity.
Qed.

(** X9: whatever [clemens_init] returns (0, -1 or -2), with at least two
    RAM banks the machine afterwards counts as initialised exactly when the
    clock step is not zero and not above the Mega II step. *)
Theorem clemens_init_is_initialized
    (EMPTY_BANK : Z) (machine m2 : ClemensMachine) (h h2 : Heap) (sf cs : Z)
    (rom e0bank e1bank fpiRAM : option Ptr) (cnt code : Z) :
  clemens_init EMPTY_BANK machine h sf cs rom e0bank e1bank fpiRAM cnt
    = Some (code, m2, h2) ->
  length (fpi_bank_map (mem machine)) = 256%nat ->
  length (fpi_bank_used (mem machine)) = 256%nat ->
  2 <= cnt -> fpiRAM <> None ->
  clemens_is_initialized m2 = negb ((cs =? 0) || (sf <? cs)).
Proof.
  intros H Lm Lu Hc Hf. unfold clemens_init in H.
  destruct (clemens_simple_init machine h sf cs fpiRAM cnt) as [[m1 h1]|] eqn:Hs;
    [|discriminate].
  pose proof (simple_init_bank_table _ _ _ _ _ _ _ _ Hs ltac:(lia) Lm Lu)
    as T.
  destruct (clemens_simple_init_pins _ _ _ _ _ _ _ _ Hs) as (_ & _ & Ht).
  destruct (T 0 ltac:(lia)) as [T0 _]. destruct (T 1 ltac:(lia)) as [T1 _].
  replace (0 <? Z.min cnt 256) with true in T0 by lia.
  replace (1 <? Z.min cnt 256) with true in T1 by lia.
  destruct fpiRAM as [pf|]; [|congruence]. cbn [optr_add] in T0, T1.
  unfold zthp in T0, T1. cbn [Z.to_nat] in T0, T1.
  change (Pos.to_nat 1) with 1%nat in T1.
  assert (Hm1 : clemens_is_initialized m1 = negb ((cs =? 0) || (sf <? cs))).
  { rewrite clemens_is_initialized_mapped by congruence. rewrite Ht.
    reflexivity. }
  destruct rom as [pr|]; [|injection H as _ <- _; exact Hm1].
  destruct ((cnt <? 4) || _ || _ || _); [injection H as _ <- _; exact Hm1|].
  cbn [for_loop] in H.
  destruct (memset h1 e0bank 0 CLEM_IIGS_BANK_SIZE) as [ha|]; [|discriminate].
  destruct (memset ha e1bank 0 CLEM_IIGS_BANK_SIZE) as [hb|]; [|discriminate].
  injection H as _ <- _.
  rewrite clemens_is_initialized_mapped.
  - cbn [tspec set_mem]. rewrite Ht. reflexivity.
  - cbn [mem set_mem set_mega2_bank_map set_fpi_bank_map set_fpi_bank
         fpi_bank_map optr_add empty_ram_ptr].
    repeat apply upd_nth_keeps_mapped. congruence.
  - cbn [mem set_mem set_mega2_bank_map set_fpi_bank_map set_fpi_bank
         fpi_bank_map optr_add empty_ram_ptr].
    repeat apply upd_nth_keeps_mapped. congruence.
Qed.

(** A complete call on the host buffers of [host_heap]. *)
Definition init_example : option (Z * ClemensMachine * Heap) :=
  clemens_init 129 blank_machine host_heap 2800 1023 p_rom p_e0 p_e1 p_fpi 4.

Definition init_m2 : ClemensMachine :=
  from_option blank_machine (option_map (fun r => snd (fst r)) init_example).

Definition init_h2 : Heap :=
  from_option host_heap (option_map snd init_example).

Lemma init_example_runs :
  clemens_init 129 blank_machine host_heap 2800 1023 p_rom p_e0 p_e1 p_fpi 4
    = Some (0, init_m2, init_h2).
Proof.
  unfold init_m2, init_h2, init_example.
  set (r := clemens_init 129 blank_machine host_heap 2800 1023 p_rom p_e0 p_e1
              p_fpi 4).
  assert (F : option_map (fun x => fst (fst x)) r = Some 0)
    by (vm_compute; reflexivity).
  clearbody r.
  destruct r as [[[c m] h]|]; [|discriminate F].
  cbn in F. injection F as ->. reflexivity.
Defined.

Lemma clemens_init_is_initialized_witness :
  clemens_is_initialized init_m2 = negb ((1023 =? 0) || (2800 <? 1023)).
Proof.
  apply (clemens_init_is_initialized 129 blank_machine init_m2 host_heap init_h2
           2800 1023 p_rom p_e0 p_e1 p_fpi 4 0 init_example_runs).
  - reflexivity.
  - reflexivity.
  - lia.
  - discriminate.
Defined.

Lemma simple_init_shape (machine m1 : ClemensMachine) (h h1 : Heap) (sf cs : Z)
    (fpiRAM : option Ptr) (cnt : Z) :
  clemens_simple_init machine h sf cs fpiRAM cnt = Some (m1, h1) ->
  0 <= cnt ->
  mega2_bank_map (mem m1) = mega2_bank_map (mem machine) /\
  length (fpi_bank_map (mem m1)) = length (fpi_bank_map (mem machine)) /\
  length (fpi_bank_used (mem m1)) = length (fpi_bank_used (mem machine)).
Proof.
  rewrite clemens_simple_init_unfold. cbv zeta. intros H Hc.
  replace (if 256 <? cnt then 256 else cnt) with (Z.min cnt 256) in H by zcases.
  set (n := Z.min cnt 256) in *.
  destruct (for_loop (Z.to_nat n) 0 _ _) as [[x1 ha]|] eqn:E1; [|discriminate].
  destruct (memset ha _ _ _) as [hb|]; [|discriminate].
  destruct (for_loop (Z.to_nat (255 - n)) n _ x1) as [x2|] eqn:E2; [|discriminate].
  injection H as <- <-.
  destruct (map_ram_banks_tables _ _ 0 _ _ _ _ ltac:(lia) E1)
    as (A1 & B1 & M1 & _).
  destruct (map_empty_banks_tables _ n _ _ ltac:(lia) E2)
    as (A2 & B2 & M2 & _).
  cbn [mem set_mem clear_bank_page_map mega2_bank_map fpi_bank_map fpi_bank_used].
  repeat split; congruence.
Qed.

(** Whether offset [j] of region [r] lies in the [n] bytes behind [p]. *)
Definition in_range (r : Region) (j : Z) (p : Ptr) (n : Z) : bool :=
  Region_eqb r (ptr_region p) && (ptr_off p <=? j) && (j <? ptr_off p + n).

(** X10: a call of [clemens_init] that returns 0 was given at least four
    banks; it leaves the two Mega II slots pointing at the host's E0 and E1
    banks, the banks 0xFC to 0xFF marked used and pointing into the ROM
    image one bank apart (but for the slot of the empty bank), and it has
    zeroed exactly the RAM banks, the empty page and the E0 and E1 banks:
    every other byte of the host, the ROM image included when no buffer
    overlaps it, is as before. *)
Theorem clemens_init_success
    (EMPTY_BANK : Z) (machine m2 : ClemensMachine) (h h2 : Heap) (sf cs : Z)
    (rom e0bank e1bank fpiRAM : Ptr) (cnt : Z) :
  clemens_init EMPTY_BANK machine h sf cs (Some rom) (Some e0bank)
    (Some e1bank) (Some fpiRAM) cnt = Some (0, m2, h2) ->
  0 <= cnt ->
  length (fpi_bank_map (mem machine)) = 256%nat ->
  length (fpi_bank_used (mem machine)) = 256%nat ->
  length (mega2_bank_map (mem machine)) = 2%nat ->
  4 <= cnt /\
  mega2_bank_map (mem m2) = [Some e0bank; Some e1bank] /\
  (forall k, 0 <= k < 4 ->
     zthb (fpi_bank_used (mem m2)) (252 + k) = true /\
     (252 + k <> EMPTY_BANK ->
      zthp (fpi_bank_map (mem m2)) (252 + k)
      = Some (ptr_add rom (CLEM_IIGS_BANK_SIZE * k)))) /\
  (forall r,
     length (heap_get h2 r) = length (heap_get h r) /\
     forall j, 0 <= j ->
       zth (heap_get h2 r) j
       = if in_range r j fpiRAM (Z.min cnt 256 * 65536)
            || in_range r j (mkPtr RegionEmptyRam 0) 65536
            || in_range r j e0bank 65536
            || in_range r j e1bank 65536
         then 0 else zth (heap_get h r) j).
Proof.
  intros H Hc Lm Lu L2. unfold clemens_init in H.
  destruct (clemens_simple_init machine h sf cs (Some fpiRAM) cnt)
    as [[m1 h1]|] eqn:Hs; [|discriminate].
  destruct (cnt <? 4) eqn:C4; cbn [orb] in H; [discriminate|].
  apply Z.ltb_ge in C4.
  pose proof (simple_init_bank_table _ _ _ _ _ _ _ _ Hs Hc Lm Lu) as T.
  destruct (simple_init_shape _ _ _ _ _ _ _ _ Hs Hc) as (M & Lm1 & Lu1).
  rewrite Lm in Lm1. rewrite Lu in Lu1.
  pose proof (simple_init_heap _ _ _ _ _ _ _ _ Hs Hc) as S1.
  cbn [for_loop] in H.
  destruct (memset h1 (Some e0bank) 0 CLEM_IIGS_BANK_SIZE) as [ha|] eqn:Ea;
    [|discriminate].
  destruct (memset ha (Some e1bank) 0 CLEM_IIGS_BANK_SIZE) as [hb|] eqn:Eb;
    [|discriminate].
  injection H as <- <-.
  destruct (memset_spec _ _ _ _ _ Ea) as (_ & Sa).
  destruct (memset_spec _ _ _ _ _ Eb) as (_ & Sb).
  split; [exact C4|]. split; [|split].
  - cbn [mem set_mem set_mega2_bank_map set_fpi_bank_map set_fpi_bank
         mega2_bank_map]. rewrite M.
    destruct (mega2_bank_map (mem machine)) as [|a [|b [|c t]]];
      try discriminate L2. reflexivity.
  - intros k Hk.
    cbn [mem set_mem set_mega2_bank_map set_fpi_bank_map set_fpi_bank
         fpi_bank_map fpi_bank_used optr_add].
    unfold zthp, zthb. rewrite !nth_upd_nth, !length_upd_nth, Lm1, Lu1.
    change (Z.to_nat 252) with 252%nat.
    change (Z.to_nat (252 + 1)) with 253%nat.
    change (Z.to_nat (252 + 1 + 1)) with 254%nat.
    change (Z.to_nat (252 + 1 + 1 + 1)) with 255%nat.
    assert (K : k = 0 \/ k = 1 \/ k = 2 \/ k = 3) by lia.
    destruct K as [-> | [-> | [-> | ->]]]; (split; [reflexivity|]);
      intros Ne;
      match goal with
      | |- context [(?a =? Z.to_nat EMPTY_BANK)%nat] =>
          destruct (Nat.eqb_spec a (Z.to_nat EMPTY_BANK)) as [Q|Q];
          [exfalso; lia | reflexivity]
      end.
  - intros r. destruct (S1 r) as [La Na]. destruct (Sa r) as [Lb Nb].
    destruct (Sb r) as [Lc Nc]. split; [congruence|].
    intros j Hj. rewrite Nc, Nb, Na by assumption.
    change (u8 0) with 0. change CLEM_IIGS_BANK_SIZE with 65536.
    unfold in_range. cbn [ptr_region ptr_off].
    change (0 <=? j) with (0 <=? j).
    destruct (Region_eqb r (ptr_region e1bank) && (ptr_off e1bank <=? j)
              && (j <? ptr_off e1bank + 65536)); [rewrite !orb_true_r; reflexivity|].
    destruct (Region_eqb r (ptr_region e0bank) && (ptr_off e0bank <=? j)
              && (j <? ptr_off e0bank + 65536)); [rewrite !orb_true_r; reflexivity|].
    rewrite !orb_false_r.
    replace (Region_eqb r RegionEmptyRam && (0 <=? j) && (j <? 0 + 65536))
      with (Region_eqb r RegionEmptyRam && (j <? 65536)); [reflexivity|].
    replace (0 <=? j) with true by lia. rewrite andb_true_r. reflexivity.
Qed.

Lemma clemens_init_success_witness :
  4 <= 4 /\
  mega2_bank_map (mem init_m2)
  = [Some (mkPtr RegionE0 0); Some (mkPtr RegionE1 0)] /\
  (forall k, 0 <= k < 4 ->
     zthb (fpi_bank_used (mem init_m2)) (252 + k) = true /\
     (252 + k <> 129 ->
      zthp (fpi_bank_map (mem init_m2)) (252 + k)
      = Some (ptr_add (mkPtr RegionROM 0) (CLEM_IIGS_BANK_SIZE * k)))) /\
  (forall r,
     length (heap_get init_h2 r) = length (heap_get host_heap r) /\
     forall j, 0 <= j ->
       zth (heap_get init_h2 r) j
       = if in_range r j (mkPtr RegionFpiRAM 0) (Z.min 4 256 * 65536)
            || in_range r j (mkPtr RegionEmptyRam 0) 65536
            || in_range r j (mkPtr RegionE0 0) 65536
            || in_range r j (mkPtr RegionE1 0) 65536
         then 0 else zth (heap_get host_heap r) j).
Proof.
  apply (clemens_init_success 129 blank_machine init_m2 host_heap init_h2
           2800 1023 (mkPtr RegionROM 0) (mkPtr RegionE0 0) (mkPtr RegionE1 0)
           (mkPtr RegionFpiRAM 0) 4 init_example_runs).
  - lia.
  - reflexivity.
  - reflexivity.
  - reflexivity.
Defined.

(* --------------------------------------------------------------------- *)
(** ** Intel HEX loader: the passes over a record *)
(* --------------------------------------------------------------------- *)

Lemma hex_iter_trans (a b : nat) (clem : ClemensMachine) (hex : string)
    (hex_end : option Z) (bank : Z) (v v' v'' : HexVars) :
  hex_iter a clem hex hex_end bank v = Some v' ->
  hex_iter b clem hex hex_end bank v' = Some v'' ->
  hex_iter (a + b) clem hex hex_end bank v = Some v''.
Proof.
  revert v. induction a as [|a IH]; intros v H1 H2; cbn [hex_iter Nat.add] in *.
  - injection H1 as <-. exact H2.
  - destruct (hex_continue hex hex_end v); [|discriminate].
    destruct (hex_body clem hex bank v); try discriminate. eauto.
Qed.

Lemma hex_iter_one (clem : ClemensMachine) (hex : string) (hex_end : option Z)
    (bank : Z) (v v' : HexVars) :
  hex_continue hex hex_end v = true ->
  hex_body clem hex bank v = HexNext v' ->
  hex_iter 1 clem hex hex_end bank v = Some v'.
Proof. intros C B. cbn [hex_iter]. rewrite C, B. reflexivity. Qed.

Lemma u32_small (x : Z) : 0 <= x < 4294967296 -> u32 x = x.
Proof. intros H. unfold u32. apply Z.mod_small, H. Qed.

Lemma token_len_eq (line k : Z) :
  0 <= k < 4294967296 -> u32 (line + k - line) = k.
Proof. intros H. replace (line + k - line) with k by lia. apply u32_small, H. Qed.

(** A pass that only moves [next] on: the token is not yet complete, or
    the scanner is skipping the rest of a line. *)
Definition hex_idle (hex : string) (v : HexVars) : bool :=
  let tl := u32 (hv_next v - hv_line v) in
  match hv_state v with
  | CLEM_LOAD_HEX_STATE_LENGTH
  | CLEM_LOAD_HEX_STATE_RECORD
  | CLEM_LOAD_HEX_STATE_CHKSUM => negb (tl =? 2)
  | CLEM_LOAD_HEX_STATE_ADR16 => negb (tl =? 4)
  | CLEM_LOAD_HEX_STATE_DATA => negb ((tl mod 2 =? 0) && (0 <? tl / 2))
  | CLEM_LOAD_HEX_STATE_EOL =>
      negb (deref hex (hv_next v) =? 13) && negb (deref hex (hv_next v) =? 10)
  | _ => false
  end.

Ltac hv_cbn :=
  cbv beta iota zeta; unfold hv_set_state, hv_set_next, hv_set_line;
  cbn [hv_line hv_next hv_state hv_clem_memory hv_hex_byte_length
       hv_hex_address16 hv_hex_recordtype hv_chksum hv_heap
       HexState_eqb negb].

Section HexPasses.

Variable clem : ClemensMachine.
Variable hex : string.
Variable bank : Z.

Lemma hex_body_idle (v : HexVars) :
  hex_idle hex v = true ->
  deref hex (hv_next v) <> 0 ->
  hex_body clem hex bank v = HexNext (hv_set_next (hv_next v + 1) v).
Proof.
  destruct v as [line next st cm len adr rt ck h].
  unfold hex_idle, hex_body, hex_switch. hv_cbn. intros I N.
  apply Z.eqb_neq in N.
  destruct st; try discriminate I; hv_cbn.
  - destruct (u32 (next - line) =? 2); [discriminate|]. hv_cbn. rewrite N.
    reflexivity.
  - destruct (u32 (next - line) =? 4); [discriminate|]. hv_cbn. rewrite N.
    reflexivity.
  - destruct (u32 (next - line) =? 2); [discriminate|]. hv_cbn. rewrite N.
    reflexivity.
  - destruct ((u32 (next - line) mod 2 =? 0) && (0 <? u32 (next - line) / 2));
      [discriminate|]. hv_cbn. rewrite N. reflexivity.
  - destruct (u32 (next - line) =? 2); [discriminate|]. hv_cbn. rewrite N.
    reflexivity.
  - destruct (deref hex next =? 13); [discriminate|].
    destruct (deref hex next =? 10); [discriminate|]. hv_cbn. rewrite N.
    reflexivity.
Qed.

(** [k] such passes in a row. *)
Lemma hex_idle_run (k : nat) :
  forall v,
    deref hex (hv_line v) <> 0 ->
    (forall i, 0 <= i < Z.of_nat k ->
       hex_idle hex (hv_set_next (hv_next v + i) v) = true /\
       deref hex (hv_next v + i) <> 0) ->
    hex_iter k clem hex None bank v
    = Some (hv_set_next (hv_next v + Z.of_nat k) v).
Proof.
  induction k as [|k IH]; intros v L H.
  - cbn [hex_iter Z.of_nat]. rewrite Z.add_0_r. destruct v; reflexivity.
  - destruct (H 0 ltac:(lia)) as [I0 N0]. rewrite Z.add_0_r in I0, N0.
    assert (E : hv_set_next (hv_next v) v = v) by (destruct v; reflexivity).
    rewrite E in I0.
    change (Datatypes.S k) with (1 + k)%nat.
    eapply hex_iter_trans.
    + apply hex_iter_one.
      * unfold hex_continue. apply Z.eqb_neq in L. rewrite L. reflexivity.
      * apply hex_body_idle; assumption.
    + rewrite IH.
      * destruct v; unfold hv_set_next; hv_cbn. do 2 f_equal. lia.
      * destruct v; exact L.
      * intros i Hi. destruct (H (i + 1) ltac:(lia)) as [I1 N1].
        destruct v as [line next st cm len adr rt ck h].
        unfold hv_set_next in *. cbn [hv_line hv_next hv_state] in *.
        replace (next + 1 + i) with (next + (i + 1)) by lia. auto.
Qed.

Lemma hex_body_begin (line next : Z) (cm : option Ptr) (len adr rt ck : Z)
    (h : Heap) :
  deref hex next = 58 ->
  hex_body clem hex bank
    (mkHexVars line next CLEM_LOAD_HEX_STATE_BEGIN cm len adr rt ck h)
  = HexNext (mkHexVars (next + 1) (next + 1) CLEM_LOAD_HEX_STATE_LENGTH
               cm len adr rt ck h).
Proof.
  intros C. unfold hex_body, hex_switch. hv_cbn. rewrite C.
  change (58 =? 58) with true. hv_cbn. rewrite C. reflexivity.
Qed.

Lemma hex_body_adr16 (line next : Z) (cm : option Ptr) (len adr rt ck : Z)
    (h : Heap) (v : Z) :
  u32 (next - line) = 4 ->
  _clem_util_hex_value hex line next = Some v ->
  deref hex (next - 1) <> 0 ->
  hex_body clem hex bank
    (mkHexVars line next CLEM_LOAD_HEX_STATE_ADR16 cm len adr rt ck h)
  = HexNext (mkHexVars next next CLEM_LOAD_HEX_STATE_RECORD cm len
               (Z.land v 65535) rt
               (u8 (u8 (ck + Z.land (Z.shiftr (Z.land v 65535) 8) 255)
                    + Z.land (Z.land v 65535) 255)) h).
Proof.
  intros T V N. apply Z.eqb_neq in N.
  unfold hex_body, hex_switch. hv_cbn. rewrite T, V.
  change (4 =? 4) with true. hv_cbn. rewrite N. hv_cbn. rewrite Z.sub_add.
  reflexivity.
Qed.

Lemma hex_body_record (line next : Z) (cm : option Ptr) (len adr rt ck : Z)
    (h : Heap) (v : Z) :
  u32 (next - line) = 2 ->
  _clem_util_hex_value hex line next = Some v ->
  Z.land v 255 = CLEM_LOAD_HEX_RECORD_DATA
  \/ Z.land v 255 = CLEM_LOAD_HEX_RECORD_EOF ->
  deref hex (next - 1) <> 0 ->
  hex_body clem hex bank
    (mkHexVars line next CLEM_LOAD_HEX_STATE_RECORD cm len adr rt ck h)
  = HexNext (mkHexVars next next
               (if Z.land v 255 =? CLEM_LOAD_HEX_RECORD_DATA
                then CLEM_LOAD_HEX_STATE_DATA else CLEM_LOAD_HEX_STATE_CHKSUM)
               cm len adr (Z.land v 255) (u8 (ck + u8 (Z.land v 255))) h).
Proof.
  intros T V K N. apply Z.eqb_neq in N.
  unfold hex_body, hex_switch. hv_cbn. rewrite T, V.
  change (2 =? 2) with true. hv_cbn.
  destruct K as [K|K]; rewrite K; cbn [Z.eqb CLEM_LOAD_HEX_RECORD_DATA
    CLEM_LOAD_HEX_RECORD_EOF Pos.eqb]; hv_cbn; rewrite N; hv_cbn;
    rewrite Z.sub_add; reflexivity.
Qed.

Lemma hex_body_chksum (line next : Z) (cm : option Ptr) (len adr rt ck : Z)
    (h : Heap) (v : Z) :
  u32 (next - line) = 2 ->
  _clem_util_hex_value hex line next = Some v ->
  deref hex next <> 0 ->
  hex_body clem hex bank
    (mkHexVars line next CLEM_LOAD_HEX_STATE_CHKSUM cm len adr rt ck h)
  = HexNext (mkHexVars (next + 1) (next + 1)
               (if u8 (1 + Z.lnot ck) =? Z.land v 255
                then if rt =? CLEM_LOAD_HEX_RECORD_EOF
                     then CLEM_LOAD_HEX_STATE_EOF else CLEM_LOAD_HEX_STATE_EOL
                else CLEM_LOAD_HEX_STATE_ERROR)
               cm len adr rt (u8 (1 + Z.lnot ck)) h).
Proof.
  intros T V N. apply Z.eqb_neq in N.
  unfold hex_body, hex_switch. hv_cbn. rewrite T, V.
  change (2 =? 2) with true. hv_cbn.
  destruct (u8 (1 + Z.lnot ck) =? Z.land v 255);
    [destruct (rt =? CLEM_LOAD_HEX_RECORD_EOF)|]; hv_cbn; rewrite N; hv_cbn;
    reflexivity.
Qed.

Lemma hex_body_eol_lf (line next : Z) (cm : option Ptr) (len adr rt ck : Z)
    (h : Heap) :
  deref hex next = 10 ->
  hex_body clem hex bank
    (mkHexVars line next CLEM_LOAD_HEX_STATE_EOL cm len adr rt ck h)
  = HexNext (mkHexVars (next + 1) (next + 1) CLEM_LOAD_HEX_STATE_BEGIN
               cm len adr rt ck h).
Proof.
  intros C. unfold hex_body, hex_switch. hv_cbn. rewrite C.
  change (10 =? 13) with false. change (10 =? 10) with true. hv_cbn.
  rewrite C. reflexivity.
Qed.

(** The pass of the data state that completes byte [t]. *)
Lemma hex_body_data (line next : Z) (cm : option Ptr) (len adr rt ck : Z)
    (h h' : Heap) (t v : Z) :
  0 <= t ->
  u32 (next - line) = 2 * (t + 1) ->
  _clem_util_hex_value hex (line + t * 2) next = Some v ->
  store8 h cm (Z.land (adr + t) 65535) (Z.land v 255) = Some h' ->
  deref hex (next - 1) <> 0 -> deref hex next <> 0 ->
  hex_body clem hex bank
    (mkHexVars line next CLEM_LOAD_HEX_STATE_DATA cm len adr rt ck h)
  = HexNext (if len <=? t + 1
             then mkHexVars next next CLEM_LOAD_HEX_STATE_CHKSUM cm len adr rt
                    (u8 (ck + Z.land v 255)) h'
             else mkHexVars line (next + 1) CLEM_LOAD_HEX_STATE_DATA cm len
                    adr rt (u8 (ck + Z.land v 255)) h').
Proof.
  intros Ht T V St N1 N. apply Z.eqb_neq in N1, N.
  unfold hex_body, hex_switch. hv_cbn. rewrite T.
  replace (2 * (t + 1) mod 2) with 0 by (Z.div_mod_to_equations; lia).
  replace (2 * (t + 1) / 2) with (t + 1) by (Z.div_mod_to_equations; lia).
  replace (t + 1 - 1) with t by lia.
  replace ((0 =? 0) && (0 <? t + 1)) with true by lia. cbv iota.
  rewrite V, St. hv_cbn.
  destruct (len <=? t + 1); hv_cbn.
  - rewrite N1. hv_cbn. rewrite Z.sub_add. reflexivity.
  - rewrite N. hv_cbn. reflexivity.
Qed.

Hypothesis Hbank : 0 <= bank < 256.

Lemma hex_body_length (line next : Z) (cm : option Ptr) (len adr rt ck : Z)
    (h : Heap) (p : Ptr) (v : Z) :
  u32 (next - line) = 2 ->
  _clem_util_hex_value hex line next = Some v ->
  nth (Z.to_nat bank) (fpi_bank_map (mem clem)) None = Some p ->
  deref hex (next - 1) <> 0 ->
  hex_body clem hex bank
    (mkHexVars line next CLEM_LOAD_HEX_STATE_LENGTH cm len adr rt ck h)
  = HexNext (mkHexVars next next CLEM_LOAD_HEX_STATE_ADR16 (Some p) v adr rt
               (u8 (Z.land v 255)) h).
Proof.
  intros T V Mp N. apply Z.eqb_neq in N.
  unfold hex_body, hex_switch. hv_cbn. rewrite T, V, Mp.
  replace ((0 <=? bank) && (bank <? 256)) with true by lia.
  change (2 =? 2) with true. hv_cbn. rewrite N. hv_cbn. rewrite Z.sub_add. reflexivity.
Qed.

End HexPasses.

(** *** A record at offset [L] of the text *)

(** [p[a] = v] on a bank that lies inside its buffer. *)
Definition hex_store_byte (h : Heap) (p : Ptr) (a v : Z) : Heap :=
  heap_set h (ptr_region p)
    (splice (heap_get h (ptr_region p)) (ptr_off p + a) [u8 v]).

(** The bank after the data bytes [t0], [t0 + 1], ... of a record have been
    stored, and the running checksum. *)
Fixpoint hex_stored (h : Heap) (p : Ptr) (adr16 : Z) (d : Z -> Z) (t0 : Z)
    (k : nat) : Heap :=
  match k with
  | O => h
  | Datatypes.S k' =>
      hex_stored
        (hex_store_byte h p (Z.land (adr16 + t0) 65535) (Z.land (d t0) 255))
        p adr16 d (t0 + 1) k'
  end.

Fixpoint hex_sum (c : Z) (d : Z -> Z) (t0 : Z) (k : nat) : Z :=
  match k with
  | O => c
  | Datatypes.S k' => hex_sum (u8 (c + Z.land (d t0) 255)) d (t0 + 1) k'
  end.

Lemma store8_bank (h : Heap) (p : Ptr) (a v : Z) :
  bank_readable h p -> 0 <= a < 65536 ->
  store8 h (Some p) a v = Some (hex_store_byte h p a v).
Proof.
  unfold bank_readable, store8, hex_store_byte. intros B Ha.
  apply in_bounds_true in B.
  replace (in_bounds _ (ptr_off p + a) 1) with true; [reflexivity|].
  symmetry. apply in_bounds_true. lia.
Qed.

Lemma hex_store_byte_length (h : Heap) (p : Ptr) (a v : Z) (r : Region) :
  bank_readable h p -> 0 <= a < 65536 ->
  length (heap_get (hex_store_byte h p a v) r) = length (heap_get h r).
Proof.
  unfold bank_readable, hex_store_byte. intros B Ha.
  apply in_bounds_true in B. rewrite heap_get_set.
  destruct (Region_eqb r (ptr_region p)) eqn:E; [|reflexivity].
  apply Region_eqb_eq in E. subst r. apply length_splice1.
  apply in_bounds_true. lia.
Qed.

Lemma hex_store_byte_readable (h : Heap) (p : Ptr) (a v : Z) :
  bank_readable h p -> 0 <= a < 65536 ->
  bank_readable (hex_store_byte h p a v) p.
Proof.
  intros B Ha. pose proof (hex_store_byte_length h p a v (ptr_region p) B Ha) as E.
  unfold bank_readable in *. apply in_bounds_true.
  apply in_bounds_true in B. rewrite E. exact B.
Qed.

Lemma land_65535_range (x : Z) : 0 <= Z.land x 65535 < 65536.
Proof. rewrite land_65535. apply Z.mod_pos_bound. lia. Qed.

Section HexRecordAt.

Variable clem : ClemensMachine.
Variable hex : string.
Variable bank : Z.
Variable p : Ptr.
Variable L : Z.
Variables len adr typ : Z.

Hypothesis Hbank : 0 <= bank < 256.
Hypothesis Hmapped : nth (Z.to_nat bank) (fpi_bank_map (mem clem)) None = Some p.
Hypothesis Hcolon : deref hex L = 58.
Hypothesis Hlen : _clem_util_hex_value hex (L + 1) (L + 3) = Some len.
Hypothesis Hadr : _clem_util_hex_value hex (L + 3) (L + 7) = Some adr.
Hypothesis Htyp : _clem_util_hex_value hex (L + 7) (L + 9) = Some typ.
Hypothesis Hkind :
  Z.land typ 255 = CLEM_LOAD_HEX_RECORD_DATA
  \/ Z.land typ 255 = CLEM_LOAD_HEX_RECORD_EOF.
Hypothesis Hnul9 : forall i, L <= i < L + 9 -> deref hex i <> 0.

(** The sum of the length byte, the address bytes and the record type. *)
Definition hex_header_sum : Z :=
  u8 (u8 (u8 (u8 (Z.land len 255) + Z.land (Z.shiftr (Z.land adr 65535) 8) 255)
          + Z.land (Z.land adr 65535) 255)
      + u8 (Z.land typ 255)).

Ltac hex_idle_tac :=
  rewrite hex_idle_run;
  [ hv_cbn; do 2 f_equal; lia
  | hv_cbn; apply Hnul9; lia
  | let i := fresh "i" in let Hi := fresh "Hi" in
    intros i Hi; unfold hex_idle; hv_cbn;
    rewrite token_len_eq by lia;
    split; [ zcases | apply Hnul9; lia ] ].

(** The twelve passes from the ':' to the end of the record type. *)
Lemma hex_header (line0 : Z) (cm0 : option Ptr) (len0 adr0 rt0 ck0 : Z)
    (h : Heap) :
  deref hex line0 <> 0 ->
  hex_iter 12 clem hex None bank
    (mkHexVars line0 L CLEM_LOAD_HEX_STATE_BEGIN cm0 len0 adr0 rt0 ck0 h)
  = Some (mkHexVars (L + 9) (L + 9)
            (if Z.land typ 255 =? CLEM_LOAD_HEX_RECORD_DATA
             then CLEM_LOAD_HEX_STATE_DATA else CLEM_LOAD_HEX_STATE_CHKSUM)
            (Some p) len (Z.land adr 65535) (Z.land typ 255)
            hex_header_sum h).
Proof.
  intros N0.
  change 12%nat with (1 + (2 + (1 + (4 + (1 + (2 + 1))))))%nat.
  eapply hex_iter_trans.
  { apply hex_iter_one.
    - unfold hex_continue. hv_cbn. apply Z.eqb_neq in N0. rewrite N0. reflexivity.
    - apply hex_body_begin, Hcolon. }
  eapply hex_iter_trans.
  { hex_idle_tac. }
  hv_cbn. change (Z.of_nat 2) with 2.
  replace (L + 1 + 2) with (L + 3) by lia.
  eapply hex_iter_trans.
  { apply hex_iter_one.
    - unfold hex_continue. hv_cbn.
      pose proof (Hnul9 (L + 1) ltac:(lia)) as N. apply Z.eqb_neq in N.
      rewrite N. reflexivity.
    - apply (hex_body_length clem hex bank Hbank _ _ _ _ _ _ _ _ p len).
      + replace (L + 3) with (L + 1 + 2) by lia. apply token_len_eq. lia.
      + exact Hlen.
      + exact Hmapped.
      + apply Hnul9. lia. }
  eapply hex_iter_trans.
  { hex_idle_tac. }
  hv_cbn. change (Z.of_nat 4) with 4.
  replace (L + 3 + 4) with (L + 7) by lia.
  eapply hex_iter_trans.
  { apply hex_iter_one.
    - unfold hex_continue. hv_cbn.
      pose proof (Hnul9 (L + 3) ltac:(lia)) as N. apply Z.eqb_neq in N.
      rewrite N. reflexivity.
    - apply (hex_body_adr16 clem hex bank _ _ _ _ _ _ _ _ adr).
      + replace (L + 7) with (L + 3 + 4) by lia. apply token_len_eq. lia.
      + exact Hadr.
      + apply Hnul9. lia. }
  eapply hex_iter_trans.
  { hex_idle_tac. }
  hv_cbn. change (Z.of_nat 2) with 2.
  replace (L + 7 + 2) with (L + 9) by lia.
  apply hex_iter_one.
  - unfold hex_continue. hv_cbn.
    pose proof (Hnul9 (L + 7) ltac:(lia)) as N. apply Z.eqb_neq in N.
    rewrite N. reflexivity.
  - apply (hex_body_record clem hex bank _ _ _ _ _ _ _ _ typ).
    + replace (L + 9) with (L + 7 + 2) by lia. apply token_len_eq. lia.
    + exact Htyp.
    + exact Hkind.
    + apply Hnul9. lia.
Qed.

End HexRecordAt.

Section HexDataAt.

Variable clem : ClemensMachine.
Variable hex : string.
Variable bank : Z.
Variable p : Ptr.
Variable D : Z.
Variables len adr16 rt : Z.
Variable d : Z -> Z.

(** A data record stores [max(len, 1)] bytes: the test for the last byte
    comes after the store. *)
Definition hex_data_count : Z := Z.max len 1.

Hypothesis Hbank : 0 <= bank < 256.
Hypothesis Hadr16 : 0 <= adr16 < 65536.
Hypothesis Hlen256 : 0 <= len < 256.
Hypothesis Hdata :
  forall t, 0 <= t < hex_data_count ->
    _clem_util_hex_value hex (D + 2 * t) (D + 2 * t + 2) = Some (d t).
Hypothesis Hnul :
  forall i, D <= i <= D + 2 * hex_data_count -> deref hex i <> 0.

(** The two passes over the characters of byte [t]. *)
Lemma hex_data_pair (t c : Z) (h : Heap) :
  0 <= t < hex_data_count ->
  bank_readable h p ->
  hex_iter 2 clem hex None bank
    (mkHexVars D (D + 2 * t + 1) CLEM_LOAD_HEX_STATE_DATA (Some p) len adr16
       rt c h)
  = Some
      (let c' := u8 (c + Z.land (d t) 255) in
       let h' := hex_store_byte h p (Z.land (adr16 + t) 65535)
                   (Z.land (d t) 255) in
       if len <=? t + 1
       then mkHexVars (D + 2 * (t + 1)) (D + 2 * (t + 1))
              CLEM_LOAD_HEX_STATE_CHKSUM (Some p) len adr16 rt c' h'
       else mkHexVars D (D + 2 * (t + 1) + 1) CLEM_LOAD_HEX_STATE_DATA
              (Some p) len adr16 rt c' h').
Proof.
  intros Ht Hr.
  assert (ND : deref hex D <> 0) by (apply Hnul; unfold hex_data_count; lia).
  assert (CD : forall nx st cm l a r ck hh,
             hex_continue hex None (mkHexVars D nx st cm l a r ck hh) = true).
  { intros. unfold hex_continue. hv_cbn. apply Z.eqb_neq in ND.
    rewrite ND. reflexivity. }
  change 2%nat with (1 + 1)%nat.
  eapply hex_iter_trans.
  { apply hex_iter_one; [apply CD|]. apply hex_body_idle.
    - unfold hex_idle. hv_cbn.
      replace (D + 2 * t + 1 - D) with (2 * t + 1) by lia.
      rewrite u32_small by (unfold hex_data_count in Ht; lia).
      replace ((2 * t + 1) mod 2) with 1 by (Z.div_mod_to_equations; lia).
      reflexivity.
    - hv_cbn. apply Hnul. lia. }
  hv_cbn. apply hex_iter_one; [apply CD|].
  rewrite (hex_body_data clem hex bank D (D + 2 * t + 1 + 1) (Some p) len
             adr16 rt c h
             (hex_store_byte h p (Z.land (adr16 + t) 65535)
                (Z.land (d t) 255)) t (d t)).
  - replace (D + 2 * t + 1 + 1) with (D + 2 * (t + 1)) by lia.
    destruct (len <=? t + 1); reflexivity.
  - lia.
  - replace (D + 2 * t + 1 + 1 - D) with (2 * (t + 1)) by lia.
    apply u32_small. unfold hex_data_count in Ht. lia.
  - replace (D + t * 2) with (D + 2 * t) by lia.
    replace (D + 2 * t + 1 + 1) with (D + 2 * t + 2) by lia.
    apply Hdata. lia.
  - apply store8_bank; [exact Hr | apply land_65535_range].
  - apply Hnul. lia.
  - apply Hnul. lia.
Qed.

(** The passes of the data state from the first character of byte [t] on,
    up to the change to the checksum state. *)
Lemma hex_data_run (k : nat) :
  forall (t c : Z) (h : Heap),
    0 <= t -> t + Z.of_nat (Datatypes.S k) = hex_data_count ->
    bank_readable h p ->
    hex_iter (2 * Datatypes.S k) clem hex None bank
      (mkHexVars D (D + 2 * t + 1) CLEM_LOAD_HEX_STATE_DATA (Some p) len adr16
         rt c h)
    = Some (mkHexVars (D + 2 * hex_data_count) (D + 2 * hex_data_count)
              CLEM_LOAD_HEX_STATE_CHKSUM (Some p) len adr16 rt
              (hex_sum c d t (Datatypes.S k))
              (hex_stored h p adr16 d t (Datatypes.S k))).
Proof.
  induction k as [|k IH]; intros t c h Ht Hk Hr.
  - change (2 * 1)%nat with 2%nat. rewrite hex_data_pair by (try lia; assumption).
    cbv zeta.
    replace (len <=? t + 1) with true by (unfold hex_data_count in Hk; lia).
    cbn [hex_sum hex_stored]. do 2 f_equal; lia.
  - replace (2 * Datatypes.S (Datatypes.S k))%nat
      with (2 + 2 * Datatypes.S k)%nat by lia.
    eapply hex_iter_trans.
    + apply hex_data_pair; [lia | assumption].
    + cbv zeta.
      replace (len <=? t + 1) with false by (unfold hex_data_count in Hk; lia).
      rewrite IH.
      * reflexivity.
      * lia.
      * lia.
      * apply hex_store_byte_readable; [exact Hr | apply land_65535_range].
Qed.

End HexDataAt.

(** *** What the stores of a data record leave in the bank *)

Lemma hex_store_byte_zth (h : Heap) (p : Ptr) (a v : Z) (r : Region) (j : Z) :
  bank_readable h p -> 0 <= a < 65536 -> 0 <= j ->
  zth (heap_get (hex_store_byte h p a v) r) j
  = if Region_eqb r (ptr_region p) && (j =? ptr_off p + a) then u8 v
    else zth (heap_get h r) j.
Proof.
  unfold bank_readable, hex_store_byte. intros B Ha Hj.
  apply in_bounds_true in B. rewrite heap_get_set.
  destruct (Region_eqb r (ptr_region p)) eqn:E; [|reflexivity].
  apply Region_eqb_eq in E. subst r. cbn [andb].
  apply zth_splice1; [|exact Hj]. apply in_bounds_true. lia.
Qed.

Lemma Region_eqb_refl_true (r : Region) : Region_eqb r r = true.
Proof. destruct r; reflexivity. Qed.

Section HexStored.

Variable p : Ptr.
Variable adr16 : Z.
Variable d : Z -> Z.

Lemma hex_stored_length (k : nat) :
  forall (h : Heap) (t0 : Z) (r : Region),
    bank_readable h p ->
    length (heap_get (hex_stored h p adr16 d t0 k) r) = length (heap_get h r).
Proof.
  induction k as [|k IH]; intros h t0 r Hr; cbn [hex_stored]; [reflexivity|].
  rewrite IH by (apply hex_store_byte_readable;
                 [exact Hr | apply land_65535_range]).
  apply hex_store_byte_length; [exact Hr | apply land_65535_range].
Qed.

(** A byte that no store of the record addresses keeps its value. *)
Lemma hex_stored_frame (k : nat) :
  forall (h : Heap) (t0 : Z) (r : Region) (j : Z),
    bank_readable h p -> 0 <= j ->
    (forall t, t0 <= t < t0 + Z.of_nat k ->
       ~ (r = ptr_region p /\ j = ptr_off p + (adr16 + t) mod 65536)) ->
    zth (heap_get (hex_stored h p adr16 d t0 k) r) j = zth (heap_get h r) j.
Proof.
  induction k as [|k IH]; intros h t0 r j Hr Hj Hn; cbn [hex_stored];
    [reflexivity|].
  rewrite IH.
  - rewrite hex_store_byte_zth by (try assumption; apply land_65535_range).
    destruct (Region_eqb r (ptr_region p)) eqn:E; [|reflexivity].
    apply Region_eqb_eq in E. cbn [andb].
    destruct (Z.eqb_spec j (ptr_off p + Z.land (adr16 + t0) 65535)) as [Q|Q];
      [|reflexivity].
    exfalso. apply (Hn t0); [lia|]. rewrite land_65535 in Q. auto.
  - apply hex_store_byte_readable; [exact Hr | apply land_65535_range].
  - exact Hj.
  - intros t Ht. apply Hn. lia.
Qed.

(** Byte [t] of the record is found at [adr16 + t], the offset wrapping at
    64 KiB. *)
Lemma hex_stored_byte (k : nat) :
  forall (h : Heap) (t0 t : Z),
    bank_readable h p -> 0 <= ptr_off p -> Z.of_nat k <= 65536 ->
    t0 <= t < t0 + Z.of_nat k ->
    zth (heap_get (hex_stored h p adr16 d t0 k) (ptr_region p))
        (ptr_off p + (adr16 + t) mod 65536)
    = (d t) mod 256.
Proof.
  induction k as [|k IH]; intros h t0 t Hr Hp Hk Ht; [lia|].
  cbn [hex_stored].
  assert (Hrange : 0 <= (adr16 + t) mod 65536 < 65536)
    by (apply Z.mod_pos_bound; lia).
  destruct (Z.eq_dec t t0) as [->|Hne].
  - rewrite hex_stored_frame.
    + rewrite hex_store_byte_zth by (try assumption; try lia;
                                     apply land_65535_range).
      rewrite Region_eqb_refl_true, land_65535, Z.eqb_refl. cbn [andb].
      rewrite land_255. unfold u8. apply Z.mod_mod. lia.
    + apply hex_store_byte_readable; [exact Hr | apply land_65535_range].
    + lia.
    + intros t' Ht' [_ Q].
      assert (E : (adr16 + t') mod 65536 = (adr16 + t0) mod 65536) by lia.
      clear Q. Z.div_mod_to_equations. lia.
  - apply IH; try lia.
    apply hex_store_byte_readable; [exact Hr | apply land_65535_range].
Qed.

End HexStored.

(** A field of two digits is a byte. *)
Lemma hex_digit_value (c v : Z) : hex_digit c = Some v -> 0 <= v < 16.
Proof.
  unfold hex_digit.
  destruct ((48 <=? c) && (c <=? 57)) eqn:E1; [intros [= <-]; lia|].
  destruct ((65 <=? c) && (c <=? 70)) eqn:E2; [intros [= <-]; lia|].
  destruct ((97 <=? c) && (c <=? 102)) eqn:E3; [intros [= <-]; lia|discriminate].
Qed.

Lemma hex_value_byte (hex : string) (a b v : Z) :
  b = a + 2 -> _clem_util_hex_value hex a b = Some v -> 0 <= v < 256.
Proof.
  intros ->. unfold _clem_util_hex_value.
  replace (a + 2 - a) with 2 by lia.
  change (Z.to_nat 2) with 2%nat. cbn [hex_value_from].
  destruct (hex_digit (deref hex a)) as [d1|] eqn:E1; [|discriminate].
  destruct (hex_digit (deref hex (a + 1))) as [d2|] eqn:E2; [|discriminate].
  intros [= <-]. apply hex_digit_value in E1, E2. lia.
Qed.

Section HexDataRecord.

Variable clem : ClemensMachine.
Variable hex : string.
Variable bank : Z.
Variable p : Ptr.
Variable L : Z.
Variables len adr chk : Z.
Variable d : Z -> Z.

Hypothesis Hbank : 0 <= bank < 256.
Hypothesis Hmapped : nth (Z.to_nat bank) (fpi_bank_map (mem clem)) None = Some p.
Hypothesis Hcolon : deref hex L = 58.
Hypothesis Hlen : _clem_util_hex_value hex (L + 1) (L + 3) = Some len.
Hypothesis Hadr : _clem_util_hex_value hex (L + 3) (L + 7) = Some adr.
Hypothesis Htyp : _clem_util_hex_value hex (L + 7) (L + 9) = Some 0.
Hypothesis Hdata :
  forall t, 0 <= t < hex_data_count len ->
    _clem_util_hex_value hex (L + 9 + 2 * t) (L + 11 + 2 * t) = Some (d t).
Hypothesis Hchk :
  _clem_util_hex_value hex (L + 9 + 2 * hex_data_count len)
    (L + 11 + 2 * hex_data_count len) = Some chk.
Hypothesis Hnul :
  forall i, L <= i < L + 12 + 2 * hex_data_count len -> deref hex i <> 0.

(** The checksum that the loader has accumulated behind the data. *)
Definition hex_record_sum : Z :=
  hex_sum (hex_header_sum len adr 0) d 0 (Z.to_nat (hex_data_count len)).

(** The passes over a data record, from the ':' to the character behind
    the checksum field. *)
Lemma hex_data_record (line0 : Z) (cm0 : option Ptr) (len0 adr0 rt0 ck0 : Z)
    (h : Heap) :
  deref hex line0 <> 0 ->
  bank_readable h p ->
  hex_iter (16 + 2 * Z.to_nat (hex_data_count len)) clem hex None bank
    (mkHexVars line0 L CLEM_LOAD_HEX_STATE_BEGIN cm0 len0 adr0 rt0 ck0 h)
  = Some (mkHexVars (L + 12 + 2 * hex_data_count len)
            (L + 12 + 2 * hex_data_count len)
            (if u8 (1 + Z.lnot hex_record_sum) =? Z.land chk 255
             then CLEM_LOAD_HEX_STATE_EOL else CLEM_LOAD_HEX_STATE_ERROR)
            (Some p) len (Z.land adr 65535) 0
            (u8 (1 + Z.lnot hex_record_sum))
            (hex_stored h p (Z.land adr 65535) d 0
               (Z.to_nat (hex_data_count len)))).
Proof.
  intros N0 Hr.
  pose proof (hex_value_byte hex (L + 1) (L + 3) len ltac:(lia) Hlen) as Hl.
  set (n := hex_data_count len) in *.
  assert (Hn : 1 <= n < 256) by (subst n; unfold hex_data_count; lia).
  destruct (Z.to_nat n) as [|k] eqn:Ek; [lia|].
  replace (16 + 2 * Datatypes.S k)%nat
    with (12 + (1 + (2 * Datatypes.S k + (2 + 1))))%nat by lia.
  eapply hex_iter_trans.
  { apply (hex_header clem hex bank p L len adr 0); try assumption.
    - left. reflexivity.
    - intros i Hi. apply Hnul. lia. }
  change (Z.land 0 255 =? CLEM_LOAD_HEX_RECORD_DATA) with true.
  change (Z.land 0 255) with 0. cbv iota.
  assert (ND : deref hex (L + 9) <> 0) by (apply Hnul; lia).
  eapply hex_iter_trans.
  { apply hex_iter_one.
    - unfold hex_continue. hv_cbn. apply Z.eqb_neq in ND. rewrite ND.
      reflexivity.
    - apply hex_body_idle.
      + unfold hex_idle. hv_cbn. rewrite Z.sub_diag. reflexivity.
      + exact ND. }
  hv_cbn. replace (L + 9 + 1) with (L + 9 + 2 * 0 + 1) by lia.
  eapply hex_iter_trans.
  { apply (hex_data_run clem hex bank p (L + 9) len (Z.land adr 65535) 0 d).
    - exact Hbank.
    - apply land_65535_range.
    - exact Hl.
    - intros t Ht. replace (L + 9 + 2 * t + 2) with (L + 11 + 2 * t) by lia.
      apply Hdata, Ht.
    - intros i Hi. apply Hnul. fold n. lia.
    - lia.
    - fold n. lia.
    - exact Hr. }
  fold n. unfold hex_record_sum. fold n. rewrite Ek.
  set (c := hex_sum _ d 0 (Datatypes.S k)).
  set (h' := hex_stored h p _ d 0 (Datatypes.S k)).
  assert (NC : deref hex (L + 9 + 2 * n) <> 0) by (apply Hnul; lia).
  eapply hex_iter_trans.
  { rewrite hex_idle_run.
    - reflexivity.
    - exact NC.
    - intros i Hi. hv_cbn. unfold hex_idle. hv_cbn.
      rewrite token_len_eq by lia.
      split; [zcases | apply Hnul; lia]. }
  hv_cbn. change (Z.of_nat 2) with 2.
  apply hex_iter_one.
  - unfold hex_continue. hv_cbn. apply Z.eqb_neq in NC. rewrite NC.
    reflexivity.
  - rewrite (hex_body_chksum clem hex bank _ _ _ _ _ _ _ _ chk).
    + change (0 =? CLEM_LOAD_HEX_RECORD_EOF) with false. cbv iota.
      replace (L + 9 + 2 * n + 2 + 1) with (L + 12 + 2 * n) by lia.
      reflexivity.
    + apply token_len_eq. lia.
    + replace (L + 9 + 2 * n + 2) with (L + 11 + 2 * n) by lia. exact Hchk.
    + apply Hnul. lia.
Qed.

End HexDataRecord.

Section HexEofRecord.

Variable clem : ClemensMachine.
Variable hex : string.
Variable bank : Z.
Variable p : Ptr.
Variable L : Z.
Variables len adr chk : Z.

Hypothesis Hbank : 0 <= bank < 256.
Hypothesis Hmapped : nth (Z.to_nat bank) (fpi_bank_map (mem clem)) None = Some p.
Hypothesis Hcolon : deref hex L = 58.
Hypothesis Hlen : _clem_util_hex_value hex (L + 1) (L + 3) = Some len.
Hypothesis Hadr : _clem_util_hex_value hex (L + 3) (L + 7) = Some adr.
Hypothesis Htyp : _clem_util_hex_value hex (L + 7) (L + 9) = Some 1.
Hypothesis Hchk : _clem_util_hex_value hex (L + 9) (L + 11) = Some chk.
Hypothesis Hsum : u8 (1 + Z.lnot (hex_header_sum len adr 1)) = Z.land chk 255.
Hypothesis Hnul : forall i, L <= i < L + 11 -> deref hex i <> 0.

(** The fourteen passes from the ':' of an EOF record to the end of its
    checksum field. *)
Lemma hex_eof_passes (line0 : Z) (cm0 : option Ptr) (len0 adr0 rt0 ck0 : Z)
    (h : Heap) :
  deref hex line0 <> 0 ->
  hex_iter 14 clem hex None bank
    (mkHexVars line0 L CLEM_LOAD_HEX_STATE_BEGIN cm0 len0 adr0 rt0 ck0 h)
  = Some (mkHexVars (L + 9) (L + 11) CLEM_LOAD_HEX_STATE_CHKSUM (Some p) len
            (Z.land adr 65535) 1 (hex_header_sum len adr 1) h).
Proof.
  intros N0. change 14%nat with (12 + 2)%nat.
  eapply hex_iter_trans.
  { rewrite (hex_header clem hex bank p L len adr 1); try assumption.
    - reflexivity.
    - right. reflexivity.
    - intros i Hi. apply Hnul. lia. }
  assert (NC : deref hex (L + 9) <> 0) by (apply Hnul; lia).
  cbv beta iota. change (Z.land 1 255 =? CLEM_LOAD_HEX_RECORD_DATA) with false.
  cbv iota. change (Z.land 1 255) with 1.
  rewrite hex_idle_run.
  - hv_cbn. do 2 f_equal. lia.
  - exact NC.
  - intros i Hi. hv_cbn. unfold hex_idle. hv_cbn.
    rewrite token_len_eq by lia.
    split; [zcases | apply Hnul; lia].
Qed.

(** The pass that reads the checksum field, and the end of the loop,
    whatever [hex_end] is. *)
Lemma hex_eof_final (fuel : nat) (hex_end : option Z) (h : Heap) :
  (2 <= fuel)%nat ->
  hex_loop fuel clem hex hex_end bank
    (mkHexVars (L + 9) (L + 11) CLEM_LOAD_HEX_STATE_CHKSUM (Some p) len
       (Z.land adr 65535) 1 (hex_header_sum len adr 1) h)
  = HexDone true h.
Proof.
  intros Hf.
  assert (NC : deref hex (L + 9) <> 0) by (apply Hnul; lia).
  destruct fuel as [|[|f]]; try lia.
  apply Z.eqb_neq in NC.
  match goal with
  | |- hex_loop _ _ _ _ _ ?v = _ =>
      assert (C : hex_continue hex hex_end v = true)
        by (unfold hex_continue; hv_cbn; rewrite NC; destruct hex_end;
            cbn [negb]; rewrite ?orb_true_r; reflexivity)
  end.
  cbn [hex_loop]. rewrite C. clear C.
  unfold hex_body at 1, hex_switch. hv_cbn.
  replace (L + 11 - (L + 9)) with 2 by lia. change (u32 2 =? 2) with true.
  hv_cbn. rewrite Hchk, Hsum, Z.eqb_refl.
  change (1 =? CLEM_LOAD_HEX_RECORD_EOF) with true. hv_cbn.
  destruct (deref hex (L + 11) =? 0) eqn:E11; hv_cbn.
  - destruct (hex_continue hex hex_end _); reflexivity.
  - destruct (hex_continue hex hex_end _); reflexivity.
Qed.

(** An EOF record with the right checksum ends the load with success,
    whatever follows it. *)
Lemma hex_eof_record (fuel : nat) (line0 : Z) (cm0 : option Ptr)
    (len0 adr0 rt0 ck0 : Z) (h : Heap) :
  deref hex line0 <> 0 ->
  (16 <= fuel)%nat ->
  hex_loop fuel clem hex None bank
    (mkHexVars line0 L CLEM_LOAD_HEX_STATE_BEGIN cm0 len0 adr0 rt0 ck0 h)
  = HexDone true h.
Proof.
  intros N0 Hf.
  replace fuel with (14 + (fuel - 14))%nat by lia.
  rewrite (hex_loop_iter 14 _ clem hex None bank _ _
             (hex_eof_passes line0 cm0 len0 adr0 rt0 ck0 h N0)).
  apply hex_eof_final. lia.
Qed.

End HexEofRecord.

(** *** Whole texts *)

(** The text holds, at offset [E], an EOF record with the right checksum:
    ':', a length and an address field, the type 01 and the checksum. *)
Definition hex_eof_at (hex : string) (E : Z) : Prop :=
  exists len adr chk,
    deref hex E = 58 /\
    _clem_util_hex_value hex (E + 1) (E + 3) = Some len /\
    _clem_util_hex_value hex (E + 3) (E + 7) = Some adr /\
    _clem_util_hex_value hex (E + 7) (E + 9) = Some 1 /\
    _clem_util_hex_value hex (E + 9) (E + 11) = Some chk /\
    u8 (1 + Z.lnot (hex_header_sum len adr 1)) = Z.land chk 255 /\
    forall i, E <= i < E + 11 -> deref hex i <> 0.

(** The text holds, at offset [L], a data record with the length field
    [len], the address field [adr], the data bytes [d 0], [d 1], ... and the
    checksum field [chk], and one more character behind it. The data field
    is taken to be [max(len, 1)] bytes long, as the loader reads it. *)
Definition hex_data_at (hex : string) (L len adr : Z) (d : Z -> Z) (chk : Z)
    : Prop :=
  deref hex L = 58 /\
  _clem_util_hex_value hex (L + 1) (L + 3) = Some len /\
  _clem_util_hex_value hex (L + 3) (L + 7) = Some adr /\
  _clem_util_hex_value hex (L + 7) (L + 9) = Some 0 /\
  (forall t, 0 <= t < hex_data_count len ->
     _clem_util_hex_value hex (L + 9 + 2 * t) (L + 11 + 2 * t) = Some (d t)) /\
  _clem_util_hex_value hex (L + 9 + 2 * hex_data_count len)
    (L + 11 + 2 * hex_data_count len) = Some chk /\
  forall i, L <= i < L + 12 + 2 * hex_data_count len -> deref hex i <> 0.

(** X11: a text that begins with an EOF record of the right checksum loads
    with success and without a store into a mapped bank, whatever follows
    the record. *)
Theorem clemens_load_hex_eof_record
    (fuel : nat) (clem : ClemensMachine) (h : Heap) (hex : string) (bank : Z) :
  0 <= bank < 256 ->
  nth (Z.to_nat bank) (fpi_bank_map (mem clem)) None <> None ->
  hex_eof_at hex 0 ->
  (16 <= fuel)%nat ->
  clemens_load_hex fuel clem h hex None bank = HexDone true h.
Proof.
  intros Hb Hm (len & adr & chk & Hc & Hl & Ha & Ht & Hk & Hs & Hn) Hf.
  destruct (nth (Z.to_nat bank) (fpi_bank_map (mem clem)) None) as [p|] eqn:Mp;
    [|congruence].
  unfold clemens_load_hex.
  apply (hex_eof_record clem hex bank p 0 len adr chk); try assumption.
  rewrite Hc. discriminate.
Qed.

(** The bank after a data record, and the verdict on its checksum. *)
Definition hex_loaded (h : Heap) (p : Ptr) (len adr : Z) (d : Z -> Z) : Heap :=
  hex_stored h p (Z.land adr 65535) d 0 (Z.to_nat (hex_data_count len)).

Definition hex_record_ok (len adr : Z) (d : Z -> Z) (chk : Z) : bool :=
  u8 (1 + Z.lnot (hex_record_sum len adr d)) =? Z.land chk 255.

(** X12: a text that begins with a data record is loaded as follows. The
    record stores [max(len, 1)] bytes, byte [t] at [adr + t] with the offset
    wrapping at 64 KiB, and nothing else changes in the host's buffers; the
    stores are made before the checksum is looked at. With a wrong checksum
    the load then fails. With the right one the loader skips the character
    behind the checksum field unread and then everything up to the next
    line feed, and an EOF record behind that line feed ends the load with
    success. *)
Theorem clemens_load_hex_data_record
    (fuel : nat) (clem : ClemensMachine) (h : Heap) (hex : string) (bank : Z)
    (p : Ptr) (len adr : Z) (d : Z -> Z) (chk : Z) (m : nat) :
  0 <= bank < 256 ->
  nth (Z.to_nat bank) (fpi_bank_map (mem clem)) None = Some p ->
  bank_readable h p ->
  hex_data_at hex 0 len adr d chk ->
  (forall i, 12 + 2 * hex_data_count len <= i
             < 12 + 2 * hex_data_count len + Z.of_nat m ->
     deref hex i <> 0 /\ deref hex i <> 10 /\ deref hex i <> 13) ->
  deref hex (12 + 2 * hex_data_count len + Z.of_nat m) = 10 ->
  hex_eof_at hex (13 + 2 * hex_data_count len + Z.of_nat m) ->
  (2 * Z.to_nat (hex_data_count len) + m + 40 <= fuel)%nat ->
  clemens_load_hex fuel clem h hex None bank
  = HexDone (hex_record_ok len adr d chk) (hex_loaded h p len adr d) /\
  (forall t, 0 <= t < hex_data_count len ->
     zth (heap_get (hex_loaded h p len adr d) (ptr_region p))
         (ptr_off p + (Z.land adr 65535 + t) mod 65536)
     = (d t) mod 256) /\
  (forall r j, 0 <= j ->
     (forall t, 0 <= t < hex_data_count len ->
        ~ (r = ptr_region p
           /\ j = ptr_off p + (Z.land adr 65535 + t) mod 65536)) ->
     zth (heap_get (hex_loaded h p len adr d) r) j = zth (heap_get h r) j) /\
  (forall r, length (heap_get (hex_loaded h p len adr d) r)
             = length (heap_get h r)).
Proof.
  set (n := hex_data_count len). set (adr16 := Z.land adr 65535).
  unfold hex_record_ok.
  set (ok := u8 (1 + Z.lnot (hex_record_sum len adr d)) =? Z.land chk 255).
  unfold hex_loaded. fold n. fold adr16.
  set (h' := hex_stored h p adr16 d 0 (Z.to_nat n)).
  intros Hb Mp Hr (Hc & Hl & Ha & Ht & Hd & Hk & Hn) Hskip Hlf
    (len1 & adr1 & chk1 & Hc1 & Hl1 & Ha1 & Ht1 & Hk1 & Hs1 & Hn1) Hf.
  pose proof (hex_value_byte hex (0 + 1) (0 + 3) len ltac:(lia) Hl) as Hlen.
  assert (Hnn : 1 <= n < 256) by (subst n; unfold hex_data_count; lia).
  assert (Hp : 0 <= ptr_off p)
    by (unfold bank_readable in Hr; apply in_bounds_true in Hr; lia).
  split; [|split; [|split]].
  - unfold clemens_load_hex.
    replace fuel
      with ((16 + 2 * Z.to_nat n) + (fuel - 16 - 2 * Z.to_nat n))%nat by lia.
    rewrite (hex_loop_iter _ _ clem hex None bank _ _
               (hex_data_record clem hex bank p 0 len adr chk d Hb Mp Hc Hl Ha
                  Ht Hd Hk Hn 0 None 0 0 CLEM_LOAD_HEX_RECORD_NONE 0 h
                  ltac:(rewrite Hc; discriminate) Hr)).
    fold n. fold adr16. fold h'. fold ok.
    change (0 + 12 + 2 * n) with (12 + 2 * n).
    assert (N12 : deref hex (12 + 2 * n) <> 0).
    { destruct m as [|m'].
      - rewrite Z.add_0_r in Hlf. rewrite Hlf. discriminate.
      - apply Hskip. lia. }
    destruct ok.
    + replace (fuel - 16 - 2 * Z.to_nat n)%nat
        with (m + (1 + (fuel - 17 - 2 * Z.to_nat n - m)))%nat by lia.
      rewrite (hex_loop_iter m _ clem hex None bank _
                 (mkHexVars (12 + 2 * n) (12 + 2 * n + Z.of_nat m)
                    CLEM_LOAD_HEX_STATE_EOL (Some p) len adr16 0
                    (u8 (1 + Z.lnot (hex_record_sum len adr d))) h')).
      2:{ rewrite hex_idle_run.
          - reflexivity.
          - exact N12.
          - intros i Hi. hv_cbn. unfold hex_idle. hv_cbn.
            destruct (Hskip (12 + 2 * n + i) ltac:(lia)) as (S0 & S10 & S13).
            apply Z.eqb_neq in S10, S13. rewrite S10, S13. auto. }
      rewrite (hex_loop_iter 1 _ clem hex None bank _
                 (mkHexVars (13 + 2 * n + Z.of_nat m) (13 + 2 * n + Z.of_nat m)
                    CLEM_LOAD_HEX_STATE_BEGIN (Some p) len adr16 0
                    (u8 (1 + Z.lnot (hex_record_sum len adr d))) h')).
      2:{ apply hex_iter_one.
          - unfold hex_continue. hv_cbn. apply Z.eqb_neq in N12. rewrite N12.
            reflexivity.
          - rewrite hex_body_eol_lf by exact Hlf.
            replace (12 + 2 * n + Z.of_nat m + 1)
              with (13 + 2 * n + Z.of_nat m) by lia.
            reflexivity. }
      apply (hex_eof_record clem hex bank p (13 + 2 * n + Z.of_nat m)
               len1 adr1 chk1); try assumption.
      * rewrite Hc1. discriminate.
      * lia.
    + destruct (fuel - 16 - 2 * Z.to_nat n)%nat as [|f] eqn:Ef; [lia|].
      cbn [hex_loop]. unfold hex_continue. hv_cbn.
      apply Z.eqb_neq in N12. rewrite N12. reflexivity.
  - intros t Ht'. subst h'.
    apply (hex_stored_byte p adr16 d (Z.to_nat n) h 0 t); try assumption; lia.
  - intros r j Hj Hno. subst h'.
    apply hex_stored_frame; try assumption.
    intros t Ht'. apply Hno. lia.
  - intros r. subst h'. apply hex_stored_length, Hr.
Qed.

(** A property of the offsets [lo], [lo + 1], ..., checked one by one. *)
Lemma forall_range (P : Z -> bool) (k : nat) :
  forall lo, forallb P (zseq k lo) = true ->
  forall i, lo <= i < lo + Z.of_nat k -> P i = true.
Proof.
  induction k as [|k IH]; intros lo H i Hi; [lia|].
  cbn [zseq forallb] in H. apply andb_true_iff in H. destruct H as [H0 H1].
  destruct (Z.eq_dec i lo) as [->|Hne]; [exact H0|].
  apply (IH (lo + 1) H1). lia.
Qed.

Lemma hex_no_nul_range (hex : string) (lo : Z) (k : nat) :
  forallb (fun i => negb (deref hex i =? 0)) (zseq k lo) = true ->
  forall i, lo <= i < lo + Z.of_nat k -> deref hex i <> 0.
Proof.
  intros H i Hi.
  pose proof (forall_range (fun i => negb (deref hex i =? 0)) k lo H i Hi) as Q.
  cbv beta in Q. apply negb_true_iff, Z.eqb_neq in Q. exact Q.
Qed.

(** The EOF record of the Intel HEX format. *)
Definition eof_text : string := ":00000001FF".

Lemma eof_text_eof : hex_eof_at eof_text 0.
Proof.
  exists 0, 0, 255. repeat split; try (vm_compute; reflexivity).
  apply (hex_no_nul_range eof_text 0 11). vm_compute. reflexivity.
Qed.

Lemma clemens_load_hex_eof_record_witness :
  clemens_load_hex 16 hex_machine hex_heap eof_text None 0
  = HexDone true hex_heap.
Proof.
  apply (clemens_load_hex_eof_record 16 hex_machine hex_heap eof_text 0).
  - lia.
  - discriminate.
  - exact eof_text_eof.
  - lia.
Defined.

(** Two data records and an EOF record with bare line feeds between
    them; the same text with CR LF. *)
Definition lf_text : string :=
  ":0100000041BE" ++ nl ++ ":0100010042BC" ++ nl ++ ":00000001FF" ++ nl.

Definition cr : string := String (ascii_of_nat 13) EmptyString.

Definition crlf_text : string :=
  ":0100000041BE" ++ cr ++ nl ++ ":0100010042BC" ++ cr ++ nl
  ++ ":00000001FF" ++ cr ++ nl.

Lemma lf_text_data : hex_data_at lf_text 0 1 0 (fun _ => 65) 190.
Proof.
  repeat split; try (vm_compute; reflexivity).
  - intros t Ht. change (hex_data_count 1) with 1 in Ht.
    assert (t = 0) as -> by lia. vm_compute. reflexivity.
  - apply (hex_no_nul_range lf_text 0 14). vm_compute. reflexivity.
Qed.

Lemma lf_text_eof : hex_eof_at lf_text 28.
Proof.
  exists 0, 0, 255. repeat split; try (vm_compute; reflexivity).
  apply (hex_no_nul_range lf_text 28 11). vm_compute. reflexivity.
Qed.

Definition lf_loaded : Heap :=
  hex_loaded dump_heap (mkPtr RegionFpiRAM 0) 1 0 (fun _ => 65).

Lemma clemens_load_hex_data_record_witness :
  clemens_load_hex 60 dump_machine dump_heap lf_text None 0
  = HexDone true lf_loaded /\
  (forall t, 0 <= t < 1 ->
     zth (heap_get lf_loaded RegionFpiRAM) (0 + (0 + t) mod 65536)
     = 65 mod 256) /\
  (forall r j, 0 <= j ->
     (forall t, 0 <= t < 1 ->
        ~ (r = RegionFpiRAM /\ j = 0 + (0 + t) mod 65536)) ->
     zth (heap_get lf_loaded r) j = zth (heap_get dump_heap r) j) /\
  (forall r, length (heap_get lf_loaded r) = length (heap_get dump_heap r)).
Proof.
  apply (clemens_load_hex_data_record 60 dump_machine dump_heap lf_text 0
           (mkPtr RegionFpiRAM 0) 1 0 (fun _ => 65) 190 13).
  - lia.
  - reflexivity.
  - exact dump_heap_readable.
  - exact lf_text_data.
  - intros i Hi.
    pose proof (forall_range
                  (fun i => negb (deref lf_text i =? 0)
                            && negb (deref lf_text i =? 10)
                            && negb (deref lf_text i =? 13)) 13 14
                  ltac:(vm_compute; reflexivity) i) as Q.
    cbv beta in Q. change (hex_data_count 1) with 1 in Hi.
    specialize (Q ltac:(lia)).
    apply andb_true_iff in Q. destruct Q as [Q Q3].
    apply andb_true_iff in Q. destruct Q as [Q1 Q2].
    apply negb_true_iff, Z.eqb_neq in Q1, Q2, Q3. auto.
  - vm_compute. reflexivity.
  - exact lf_text_eof.
  - vm_compute. lia.
Defined.

(** With bare line feeds the second data record is not loaded; with CR LF
    it is. *)
Example clemens_load_hex_line_ends :
  hex_outcome (clemens_load_hex 200 hex_machine hex_heap lf_text None 0)
  = Some (true, [65; 0]) /\
  hex_outcome (clemens_load_hex 200 hex_machine hex_heap crlf_text None 0)
  = Some (true, [65; 66]).
Proof. split; vm_compute; reflexivity. Qed.

(** A data record of length 0 stores its checksum field as a byte, at
    its address, and then fails on the line end that it reads as the
    checksum. *)
Example clemens_load_hex_empty_record :
  hex_outcome
    (clemens_load_hex 200 hex_machine hex_heap
       (":00000000FE" ++ cr ++ nl ++ ":00000001FF" ++ cr ++ nl) None 0)
  = Some (false, [254; 0]).
Proof. vm_compute. reflexivity. Qed.

(** *** A NUL before [hex_end] *)

(** The states in which the scanner waits for more characters of a
    record or of a line. *)
Definition hex_waiting (st : HexState) : bool :=
  match st with
  | CLEM_LOAD_HEX_STATE_LENGTH | CLEM_LOAD_HEX_STATE_ADR16
  | CLEM_LOAD_HEX_STATE_RECORD | CLEM_LOAD_HEX_STATE_DATA
  | CLEM_LOAD_HEX_STATE_CHKSUM | CLEM_LOAD_HEX_STATE_EOL => true
  | _ => false
  end.

Lemma hex_body_stuck (clem : ClemensMachine) (hex : string) (bank : Z)
    (v : HexVars) :
  hex_waiting (hv_state v) = true ->
  hv_line v = hv_next v ->
  deref hex (hv_next v) = 0 ->
  hex_body clem hex bank v = HexNext v.
Proof.
  destruct v as [line next st cm len adr rt ck h]. hv_cbn.
  intros W -> N. unfold hex_body, hex_switch. hv_cbn.
  rewrite Z.sub_diag. change (u32 0) with 0.
  destruct st; try discriminate W; hv_cbn;
    cbn [Z.eqb Z.modulo Z.div Z.ltb Z.compare andb Z.div_eucl];
    rewrite ?N; cbn [Z.eqb]; hv_cbn; rewrite ?N; reflexivity.
Qed.

Lemma hex_loop_stuck (clem : ClemensMachine) (hex : string) (e bank : Z)
    (v : HexVars) :
  hex_waiting (hv_state v) = true ->
  hv_line v = hv_next v ->
  deref hex (hv_next v) = 0 ->
  hv_line v < e ->
  forall fuel, hex_loop fuel clem hex (Some e) bank v = HexOutOfFuel.
Proof.
  intros W E N Hl fuel. induction fuel as [|fuel IH]; [reflexivity|].
  cbn [hex_loop]. unfold hex_continue.
  replace (hv_line v <? e) with true by lia. cbn [orb].
  rewrite hex_body_stuck by assumption. exact IH.
Qed.

Lemma hex_loop_short (n : nat) (clem : ClemensMachine) (hex : string)
    (hex_end : option Z) (bank : Z) :
  forall (v v' : HexVars) (fuel : nat),
    hex_iter n clem hex hex_end bank v = Some v' ->
    (fuel <= n)%nat ->
    hex_loop fuel clem hex hex_end bank v = HexOutOfFuel.
Proof.
  induction n as [|n IH]; intros v v' fuel H Hf.
  - assert (fuel = 0%nat) as -> by lia. reflexivity.
  - destruct fuel as [|fuel]; [reflexivity|].
    cbn [hex_iter] in H. cbn [hex_loop].
    destruct (hex_continue hex hex_end v); [|discriminate].
    destruct (hex_body clem hex bank v) as [| |v1|]; try discriminate.
    apply (IH v1 v'); [exact H | lia].
Qed.

(** X13: when the scanner, inside a record or skipping the rest of a
    line, comes to stand on a NUL that lies before [hex_end], the loader
    never returns: every later pass leaves [line], [next] and the state as
    they are, and the loop test holds on [line < hex_end]. *)
Theorem clemens_load_hex_hangs
    (clem : ClemensMachine) (h : Heap) (hex : string) (e bank : Z) (n : nat)
    (v : HexVars) :
  hex_iter n clem hex (Some e) bank (hex_init h) = Some v ->
  hex_waiting (hv_state v) = true ->
  hv_line v = hv_next v ->
  deref hex (hv_next v) = 0 ->
  hv_line v < e ->
  forall fuel, clemens_load_hex fuel clem h hex (Some e) bank = HexOutOfFuel.
Proof.
  intros I W E N Hl fuel. unfold clemens_load_hex. fold (hex_init h).
  destruct (Nat.le_gt_cases fuel n) as [Hf|Hf].
  - apply (hex_loop_short n clem hex (Some e) bank _ v); assumption.
  - replace fuel with (n + (fuel - n))%nat by lia.
    rewrite (hex_loop_iter n _ clem hex (Some e) bank _ _ I).
    apply hex_loop_stuck; assumption.
Qed.

(** A data record without a line end behind it, and [hex_end] one past
    the terminating NUL. *)
Definition open_text : string := ":0100000041BE".

Definition open_vars : HexVars :=
  from_option (hex_init hex_heap)
    (hex_iter 18 hex_machine open_text (Some 14) 0 (hex_init hex_heap)).

Lemma clemens_load_hex_hangs_witness :
  clemens_load_hex 1000 hex_machine hex_heap open_text (Some 14) 0
  = HexOutOfFuel.
Proof.
  apply (clemens_load_hex_hangs hex_machine hex_heap open_text 14 0 18 open_vars).
  - vm_compute. reflexivity.
  - vm_compute. reflexivity.
  - vm_compute. reflexivity.
  - vm_compute. reflexivity.
  - vm_compute. reflexivity.
Defined.

(** The same text with [hex_end] NULL or at the NUL loads. *)
Example clemens_load_hex_open_text :
  hex_outcome (clemens_load_hex 200 hex_machine hex_heap open_text None 0)
  = Some (true, [65; 0]) /\
  hex_outcome (clemens_load_hex 200 hex_machine hex_heap open_text (Some 13) 0)
  = Some (true, [65; 0]) /\
  clemens_load_hex 200 hex_machine hex_heap open_text (Some 14) 0
  = HexOutOfFuel.
Proof. repeat split; vm_compute; reflexivity. Qed.

(* --------------------------------------------------------------------- *)
(** ** The step entry point over several calls *)
(* --------------------------------------------------------------------- *)

(** [n] calls of [clemens_emulate_cpu] in a row, the host leaving the
    machine alone in between. *)
Fixpoint emulate_n (vt : VectorTable) (table : Z -> option Opcode)
    (ndebug : bool) (n : nat) (s : ClemensMachine) : option ClemensMachine :=
  match n with
  | O => Some s
  | Datatypes.S n' =>
      match clemens_emulate_cpu vt table ndebug s with
      | Some s' => emulate_n vt table ndebug n' s'
      | None => None
      end
  end.

(** One call with the reset line low. *)
Lemma reset_low_step (vt : VectorTable) (table : Z -> option Opcode)
    (ndebug : bool) (s : ClemensMachine) :
  resbIn (pins (cpu s)) = false ->
  exists s1,
    clemens_emulate_cpu vt table ndebug s = Some s1 /\
    state_type (cpu s1) = kClemensCPUStateType_Reset /\
    enabled (cpu s1)
      = (if state_type_eqb (state_type (cpu s)) kClemensCPUStateType_Reset
         then enabled (cpu s) else true) /\
    resb_counter s1
      = (if 0 <? resb_counter s then resb_counter s - 1 else resb_counter s) /\
    resbIn (pins (cpu s1)) = ((0 <? resb_counter s) && (resb_counter s <=? 1)) /\
    cycles_spent (cpu s1)
      = u32 (cycles_spent (cpu s)
             + (if state_type_eqb (state_type (cpu s)) kClemensCPUStateType_Reset
                then 1 else 2)) /\
    bus s1 = bus s.
Proof.
  intros R. destruct_machine s. cbn in R. subst.
  unfold clemens_emulate_cpu. cbn [cpu pins resbIn negb state_type].
  eexists. split; [reflexivity|].
  destruct state_type0; mcbn; rewrite ?u32_add_l, <- ?Z.add_assoc;
    repeat split; try reflexivity;
    replace (resb_counter0 - 1 <=? 0) with (resb_counter0 <=? 1) by lia;
    destruct ((0 <? resb_counter0) && (resb_counter0 <=? 1)); reflexivity.
Qed.

(** X14: the countdown of the reset line. With the line low and
    [resb_counter] at [n + 1], the emulator itself raises the line on call
    [n + 1] and not before; each of these calls costs one cycle, the first
    one more when it enters the reset state, and none touches the memory.
    With a counter that is not positive the line stays low for good. *)
Theorem clemens_emulate_cpu_reset_countdown
    (vt : VectorTable) (table : Z -> option Opcode) (ndebug : bool) (n : nat) :
  forall s,
    resbIn (pins (cpu s)) = false ->
    (resb_counter s = Z.of_nat (Datatypes.S n) ->
     exists s',
       emulate_n vt table ndebug (Datatypes.S n) s = Some s' /\
       resbIn (pins (cpu s')) = true /\
       resb_counter s' = 0 /\
       state_type (cpu s') = kClemensCPUStateType_Reset /\
       cycles_spent (cpu s')
         = u32 (cycles_spent (cpu s) + Z.of_nat (Datatypes.S n)
                + (if state_type_eqb (state_type (cpu s))
                        kClemensCPUStateType_Reset then 0 else 1)) /\
       bus s' = bus s /\
       exists sn,
         emulate_n vt table ndebug n s = Some sn /\
         resbIn (pins (cpu sn)) = false /\ resb_counter sn = 1) /\
    (resb_counter s <= 0 ->
     exists s',
       emulate_n vt table ndebug n s = Some s' /\
       resbIn (pins (cpu s')) = false /\ resb_counter s' = resb_counter s).
Proof.
  induction n as [|n IH]; intros s R; split.
  - intros C. destruct (reset_low_step vt table ndebug s R)
      as (s1 & E & St & _ & Rc & Rb & Cy & B).
    exists s1. cbn [emulate_n]. rewrite E. rewrite C in Rc, Rb.
    cbn in Rc, Rb. repeat split; try assumption.
    + rewrite Cy. f_equal.
      destruct (state_type_eqb _ _); cbn [Z.of_nat Pos.of_succ_nat]; lia.
    + exists s. auto.
  - intros C. exists s. cbn [emulate_n]. auto.
  - intros C. destruct (reset_low_step vt table ndebug s R)
      as (s1 & E & St & _ & Rc & Rb & Cy & B).
    assert (C1 : resb_counter s1 = Z.of_nat (Datatypes.S n)).
    { rewrite Rc. replace (0 <? resb_counter s) with true by lia. lia. }
    assert (R1 : resbIn (pins (cpu s1)) = false).
    { rewrite Rb. replace (resb_counter s <=? 1) with false by lia.
      apply andb_false_r. }
    destruct (IH s1 R1) as [IH1 _].
    destruct (IH1 C1) as (s' & E' & R' & C' & St' & Cy' & B' & sn & En & Rn & Cn).
    exists s'. remember (Datatypes.S n) as k. cbn [emulate_n]. subst k.
    rewrite E. repeat split; try assumption.
    + rewrite Cy', St, Cy. cbn [state_type_eqb]. rewrite Z.add_0_r, u32_add_l.
      f_equal. destruct (state_type_eqb _ _); lia.
    + congruence.
    + exists sn. cbn [emulate_n]. rewrite E. auto.
  - intros C. destruct (reset_low_step vt table ndebug s R)
      as (s1 & E & St & _ & Rc & Rb & Cy & B).
    assert (C1 : resb_counter s1 = resb_counter s).
    { rewrite Rc. replace (0 <? resb_counter s) with false by lia. reflexivity. }
    assert (R1 : resbIn (pins (cpu s1)) = false).
    { rewrite Rb. replace (0 <? resb_counter s) with false by lia. reflexivity. }
    destruct (IH s1 R1) as [_ IH2].
    destruct (IH2 ltac:(lia)) as (s' & E' & R' & C').
    exists s'. cbn [emulate_n]. rewrite E. repeat split; congruence.
Qed.

(** A running native-mode machine whose reset line has just been pulled
    low for three calls. *)
Definition countdown_machine : ClemensMachine :=
  set_resb_counter 3 (hold_reset reset_machine).

Lemma clemens_emulate_cpu_reset_countdown_witness :
  exists s',
    emulate_n wdc_vectors wdc_opcode_of_byte true 3 countdown_machine = Some s' /\
    resbIn (pins (cpu s')) = true /\
    resb_counter s' = 0 /\
    state_type (cpu s') = kClemensCPUStateType_Reset /\
    cycles_spent (cpu s')
      = u32 (cycles_spent (cpu countdown_machine) + Z.of_nat 3
             + (if state_type_eqb (state_type (cpu countdown_machine))
                     kClemensCPUStateType_Reset then 0 else 1)) /\
    bus s' = bus countdown_machine /\
    exists sn,
      emulate_n wdc_vectors wdc_opcode_of_byte true 2 countdown_machine = Some sn /\
      resbIn (pins (cpu sn)) = false /\ resb_counter sn = 1.
Proof.
  destruct (clemens_emulate_cpu_reset_countdown wdc_vectors wdc_opcode_of_byte
              true 2 countdown_machine eq_refl) as [H _].
  exact (H eq_refl).
Defined.

(** The fourth call then leaves the reset state through the vector. *)
Example reset_countdown_completes :
  option_map (fun s' => (PC (regs (cpu s')), cycles_spent (cpu s')))
    (emulate_n wdc_vectors wdc_opcode_of_byte true 4 countdown_machine)
  = Some (4660, 9).
Proof. vm_compute. reflexivity. Qed.

(** A stopped processor with the reset line high does nothing. *)
Lemma emulate_n_disabled (vt : VectorTable) (table : Z -> option Opcode)
    (ndebug : bool) (s : ClemensMachine) (n : nat) :
  resbIn (pins (cpu s)) = true ->
  enabled (cpu s) = false ->
  emulate_n vt table ndebug n s = Some s.
Proof.
  intros R E. induction n as [|n IH]; [reflexivity|].
  cbn [emulate_n]. unfold clemens_emulate_cpu. rewrite R, E. exact IH.
Qed.

(** X15: STP stops the processor until the next reset: the instruction
    clears [enabled] and moves PC behind the opcode; from then on, for as
    long as the reset line stays high, a call changes nothing at all, not
    even the clock; a call with the line low enables the processor again. *)
Theorem cpu_execute_stp
    (vt : VectorTable) (table : Z -> option Opcode) (ndebug : bool)
    (s : ClemensMachine) :
  resbIn (pins (cpu s)) = true ->
  enabled (cpu s) = true ->
  state_type (cpu s) = kClemensCPUStateType_Execute ->
  table (u8 (bus_read (bus s) (u8 (PBR (regs (cpu s)))) (u16 (PC (regs (cpu s))))))
    = Some CLEM_OPC_STP ->
  exists s',
    clemens_emulate_cpu vt table ndebug s = Some s' /\
    enabled (cpu s') = false /\
    PC (regs (cpu s')) = u16 (PC (regs (cpu s)) + 1) /\
    cycles_spent (cpu s') = u32 (cycles_spent (cpu s) + 3) /\
    (forall n, emulate_n vt table ndebug n s' = Some s') /\
    exists s'',
      clemens_emulate_cpu vt table ndebug (hold_reset s') = Some s'' /\
      enabled (cpu s'') = true /\
      state_type (cpu s'') = kClemensCPUStateType_Reset.
Proof.
  intros Hr He Hs Hop. destruct_machine s. cbn in Hr, He, Hs. subst.
  mcbn_in Hop.
  unfold clemens_emulate_cpu at 1, cpu_execute. mcbn. rewrite andb_false_r.
  rewrite Hop. mcbn.
  eexists. split; [reflexivity|]. mcbn.
  split; [reflexivity|]. split; [apply u16_idem|].
  split; [rewrite u32_add_l, <- Z.add_assoc; reflexivity|].
  split.
  - intros n. apply emulate_n_disabled; reflexivity.
  - eexists. split; [reflexivity|]. mcbn. split; reflexivity.
Qed.

(** STP at 00:0800, then NOPs. *)
Definition stp_machine : ClemensMachine :=
  machine_of [(2048, 219); (2049, 234)] (mkRegs 7 1 2 0 511 2048 0 48 0 0) true
             kClemensCPUStateType_Execute.

Lemma cpu_execute_stp_witness :
  exists s',
    clemens_emulate_cpu wdc_vectors wdc_opcode_of_byte true stp_machine = Some s' /\
    enabled (cpu s') = false /\
    PC (regs (cpu s')) = u16 (PC (regs (cpu stp_machine)) + 1) /\
    cycles_spent (cpu s') = u32 (cycles_spent (cpu stp_machine) + 3) /\
    (forall n, emulate_n wdc_vectors wdc_opcode_of_byte true n s' = Some s') /\
    exists s'',
      clemens_emulate_cpu wdc_vectors wdc_opcode_of_byte true (hold_reset s')
        = Some s'' /\
      enabled (cpu s'') = true /\
      state_type (cpu s'') = kClemensCPUStateType_Reset.
Proof.
  apply (cpu_execute_stp wdc_vectors wdc_opcode_of_byte true stp_machine);
    reflexivity.
Defined.

(* --------------------------------------------------------------------- *)
(** ** Interrupt vectors, once more *)
(* --------------------------------------------------------------------- *)

(** The 16-bit value that the vector pair [vlo], [vhi] of bank 0 holds. *)
Definition vector_at (b : Bus) (vlo vhi : Z) : Z :=
  u16 (Z.lor (Z.shiftl (bus_read b 0 (u16 vhi)) 8) (bus_read b 0 (u16 vlo))).

(** X16: a pending IRQ, in either mode, and a pending NMI in emulation
    mode are taken through their own vector pair: PC is loaded from it, low
    byte and high byte, the program bank becomes 0, I is set and D cleared,
    and the processor is back in the execute state. (The native NMI is the
    one transition that reads the low vector address twice.) *)
Theorem clemens_emulate_cpu_interrupt_vector
    (vt : VectorTable) (table : Z -> option Opcode) (ndebug : bool)
    (s : ClemensMachine) (nmi : bool) :
  resbIn (pins (cpu s)) = true ->
  enabled (cpu s) = true ->
  state_type (cpu s)
    = (if nmi then kClemensCPUStateType_NMI else kClemensCPUStateType_IRQ) ->
  (nmi = true -> emulation (pins (cpu s)) = true) ->
  exists s',
    clemens_emulate_cpu vt table ndebug s = Some s' /\
    PC (regs (cpu s'))
      = (if emulation (pins (cpu s))
         then if nmi
              then vector_at (bus s') (CLEM_6502_NMI_VECTOR_LO_ADDR vt)
                     (CLEM_6502_NMI_VECTOR_HI_ADDR vt)
              else vector_at (bus s') (CLEM_6502_IRQBRK_VECTOR_LO_ADDR vt)
                     (CLEM_6502_IRQBRK_VECTOR_HI_ADDR vt)
         else vector_at (bus s') (CLEM_65816_IRQB_VECTOR_LO_ADDR vt)
                (CLEM_65816_IRQB_VECTOR_HI_ADDR vt)) /\
    PBR (regs (cpu s')) = 0 /\
    state_type (cpu s') = kClemensCPUStateType_Execute /\
    emulation (pins (cpu s')) = emulation (pins (cpu s)) /\
    flag (P (regs (cpu s'))) kClemensCPUStatus_IRQDisable = true /\
    flag (P (regs (cpu s'))) kClemensCPUStatus_Decimal = false /\
    cycles_spent (cpu s')
      = u32 (cycles_spent (cpu s)
             + (if emulation (pins (cpu s)) then 7 else 8)).
Proof.
  intros Hr He Hs Hn. destruct_machine s. cbn in Hr, He, Hs, Hn. subst.
  unfold vector_at.
  destruct nmi; [rewrite (Hn eq_refl)|destruct emulation0];
    (eexists; split; [reflexivity|]); mcbn; change (u8 0) with 0;
    rewrite flag_IRQDisable, flag_Decimal;
    rewrite !testbit_u8, !testbit_p_assign by lia;
    repeat (rewrite u32_add_l || rewrite <- Z.add_assoc);
    repeat split; reflexivity.
Qed.

(** Emulation mode, IRQ pending, the vector FFFE/FFFF holding 0x1234. *)
Definition irq_machine : ClemensMachine :=
  machine_of [(65534, 52); (65535, 18)] (mkRegs 0 0 0 0 511 2048 0 56 0 0)
             true kClemensCPUStateType_IRQ.

Lemma clemens_emulate_cpu_interrupt_vector_witness :
  exists s',
    clemens_emulate_cpu wdc_vectors wdc_opcode_of_byte true irq_machine = Some s' /\
    PC (regs (cpu s'))
      = (if emulation (pins (cpu irq_machine))
         then if false
              then vector_at (bus s') (CLEM_6502_NMI_VECTOR_LO_ADDR wdc_vectors)
                     (CLEM_6502_NMI_VECTOR_HI_ADDR wdc_vectors)
              else vector_at (bus s') (CLEM_6502_IRQBRK_VECTOR_LO_ADDR wdc_vectors)
                     (CLEM_6502_IRQBRK_VECTOR_HI_ADDR wdc_vectors)
         else vector_at (bus s') (CLEM_65816_IRQB_VECTOR_LO_ADDR wdc_vectors)
                (CLEM_65816_IRQB_VECTOR_HI_ADDR wdc_vectors)) /\
    PBR (regs (cpu s')) = 0 /\
    state_type (cpu s') = kClemensCPUStateType_Execute /\
    emulation (pins (cpu s')) = emulation (pins (cpu irq_machine)) /\
    flag (P (regs (cpu s'))) kClemensCPUStatus_IRQDisable = true /\
    flag (P (regs (cpu s'))) kClemensCPUStatus_Decimal = false /\
    cycles_spent (cpu s')
      = u32 (cycles_spent (cpu irq_machine)
             + (if emulation (pins (cpu irq_machine)) then 7 else 8)).
Proof.
  apply (clemens_emulate_cpu_interrupt_vector wdc_vectors wdc_opcode_of_byte true
           irq_machine false); try reflexivity; discriminate.
Defined.

(** The step of the witness: PC is 0x1234. *)
Example irq_emulation_loads_1234 :
  option_map (fun s' => PC (regs (cpu s')))
    (clemens_emulate_cpu wdc_vectors wdc_opcode_of_byte true irq_machine)
  = Some 4660.
Proof. vm_compute. reflexivity. Qed.

(** X17: BRK, in either mode, and COP in native mode go through their own
    vector pair: PC is loaded from it, the program bank becomes 0, I is set
    and D cleared. *)
Theorem cpu_execute_brk_cop_vector
    (vt : VectorTable) (table : Z -> option Opcode) (ndebug : bool)
    (s : ClemensMachine) (cop : bool) :
  resbIn (pins (cpu s)) = true ->
  enabled (cpu s) = true ->
  state_type (cpu s) = kClemensCPUStateType_Execute ->
  table (u8 (bus_read (bus s) (u8 (PBR (regs (cpu s)))) (u16 (PC (regs (cpu s))))))
    = Some (if cop then CLEM_OPC_COP else CLEM_OPC_BRK) ->
  (cop = true -> emulation (pins (cpu s)) = false) ->
  exists s',
    clemens_emulate_cpu vt table ndebug s = Some s' /\
    PC (regs (cpu s'))
      = (if emulation (pins (cpu s))
         then vector_at (bus s') (CLEM_6502_IRQBRK_VECTOR_LO_ADDR vt)
                (CLEM_6502_IRQBRK_VECTOR_HI_ADDR vt)
         else if cop
              then vector_at (bus s') (CLEM_65816_COP_VECTOR_LO_ADDR vt)
                     (CLEM_65816_COP_VECTOR_HI_ADDR vt)
              else vector_at (bus s') (CLEM_65816_BRK_VECTOR_LO_ADDR vt)
                     (CLEM_65816_BRK_VECTOR_HI_ADDR vt)) /\
    PBR (regs (cpu s')) = 0 /\
    emulation (pins (cpu s')) = emulation (pins (cpu s)) /\
    flag (P (regs (cpu s'))) kClemensCPUStatus_IRQDisable = true /\
    flag (P (regs (cpu s'))) kClemensCPUStatus_Decimal = false.
Proof.
  intros Hr He Hs Hop Hc. destruct_machine s. cbn in Hr, He, Hs, Hc. subst.
  mcbn_in Hop. unfold vector_at.
  unfold clemens_emulate_cpu, cpu_execute. mcbn. rewrite andb_false_r.
  rewrite Hop.
  destruct cop; [rewrite (Hc eq_refl)|destruct emulation0];
    mcbn; change (u8 0) with 0;
    (eexists; split; [reflexivity|]); mcbn;
    rewrite flag_IRQDisable, flag_Decimal;
    rewrite !testbit_u8, !testbit_p_assign by lia;
    repeat split; reflexivity.
Qed.

(** Native mode, BRK at 00:0800, the native BRK vector FFE6/FFE7 holding
    0x1234. *)
Definition brk_machine : ClemensMachine :=
  machine_of [(2048, 0); (2049, 0); (65510, 52); (65511, 18)]
             (mkRegs 0 0 0 0 511 2048 0 0 0 0) false kClemensCPUStateType_Execute.

Lemma cpu_execute_brk_cop_vector_witness :
  exists s',
    clemens_emulate_cpu wdc_vectors wdc_opcode_of_byte true brk_machine = Some s' /\
    PC (regs (cpu s'))
      = (if emulation (pins (cpu brk_machine))
         then vector_at (bus s') (CLEM_6502_IRQBRK_VECTOR_LO_ADDR wdc_vectors)
                (CLEM_6502_IRQBRK_VECTOR_HI_ADDR wdc_vectors)
         else if false
              then vector_at (bus s') (CLEM_65816_COP_VECTOR_LO_ADDR wdc_vectors)
                     (CLEM_65816_COP_VECTOR_HI_ADDR wdc_vectors)
              else vector_at (bus s') (CLEM_65816_BRK_VECTOR_LO_ADDR wdc_vectors)
                     (CLEM_65816_BRK_VECTOR_HI_ADDR wdc_vectors)) /\
    PBR (regs (cpu s')) = 0 /\
    emulation (pins (cpu s')) = emulation (pins (cpu brk_machine)) /\
    flag (P (regs (cpu s'))) kClemensCPUStatus_IRQDisable = true /\
    flag (P (regs (cpu s'))) kClemensCPUStatus_Decimal = false.
Proof.
  apply (cpu_execute_brk_cop_vector wdc_vectors wdc_opcode_of_byte true
           brk_machine false); try reflexivity; discriminate.
Defined.

Example brk_native_loads_1234 :
  option_map (fun s' => PC (regs (cpu s')))
    (clemens_emulate_cpu wdc_vectors wdc_opcode_of_byte true brk_machine)
  = Some 4660.
Proof. vm_compute. reflexivity. Qed.

(* --------------------------------------------------------------------- *)
(** ** Subroutine call and return *)
(* --------------------------------------------------------------------- *)

(** The stack pointer [n] steps on: inside page 1 in emulation mode, over
    the full 16 bits otherwise. *)
Definition stack_next (emu : bool) (s n : Z) : Z :=
  u16 (if emu then CLEM_UTIL_set16_lo s (u16 (s + n)) else u16 (s + n)).

Lemma writable_not_io (k : PageKind) : is_writable k = true -> is_io k = false.
Proof. destruct k; intros H; try discriminate H; reflexivity. Qed.

(** A write that does not go through the I/O gate leaves the bank map
    alone. *)
Lemma bus_kind_write (b : Bus) (bank adr data : Z) :
  is_io (bus_kind b bank (page_of adr)) = false ->
  bus_kind (bus_write b bank adr data) = bus_kind b.
Proof. intros H. unfold bus_write. rewrite H. reflexivity. Qed.

Lemma bus_read_write (b : Bus) (bank adr data bank' adr' : Z) :
  is_io (bus_kind b bank (page_of adr)) = false ->
  bus_read (bus_write b bank adr data) bank' adr'
  = if is_writable (bus_kind b bank (page_of adr)) && (bank' =? bank)
       && (adr' =? adr)
    then u8 data else bus_read b bank' adr'.
Proof.
  intros H. unfold bus_read, bus_write. rewrite H.
  cbn [bus_kind bus_mem bus_mmio].
  destruct (is_writable (bus_kind b bank (page_of adr))) eqn:W; cbn [andb];
    [|reflexivity].
  destruct (Z.eqb_spec bank' bank) as [->|]; cbn [andb]; [|reflexivity].
  destruct (Z.eqb_spec adr' adr) as [->|]; [|reflexivity].
  destruct (bus_kind b bank (page_of adr)); try discriminate W; reflexivity.
Qed.

Lemma land_hi_lo_disjoint (x y : Z) :
  Z.land (Z.land x 65280) (Z.land y 255) = 0.
Proof.
  apply Z.bits_inj'. intros n Hn.
  rewrite !Z.land_spec, testbit_255, testbit_65280, Z.bits_0 by lia.
  destruct (n <? 8) eqn:E.
  - replace (8 <=? n) with false by lia. cbn [andb].
    rewrite !andb_false_r. reflexivity.
  - rewrite !andb_false_r. reflexivity.
Qed.

Lemma lor_hi_lo (x y : Z) :
  Z.lor (Z.land x 65280) (Z.land y 255) = Z.land x 65280 + y mod 256.
Proof.
  pose proof (Z.add_lor_land (Z.land x 65280) (Z.land y 255)) as H.
  rewrite land_hi_lo_disjoint, Z.add_0_r in H. rewrite H. f_equal.
  apply land_255.
Qed.

Lemma land_65280 (a : Z) : 0 <= a < 65536 -> Z.land a 65280 = 256 * (a / 256).
Proof.
  intros H.
  pose proof (lor_hi_lo a a) as E.
  rewrite <- land_255, <- Z.land_lor_distr_r in E.
  change (Z.lor 65280 255) with 65535 in E.
  rewrite land_65535, land_255, Z.mod_small in E by lia.
  Z.div_mod_to_equations. lia.
Qed.

Lemma set16_lo_arith (a b : Z) :
  0 <= a < 65536 ->
  CLEM_UTIL_set16_lo a b = 256 * (a / 256) + b mod 256.
Proof.
  intros H. unfold CLEM_UTIL_set16_lo. rewrite lor_hi_lo, land_65280 by exact H.
  reflexivity.
Qed.

Lemma stack_next_range (emu : bool) (s n : Z) : 0 <= stack_next emu s n < 65536.
Proof. unfold stack_next, u16. apply Z.mod_pos_bound. lia. Qed.

(** The arithmetic of the stack pointer. *)
Lemma stack_next_arith (emu : bool) (s n : Z) :
  0 <= s < 65536 ->
  stack_next emu s n
  = if emu then 256 * (s / 256) + (s + n) mod 256 else (s + n) mod 65536.
Proof.
  intros H. unfold stack_next. destruct emu.
  - rewrite set16_lo_arith by exact H. unfold u16.
    rewrite Z.mod_small.
    + f_equal. rewrite Z.mod_mod_divide by (exists 256; reflexivity).
      reflexivity.
    + Z.div_mod_to_equations. lia.
  - unfold u16. apply Z.mod_mod. lia.
Qed.

Lemma join_bytes (h l : Z) :
  0 <= l < 256 -> Z.lor (Z.shiftl h 8) l = 256 * h + l.
Proof.
  intros Hl.
  pose proof (Z.add_lor_land (Z.shiftl h 8) l) as E.
  assert (Z0 : Z.land (Z.shiftl h 8) l = 0).
  { apply Z.bits_inj'. intros n Hn.
    rewrite Z.land_spec, Z.bits_0.
    destruct (Z.ltb_spec n 8).
    - rewrite Z.shiftl_spec_low by lia. reflexivity.
    - replace l with (Z.land l 255)
        by (rewrite land_255; apply Z.mod_small; lia).
      rewrite Z.land_spec, testbit_255 by lia.
      replace (n <? 8) with false by lia. rewrite !andb_false_r. reflexivity. }
  rewrite Z0, Z.add_0_r in E. rewrite E, Z.shiftl_mul_pow2 by lia.
  change (2 ^ 8) with 256. lia.
Qed.

(** The two bytes that a push of a 16-bit value leaves, read back. *)
Lemma join_pushed (v : Z) :
  0 <= v < 65536 ->
  Z.lor (Z.shiftl (u8 (u8 (Z.shiftr v 8))) 8) (u8 (u8 (Z.land v 255))) = v.
Proof.
  intros H. rewrite !u8_idem. rewrite land_255. rewrite Z.shiftr_div_pow2 by lia.
  change (2 ^ 8) with 256. unfold u8.
  rewrite join_bytes by (apply Z.mod_pos_bound; lia).
  Z.div_mod_to_equations. lia.
Qed.

(** X18: JSR and the RTS of the routine it calls. When the two bytes of
    the stack that JSR writes lie in writable memory, RTS returns to the
    instruction behind the JSR and restores the stack pointer, in native
    mode and, with the stack wrapping inside its page, in emulation mode;
    no other register but IR has changed. *)
Theorem cpu_execute_jsr_rts
    (vt : VectorTable) (table : Z -> option Opcode) (ndebug : bool)
    (s s1 : ClemensMachine) :
  let r := regs (cpu s) in
  let emu := emulation (pins (cpu s)) in
  resbIn (pins (cpu s)) = true ->
  enabled (cpu s) = true ->
  state_type (cpu s) = kClemensCPUStateType_Execute ->
  0 <= S r < 65536 ->
  is_writable (bus_kind (bus s) 0 (page_of (S r))) = true ->
  is_writable (bus_kind (bus s) 0 (page_of (stack_next emu (S r) (-1)))) = true ->
  table (u8 (bus_read (bus s) (u8 (PBR r)) (u16 (PC r)))) = Some CLEM_OPC_JSR ->
  clemens_emulate_cpu vt table ndebug s = Some s1 ->
  table (u8 (bus_read (bus s1) (u8 (PBR (regs (cpu s1))))
               (u16 (PC (regs (cpu s1)))))) = Some CLEM_OPC_RTS ->
  PC (regs (cpu s1))
    = u16 (Z.lor (Z.shiftl (bus_read (bus s) (u8 (PBR r)) (u16 (PC r + 2))) 8)
                 (bus_read (bus s) (u8 (PBR r)) (u16 (PC r + 1)))) /\
  S (regs (cpu s1)) = stack_next emu (stack_next emu (S r) (-1)) (-1) /\
  exists s2,
    clemens_emulate_cpu vt table ndebug s1 = Some s2 /\
    PC (regs (cpu s2)) = u16 (PC r + 3) /\
    S (regs (cpu s2)) = S r /\
    PBR (regs (cpu s2)) = PBR r /\
    A (regs (cpu s2)) = A r /\ X (regs (cpu s2)) = X r /\
    Y (regs (cpu s2)) = Y r /\ D (regs (cpu s2)) = D r /\
    DBR (regs (cpu s2)) = DBR r /\ P (regs (cpu s2)) = P r /\
    emulation (pins (cpu s2)) = emu.
Proof.
  intros r emu Hr He Hs HS W1 W2 Hop E Hop2. subst r emu.
  destruct_machine s. cbn in Hr, He, Hs. subst.
  mcbn_in Hop. mcbn_in HS. mcbn_in W1. mcbn_in W2.
  unfold clemens_emulate_cpu, cpu_execute in E. mcbn_in E.
  rewrite andb_false_r in E. rewrite Hop in E. mcbn_in E.
  apply some_inj in E. subst s1. mcbn_in Hop2. mcbn.
  change (u8 0) with 0 in *.
  fold (stack_next emulation0 S0 (-1)) in *.
  fold (stack_next emulation0 (stack_next emulation0 S0 (-1)) (-1)) in *.
  remember (stack_next emulation0 (stack_next emulation0 S0 (-1)) (-1)) as sp2
    eqn:Esp2 in *.
  remember (bus_write (bus_write bus0 0 (u16 S0) _) 0 _ _) as bus1 eqn:Eb in *.
  remember (u16 (Z.lor (Z.shiftl (bus_read bus0 (u8 PBR0) _) 8) _)) as tgt
    eqn:Et in *.
  split.
  { subst tgt. rewrite !u16_idem, !u16_add_l. do 4 f_equal; f_equal; lia. }
  split; [reflexivity|].
  unfold cpu_execute. mcbn. rewrite andb_false_r. rewrite Hop2. mcbn.
  eexists. split; [reflexivity|]. mcbn. change (u8 0) with 0.
  set (q1 := stack_next emulation0 S0 (-1)) in *.
  pose proof (stack_next_range emulation0 S0 (-1)) as R1. fold q1 in R1.
  pose proof (stack_next_range emulation0 q1 (-1)) as R2. rewrite <- Esp2 in R2.
  pose proof (stack_next_arith emulation0 S0 (-1) HS) as A1. fold q1 in A1.
  pose proof (stack_next_arith emulation0 q1 (-1) R1) as A2. rewrite <- Esp2 in A2.
  assert (F1 : u16 (if emulation0
                    then CLEM_UTIL_set16_lo sp2 (u16 (sp2 + 1))
                    else u16 (sp2 + 1)) = q1).
  { destruct emulation0.
    - rewrite set16_lo_arith by exact R2. unfold u16.
      clear Eb Hop2 Esp2. Z.div_mod_to_equations. lia.
    - unfold u16. clear Eb Hop2 Esp2. Z.div_mod_to_equations. lia. }
  assert (F2 : u16 (if emulation0
                    then CLEM_UTIL_set16_lo sp2
                           (u16 ((if emulation0
                                  then CLEM_UTIL_set16_lo sp2 (u16 (sp2 + 1))
                                  else u16 (sp2 + 1)) + 1))
                    else u16 ((if emulation0
                               then CLEM_UTIL_set16_lo sp2 (u16 (sp2 + 1))
                               else u16 (sp2 + 1)) + 1)) = S0).
  { destruct emulation0.
    - rewrite !set16_lo_arith by exact R2. unfold u16.
      clear Eb Hop2 Esp2. Z.div_mod_to_equations. lia.
    - unfold u16. clear Eb Hop2 Esp2. Z.div_mod_to_equations. lia. }
  assert (F3 : u16 (if emulation0
                    then CLEM_UTIL_set16_lo sp2 (u16 (sp2 + 2))
                    else u16 (sp2 + 2)) = S0).
  { destruct emulation0.
    - rewrite set16_lo_arith by exact R2. unfold u16.
      clear Eb Hop2 Esp2. Z.div_mod_to_equations. lia.
    - unfold u16. clear Eb Hop2 Esp2. Z.div_mod_to_equations. lia. }
  assert (Ne : S0 <> q1).
  { destruct emulation0; clear Eb Hop2 Esp2 F1 F2 F3;
      Z.div_mod_to_equations; lia. }
  rewrite F1, F2, F3.
  split; [|repeat split; reflexivity].
  assert (K1 : is_io (bus_kind bus0 0 (page_of S0)) = false)
    by (apply writable_not_io; exact W1).
  assert (K2 : is_io (bus_kind bus0 0 (page_of q1)) = false)
    by (apply writable_not_io; exact W2).
  rewrite Eb.
  replace (u16 q1) with q1 by (unfold u16; rewrite Z.mod_small; lia).
  replace (u16 S0) with S0 by (unfold u16; rewrite Z.mod_small; lia).
  rewrite !bus_read_write
    by (rewrite ?bus_kind_write by exact K1; first [exact K1 | exact K2]).
  rewrite ?bus_kind_write by exact K1.
  replace (S0 =? q1) with false by (symmetry; apply Z.eqb_neq; exact Ne).
  rewrite W1, W2, !Z.eqb_refl. cbn [andb]. cbv iota.
  rewrite !u16_idem.
  set (ret := u16 (u16 (u16 (u16 (PC0 + 1) + 1) + 1) - 1)).
  assert (Rr : 0 <= ret < 65536) by (apply Z.mod_pos_bound; lia).
  rewrite (join_pushed ret Rr). subst ret.
  clear. unfold u16. Z.div_mod_to_equations. lia.
Qed.

(** Emulation mode with the stack pointer at the bottom of page 1:
    JSR $0900 at 00:0800, RTS at 00:0900. *)
Definition jsr_machine : ClemensMachine :=
  machine_of [(2048, 32); (2049, 0); (2050, 9); (2304, 96)]
             (mkRegs 7 1 2 0 256 2048 0 48 0 0) true kClemensCPUStateType_Execute.

Lemma cpu_execute_jsr_rts_witness :
  PC (regs (cpu (step_of jsr_machine))) = 2304 /\
  S (regs (cpu (step_of jsr_machine))) = 510 /\
  exists s2,
    clemens_emulate_cpu wdc_vectors wdc_opcode_of_byte true (step_of jsr_machine)
      = Some s2 /\
    PC (regs (cpu s2)) = u16 (2048 + 3) /\
    S (regs (cpu s2)) = 256 /\
    PBR (regs (cpu s2)) = 0 /\
    A (regs (cpu s2)) = 7 /\ X (regs (cpu s2)) = 1 /\
    Y (regs (cpu s2)) = 2 /\ D (regs (cpu s2)) = 0 /\
    DBR (regs (cpu s2)) = 0 /\ P (regs (cpu s2)) = 48 /\
    emulation (pins (cpu s2)) = true.
Proof.
  apply (cpu_execute_jsr_rts wdc_vectors wdc_opcode_of_byte true jsr_machine
           (step_of jsr_machine)).
  - reflexivity.
  - reflexivity.
  - reflexivity.
  - cbn. lia.
  - reflexivity.
  - reflexivity.
  - reflexivity.
  - vm_compute. reflexivity.
  - vm_compute. reflexivity.
Defined.

(* --------------------------------------------------------------------- *)
(** ** XCE and XBA *)
(* --------------------------------------------------------------------- *)

Lemma bind_eq {T U : Type} (c : M T) (k : T -> M U) (m m1 : ClemensMachine)
    (a : T) :
  c m = (a, m1) -> bind c k m = k a m1.
Proof. intros E. unfold bind. rewrite E. reflexivity. Qed.

Lemma flag_mx_set (p : Z) :
  flag (u8 (Z.lor (u8 (Z.lor p kClemensCPUStatus_Index))
              kClemensCPUStatus_MemoryAccumulator)) kClemensCPUStatus_Index
  = true.
Proof.
  rewrite flag_Index, testbit_u8, Z.lor_spec, testbit_u8, Z.lor_spec by lia.
  change (Z.testbit kClemensCPUStatus_Index 4) with true.
  rewrite orb_true_r. reflexivity.
Qed.

(** X19: XCE exchanges the carry flag and the emulation pin. When the
    mode does not change, nothing else does. When it changes, M and X are
    set and the high bytes of X and Y dropped, and on the way into
    emulation the stack pointer is moved into page 1; the other flags, A,
    D and the bank registers stay as they are. *)
Theorem cpu_execute_xce
    (vt : VectorTable) (table : Z -> option Opcode) (ndebug : bool)
    (s : ClemensMachine) :
  let r := regs (cpu s) in
  let e := emulation (pins (cpu s)) in
  let c := flag (P r) kClemensCPUStatus_Carry in
  resbIn (pins (cpu s)) = true ->
  enabled (cpu s) = true ->
  state_type (cpu s) = kClemensCPUStateType_Execute ->
  table (u8 (bus_read (bus s) (u8 (PBR r)) (u16 (PC r)))) = Some CLEM_OPC_XCE ->
  exists s',
    clemens_emulate_cpu vt table ndebug s = Some s' /\
    let r' := regs (cpu s') in
    emulation (pins (cpu s')) = c /\
    flag (P r') kClemensCPUStatus_Carry = e /\
    PC r' = u16 (PC r + 1) /\
    A r' = A r /\ D r' = D r /\ DBR r' = DBR r /\ PBR r' = PBR r /\
    bus s' = bus s /\
    (forall n, 0 < n < 8 -> n <> 4 -> n <> 5 ->
       Z.testbit (P r') n = Z.testbit (P r) n) /\
    (if Bool.eqb e c
     then Z.testbit (P r') 4 = Z.testbit (P r) 4 /\
          Z.testbit (P r') 5 = Z.testbit (P r) 5 /\
          X r' = X r /\ Y r' = Y r /\ S r' = S r
     else Z.testbit (P r') 4 = true /\ Z.testbit (P r') 5 = true /\
          X r' = u16 (Z.land (X r) 255) /\ Y r' = u16 (Z.land (Y r) 255) /\
          S r' = if c then u16 (CLEM_UTIL_set16_lo 256 (S r)) else S r).
Proof.
  intros r e c Hr He Hs Hop. subst r e c.
  destruct_machine s. cbn in Hr, He, Hs. subst.
  mcbn_in Hop.
  unfold clemens_emulate_cpu, cpu_execute. mcbn. rewrite andb_false_r.
  rewrite Hop.
  cbv beta iota delta [cpu_execute_op].
  destruct (flag P0 kClemensCPUStatus_Carry) eqn:C, emulation0.
  all: erewrite bind_eq;
    [ | erewrite bind_eq by reflexivity; erewrite bind_eq by reflexivity;
        mcbn; rewrite C; cbn [Bool.eqb negb];
        first
          [ solve [mcbn; reflexivity]
          | erewrite bind_eq;
            [ | erewrite bind_eq by reflexivity; mcbn;
                rewrite flag_mx_set; mcbn; reflexivity ];
            mcbn; reflexivity ] ].
  all: mcbn; (eexists; split; [reflexivity|]); mcbn.
  all: rewrite ?flag_Carry, ?u16_idem.
  all: change kClemensCPUStatus_Carry with (2 ^ 0);
    change kClemensCPUStatus_Index with (2 ^ 4);
    change kClemensCPUStatus_MemoryAccumulator with (2 ^ 5).
  all: repeat split; try reflexivity; intros;
    repeat first
      [ rewrite testbit_u8 by lia
      | rewrite Z.lor_spec
      | rewrite Z.land_spec
      | rewrite Z.lnot_spec by lia
      | rewrite Z.pow2_bits_eqb by lia ];
    repeat match goal with
           | |- context [?a =? ?b] => destruct (Z.eqb_spec a b); try lia
           end;
    cbn [negb andb orb];
    rewrite ?orb_false_r, ?orb_true_r, ?andb_true_r, ?andb_false_r;
    try reflexivity.
Qed.

Lemma cpu_execute_xce_witness :
  exists s',
    clemens_emulate_cpu wdc_vectors wdc_opcode_of_byte true xce_machine = Some s' /\
    let r' := regs (cpu s') in
    emulation (pins (cpu s')) = true /\
    flag (P r') kClemensCPUStatus_Carry = false /\
    PC r' = u16 (2048 + 1) /\
    A r' = 0 /\ D r' = 0 /\ DBR r' = 0 /\ PBR r' = 0 /\
    bus s' = bus xce_machine /\
    (forall n, 0 < n < 8 -> n <> 4 -> n <> 5 ->
       Z.testbit (P r') n = Z.testbit 1 n) /\
    Z.testbit (P r') 4 = true /\ Z.testbit (P r') 5 = true /\
    X r' = u16 (Z.land 4660 255) /\ Y r' = u16 (Z.land 22136 255) /\
    S r' = u16 (CLEM_UTIL_set16_lo 256 12272).
Proof.
  apply (cpu_execute_xce wdc_vectors wdc_opcode_of_byte true xce_machine);
    reflexivity.
Defined.


(* --------------------------------------------------------------------- *)
(** ** A whole block move *)
(* --------------------------------------------------------------------- *)

(** One execution of MVN or MVP with 16-bit index registers, with what it
    leaves alone. *)
Lemma block_move_one
    (vt : VectorTable) (table : Z -> option Opcode) (ndebug : bool)
    (op : Opcode) (s : ClemensMachine) :
  op = CLEM_OPC_MVN \/ op = CLEM_OPC_MVP ->
  resbIn (pins (cpu s)) = true ->
  enabled (cpu s) = true ->
  state_type (cpu s) = kClemensCPUStateType_Execute ->
  flag (P (regs (cpu s))) kClemensCPUStatus_Index = false ->
  table (u8 (bus_read (bus s) (u8 (PBR (regs (cpu s)))) (u16 (PC (regs (cpu s))))))
    = Some op ->
  let r := regs (cpu s) in
  let pbr := u8 (PBR r) in
  let dest := bus_read (bus s) pbr (u16 (PC r + 1)) in
  let src := bus_read (bus s) pbr (u16 (PC r + 2)) in
  exists s',
    clemens_emulate_cpu vt table ndebug s = Some s' /\
    bus s' = bus_write (bus s) dest (u16 (Y r)) (bus_read (bus s) src (u16 (X r))) /\
    X (regs (cpu s')) = u16 (X r + block_move_step op) /\
    Y (regs (cpu s')) = u16 (Y r + block_move_step op) /\
    A (regs (cpu s')) = u16 (A r - 1) /\
    DBR (regs (cpu s')) = dest /\
    PC (regs (cpu s'))
      = (if u16 (A r - 1) =? 65535 then u16 (PC r + 3) else u16 (PC r)) /\
    P (regs (cpu s')) = P r /\
    PBR (regs (cpu s')) = PBR r /\
    resbIn (pins (cpu s')) = true /\
    enabled (cpu s') = true /\
    state_type (cpu s') = kClemensCPUStateType_Execute.
Proof.
  intros Hop Hr He Hs Hx Ht. destruct_machine s. cbn in Hr, He, Hs, Hx. subst.
  mcbn_in Ht. mcbn.
  unfold clemens_emulate_cpu, cpu_execute. mcbn. rewrite andb_false_r.
  rewrite Ht. unfold block_move_step.
  destruct Hop; subst op; rewrite Hx; mcbn;
    (eexists; split; [reflexivity|]); mcbn;
    rewrite ?u16_idem, ?u8_idem, ?u8_bus_read, ?u16_add_l;
    replace (PC0 + 1 + 1) with (PC0 + 2) by lia;
    rewrite ?u16_add_l;
    replace (PC0 + 2 + 1) with (PC0 + 3) by lia;
    (repeat (split; [reflexivity|]));
    (split; [destruct (u16 (A0 - 1) =? 65535); cbn [negb]; rewrite ?u16_idem;
             reflexivity|]);
    repeat split; reflexivity.
Qed.

Lemma emulate_n_snoc (vt : VectorTable) (table : Z -> option Opcode)
    (ndebug : bool) (k : nat) :
  forall s sk s',
    emulate_n vt table ndebug k s = Some sk ->
    clemens_emulate_cpu vt table ndebug sk = Some s' ->
    emulate_n vt table ndebug (Datatypes.S k) s = Some s'.
Proof.
  induction k as [|k IH]; intros s sk s' H E.
  - cbn [emulate_n] in *. apply some_inj in H. subst sk. rewrite E. reflexivity.
  - remember (Datatypes.S k) as k1. cbn [emulate_n]. subst k1.
    cbn [emulate_n] in H.
    destruct (clemens_emulate_cpu vt table ndebug s) as [s1|]; [|discriminate].
    apply (IH s1 sk s' H E).
Qed.

Section BlockMove.

Variable vt : VectorTable.
Variable table : Z -> option Opcode.
Variable ndebug : bool.
Variable op : Opcode.
Variable s : ClemensMachine.

Let r := regs (cpu s).
Let pbr := u8 (PBR r).
Let dest := bus_read (bus s) pbr (u16 (PC r + 1)).
Let src := bus_read (bus s) pbr (u16 (PC r + 2)).
Let delta := block_move_step op.

Hypothesis Hop : op = CLEM_OPC_MVN \/ op = CLEM_OPC_MVP.
Hypothesis Hr : resbIn (pins (cpu s)) = true.
Hypothesis He : enabled (cpu s) = true.
Hypothesis Hs : state_type (cpu s) = kClemensCPUStateType_Execute.
Hypothesis Hx : flag (P r) kClemensCPUStatus_Index = false.
Hypothesis Ht : table (u8 (bus_read (bus s) pbr (u16 (PC r)))) = Some op.
Hypothesis HA : 0 <= A r < 65536.
Hypothesis Hsrc : dest <> src.
Hypothesis Hpbr : dest <> pbr.
Hypothesis Hw :
  forall i, 0 <= i <= A r ->
    is_writable (bus_kind (bus s) dest (page_of (u16 (Y r + i * delta)))) = true.

(** The machine after [k] of the [A + 1] executions. *)
Definition block_move_inv (k : Z) (sk : ClemensMachine) : Prop :=
  resbIn (pins (cpu sk)) = true /\
  enabled (cpu sk) = true /\
  state_type (cpu sk) = kClemensCPUStateType_Execute /\
  P (regs (cpu sk)) = P r /\
  PBR (regs (cpu sk)) = PBR r /\
  A (regs (cpu sk)) = u16 (A r - k) /\
  u16 (X (regs (cpu sk))) = u16 (X r + k * delta) /\
  u16 (Y (regs (cpu sk))) = u16 (Y r + k * delta) /\
  u16 (PC (regs (cpu sk)))
    = (if k =? A r + 1 then u16 (PC r + 3) else u16 (PC r)) /\
  (0 < k -> DBR (regs (cpu sk)) = dest) /\
  bus_kind (bus sk) = bus_kind (bus s) /\
  (forall bank adr, bank <> dest ->
     bus_read (bus sk) bank adr = bus_read (bus s) bank adr) /\
  (forall i, 0 <= i < k ->
     bus_read (bus sk) dest (u16 (Y r + i * delta))
     = bus_read (bus s) src (u16 (X r + i * delta))).

Lemma delta_unit : delta = 1 \/ delta = -1.
Proof.
  unfold delta, block_move_step. destruct Hop as [->| ->]; auto.
Qed.

Lemma block_move_inv_0 : block_move_inv 0 s.
Proof.
  unfold block_move_inv. fold r.
  replace (0 =? A r + 1) with false by lia.
  rewrite Z.sub_0_r, !Z.mul_0_l, !Z.add_0_r.
  repeat split; try assumption; try reflexivity; try lia.
  unfold u16. symmetry. apply Z.mod_small. exact HA.
Qed.

Lemma block_move_next (k : Z) (sk : ClemensMachine) :
  0 <= k <= A r ->
  block_move_inv k sk ->
  exists s',
    clemens_emulate_cpu vt table ndebug sk = Some s' /\
    block_move_inv (k + 1) s'.
Proof.
  intros Hk (I1 & I2 & I3 & I4 & I5 & I6 & I7 & I8 & I9 & I10 & I11 & I12 & I13).
  replace (k =? A r + 1) with false in I9 by lia.
  assert (Fpc : forall n, u16 (PC (regs (cpu sk)) + n) = u16 (PC r + n)).
  { intros n. rewrite <- u16_add_l, I9, u16_add_l. reflexivity. }
  assert (Fop : table (u8 (bus_read (bus sk) (u8 (PBR (regs (cpu sk))))
                             (u16 (PC (regs (cpu sk)))))) = Some op).
  { rewrite I5, I9. fold pbr. rewrite I12 by congruence.
    exact Ht. }
  destruct (block_move_one vt table ndebug op sk Hop I1 I2 I3
              ltac:(rewrite I4; exact Hx) Fop)
    as (s' & E & B & Sx & Sy & Sa & Sd & Spc & Sp & Sb & Sr & Se & Ss).
  cbv zeta in *.
  rewrite I5 in B, Sd. fold pbr in B, Sd.
  rewrite (Fpc 1) in B, Sd. rewrite (Fpc 2) in B. rewrite (Fpc 3) in Spc.
  rewrite !(I12 pbr) in B by congruence.
  rewrite (I12 pbr) in Sd by congruence.
  fold dest in B, Sd. fold src in B.
  rewrite (I12 src) in B by congruence.
  assert (K : is_io (bus_kind (bus sk) dest
                       (page_of (u16 (Y (regs (cpu sk)))))) = false).
  { apply writable_not_io. rewrite I11, I8. apply Hw, Hk. }
  exists s'. split; [exact E|].
  pose proof delta_unit as Du. fold delta in Sx, Sy.
  unfold block_move_inv.
  repeat split; try assumption.
  - rewrite Sp. exact I4.
  - rewrite Sb. exact I5.
  - rewrite Sa, I6.
    replace (u16 (A r - k) - 1) with (u16 (A r - k) + -1) by lia.
    rewrite u16_add_l. f_equal. lia.
  - rewrite Sx, u16_idem, <- u16_add_l, I7, u16_add_l. f_equal. lia.
  - rewrite Sy, u16_idem, <- u16_add_l, I8, u16_add_l. f_equal. lia.
  - rewrite Spc, I6.
    replace (u16 (A r - k) - 1) with (u16 (A r - k) + -1) by lia.
    rewrite u16_add_l.
    destruct (Z.eqb_spec k (A r)) as [->|Hne].
    + replace (A r - A r + -1) with (-1) by lia.
      change (u16 (-1) =? 65535) with true.
      replace (A r + 1 =? A r + 1) with true by lia.
      apply u16_idem.
    + replace (u16 (A r - k + -1) =? 65535) with false.
      * replace (k + 1 =? A r + 1) with false by lia.
        rewrite u16_idem. exact I9.
      * symmetry. apply Z.eqb_neq. unfold u16. rewrite Z.mod_small; lia.
  - intros _. exact Sd.
  - rewrite B, bus_kind_write by exact K. exact I11.
  - intros bank adr Hb. rewrite B, bus_read_write by exact K.
    replace (bank =? dest) with false
      by (symmetry; apply Z.eqb_neq; exact Hb).
    rewrite andb_false_r. cbn [andb]. apply I12, Hb.
  - intros i Hi. rewrite B, bus_read_write, I11 by exact K.
    destruct (Z.eq_dec i k) as [->|Hne].
    + rewrite <- I8, Z.eqb_refl, Z.eqb_refl.
      rewrite I8, (Hw k Hk). cbn [andb]. rewrite u8_bus_read.
      rewrite I7. reflexivity.
    + replace (u16 (Y r + i * delta) =? u16 (Y (regs (cpu sk)))) with false.
      * rewrite andb_false_r. apply I13. lia.
      * symmetry. apply Z.eqb_neq. rewrite I8. unfold u16.
        destruct Du as [-> | ->]; Z.div_mod_to_equations; lia.
Qed.

Lemma block_move_iter (k : nat) :
  Z.of_nat k <= A r + 1 ->
  exists sk,
    emulate_n vt table ndebug k s = Some sk /\ block_move_inv (Z.of_nat k) sk.
Proof.
  induction k as [|k IH]; intros Hk.
  - exists s. split; [reflexivity | exact block_move_inv_0].
  - destruct (IH ltac:(lia)) as (sk & E & I).
    destruct (block_move_next (Z.of_nat k) sk ltac:(lia) I) as (s' & E' & I').
    exists s'. split.
    + apply (emulate_n_snoc vt table ndebug k s sk s' E E').
    + replace (Z.of_nat (Datatypes.S k)) with (Z.of_nat k + 1) by lia. exact I'.
Qed.

End BlockMove.

(** X21: a whole block move with 16-bit index registers. MVN or MVP with
    the count [A] is executed [A + 1] times in a row; when the destination
    bank is neither the source bank nor the program bank and the
    destination bytes are writable, the [A + 1] bytes from source bank:X on
    (upwards for MVN, downwards for MVP) are then found from destination
    bank:Y on, no other bank has changed, A is 0xFFFF, X and Y have moved
    by [A + 1], DBR is the destination bank and PC stands behind the
    instruction. *)
Theorem cpu_execute_block_move_whole
    (vt : VectorTable) (table : Z -> option Opcode) (ndebug : bool)
    (op : Opcode) (s : ClemensMachine) :
  let r := regs (cpu s) in
  let pbr := u8 (PBR r) in
  let dest := bus_read (bus s) pbr (u16 (PC r + 1)) in
  let src := bus_read (bus s) pbr (u16 (PC r + 2)) in
  let delta := block_move_step op in
  op = CLEM_OPC_MVN \/ op = CLEM_OPC_MVP ->
  resbIn (pins (cpu s)) = true ->
  enabled (cpu s) = true ->
  state_type (cpu s) = kClemensCPUStateType_Execute ->
  flag (P r) kClemensCPUStatus_Index = false ->
  table (u8 (bus_read (bus s) pbr (u16 (PC r)))) = Some op ->
  0 <= A r < 65536 ->
  dest <> src ->
  dest <> pbr ->
  (forall i, 0 <= i <= A r ->
     is_writable (bus_kind (bus s) dest (page_of (u16 (Y r + i * delta))))
     = true) ->
  exists s',
    emulate_n vt table ndebug (Z.to_nat (A r + 1)) s = Some s' /\
    (forall i, 0 <= i <= A r ->
       bus_read (bus s') dest (u16 (Y r + i * delta))
       = bus_read (bus s) src (u16 (X r + i * delta))) /\
    (forall bank adr, bank <> dest ->
       bus_read (bus s') bank adr = bus_read (bus s) bank adr) /\
    A (regs (cpu s')) = 65535 /\
    u16 (X (regs (cpu s'))) = u16 (X r + (A r + 1) * delta) /\
    u16 (Y (regs (cpu s'))) = u16 (Y r + (A r + 1) * delta) /\
    DBR (regs (cpu s')) = dest /\
    u16 (PC (regs (cpu s'))) = u16 (PC r + 3).
Proof.
  intros r pbr dest src delta Hop Hr He Hs Hx Ht HA Hsrc Hpbr Hw.
  subst r pbr dest src delta.
  destruct (block_move_iter vt table ndebug op s Hop Hr He Hs Hx Ht HA Hsrc
              Hpbr Hw (Z.to_nat (A (regs (cpu s)) + 1)) ltac:(lia))
    as (s' & E & I).
  exists s'. split; [exact E|].
  rewrite Z2Nat.id in I by lia.
  destruct I as (_ & _ & _ & _ & _ & I6 & I7 & I8 & I9 & I10 & _ & I12 & I13).
  rewrite Z.eqb_refl in I9.
  repeat split; try assumption.
  - intros i Hi. apply I13. lia.
  - rewrite I6.
    replace (A (regs (cpu s)) - (A (regs (cpu s)) + 1)) with (-1) by lia.
    reflexivity.
  - apply I10. lia.
Qed.

Lemma cpu_execute_block_move_whole_witness :
  let s := mvn_machine in
  let r := regs (cpu s) in
  let pbr := u8 (PBR r) in
  let dest := bus_read (bus s) pbr (u16 (PC r + 1)) in
  let src := bus_read (bus s) pbr (u16 (PC r + 2)) in
  let delta := block_move_step CLEM_OPC_MVN in
  exists s',
    emulate_n wdc_vectors wdc_opcode_of_byte true (Z.to_nat (A r + 1)) s
      = Some s' /\
    (forall i, 0 <= i <= A r ->
       bus_read (bus s') dest (u16 (Y r + i * delta))
       = bus_read (bus s) src (u16 (X r + i * delta))) /\
    (forall bank adr, bank <> dest ->
       bus_read (bus s') bank adr = bus_read (bus s) bank adr) /\
    A (regs (cpu s')) = 65535 /\
    u16 (X (regs (cpu s'))) = u16 (X r + (A r + 1) * delta) /\
    u16 (Y (regs (cpu s'))) = u16 (Y r + (A r + 1) * delta) /\
    DBR (regs (cpu s')) = dest /\
    u16 (PC (regs (cpu s'))) = u16 (PC r + 3).
Proof.
  apply (cpu_execute_block_move_whole wdc_vectors wdc_opcode_of_byte true
           CLEM_OPC_MVN mvn_machine).
  - left. reflexivity.
  - reflexivity.
  - reflexivity.
  - reflexivity.
  - reflexivity.
  - reflexivity.
  - cbn. lia.
  - vm_compute. discriminate.
  - vm_compute. discriminate.
  - intros i Hi. reflexivity.
Defined.

(* ===================================================================== *)
(** ** XBA *)
(* ===================================================================== *)

(** The two bytes of a 16-bit value exchanged. *)
Definition swap_bytes (a : Z) : Z := 256 * (a mod 256) + a / 256.

Lemma swap_bytes_range (a : Z) :
  0 <= a < 65536 -> 0 <= swap_bytes a < 65536.
Proof. intros H. unfold swap_bytes. Z.div_mod_to_equations. lia. Qed.

Lemma swap_bytes_twice (a : Z) :
  0 <= a < 65536 -> swap_bytes (swap_bytes a) = a.
Proof. intros H. unfold swap_bytes. Z.div_mod_to_equations. lia. Qed.

Lemma xba_value (a : Z) :
  0 <= a < 65536 ->
  u16 (Z.lor (Z.shiftl (Z.land a 255) 8) (u16 (Z.shiftr (Z.land a 65280) 8)))
  = swap_bytes a.
Proof.
  intros H. rewrite land_255, land_65280 by exact H.
  rewrite Z.shiftr_div_pow2 by lia. change (2 ^ 8) with 256.
  replace (256 * (a / 256) / 256) with (a / 256)
    by (Z.div_mod_to_equations; lia).
  assert (Hq : 0 <= a / 256 < 256) by (Z.div_mod_to_equations; lia).
  unfold u16 at 2. rewrite (Z.mod_small (a / 256)) by lia.
  rewrite join_bytes by exact Hq. unfold swap_bytes, u16.
  apply Z.mod_small. Z.div_mod_to_equations. lia.
Qed.

Lemma swap_bytes_low (a : Z) :
  0 <= a < 65536 -> u8 (u8 (Z.land (swap_bytes a) 255)) = a / 256.
Proof.
  intros H. rewrite land_255 by (apply swap_bytes_range; exact H).
  unfold swap_bytes, u8. Z.div_mod_to_equations. lia.
Qed.

Lemma flag_Negative p : flag p kClemensCPUStatus_Negative = Z.testbit p 7.
Proof. apply (flag_pow2 p 7). lia. Qed.

Lemma flag_Zero p : flag p kClemensCPUStatus_Zero = Z.testbit p 1.
Proof. apply (flag_pow2 p 1). lia. Qed.

Lemma testbit7_byte (b : Z) : 0 <= b < 256 -> Z.testbit b 7 = (128 <=? b).
Proof.
  intros H. rewrite Z.testbit_odd, Z.shiftr_div_pow2 by lia.
  change (2 ^ 7) with 128.
  destruct (Z.leb_spec 128 b).
  - replace (b / 128) with 1 by (Z.div_mod_to_equations; lia). reflexivity.
  - replace (b / 128) with 0 by (Z.div_mod_to_equations; lia). reflexivity.
Qed.

(** One XBA from a running machine. *)
Lemma xba_step
    (vt : VectorTable) (table : Z -> option Opcode) (ndebug : bool)
    (s : ClemensMachine) :
  let r := regs (cpu s) in
  resbIn (pins (cpu s)) = true ->
  enabled (cpu s) = true ->
  state_type (cpu s) = kClemensCPUStateType_Execute ->
  table (u8 (bus_read (bus s) (u8 (PBR r)) (u16 (PC r)))) = Some CLEM_OPC_XBA ->
  0 <= A r < 65536 ->
  exists s',
    clemens_emulate_cpu vt table ndebug s = Some s' /\
    let r' := regs (cpu s') in
    A r' = swap_bytes (A r) /\
    flag (P r') kClemensCPUStatus_Zero = (A r / 256 =? 0) /\
    flag (P r') kClemensCPUStatus_Negative = (128 <=? A r / 256) /\
    (forall n, 0 <= n < 7 -> n <> 1 ->
       Z.testbit (P r') n = Z.testbit (P r) n) /\
    PC r' = u16 (PC r + 1) /\
    X r' = X r /\ Y r' = Y r /\ S r' = S r /\ D r' = D r /\
    DBR r' = DBR r /\ PBR r' = PBR r /\
    bus s' = bus s /\
    pins (cpu s') = pins (cpu s) /\
    enabled (cpu s') = true /\
    state_type (cpu s') = kClemensCPUStateType_Execute.
Proof.
  intros r Hr He Hs Hop HA. subst r.
  destruct_machine s. cbn in Hr, He, Hs, HA. subst.
  mcbn_in Hop.
  unfold clemens_emulate_cpu, cpu_execute. mcbn. rewrite andb_false_r.
  rewrite Hop. mcbn. eexists. split; [reflexivity|]. mcbn.
  rewrite xba_value, swap_bytes_low, ?u16_idem by exact HA.
  assert (Hq : 0 <= A0 / 256 < 256) by (Z.div_mod_to_equations; lia).
  assert (L : u8 (Z.land (swap_bytes A0) 255) = A0 / 256).
  { rewrite <- (swap_bytes_low A0 HA). unfold u8.
    symmetry. apply Z.mod_mod. lia. }
  rewrite !flag_Zero, !flag_Negative, L, testbit7_byte by exact Hq.
  repeat split; try reflexivity.
  - rewrite testbit_u8, testbit_p_assign by lia.
    destruct (128 <=? A0 / 256), (A0 / 256 =? 0); reflexivity.
  - rewrite testbit_u8, testbit_p_assign by lia.
    destruct (128 <=? A0 / 256), (A0 / 256 =? 0); reflexivity.
  - intros n Hn Hn1. rewrite testbit_u8, testbit_p_assign by lia.
    assert (C : n = 0 \/ n = 2 \/ n = 3 \/ n = 4 \/ n = 5 \/ n = 6) by lia.
    destruct C as [C|[C|[C|[C|[C|C]]]]]; subst n; reflexivity.
Qed.

(** XBA at 00:0800 and at 00:0801, A = $1234, native mode. *)
Definition xba_machine : ClemensMachine :=
  machine_of [(2048, 235); (2049, 235)]
             (mkRegs 4660 1 2 0 511 2048 0 0 0 0) false
             kClemensCPUStateType_Execute.

(** X22: XBA exchanges the two bytes of the accumulator in either mode and
    whatever the M flag says; Z and N are taken from the new low byte, the
    old high byte; the other flags and registers stay, PC moves on by one;
    a second XBA behind the first gives the accumulator back. *)
Theorem cpu_execute_xba
    (vt : VectorTable) (table : Z -> option Opcode) (ndebug : bool)
    (s : ClemensMachine) :
  let r := regs (cpu s) in
  resbIn (pins (cpu s)) = true ->
  enabled (cpu s) = true ->
  state_type (cpu s) = kClemensCPUStateType_Execute ->
  table (u8 (bus_read (bus s) (u8 (PBR r)) (u16 (PC r)))) = Some CLEM_OPC_XBA ->
  0 <= A r < 65536 ->
  exists s1,
    clemens_emulate_cpu vt table ndebug s = Some s1 /\
    let r1 := regs (cpu s1) in
    A r1 = swap_bytes (A r) /\
    flag (P r1) kClemensCPUStatus_Zero = (A r / 256 =? 0) /\
    flag (P r1) kClemensCPUStatus_Negative = (128 <=? A r / 256) /\
    (forall n, 0 <= n < 7 -> n <> 1 ->
       Z.testbit (P r1) n = Z.testbit (P r) n) /\
    PC r1 = u16 (PC r + 1) /\
    X r1 = X r /\ Y r1 = Y r /\ S r1 = S r /\ D r1 = D r /\
    DBR r1 = DBR r /\ PBR r1 = PBR r /\
    emulation (pins (cpu s1)) = emulation (pins (cpu s)) /\
    bus s1 = bus s /\
    (table (u8 (bus_read (bus s) (u8 (PBR r)) (u16 (PC r + 1))))
       = Some CLEM_OPC_XBA ->
     exists s2,
       clemens_emulate_cpu vt table ndebug s1 = Some s2 /\
       A (regs (cpu s2)) = A r /\
       flag (P (regs (cpu s2))) kClemensCPUStatus_Zero = (A r mod 256 =? 0) /\
       flag (P (regs (cpu s2))) kClemensCPUStatus_Negative
         = (128 <=? A r mod 256) /\
       PC (regs (cpu s2)) = u16 (PC r + 2)).
Proof.
  intros r Hr He Hs Hop HA. subst r.
  destruct (xba_step vt table ndebug s Hr He Hs Hop HA)
    as (s1 & E1 & Ha & Hz & Hn & Hp & Hpc & Hx & Hy & Hsp & Hd & Hdb & Hpb
        & Hb & Hpin & He1 & Hs1).
  cbv zeta in *.
  exists s1. repeat split; try assumption.
  - rewrite Hpin. reflexivity.
  - intros Hop2.
    assert (HA1 : 0 <= A (regs (cpu s1)) < 65536)
      by (rewrite Ha; apply swap_bytes_range; exact HA).
    assert (Hr1 : resbIn (pins (cpu s1)) = true) by (rewrite Hpin; exact Hr).
    assert (Hop1 : table (u8 (bus_read (bus s1) (u8 (PBR (regs (cpu s1))))
                               (u16 (PC (regs (cpu s1)))))) = Some CLEM_OPC_XBA)
      by (rewrite Hb, Hpb, Hpc, u16_idem; exact Hop2).
    destruct (xba_step vt table ndebug s1 Hr1 He1 Hs1 Hop1 HA1)
      as (s2 & E2 & Ha2 & Hz2 & Hn2 & _ & Hpc2 & _).
    cbv zeta in *.
    exists s2. split; [exact E2|].
    rewrite Ha2, Hz2, Hn2, Hpc2, Ha, Hpc.
    rewrite swap_bytes_twice by exact HA.
    replace (swap_bytes (A (regs (cpu s))) / 256)
      with (A (regs (cpu s)) mod 256)
      by (unfold swap_bytes; clear - HA; Z.div_mod_to_equations; lia).
    repeat split.
    clear. unfold u16. Z.div_mod_to_equations. lia.
Qed.

Lemma cpu_execute_xba_witness :
  exists s1,
    clemens_emulate_cpu wdc_vectors wdc_opcode_of_byte true xba_machine = Some s1 /\
    let r1 := regs (cpu s1) in
    A r1 = swap_bytes 4660 /\
    flag (P r1) kClemensCPUStatus_Zero = false /\
    flag (P r1) kClemensCPUStatus_Negative = false /\
    (forall n, 0 <= n < 7 -> n <> 1 -> Z.testbit (P r1) n = Z.testbit 0 n) /\
    PC r1 = u16 (2048 + 1) /\
    X r1 = 1 /\ Y r1 = 2 /\ S r1 = 511 /\ D r1 = 0 /\
    DBR r1 = 0 /\ PBR r1 = 0 /\
    emulation (pins (cpu s1)) = false /\
    bus s1 = bus xba_machine /\
    (wdc_opcode_of_byte (u8 (bus_read (bus xba_machine) (u8 0) (u16 (2048 + 1))))
       = Some CLEM_OPC_XBA ->
     exists s2,
       clemens_emulate_cpu wdc_vectors wdc_opcode_of_byte true s1 = Some s2 /\
       A (regs (cpu s2)) = 4660 /\
       flag (P (regs (cpu s2))) kClemensCPUStatus_Zero = false /\
       flag (P (regs (cpu s2))) kClemensCPUStatus_Negative = false /\
       PC (regs (cpu s2)) = u16 (2048 + 2)).
Proof.
  apply (cpu_execute_xba wdc_vectors wdc_opcode_of_byte true xba_machine).
  - reflexivity.
  - reflexivity.
  - reflexivity.
  - reflexivity.
  - cbn. lia.
Defined.

(* ===================================================================== *)
(** ** The loader's failures *)
(* ===================================================================== *)








(* ===================================================================== *)
(** ** The I/O gate *)
(* ===================================================================== *)

(** A collaborator with one soft switch, the byte last written to it: an
    odd byte maps ROM over page 0xD0 of bank 0 and closes the speed gate. *)
Definition switch_mmio : Mmio :=
  @mkMmio Z 0
    (fun st _ _ => st)
    (fun _ _ _ data => data)
    (fun st k bank page =>
       if Z.odd st && (bank =? 0) && (page =? 208) then ROM else k bank page)
    (fun _ l => l)
    (fun st => Z.odd st).

(** Bank 0 with the I/O gate on page 0xC0 and fast RAM elsewhere. *)
Definition switch_machine : ClemensMachine :=
  mkMachine (mkCpu (mkPins true true true true) (mkRegs 0 0 0 0 511 2048 0 48 0 0)
               kClemensCPUStateType_Execute 0 true)
            (mkTspec 1 1 3 0) (mkMemory [] [] [] [])
            (mkBus (fun _ _ => 0)
                   (fun bank page =>
                      if (bank =? 0) && (page =? 192) then IOGate else FastRAM)
                   switch_mmio)
            0 0.

(** A write through the gate goes to the collaborator and not to the
    memory; it is charged at the slow step, and behind it the bank map and
    the clock step are those of the new soft-switch state. A write to RAM
    leaves both alone. *)
Example clem_write_io_gate :
  let m := exec (clem_write 1 49152 0 CLEM_MEM_FLAG_DATA) switch_machine in
  let n := exec (clem_write 1 53248 0 CLEM_MEM_FLAG_DATA) switch_machine in
  (bus_read (bus m) 0 49152, bus_mem (bus m) 0 49152,
   bus_kind (bus m) 0 208, clocks_step (tspec m), clocks_spent (tspec m))
  = (1, 0, ROM, 3, 3) /\
  (bus_read (bus n) 0 53248, bus_kind (bus n) 0 208, clocks_step (tspec n),
   clocks_spent (tspec n))
  = (1, FastRAM, 1, 1).
Proof. split; vm_compute; reflexivity. Qed.

(** STA $C000 at 00:0800 with A = 1, in emulation mode: the step itself
    remaps page 0xD0 and changes the clock step. *)
Definition sta_io_machine : ClemensMachine :=
  mkMachine (mkCpu (mkPins true true true true) (mkRegs 1 0 0 0 511 2048 0 48 0 0)
               kClemensCPUStateType_Execute 0 true)
            (mkTspec 1 1 3 0) (mkMemory [] [] [] [])
            (mkBus (fun bank a =>
                      if bank =? 0
                      then assoc_byte [(2048, 141); (2049, 0); (2050, 192)] a
                      else 0)
                   (fun bank page =>
                      if (bank =? 0) && (page =? 192) then IOGate else FastRAM)
                   switch_mmio)
            0 0.

Example step_through_io_gate :
  option_map
    (fun m => (PC (regs (cpu m)), bus_kind (bus m) 0 208, clocks_step (tspec m),
               bus_read (bus m) 0 49152, cycles_spent (cpu m)))
    (clemens_emulate_cpu wdc_vectors wdc_opcode_of_byte true sta_io_machine)
  = Some (2051, ROM, 3, 1, 4).
Proof. vm_compute. reflexivity. Qed.
